(** * Sales dashboard: column mapping, cleaning and analysis

  A shallow embedding of [app.py] ([map_column_names], [process_data]),
  [scripts/data_cleaner.py] ([DataCleaner]),
  [scripts/data_analyzer.py] ([DataAnalyzer]),
  [scripts/data_loader.py] ([validate_data]), [main.py] ([clean_data],
  [analyze_data]) and [convert_kaggle_data.py]
  ([convert_superstore_dataset]). Reading files, plotting and the pages
  of the application are left out.

  - Python strings are [string]s (column names are taken to be ASCII) and
    the [column_mapping] dictionary is a [gmap string string].
  - A data frame is the list of its columns, each a name and a typed
    series; [float64] values are primitive floats, [int64] values are
    integers that wrap around at 64 bits.
  - Data frames are objects in a store: [df.copy()] allocates, an
    assignment [df[col] = s] and an [inplace=True] call overwrite the
    object, and a method either returns or raises.
  - The pandas calls are modelled as pandas 2 runs them without
    copy-on-write: [df[col].fillna(v, inplace=True)] updates [df],
    [pct_change] fills forward first, [groupby] sorts the keys and leaves
    out the rows whose key is missing, and an ordering keeps rows with
    equal values in their order.
  - How pandas reads dates and numbers out of texts and prints floats and
    timestamps is a parameter ([Conversions]), and so is the way the
    libraries round when they add up floats: the sum, mean and standard
    deviation of a column and the sum and mean of a group. The instance
    [simple.conversions] adds as numpy and pandas 2 do without bottleneck
    (module [np]). Logging is left out.
  - The missing values of the columns of texts are of one kind: NaN, as
    [read_csv] leaves them, or Python's [None]. The two differ in the
    text [astype(str)] makes of them, which is the parameter
    [str_of_missing]; a table that holds both is outside the model.
  - A column is looked up by its name, and the first column of that name
    is found: tables with two columns of one name are outside the
    model, and the statements that depend on it ask for distinct names. *)

From Stdlib Require Import ZArith String Ascii Floats Uint63 DecimalString Permutation Sorted.
From stdpp Require Import base option list strings gmap sorting.

Open Scope string_scope.

(** ** Python string methods used by the mapper *)

Module Str.

Definition is_upper (c : ascii) : bool :=
  let n := nat_of_ascii c in (65 <=? n)%nat && (n <=? 90)%nat.

Definition lower_ascii (c : ascii) : ascii :=
  if is_upper c then ascii_of_nat (nat_of_ascii c + 32) else c.

(** [str.lower()] *)
Fixpoint lower (s : string) : string :=
  match s with
  | EmptyString => EmptyString
  | String c r => String (lower_ascii c) (lower r)
  end.

(** The ASCII characters for which [str.isspace()] holds:
    TAB, LF, VT, FF, CR, FS, GS, RS, US and the space. *)
Definition is_space (c : ascii) : bool :=
  let n := nat_of_ascii c in
  ((9 <=? n)%nat && (n <=? 13)%nat) || ((28 <=? n)%nat && (n <=? 32)%nat).

Fixpoint lstrip (s : string) : string :=
  match s with
  | EmptyString => EmptyString
  | String c r => if is_space c then lstrip r else s
  end.

Definition rstrip (s : string) : string := String.rev (lstrip (String.rev s)).

(** [str.strip()] *)
Definition strip (s : string) : string := rstrip (lstrip s).

(** [needle in hay] *)
Fixpoint contains (needle hay : string) : bool :=
  String.prefix needle hay
  || match hay with
     | EmptyString => false
     | String _ r => contains needle r
     end.

End Str.

(** ** Numbers: [float64] and [int64]

    A [float64] is a primitive binary64 float, so that [+], [-], [*] and
    [/] round, overflow to infinity and produce NaN as the hardware does.
    An [int64] is a [Z] whose additions wrap around at 64 bits. *)

Module F64.

Definition nan : float := PrimFloat.nan.
Definition is_nan (x : float) : bool := PrimFloat.is_nan x.

(** int64 to float64, rounded to nearest even. *)
Definition of_int64 (z : Z) : float :=
  if (z =? -9223372036854775808)%Z then (-9223372036854775808)%float
  else if (z <? 0)%Z then (- PrimFloat.of_uint63 (Uint63.of_Z (- z)))%float
  else PrimFloat.of_uint63 (Uint63.of_Z z).

Definition of_nat (n : nat) : float := of_int64 (Z.of_nat n).

(** The values that are not NaN ([skipna=True]). *)
Definition dropna (xs : list float) : list float :=
  List.filter (λ x, negb (is_nan x)) xs.

End F64.

Module I64.

Definition wrap (z : Z) : Z := ((z + 2 ^ 63) mod 2 ^ 64 - 2 ^ 63)%Z.
Definition add (a b : Z) : Z := wrap (a + b).
Definition sub (a b : Z) : Z := wrap (a - b).
Definition sum (xs : list Z) : Z := fold_left add xs 0%Z.

End I64.

(** A Python number returned by an aggregate. *)
Inductive number :=
| NInt (z : Z)
| NFloat (x : float).

(** ** Sorting and first occurrences *)

Section Sorting.
Context {A : Type} (before : A → A → bool).

Fixpoint insert_sorted (x : A) (l : list A) : list A :=
  match l with
  | [] => [x]
  | y :: r => if before x y then x :: l else y :: insert_sorted x r
  end.

(** A stable sort: of two elements neither of which must come first the
    one met first stays first. *)
Definition isort (l : list A) : list A := foldr insert_sorted [] l.

End Sorting.

Section Occurrences.
Context {A : Type} `{EqDecision A}.

(** For each element, whether it differs from all the earlier ones. *)
Fixpoint first_occurrence (seen l : list A) : list bool :=
  match l with
  | [] => []
  | x :: r =>
      if decide (x ∈ seen) then false :: first_occurrence seen r
      else true :: first_occurrence (x :: seen) r
  end.

End Occurrences.

(** Boolean indexing: the elements whose mask bit is set. *)
Fixpoint take_mask {A : Type} (mask : list bool) (l : list A) : list A :=
  match mask, l with
  | b :: mask', x :: l' => if b then x :: take_mask mask' l' else take_mask mask' l'
  | _, _ => []
  end.

(** The position at which a mask keeps its [p]-th element. *)
Fixpoint nth_kept (mask : list bool) (p : nat) : option nat :=
  match mask with
  | [] => None
  | true :: mask' =>
      match p with
      | O => Some O
      | S p' => S <$> nth_kept mask' p'
      end
  | false :: mask' => S <$> nth_kept mask' p
  end.

Definition unique {A : Type} `{EqDecision A} (l : list A) : list A :=
  take_mask (first_occurrence [] l) l.

(** ** Timestamps and monthly periods *)

Record Timestamp := mkTimestamp { year : Z; month : Z; day : Z; nanos : Z }.

(** A monthly period: year and month. *)
Definition Period : Type := Z * Z.

Definition to_period_M (t : Timestamp) : Period := (year t, month t).

Definition period_leb (p q : Period) : bool :=
  (p.1 <? q.1)%Z || ((p.1 =? q.1)%Z && (p.2 <=? q.2)%Z).

Definition timestamp_leb (t u : Timestamp) : bool :=
  (year t <? year u)%Z || ((year t =? year u)%Z &&
  ((month t <? month u)%Z || ((month t =? month u)%Z &&
  ((day t <? day u)%Z || ((day t =? day u)%Z && (nanos t <=? nanos u)%Z))))).

Definition str_of_int (z : Z) : string :=
  DecimalString.NilZero.string_of_int (Z.to_int z).

(** [n] written with at least [width] digits. *)
Definition zero_pad (width : nat) (n : Z) : string :=
  let digits := str_of_int n in
  String.concat "" (replicate (width - String.length digits) "0") ++ digits.

(** [str(period)] for a monthly period, as in ["2024-01"]. *)
Definition str_of_period (p : Period) : string :=
  zero_pad 4 p.1 ++ "-" ++ zero_pad 2 p.2.

(** Months since 1970-01: the ordinal of a monthly period. *)
Definition ordinal_of_period (p : Period) : Z := ((p.1 - 1970) * 12 + (p.2 - 1))%Z.

(** ** Series and data frames

    A column is a typed vector. [Float64] marks a missing value by NaN;
    in an [Object] column (a column of [str]) the missing value is
    written [None] here; [Datetime] and [PeriodM] mark it by NaT
    ([None]); an [Int64] column has no missing value. *)

Inductive Series :=
| Int64 (v : list Z)
| Float64 (v : list float)
| Object (v : list (option string))
| Datetime (v : list (option Timestamp))
| PeriodM (v : list (option Period)).

(** The value of one row in one column. *)
Inductive cell :=
| CInt (z : Z)
| CFloat (x : float)
| CStr (s : string)
| CTime (t : Timestamp)
| CPeriod (p : Period)
| CNull.

(** A data frame: its columns in order. All columns have the same length
    ([wf]); a label is looked up at its first occurrence. *)
Abbreviation DataFrame := (list (string * Series)).

#[global] Instance float_eq_dec : EqDecision float.
Proof.
intros x y. destruct (PrimFloat.Leibniz.eqb x y) eqn:E.
- left. by apply FloatAxioms.Leibniz.eqb_spec.
- right. intros H. apply FloatAxioms.Leibniz.eqb_spec in H. congruence.
Defined.

#[global] Instance Timestamp_eq_dec : EqDecision Timestamp.
Proof. solve_decision. Defined.

#[global] Instance number_eq_dec : EqDecision number.
Proof. solve_decision. Defined.

#[global] Instance cell_eq_dec : EqDecision cell.
Proof. solve_decision. Defined.

#[global] Instance Series_eq_dec : EqDecision Series.
Proof. solve_decision. Defined.

(** ** The pandas operations the pipeline calls

    They are pure: each returns a new value. *)

Module pd.

Definition series_length (s : Series) : nat :=
  match s with
  | Int64 v => length v
  | Float64 v => length v
  | Object v => length v
  | Datetime v => length v
  | PeriodM v => length v
  end.

(** [len(df)] *)
Definition nrows (df : DataFrame) : nat :=
  match df with
  | [] => 0
  | (_, s) :: _ => series_length s
  end.

Definition wf (df : DataFrame) : Prop :=
  Forall (λ cs, series_length cs.2 = nrows df) df.

(** [df.columns] *)
Definition columns (df : DataFrame) : list string := df.*1.

(** [col in df.columns] *)
Definition has_column (df : DataFrame) (col : string) : bool :=
  bool_decide (col ∈ columns df).

(** [df[col]], [None] standing for [KeyError]. *)
Fixpoint get_column (df : DataFrame) (col : string) : option Series :=
  match df with
  | [] => None
  | (c, s) :: r => if String.eqb c col then Some s else get_column r col
  end.

(** [df[col] = s]: replaces the column or appends it. *)
Fixpoint set_column (col : string) (s : Series) (df : DataFrame) : DataFrame :=
  match df with
  | [] => [(col, s)]
  | (c, s') :: r =>
      if String.eqb c col then (c, s) :: r else (c, s') :: set_column col s r
  end.

Definition cell_of_float (x : float) : cell :=
  if F64.is_nan x then CNull else CFloat x.

Definition cell_of_option {A : Type} (f : A → cell) (o : option A) : cell :=
  match o with
  | Some a => f a
  | None => CNull
  end.

Definition series_cells (s : Series) : list cell :=
  match s with
  | Int64 v => CInt <$> v
  | Float64 v => cell_of_float <$> v
  | Object v => cell_of_option CStr <$> v
  | Datetime v => cell_of_option CTime <$> v
  | PeriodM v => cell_of_option CPeriod <$> v
  end.

Definition is_null (c : cell) : bool :=
  match c with
  | CNull => true
  | _ => false
  end.

(** The rows of a frame, each as the list of its cells: the columns,
    transposed. *)
Definition rows_from (base : list (list cell)) (df : DataFrame) : list (list cell) :=
  foldr (λ (cs : string * Series) acc, zip_with cons (series_cells cs.2) acc) base df.

Definition rows_of (df : DataFrame) : list (list cell) :=
  rows_from (replicate (nrows df) []) df.

Definition series_take (mask : list bool) (s : Series) : Series :=
  match s with
  | Int64 v => Int64 (take_mask mask v)
  | Float64 v => Float64 (take_mask mask v)
  | Object v => Object (take_mask mask v)
  | Datetime v => Datetime (take_mask mask v)
  | PeriodM v => PeriodM (take_mask mask v)
  end.

(** [df[mask]] *)
Definition filter_rows (mask : list bool) (df : DataFrame) : DataFrame :=
  (λ cs : string * Series, (cs.1, series_take mask cs.2)) <$> df.

(** [s.isnull()] *)
Definition isnull (s : Series) : list bool := is_null <$> series_cells s.

(** [s.isnull().any()] *)
Definition isnull_any (s : Series) : bool := existsb id (isnull s).

Definition count_true (l : list bool) : nat := length (List.filter id l).

(** [df.isnull().sum().sum()] *)
Definition isnull_sum_sum (df : DataFrame) : nat :=
  foldr (λ (cs : string * Series) acc, (count_true (isnull cs.2) + acc)%nat) 0%nat df.

(** [df.dropna()] *)
Definition dropna (df : DataFrame) : DataFrame :=
  filter_rows ((λ row, negb (existsb is_null row)) <$> rows_of df) df.

(** Two rows are duplicates when their cells are equal, NaN being equal
    to NaN and [-0.0] to [0.0]. *)
Definition cell_key (c : cell) : cell :=
  match c with
  | CFloat x => if (x =? 0)%float then CFloat 0 else c
  | _ => c
  end.

Definition row_keys (df : DataFrame) : list (list cell) :=
  (λ row : list cell, cell_key <$> row) <$> rows_of df.

(** [df.drop_duplicates()]: the first occurrence of each row is kept. *)
Definition drop_duplicates (df : DataFrame) : DataFrame :=
  filter_rows (first_occurrence [] (row_keys df)) df.

Definition is_number (s : Series) : bool :=
  match s with
  | Int64 _ | Float64 _ => true
  | _ => false
  end.

Definition is_object (s : Series) : bool :=
  match s with
  | Object _ => true
  | _ => false
  end.

(** [df.select_dtypes(include=[np.number]).columns] *)
Definition select_dtypes_number (df : DataFrame) : list string :=
  (List.filter (λ cs : string * Series, is_number cs.2) df).*1.

(** [df.select_dtypes(include=['object']).columns] *)
Definition select_dtypes_object (df : DataFrame) : list string :=
  (List.filter (λ cs : string * Series, is_object cs.2) df).*1.

(** The values of a numeric column as floats. *)
Definition to_floats (s : Series) : option (list float) :=
  match s with
  | Int64 v => Some (F64.of_int64 <$> v)
  | Float64 v => Some v
  | _ => None
  end.

(** [s.median()] of the values that are not missing. *)
Definition median (xs : list float) : float :=
  let sorted := isort PrimFloat.leb (F64.dropna xs) in
  let n := length sorted in
  if (n =? 0)%nat then F64.nan
  else if Nat.odd n then nth (n / 2) sorted F64.nan
  else ((nth (n / 2 - 1) sorted F64.nan + nth (n / 2) sorted F64.nan) / 2)%float.

(** [s.fillna(value)] on a float column. *)
Definition fillna_float (value : float) (xs : list float) : list float :=
  (λ x, if F64.is_nan x then value else x) <$> xs.

(** [s.fillna(value)] on a column of strings. *)
Definition fillna_object (value : string) (xs : list (option string)) : list (option string) :=
  (λ o, match o with Some _ => o | None => Some value end) <$> xs.

Definition count_occ_str (x : string) (l : list string) : nat :=
  length (List.filter (String.eqb x) l).

(** [s.mode()]: the most frequent values, in increasing order. *)
Definition mode (xs : list (option string)) : list string :=
  let vals := omap id xs in
  let distinct := isort String.leb (unique vals) in
  let most := foldr (λ x acc, Nat.max (count_occ_str x vals) acc) 0%nat distinct in
  List.filter (λ x, (count_occ_str x vals =? most)%nat) distinct.

(** The next value that is not NaN, with its distance. *)
Fixpoint next_valid (xs : list float) : option (nat * float) :=
  match xs with
  | [] => None
  | x :: r =>
      if F64.is_nan x then (λ ky : nat * float, (S ky.1, ky.2)) <$> next_valid r
      else Some (1%nat, x)
  end.

(** [prev] is the last valid value with its distance to the current row. *)
Fixpoint interpolate_from (prev : option (nat * float)) (xs : list float) : list float :=
  match xs with
  | [] => []
  | x :: r =>
      if F64.is_nan x then
        let v :=
          match prev with
          | None => F64.nan
          | Some (dp, px) =>
              match next_valid r with
              | None => px
              | Some (dn, ny) =>
                  ((ny - px) / F64.of_nat (dp + dn) * F64.of_nat dp + px)%float
              end
          end in
        v :: interpolate_from ((λ ky : nat * float, (S ky.1, ky.2)) <$> prev) r
      else x :: interpolate_from (Some (1%nat, x)) r
  end.

(** [s.interpolate(method='linear')]: gaps between two valid values are
    filled on the straight line, trailing gaps with the last valid value,
    leading gaps stay. *)
Definition interpolate_linear (xs : list float) : list float :=
  interpolate_from None xs.

(** numpy's interpolation between the order statistics [x] and [y],
    whose difference is [diff], at the weight [t] of [y]. *)
Definition lerp (x y diff t : float) : float :=
  if (0.5 <=? t)%float then (y - diff * (1 - t))%float
  else (x + diff * t)%float.

(** [s.quantile(a/b)] of a column of floats, with linear interpolation
    between the order statistics of the values that are not missing. *)
Definition quantile (a b : nat) (xs : list float) : float :=
  let sorted := isort PrimFloat.leb (F64.dropna xs) in
  let n := length sorted in
  if (n =? 0)%nat then F64.nan
  else
    let lo := (a * (n - 1) / b)%nat in
    let t := (F64.of_nat ((a * (n - 1)) mod b) / F64.of_nat b)%float in
    let x := nth lo sorted F64.nan in
    let y := nth (Nat.min (S lo) (n - 1)) sorted F64.nan in
    lerp x y (y - x) t.

(** [s.quantile(a/b)] of a column of integers: numpy takes the
    difference of the two order statistics as an [int64], which wraps
    around, before it interpolates in floats. *)
Definition quantile_int (a b : nat) (v : list Z) : float :=
  let sorted := isort Z.leb v in
  let n := length sorted in
  if (n =? 0)%nat then F64.nan
  else
    let lo := (a * (n - 1) / b)%nat in
    let t := (F64.of_nat ((a * (n - 1)) mod b) / F64.of_nat b)%float in
    let x := nth lo sorted 0%Z in
    let y := nth (Nat.min (S lo) (n - 1)) sorted 0%Z in
    lerp (F64.of_int64 x) (F64.of_int64 y) (F64.of_int64 (I64.sub y x)) t.

(** [s.quantile(a/b)] of a numeric column. *)
Definition series_quantile (a b : nat) (s : Series) : option float :=
  match s with
  | Int64 v => Some (quantile_int a b v)
  | Float64 v => Some (quantile a b v)
  | _ => None
  end.

End pd.

(** ** Sums as numpy and pandas compute them

    [np.add.reduce] over a column adds pairwise: fewer than 8 values one
    after the other, up to 128 values in 8 partial sums, and more values
    in two halves. A [groupby] adds the values of each group one after
    the other with Kahan's compensation. These are the reductions of the
    instance [simple.conversions]. *)

Module np.

(** Fewer than 8 values: added in order, from [-0.0]. *)
Definition sum_in_order (a : list float) : float := fold_left PrimFloat.add a (- 0)%float.

(** The 8 partial sums after [k] more blocks of 8 values. *)
Fixpoint partial_sums (k : nat) (r a : list float) : list float * list float :=
  match k with
  | O => (r, a)
  | S k' => partial_sums k' (zip_with PrimFloat.add r (take 8 a)) (drop 8 a)
  end.

(** From 8 to 128 values: 8 partial sums over the blocks of 8 values,
    added in pairs, and then the values that are left. *)
Definition sum_unrolled (a : list float) : float :=
  let '(r, rest) := partial_sums (length a / 8 - 1) (take 8 a) (drop 8 a) in
  let r (i : nat) := nth i r 0%float in
  fold_left PrimFloat.add rest
    (((r 0%nat + r 1%nat) + (r 2%nat + r 3%nat))
     + ((r 4%nat + r 5%nat) + (r 6%nat + r 7%nat)))%float.

Fixpoint pairwise (fuel : nat) (a : list float) : float :=
  let n := length a in
  if (n <? 8)%nat then sum_in_order a
  else if (n <=? 128)%nat then sum_unrolled a
  else
    match fuel with
    | O => sum_unrolled a
    | S fuel' =>
        let n2 := (n / 2 - (n / 2) mod 8)%nat in
        (pairwise fuel' (take n2 a) + pairwise fuel' (drop n2 a))%float
    end.

(** [a.sum()] of an array of floats. *)
Definition sum (a : list float) : float :=
  match a with
  | [] => 0%float
  | _ => pairwise (length a) a
  end.

(** The values with 0 in the place of the missing ones. *)
Definition fill_zero (xs : list float) : list float :=
  (λ x, if F64.is_nan x then 0%float else x) <$> xs.

(** The number of values that are not missing. *)
Definition count (xs : list float) : nat := length (F64.dropna xs).

(** [Series.sum()]: the missing values count as 0. *)
Definition nansum (xs : list float) : float := sum (fill_zero xs).

(** [Series.mean()]: NaN when every value is missing. *)
Definition nanmean (xs : list float) : float :=
  if (count xs =? 0)%nat then F64.nan
  else (nansum xs / F64.of_nat (count xs))%float.

(** [Series.std()], the sample standard deviation in two passes. *)
Definition nanstd (xs : list float) : float :=
  if (count xs <=? 1)%nat then F64.nan
  else
    let avg := (sum (fill_zero xs) / F64.of_nat (count xs))%float in
    let sqr :=
      zip_with (λ x v, if F64.is_nan x then 0%float else ((avg - v) * (avg - v))%float)
        xs (fill_zero xs) in
    PrimFloat.sqrt (sum sqr / F64.of_nat (count xs - 1))%float.

(** One step of the compensated sum of a group: the sum so far and its
    compensation, which is reset when it is NaN. *)
Definition kahan_step (acc : float * float) (val : float) : float * float :=
  if F64.is_nan val then acc
  else
    let y := (val - acc.2)%float in
    let t := (acc.1 + y)%float in
    let c := (t - acc.1 - y)%float in
    (t, if F64.is_nan c then 0%float else c).

(** The sum [groupby] computes for the values of a group. *)
Definition group_sum (xs : list float) : float := (fold_left kahan_step xs (0, 0)%float).1.

(** The mean [groupby] computes for the values of a group. *)
Definition group_mean (xs : list float) : float :=
  if (count xs =? 0)%nat then F64.nan
  else (group_sum xs / F64.of_nat (count xs))%float.

End np.

(** ** Conversions between text, numbers and dates, and sums of floats

    How pandas reads a date or a number out of a string, and how it prints
    floats and timestamps, is left open: the cleaner and the analyzer are
    modelled for any such conversions. So is the rounding of the sums of
    floats: [sum_floats], [mean_floats] and [std_floats] stand for
    [Series.sum()], [Series.mean()] and [Series.std()] of a column of
    floats, in which NaN marks a missing value, and [group_sum_floats]
    and [group_mean_floats] for the sum and the mean that [groupby]
    computes from the values of one group. [str_of_missing] is what
    [str] makes of the missing value of a column of texts: ["nan"] of
    NaN, ["None"] of [None]. *)

Class Conversions := {
  parse_datetime : string → option Timestamp;
  parse_number : string → option number;
  timestamp_of_int : Z → option Timestamp;
  timestamp_of_float : float → option Timestamp;
  int_of_timestamp : Timestamp → Z;
  str_of_float : float → string;
  str_of_timestamp : Timestamp → string;
  str_of_missing : string;
  sum_floats : list float → float;
  mean_floats : list float → float;
  std_floats : list float → float;
  group_sum_floats : list float → float;
  group_mean_floats : list float → float
}.

Module conv.
Section conv.
Context `{Conversions}.

(** [pd.to_datetime(s, errors='coerce')]: what cannot be read is NaT. *)
Definition to_datetime_coerce (s : Series) : Series :=
  match s with
  | Datetime v => Datetime v
  | Object v => Datetime ((λ o, o ≫= parse_datetime) <$> v)
  | Int64 v => Datetime (timestamp_of_int <$> v)
  | Float64 v =>
      Datetime ((λ x, if F64.is_nan x then None else timestamp_of_float x) <$> v)
  | PeriodM v => Datetime ((λ _, None) <$> v)
  end.

(** Whether [errors='raise'] finds nothing to complain about. *)
Definition datetime_readable (s : Series) : bool :=
  match s with
  | Datetime _ => true
  | Object v =>
      forallb (λ o, match o with
                    | Some x => bool_decide (is_Some (parse_datetime x))
                    | None => true
                    end) v
  | Int64 v => forallb (λ z, bool_decide (is_Some (timestamp_of_int z))) v
  | Float64 v =>
      forallb (λ x, F64.is_nan x || bool_decide (is_Some (timestamp_of_float x))) v
  | PeriodM _ => false
  end.

Definition number_to_float (n : number) : float :=
  match n with
  | NInt z => F64.of_int64 z
  | NFloat x => x
  end.

Definition as_int (o : option number) : option Z :=
  match o with
  | Some (NInt z) => Some z
  | _ => None
  end.

(** The smallest int64, which stands for NaT among integers. *)
Definition iNaT : Z := (- 2 ^ 63)%Z.

(** [pd.to_numeric(s, errors='coerce')]: a column of strings becomes
    [Int64] when every entry reads as an integer and [Float64] otherwise,
    with NaN for what cannot be read. *)
Definition to_numeric_coerce (s : Series) : Series :=
  match s with
  | Int64 v => Int64 v
  | Float64 v => Float64 v
  | Object v =>
      let parsed := (λ o, o ≫= parse_number) <$> v in
      match mapM as_int parsed with
      | Some ints => Int64 ints
      | None => Float64 ((λ o, from_option number_to_float F64.nan o) <$> parsed)
      end
  | Datetime v => Int64 ((λ o, from_option int_of_timestamp iNaT o) <$> v)
  | PeriodM v => Int64 ((λ o, from_option ordinal_of_period iNaT o) <$> v)
  end.

(** [s.astype(str)]: a missing value becomes a text, [str_of_missing] in
    a column of texts and ["NaT"] in a column of dates. *)
Definition astype_str (s : Series) : Series :=
  match s with
  | Int64 v => Object ((λ z, Some (str_of_int z)) <$> v)
  | Float64 v => Object ((λ x, Some (str_of_float x)) <$> v)
  | Object v => Object ((λ o, Some (default str_of_missing o)) <$> v)
  | Datetime v => Object ((λ o, Some (from_option str_of_timestamp "NaT" o)) <$> v)
  | PeriodM v => Object ((λ o, Some (from_option str_of_period "NaT" o)) <$> v)
  end.

End conv.
End conv.

(** A small instance, enough to run examples: dates written
    [YYYY-MM-DD], numbers written as decimal integers, floats not
    printed, NaN for a missing text; the sums are those of module [np]. *)

Module simple.

Definition nonneg_of_string (s : string) : option Z :=
  if String.eqb s "" then None
  else Z.of_uint <$> DecimalString.NilZero.uint_of_string s.

Definition parse_iso_date (s : string) : option Timestamp :=
  if (String.length s =? 10)%nat
     && String.eqb (substring 4 1 s) "-" && String.eqb (substring 7 1 s) "-"
  then
    y ← nonneg_of_string (substring 0 4 s);
    m ← nonneg_of_string (substring 5 2 s);
    d ← nonneg_of_string (substring 8 2 s);
    if ((1 <=? m)%Z && (m <=? 12)%Z && (1 <=? d)%Z && (d <=? 31)%Z)%bool
    then Some (mkTimestamp y m d 0)
    else None
  else None.

Definition parse_integer (s : string) : option number :=
  if String.eqb s "" || String.eqb s "-" then None
  else (λ i, NInt (Z.of_int i)) <$> DecimalString.NilZero.int_of_string s.

Definition conversions : Conversions := {|
  parse_datetime := parse_iso_date;
  parse_number := parse_integer;
  timestamp_of_int := λ _, None;
  timestamp_of_float := λ _, None;
  int_of_timestamp := λ _, 0%Z;
  str_of_float := λ _, "float";
  str_of_timestamp := λ t,
    zero_pad 4 (year t) ++ "-" ++ zero_pad 2 (month t) ++ "-" ++ zero_pad 2 (day t);
  str_of_missing := "nan";
  sum_floats := np.nansum;
  mean_floats := np.nanmean;
  std_floats := np.nanstd;
  group_sum_floats := np.group_sum;
  group_mean_floats := np.group_mean
|}.

End simple.

(** ** Objects and exceptions

    Data frames are objects: a variable holds a reference into the store,
    [df.copy()] allocates, and an in-place update overwrites the object a
    reference points to. A computation either returns or raises. *)

Inductive exn :=
| ValueError (msg : string)
| KeyError (key : string)
| TypeError (msg : string)
| InvalidRef.

Inductive outcome (A : Type) :=
| Return (a : A)
| Raise (e : exn).
Arguments Return {A} a.
Arguments Raise {A} e.

Abbreviation ref := nat.
Abbreviation heap := (list DataFrame).

Definition M (A : Type) : Type := heap → outcome A * heap.

#[global] Instance M_ret : MRet M := λ A a h, (Return a, h).

#[global] Instance M_bind : MBind M := λ A B f m h,
  match m h with
  | (Return a, h') => f a h'
  | (Raise e, h') => (Raise e, h')
  end.

Definition raise {A : Type} (e : exn) : M A := λ h, (Raise e, h).

(** A new object. *)
Definition new (d : DataFrame) : M ref := λ h, (Return (length h), (h ++ [d])%list).

Definition load (r : ref) : M DataFrame := λ h,
  match h !! r with
  | Some d => (Return d, h)
  | None => (Raise InvalidRef, h)
  end.

(** Overwrites the object [r] points to. *)
Definition store (r : ref) (d : DataFrame) : M unit := λ h, (Return (), <[r := d]> h).

(** [df.copy()] *)
Definition copy (r : ref) : M ref := d ← load r; new d.

(** [df[col]] *)
Definition getitem (r : ref) (col : string) : M Series :=
  d ← load r;
  match pd.get_column d col with
  | Some s => mret s
  | None => raise (KeyError col)
  end.

(** [df[col] = s] *)
Definition setitem (r : ref) (col : string) (s : Series) : M unit :=
  d ← load r; store r (pd.set_column col s d).

(** [for x in l: body] *)
Fixpoint for_each {A : Type} (l : list A) (body : A → M unit) : M unit :=
  match l with
  | [] => mret ()
  | x :: r => body x;; for_each r body
  end.

(** A pandas call that returns a value or raises [e]. *)
Definition or_raise {A : Type} (e : exn) (o : option A) : M A :=
  match o with
  | Some a => mret a
  | None => raise e
  end.

(** The values of a column that must be numeric. *)
Definition numeric_values (s : Series) : M (list float) :=
  or_raise (TypeError "the column is not numeric") (pd.to_floats s).

(** ** [DataCleaner] (scripts/data_cleaner.py)

    Logging is left out. *)

Module DataCleaner.
Section DataCleaner.
Context `{Conversions}.

Definition remove_duplicates (df : ref) : M ref :=
  d ← load df;
  df_cleaned ← new (pd.drop_duplicates d);
  mret df_cleaned.

(** [removed_count], as [remove_duplicates] logs it. *)
Definition removed_count (d : DataFrame) : nat :=
  let initial_count := pd.nrows d in
  let df_cleaned := pd.drop_duplicates d in
  (initial_count - pd.nrows df_cleaned)%nat.

(** [df_cleaned[col].fillna(value, inplace=True)] on a numeric column. *)
Definition fillna_number_inplace (df_cleaned : ref) (col : string) (value : float) : M unit :=
  s ← getitem df_cleaned col;
  match s with
  | Float64 v => setitem df_cleaned col (Float64 (pd.fillna_float value v))
  | _ => mret ()
  end.

(** [df_cleaned[col].fillna(value, inplace=True)] on a column of strings. *)
Definition fillna_object_inplace (df_cleaned : ref) (col : string) (value : string) : M unit :=
  s ← getitem df_cleaned col;
  match s with
  | Object v => setitem df_cleaned col (Object (pd.fillna_object value v))
  | _ => mret ()
  end.

(** [df_cleaned[col].interpolate(method='linear', inplace=True)] *)
Definition interpolate_inplace (df_cleaned : ref) (col : string) : M unit :=
  s ← getitem df_cleaned col;
  match s with
  | Float64 v => setitem df_cleaned col (Float64 (pd.interpolate_linear v))
  | _ => mret ()
  end.

Definition handle_missing_values (df : ref) (strategy : string) : M ref :=
  d ← load df;
  let initial_missing := pd.isnull_sum_sum d in
  if (initial_missing =? 0)%nat then mret df
  else
    df_cleaned ← copy df;
    df_cleaned ←
      (if String.eqb strategy "drop" then
         d ← load df_cleaned;
         new (pd.dropna d)
       else if String.eqb strategy "fill" then
         d ← load df_cleaned;
         let numeric_columns := pd.select_dtypes_number d in
         for_each numeric_columns (λ col,
           s ← getitem df_cleaned col;
           if pd.isnull_any s then
             xs ← numeric_values s;
             let median_value := pd.median xs in
             fillna_number_inplace df_cleaned col median_value
           else mret ());;
         d ← load df_cleaned;
         let categorical_columns := pd.select_dtypes_object d in
         for_each categorical_columns (λ col,
           s ← getitem df_cleaned col;
           if pd.isnull_any s then
             let mode_value :=
               match s with
               | Object v => default "Unknown" (head (pd.mode v))
               | _ => "Unknown"
               end in
             fillna_object_inplace df_cleaned col mode_value
           else mret ());;
         mret df_cleaned
       else if String.eqb strategy "interpolate" then
         d ← load df_cleaned;
         let numeric_columns := pd.select_dtypes_number d in
         for_each numeric_columns (λ col,
           s ← getitem df_cleaned col;
           if pd.isnull_any s then interpolate_inplace df_cleaned col
           else mret ());;
         mret df_cleaned
       else mret df_cleaned);
    mret df_cleaned.

(** [if col in df_cleaned.columns: df_cleaned[col] = f(df_cleaned[col])] *)
Definition convert_inplace (df_cleaned : ref) (col : string) (f : Series → Series) : M unit :=
  d ← load df_cleaned;
  if pd.has_column d col then
    s ← getitem df_cleaned col;
    setitem df_cleaned col (f s)
  else mret ().

Definition fix_data_types (df : ref) : M ref :=
  df_cleaned ← copy df;
  convert_inplace df_cleaned "date" conv.to_datetime_coerce;;
  let numeric_columns := ["revenue"; "quantity"] in
  for_each numeric_columns (λ col,
    convert_inplace df_cleaned col conv.to_numeric_coerce);;
  let categorical_columns := ["product"; "region"] in
  for_each categorical_columns (λ col,
    convert_inplace df_cleaned col conv.astype_str);;
  mret df_cleaned.

(** [s.quantile(a/b)], for numeric columns. *)
Definition quantile (s : Series) (a b : nat) : M float :=
  or_raise (TypeError "quantile of a column that is not numeric") (pd.series_quantile a b s).

Definition remove_outliers (df : ref) (column method : string) : M ref :=
  d ← load df;
  if negb (pd.has_column d column) then mret df
  else
    df_cleaned ← copy df;
    df_cleaned ←
      (if String.eqb method "iqr" then
         s ← getitem df_cleaned column;
         Q1 ← quantile s 1 4;
         s ← getitem df_cleaned column;
         Q3 ← quantile s 3 4;
         let IQR := (Q3 - Q1)%float in
         let lower_bound := (Q1 - 1.5 * IQR)%float in
         let upper_bound := (Q3 + 1.5 * IQR)%float in
         s ← getitem df_cleaned column;
         xs ← numeric_values s;
         d ← load df_cleaned;
         new (pd.filter_rows
                ((λ x, (lower_bound <=? x)%float && (x <=? upper_bound)%float) <$> xs) d)
       else if String.eqb method "zscore" then
         s ← getitem df_cleaned column;
         xs ← numeric_values s;
         let mean := mean_floats xs in
         let std := std_floats xs in
         if (0 <? std)%float then
           let z_scores := (λ x, PrimFloat.abs ((x - mean) / std)%float) <$> xs in
           d ← load df_cleaned;
           new (pd.filter_rows ((λ z, (z <? 3)%float) <$> z_scores) d)
         else mret df_cleaned
       else mret df_cleaned);
    mret df_cleaned.

Definition clean_all (df : ref) (handle_missing_strategy : string) : M ref :=
  df_cleaned ← copy df;
  df_cleaned ← remove_duplicates df_cleaned;
  df_cleaned ← fix_data_types df_cleaned;
  df_cleaned ← handle_missing_values df_cleaned handle_missing_strategy;
  mret df_cleaned.

End DataCleaner.
End DataCleaner.

(** ** Grouping, ordering and column arithmetic *)

Module agg.
Section agg.
Context `{Conversions}.

(** The order of two values of one column. *)
Definition cell_leb (a b : cell) : bool :=
  match a, b with
  | CInt x, CInt y => (x <=? y)%Z
  | CFloat x, CFloat y => (x <=? y)%float
  | CStr x, CStr y => String.leb x y
  | CTime x, CTime y => timestamp_leb x y
  | CPeriod x, CPeriod y => period_leb x y
  | _, _ => true
  end.

Definition as_int (c : cell) : option Z := match c with CInt z => Some z | _ => None end.
Definition as_float (c : cell) : float := match c with CFloat x => x | _ => F64.nan end.
Definition as_str (c : cell) : option string := match c with CStr s => Some s | _ => None end.
Definition as_time (c : cell) : option Timestamp := match c with CTime t => Some t | _ => None end.
Definition as_period (c : cell) : option Period := match c with CPeriod p => Some p | _ => None end.

(** A column of the type of [like] holding the given values. *)
Definition series_of_cells (like : Series) (cs : list cell) : Series :=
  match like with
  | Int64 _ => Int64 (omap as_int cs)
  | Float64 _ => Float64 (as_float <$> cs)
  | Object _ => Object (as_str <$> cs)
  | Datetime _ => Datetime (as_time <$> cs)
  | PeriodM _ => PeriodM (as_period <$> cs)
  end.

(** The group labels of [df.groupby(keys)]: the distinct keys that are not
    missing, in increasing order. *)
Definition group_labels (keys : Series) : list cell :=
  isort cell_leb (unique (List.filter (λ c, negb (pd.is_null c))
                            (pd.cell_key <$> pd.series_cells keys))).

(** The rows of the group labelled [k]. *)
Definition group_mask (keys : Series) (k : cell) : list bool :=
  (λ c, bool_decide (pd.cell_key c = k)) <$> pd.series_cells keys.

(** One value per group: [f] of the group's rows of [xs]. *)
Definition per_group {A B : Type} (keys : Series) (f : list A → B) (xs : list A) : list B :=
  (λ k, f (take_mask (group_mask keys k) xs)) <$> group_labels keys.

Definition sums (keys vals : Series) : option Series :=
  match vals with
  | Int64 v => Some (Int64 (per_group keys I64.sum v))
  | Float64 v => Some (Float64 (per_group keys group_sum_floats v))
  | _ => None
  end.

(** [grouped[col].sum()]: one sum per group. *)
Definition group_sum (keys vals : Series) : M Series :=
  or_raise (TypeError "sum of a column that is not numeric") (sums keys vals).

Definition means (keys vals : Series) : option Series :=
  xs ← pd.to_floats vals;
  Some (Float64 (per_group keys group_mean_floats xs)).

(** [grouped[col].mean()]: one mean per group. *)
Definition group_mean (keys vals : Series) : M Series :=
  or_raise (TypeError "mean of a column that is not numeric") (means keys vals).

(** The index of [df.groupby(keys)] once aggregated. *)
Definition group_index (keys : Series) : Series := series_of_cells keys (group_labels keys).

(** Whether [x] may stand before [y] in decreasing order, NaN last. *)
Definition float_desc (x y : float) : bool := F64.is_nan y || (y <=? x)%float.

Definition int_desc (x y : Z) : bool := (y <=? x)%Z.

(** The row numbers of [l] in the order [before] of their values. *)
Definition argsort {A : Type} (before : A → A → bool) (l : list A) : list nat :=
  (isort (λ a b : A * nat, before a.1 b.1) (zip l (seq 0 (length l)))).*2.

Definition order_desc (s : Series) : option (list nat) :=
  match s with
  | Int64 v => Some (argsort int_desc v)
  | Float64 v => Some (argsort float_desc v)
  | _ => None
  end.

(** The row numbers in the order of [sort_values(ascending=False)]. *)
Definition argsort_desc (s : Series) : M (list nat) :=
  or_raise (TypeError "ordering of a column that is not numeric") (order_desc s).

Definition select {A : Type} (order : list nat) (l : list A) : list A :=
  omap (λ i, l !! i) order.

(** The rows of a column in the given order. *)
Definition series_select (order : list nat) (s : Series) : Series :=
  match s with
  | Int64 v => Int64 (select order v)
  | Float64 v => Float64 (select order v)
  | Object v => Object (select order v)
  | Datetime v => Datetime (select order v)
  | PeriodM v => PeriodM (select order v)
  end.

Definition frame_select (order : list nat) (df : DataFrame) : DataFrame :=
  (λ cs : string * Series, (cs.1, series_select order cs.2)) <$> df.

(** [l[:n]] as [head(n)] reads it: a negative [n] counts from the end. *)
Definition head_n {A : Type} (n : Z) (l : list A) : list A :=
  if (0 <=? n)%Z then take (Z.to_nat n) l
  else take (length l - Z.to_nat (- n)) l.

Definition series_head (n : Z) (s : Series) : Series :=
  match s with
  | Int64 v => Int64 (head_n n v)
  | Float64 v => Float64 (head_n n v)
  | Object v => Object (head_n n v)
  | Datetime v => Datetime (head_n n v)
  | PeriodM v => PeriodM (head_n n v)
  end.

Definition mul (s : Series) (c : float) : option Series :=
  xs ← pd.to_floats s;
  Some (Float64 ((λ x, (x * c)%float) <$> xs)).

(** [s * c] for a float [c]. *)
Definition series_mul (s : Series) (c : float) : M Series :=
  or_raise (TypeError "product of a column that is not numeric") (mul s c).

Definition sub (a b : Series) : option Series :=
  match a, b with
  | Int64 x, Int64 y => Some (Int64 (zip_with I64.sub x y))
  | _, _ =>
      xs ← pd.to_floats a;
      ys ← pd.to_floats b;
      Some (Float64 (zip_with PrimFloat.sub xs ys))
  end.

(** [a - b] *)
Definition series_sub (a b : Series) : M Series :=
  or_raise (TypeError "difference of columns that are not numeric") (sub a b).

Definition div (a b : Series) : option Series :=
  xs ← pd.to_floats a;
  ys ← pd.to_floats b;
  Some (Float64 (zip_with PrimFloat.div xs ys)).

(** [a / b], the true division. *)
Definition series_div (a b : Series) : M Series :=
  or_raise (TypeError "quotient of columns that are not numeric") (div a b).

Definition total (s : Series) : option number :=
  match s with
  | Int64 v => Some (NInt (I64.sum v))
  | Float64 v => Some (NFloat (sum_floats v))
  | _ => None
  end.

(** [s.sum()] *)
Definition series_sum (s : Series) : M number :=
  or_raise (TypeError "sum of a column that is not numeric") (total s).

(** [s.ffill()]: a missing value takes the last value before it that is
    not missing. *)
Fixpoint ffill_from (prev : float) (xs : list float) : list float :=
  match xs with
  | [] => []
  | x :: r => if F64.is_nan x then prev :: ffill_from prev r else x :: ffill_from x r
  end.

Definition ffill (xs : list float) : list float := ffill_from F64.nan xs.

(** [s.pct_change()]: missing values are filled forward, then each row is
    taken relative to the row before; the first row has none. *)
Definition pct_change (xs : list float) : list float :=
  let data := ffill xs in
  match data with
  | [] => []
  | _ :: r => F64.nan :: zip_with (λ prev cur, (cur / prev - 1)%float) data r
  end.

Definition periods (s : Series) : option Series :=
  match s with
  | Datetime v => Some (PeriodM ((λ o : option Timestamp, to_period_M <$> o) <$> v))
  | _ => None
  end.

(** [s.dt.to_period('M')] *)
Definition dt_to_period_M (s : Series) : M Series :=
  or_raise (TypeError "Can only use .dt accessor with datetimelike values") (periods s).

Definition datetimes (s : Series) : option Series :=
  if conv.datetime_readable s then Some (conv.to_datetime_coerce s) else None.

(** [pd.to_datetime(s)], which raises on what it cannot read. *)
Definition to_datetime (s : Series) : M Series :=
  or_raise (ValueError "time data does not match format") (datetimes s).

Definition str_of_cell (c : cell) : string :=
  match c with
  | CInt z => str_of_int z
  | CFloat x => str_of_float x
  | CStr s => s
  | CTime t => str_of_timestamp t
  | CPeriod p => str_of_period p
  | CNull => "nan"
  end.

Definition null_text (s : Series) : string :=
  match s with
  | Datetime _ | PeriodM _ => "NaT"
  | _ => "nan"
  end.

Definition present (s : Series) : list cell :=
  List.filter (λ c, negb (pd.is_null c)) (pd.series_cells s).

(** The least and the greatest value skip what is missing. In a column
    of texts a missing value is compared with the texts, which Python
    refuses, unless the column holds nothing else. *)
Definition ordered (s : Series) : bool :=
  match s with
  | Object v => forallb (λ o, bool_decide (is_Some o)) v
                || forallb (λ o, bool_decide (o = None)) v
  | _ => true
  end.

Definition str_min (s : Series) : string :=
  from_option str_of_cell (null_text s) (head (isort cell_leb (present s))).

Definition str_max (s : Series) : string :=
  from_option str_of_cell (null_text s) (last (isort cell_leb (present s))).

(** [str(s.min())] *)
Definition min_str (s : Series) : M string :=
  if ordered s then mret (str_min s)
  else raise (TypeError "'<=' not supported between instances of 'str' and 'float'").

(** [str(s.max())] *)
Definition max_str (s : Series) : M string :=
  if ordered s then mret (str_max s)
  else raise (TypeError "'>=' not supported between instances of 'str' and 'float'").

(** [s.nunique()] *)
Definition nunique (s : Series) : nat := length (group_labels s).

End agg.
End agg.

(** ** [DataAnalyzer] (scripts/data_analyzer.py) *)

Module DataAnalyzer.
Section DataAnalyzer.
Context `{Conversions}.

(** The object: [self.df]. *)
Record t := { df : ref }.

Definition __init__ (df0 : ref) : M t :=
  r ← copy df0;
  mret {| df := r |}.

Definition calculate_total_revenue (self : t) : M number :=
  d ← load (df self);
  if negb (pd.has_column d "revenue")
  then raise (ValueError "'revenue' column not found in dataframe")
  else
    s ← getitem (df self) "revenue";
    total_revenue ← agg.series_sum s;
    mret total_revenue.

Definition get_top_products (self : t) (n : Z) : M ref :=
  d ← load (df self);
  if negb (pd.has_column d "product") || negb (pd.has_column d "revenue")
  then raise (ValueError "Required columns 'product' and 'revenue' not found")
  else
    by_ ← getitem (df self) "product";
    vals ← getitem (df self) "revenue";
    sums ← agg.group_sum by_ vals;
    order ← agg.argsort_desc sums;
    let index := agg.series_head n (agg.series_select order (agg.group_index by_)) in
    let values := agg.series_head n (agg.series_select order sums) in
    top_products ← new [("product", index); ("revenue", values)];
    store top_products [("product", index); ("total_revenue", values)];;
    mret top_products.

Definition get_region_wise_revenue (self : t) : M ref :=
  d ← load (df self);
  if negb (pd.has_column d "region") || negb (pd.has_column d "revenue")
  then raise (ValueError "Required columns 'region' and 'revenue' not found")
  else
    by_ ← getitem (df self) "region";
    vals ← getitem (df self) "revenue";
    sums ← agg.group_sum by_ vals;
    order ← agg.argsort_desc sums;
    let index := agg.series_select order (agg.group_index by_) in
    let values := agg.series_select order sums in
    region_revenue ← new [("region", index); ("revenue", values)];
    store region_revenue [("region", index); ("total_revenue", values)];;
    mret region_revenue.

Definition calculate_monthly_growth_rate (self : t) : M ref :=
  d ← load (df self);
  if negb (pd.has_column d "date") || negb (pd.has_column d "revenue")
  then raise (ValueError "Required columns 'date' and 'revenue' not found")
  else
    df_temp ← copy (df self);
    s ← getitem df_temp "date";
    s ← agg.to_datetime s;
    setitem df_temp "date" s;;
    s ← getitem df_temp "date";
    year_month ← agg.dt_to_period_M s;
    setitem df_temp "year_month" year_month;;
    by_ ← getitem df_temp "year_month";
    vals ← getitem df_temp "revenue";
    sums ← agg.group_sum by_ vals;
    monthly_revenue ← new [("year_month", agg.group_index by_); ("revenue", sums)];
    store monthly_revenue [("month", agg.group_index by_); ("revenue", sums)];;
    s ← getitem monthly_revenue "month";
    setitem monthly_revenue "month" (conv.astype_str s);;
    s ← getitem monthly_revenue "revenue";
    xs ← numeric_values s;
    setitem monthly_revenue "growth_rate"
      (Float64 ((λ x, (x * 100)%float) <$> agg.pct_change xs));;
    s ← getitem monthly_revenue "growth_rate";
    xs ← numeric_values s;
    setitem monthly_revenue "growth_rate" (Float64 (pd.fillna_float 0 xs));;
    mret monthly_revenue.

(** Python's truth value of [cost_column]. *)
Definition truthy (cost_column : option string) : bool :=
  match cost_column with
  | Some c => negb (String.eqb c "")
  | None => false
  end.

Definition calculate_profit_margin (self : t) (cost_column : option string) : M ref :=
  d ← load (df self);
  if negb (pd.has_column d "revenue")
  then raise (ValueError "'revenue' column not found")
  else
    df_temp ← copy (df self);
    d ← load df_temp;
    (if truthy cost_column && pd.has_column d (default "" cost_column) then
       s ← getitem df_temp (default "" cost_column);
       setitem df_temp "cost" s
     else
       s ← getitem df_temp "revenue";
       cost ← agg.series_mul s 0.6;
       setitem df_temp "cost" cost);;
    revenue ← getitem df_temp "revenue";
    cost ← getitem df_temp "cost";
    profit ← agg.series_sub revenue cost;
    setitem df_temp "profit" profit;;
    profit ← getitem df_temp "profit";
    revenue ← getitem df_temp "revenue";
    ratio ← agg.series_div profit revenue;
    profit_margin ← agg.series_mul ratio 100;
    setitem df_temp "profit_margin" profit_margin;;
    by_ ← getitem df_temp "product";
    revenue ← getitem df_temp "revenue";
    revenue_sum ← agg.group_sum by_ revenue;
    cost ← getitem df_temp "cost";
    cost_sum ← agg.group_sum by_ cost;
    profit ← getitem df_temp "profit";
    profit_sum ← agg.group_sum by_ profit;
    profit_margin ← getitem df_temp "profit_margin";
    profit_margin_mean ← agg.group_mean by_ profit_margin;
    profit_analysis ← new [("product", agg.group_index by_); ("revenue", revenue_sum);
                           ("cost", cost_sum); ("profit", profit_sum);
                           ("profit_margin", profit_margin_mean)];
    d ← load profit_analysis;
    s ← getitem profit_analysis "profit";
    order ← agg.argsort_desc s;
    profit_analysis ← new (agg.frame_select order d);
    mret profit_analysis.

(** The dictionary [stats]. *)
Record stats := {
  total_transactions : nat;
  total_revenue : number;
  average_revenue_per_transaction : number;
  unique_products : nat;
  unique_regions : nat;
  date_range_start : option string;
  date_range_end : option string
}.

Definition get_summary_statistics (self : t) : M stats :=
  d ← load (df self);
  total ← calculate_total_revenue self;
  average ←
    (if pd.has_column d "revenue" then
       s ← getitem (df self) "revenue";
       xs ← numeric_values s;
       mret (NFloat (mean_floats xs))
     else mret (NInt 0));
  products ←
    (if pd.has_column d "product" then
       s ← getitem (df self) "product"; mret (agg.nunique s)
     else mret 0%nat);
  regions ←
    (if pd.has_column d "region" then
       s ← getitem (df self) "region"; mret (agg.nunique s)
     else mret 0%nat);
  start ←
    (if pd.has_column d "date" then
       s ← getitem (df self) "date"; start ← agg.min_str s; mret (Some start)
     else mret None);
  end_ ←
    (if pd.has_column d "date" then
       s ← getitem (df self) "date"; end_ ← agg.max_str s; mret (Some end_)
     else mret None);
  mret {| total_transactions := pd.nrows d;
          total_revenue := total;
          average_revenue_per_transaction := average;
          unique_products := products;
          unique_regions := regions;
          date_range_start := start;
          date_range_end := end_ |}.

End DataAnalyzer.
End DataAnalyzer.

(** ** [map_column_names] (app.py) *)

Module ColumnMapper.

Abbreviation mapping := (gmap string string).

(** [v in [m for m in column_mapping.values()]] *)
Definition in_values (v : string) (m : mapping) : bool :=
  bool_decide (v ∈ (map_to_list m).*2).

(** [col in [a, b]] for a list of string literals *)
Definition one_of (s : string) (l : list string) : bool :=
  bool_decide (s ∈ l).

(** A [for col in df_columns:] loop whose body may [break]: the body
    returns the new state and whether it broke out of the loop. *)
Fixpoint for_break {S : Type} (body : string → S → S * bool)
    (df_columns : list string) (s : S) : S :=
  match df_columns with
  | [] => s
  | col :: rest =>
      let '(s', brk) := body col s in
      if brk then s' else for_break body rest s'
  end.

(** [col_lower = col.lower().strip()] *)
Definition col_lower (col : string) : string := Str.strip (Str.lower col).

(** Lines 106-116: the date loop. *)
Definition date_body (col : string) (column_mapping : mapping) : mapping * bool :=
  let cl := col_lower col in
  if Str.contains "date" cl then
    if Str.contains "order" cl || Str.contains "transaction" cl || Str.contains "sale" cl
    then (<[col := "date"]> column_mapping, true)
    else if Str.contains "date" cl && negb (in_values "date" column_mapping)
    then (<[col := "date"]> column_mapping, true)
    else (column_mapping, false)
  else (column_mapping, false).

(** Lines 119-129: the product loop. *)
Definition product_body (col : string) (column_mapping : mapping) : mapping * bool :=
  let cl := col_lower col in
  if Str.contains "product" cl && Str.contains "name" cl
  then (<[col := "product"]> column_mapping, true)
  else if Str.contains "product" cl && negb (in_values "product" column_mapping)
  then (<[col := "product"]> column_mapping, true)
  else if (Str.contains "item" cl || Str.contains "name" cl)
          && negb (in_values "product" column_mapping)
  then (<[col := "product"]> column_mapping, true)
  else (column_mapping, false).

(** Lines 133-157: the three region loops share [region_found]. *)
Definition region_exact_body (col : string) (s : mapping * bool) : (mapping * bool) * bool :=
  let '(column_mapping, region_found) := s in
  if String.eqb (col_lower col) "region"
  then ((<[col := "region"]> column_mapping, true), true)
  else (s, false).

Definition region_partial_body (col : string) (s : mapping * bool) : (mapping * bool) * bool :=
  let '(column_mapping, region_found) := s in
  if Str.contains "region" (col_lower col)
  then ((<[col := "region"]> column_mapping, true), true)
  else (s, false).

Definition region_last_body (col : string) (column_mapping : mapping) : mapping * bool :=
  if one_of (col_lower col) ["state"; "country"]
  then (<[col := "region"]> column_mapping, true)
  else (column_mapping, false).

Definition region_loops (df_columns : list string) (column_mapping : mapping) : mapping :=
  let region_found := false in
  let '(column_mapping, region_found) :=
    for_break region_exact_body df_columns (column_mapping, region_found) in
  let '(column_mapping, region_found) :=
    if negb region_found
    then for_break region_partial_body df_columns (column_mapping, region_found)
    else (column_mapping, region_found) in
  if negb region_found
  then for_break region_last_body df_columns column_mapping
  else column_mapping.

(** Lines 160-170: the revenue loop. *)
Definition revenue_body (col : string) (column_mapping : mapping) : mapping * bool :=
  let cl := col_lower col in
  if String.eqb cl "sales"
  then (<[col := "revenue"]> column_mapping, true)
  else if Str.contains "sales" cl && negb (in_values "revenue" column_mapping)
  then (<[col := "revenue"]> column_mapping, true)
  else if one_of cl ["revenue"; "amount"; "total"]
          && negb (in_values "revenue" column_mapping)
  then (<[col := "revenue"]> column_mapping, true)
  else (column_mapping, false).

(** Lines 173-180: the quantity loop. *)
Definition quantity_body (col : string) (column_mapping : mapping) : mapping * bool :=
  let cl := col_lower col in
  if String.eqb cl "quantity"
  then (<[col := "quantity"]> column_mapping, true)
  else if Str.contains "quantity" cl || one_of cl ["qty"; "units"]
  then (<[col := "quantity"]> column_mapping, true)
  else (column_mapping, false).

(** The dictionary [column_mapping] as it stands at line 182. *)
Definition column_mapping_of (df_columns : list string) : mapping :=
  let column_mapping : mapping := ∅ in
  let column_mapping := for_break date_body df_columns column_mapping in
  let column_mapping := for_break product_body df_columns column_mapping in
  let column_mapping := region_loops df_columns column_mapping in
  let column_mapping := for_break revenue_body df_columns column_mapping in
  let column_mapping := for_break quantity_body df_columns column_mapping in
  column_mapping.

End ColumnMapper.

(** ** Catching exceptions *)

(** [try: m except Exception as e: handler(e)] *)
Definition try_except {A : Type} (m : M A) (handler : exn → M A) : M A := λ h,
  match m h with
  | (Return a, h') => (Return a, h')
  | (Raise e, h') => handler e h'
  end.

(** ** The end of [map_column_names] and [process_data] (app.py)

    Streamlit's cache around [process_data] is left out. *)

Module App.

Import ColumnMapper.

(** [df.rename(columns=column_mapping)] *)
Definition rename (column_mapping : mapping) (d : DataFrame) : DataFrame :=
  (λ cs : string * Series, (default cs.1 (column_mapping !! cs.1), cs.2)) <$> d.

(** Lines 90-187: a dictionary that is not empty is applied to a new
    table, otherwise the table itself is returned. *)
Definition map_column_names (df : ref) : M (ref * mapping) :=
  d ← load df;
  let df_columns := pd.columns d in
  let column_mapping := column_mapping_of df_columns in
  if negb (bool_decide (column_mapping = ∅)) then
    df_mapped ← new (rename column_mapping d);
    mret (df_mapped, column_mapping)
  else mret (df, ∅).

(** What [error_msg] is made of: the text itself is a matter of
    formatting. *)
Inductive error_message :=
| MissingRequired (missing_columns available_columns mapped_columns : list string)
    (column_mapping : mapping)
| Str (e : exn).

Definition required_columns : list string :=
  ["date"; "product"; "region"; "revenue"; "quantity"].

Section process_data.
Context `{Conversions}.

(** The tuple [(cleaned_df, analyzer, error_message, column_mapping_info)]. *)
Definition process_data (df : ref)
    : M (option ref * option DataAnalyzer.t * option error_message * option mapping) :=
  try_except
    (p ← map_column_names df;
     let '(df_mapped, column_mapping) := p in
     d_mapped ← load df_mapped;
     let missing_columns :=
       List.filter (λ col, negb (pd.has_column d_mapped col)) required_columns in
     if negb (bool_decide (missing_columns = [])) then
       d ← load df;
       let available_columns := pd.columns d in
       let mapped_columns := pd.columns d_mapped in
       let error_msg :=
         MissingRequired missing_columns available_columns mapped_columns column_mapping in
       mret (None, None, Some error_msg, None)
     else
       cleaned_df ← DataCleaner.clean_all df_mapped "fill";
       analyzer ← DataAnalyzer.__init__ cleaned_df;
       mret (Some cleaned_df, Some analyzer, None, Some column_mapping))
    (λ e, mret (None, None, Some (Str e), None)).

End process_data.

End App.

(** ** [DataLoader.validate_data] (scripts/data_loader.py)

    Reading the file is left out. *)

Module DataLoader.

(** [repr] of a list of names that need no escaping. *)
Definition repr_list (l : list string) : string :=
  "[" ++ String.concat ", " ((λ s, "'" ++ s ++ "'") <$> l) ++ "]".

(** [df.empty] *)
Definition empty (d : DataFrame) : bool := (pd.nrows d =? 0)%nat.

Section DataLoader.
Context `{Conversions}.

Definition validate_data (df : ref) : M (bool * list string) :=
  d ← load df;
  let issues : list string := [] in
  let required_columns := ["date"; "product"; "region"; "revenue"; "quantity"] in
  let missing_columns :=
    List.filter (λ col, negb (pd.has_column d col)) required_columns in
  let issues :=
    if negb (bool_decide (missing_columns = []))
    then (issues ++ [("Missing required columns: " ++ repr_list missing_columns)%string])%list
    else issues in
  let issues :=
    if empty d then (issues ++ ["DataFrame is empty"])%list else issues in
  let issues :=
    if pd.has_column d "date" then
      match pd.get_column d "date" ≫= agg.datetimes with
      | Some _ => issues
      | None => (issues ++ ["Date column cannot be converted to datetime"])%list
      end
    else issues in
  let numeric_columns := ["revenue"; "quantity"] in
  let issues :=
    foldl (λ issues col,
             if pd.has_column d col then
               if negb (from_option pd.is_number false (pd.get_column d col))
               then (issues ++ [("Column '" ++ col ++ "' should be numeric")%string])%list
               else issues
             else issues) issues numeric_columns in
  let is_valid := (length issues =? 0)%nat in
  mret (is_valid, issues).

End DataLoader.

End DataLoader.

(** ** [convert_superstore_dataset] (convert_kaggle_data.py)

    Printing is left out. *)

Module Converter.

(** The dictionary [mapping], in the order of its entries. *)
Definition mapping : list (string * string) :=
  [("Order Date", "date"); ("order_date", "date"); ("OrderDate", "date");
   ("Date", "date"); ("date", "date");
   ("Product Name", "product"); ("product_name", "product"); ("Product", "product");
   ("product", "product"); ("Item", "product"); ("item", "product");
   ("Region", "region"); ("region", "region"); ("State", "region");
   ("state", "region"); ("Country", "region"); ("country", "region");
   ("Sales", "revenue"); ("sales", "revenue"); ("Revenue", "revenue");
   ("revenue", "revenue"); ("Amount", "revenue"); ("amount", "revenue");
   ("Total", "revenue"); ("total", "revenue");
   ("Quantity", "quantity"); ("quantity", "quantity"); ("Qty", "quantity");
   ("qty", "quantity"); ("Units", "quantity"); ("units", "quantity")].

(** The inner loop: the first entry of [mapping] whose column is in the
    table and whose target is [required_col]. *)
Definition find_original (d : DataFrame) (required_col : string) : option string :=
  (λ found : nat * (string * string), found.2.1)
    <$> list_find (λ entry : string * string,
                     pd.has_column d entry.1 = true ∧ entry.2 = required_col) mapping.

(** The outer loop, which returns [None] at the first field without a
    column. *)
Fixpoint convert_columns (df new_df : ref) (required : list string) : M (option ref) :=
  match required with
  | [] => mret (Some new_df)
  | required_col :: rest =>
      d ← load df;
      match find_original d required_col with
      | Some original_col =>
          s ← getitem df original_col;
          setitem new_df required_col s;;
          convert_columns df new_df rest
      | None => mret None
      end
  end.

Definition convert_superstore_dataset (df : ref) : M (option ref) :=
  new_df ← new [];
  convert_columns df new_df ["date"; "product"; "region"; "revenue"; "quantity"].

End Converter.

(** ** [Dashboard] (main.py)

    Of the pipeline, the steps between loading and drawing: what
    [clean_data] and [analyze_data] store in the dashboard. *)

Module Dashboard.
Section Dashboard.
Context `{Conversions}.

Definition clean_data (raw_data : ref) : M ref :=
  cleaned_data ← DataCleaner.clean_all raw_data "fill";
  mret cleaned_data.

(** The attributes [analyze_data] sets. *)
Record analysis := {
  data_analyzer : DataAnalyzer.t;
  total_revenue : number;
  top_products : ref;
  region_revenue : ref;
  monthly_growth : ref;
  profit_analysis : option ref;
  summary_stats : DataAnalyzer.stats
}.

Definition analyze_data (include_profit : bool) (cleaned_data : ref) : M analysis :=
  data_analyzer ← DataAnalyzer.__init__ cleaned_data;
  total_revenue ← DataAnalyzer.calculate_total_revenue data_analyzer;
  top_products ← DataAnalyzer.get_top_products data_analyzer 10;
  region_revenue ← DataAnalyzer.get_region_wise_revenue data_analyzer;
  monthly_growth ← DataAnalyzer.calculate_monthly_growth_rate data_analyzer;
  profit_analysis ←
    (if include_profit then
       r ← DataAnalyzer.calculate_profit_margin data_analyzer None; mret (Some r)
     else mret None);
  summary_stats ← DataAnalyzer.get_summary_statistics data_analyzer;
  mret {| data_analyzer := data_analyzer;
          total_revenue := total_revenue;
          top_products := top_products;
          region_revenue := region_revenue;
          monthly_growth := monthly_growth;
          profit_analysis := profit_analysis;
          summary_stats := summary_stats |}.

End Dashboard.
End Dashboard.

(** ** Conditions of the mapper's loops

    For each loop, the columns at which it can stop. *)

Module MapperSpec.
Import ColumnMapper.

Definition date_cond (col : string) : bool := Str.contains "date" (col_lower col).

Definition product_cond (col : string) : bool :=
  let cl := col_lower col in
  Str.contains "product" cl || Str.contains "item" cl || Str.contains "name" cl.

Definition revenue_cond (col : string) : bool :=
  let cl := col_lower col in
  String.eqb cl "sales" || Str.contains "sales" cl
  || one_of cl ["revenue"; "amount"; "total"].

Definition quantity_cond (col : string) : bool :=
  let cl := col_lower col in
  String.eqb cl "quantity" || Str.contains "quantity" cl || one_of cl ["qty"; "units"].

Definition state_cond (col : string) : bool :=
  one_of (col_lower col) ["state"; "country"].

(** No key of the dictionary is mapped to [v]. *)
Definition unmapped (v : string) (m : mapping) : Prop := ∀ k, m !! k ≠ Some v.

(** At most one column is mapped to each field. *)
Definition one_column_per_field (m : mapping) : Prop :=
  ∀ c1 c2 v, m !! c1 = Some v → m !! c2 = Some v → c1 = c2.

(** The dictionary maps columns of [cols] to fields of [fields]. *)
Definition maps_into (cols fields : list string) (m : mapping) : Prop :=
  ∀ c v, m !! c = Some v → c ∈ cols ∧ v ∈ fields.

End MapperSpec.

(** ** Objects a computation leaves alone *)

(** Every object of the store the computation starts from is the same
    afterwards, whether the computation returns or raises. *)
Definition untouched {A : Type} (m : M A) : Prop :=
  ∀ (h : heap) (r : ref) (d : DataFrame), h !! r = Some d → (m h).2 !! r = Some d.

(** ** Tables that the cleaner's steps produce

    What [fix_data_types] stores in its copy, as a function of the table
    it was given; used to state when cleaning leaves no duplicates. *)

Module CleanerSpec.
Section CleanerSpec.
Context `{Conversions}.

(** [if col in df.columns: df[col] = f(df[col])] *)
Definition convert_column (col : string) (f : Series → Series) (d : DataFrame) : DataFrame :=
  if pd.has_column d col then
    match pd.get_column d col with
    | Some s => pd.set_column col (f s) d
    | None => d
    end
  else d.

Definition type_fixed (d : DataFrame) : DataFrame :=
  let d := convert_column "date" conv.to_datetime_coerce d in
  let d := convert_column "revenue" conv.to_numeric_coerce d in
  let d := convert_column "quantity" conv.to_numeric_coerce d in
  let d := convert_column "product" conv.astype_str d in
  convert_column "region" conv.astype_str d.

End CleanerSpec.
End CleanerSpec.

(** ** Rows that the cleaner keeps apart

    [clean_all] removes the repeated rows first and converts and fills
    the columns afterwards. Two rows that differ stay different when they
    differ in a column whose conversion gives different values to
    different values, and, where gaps are filled, when they differ in a
    column in which neither has a gap. *)

Module DistinctSpec.
Section DistinctSpec.
Context `{Conversions}.

(** What [fix_data_types] makes of the column named [col]. *)
Definition conversion (col : string) : Series → Series :=
  if String.eqb "date" col then conv.to_datetime_coerce
  else if String.eqb "revenue" col then conv.to_numeric_coerce
  else if String.eqb "quantity" col then conv.to_numeric_coerce
  else if String.eqb "product" col then conv.astype_str
  else if String.eqb "region" col then conv.astype_str
  else id.

(** The value of row [i] of a column, as [drop_duplicates] compares it. *)
Definition key_at (s : Series) (i : nat) : option cell :=
  pd.cell_key <$> pd.series_cells s !! i.

(** Rows whose values in the column differ have different values in the
    converted column too. *)
Definition one_to_one (col : string) (s : Series) : bool :=
  let rows := seq 0 (pd.series_length s) in
  let s' := conversion col s in
  forallb (λ i, forallb (λ j,
    implb (bool_decide (key_at s' i = key_at s' j))
          (bool_decide (key_at s i = key_at s j))) rows) rows.

Definition types_one_to_one (d : DataFrame) : bool :=
  forallb (λ cs : string * Series, one_to_one cs.1 cs.2) d.

(** Rows [i] and [j] have different values in the column, neither of
    them missing. *)
Definition differ_present (s : Series) (i j : nat) : bool :=
  match pd.series_cells s !! i, pd.series_cells s !! j with
  | Some a, Some b =>
      negb (pd.is_null a) && negb (pd.is_null b)
      && negb (bool_decide (pd.cell_key a = pd.cell_key b))
  | _, _ => false
  end.

(** Every two rows are equal or differ, once the types are fixed, in a
    column in which neither has a missing value. *)
Definition told_apart (d : DataFrame) : bool :=
  let rows := seq 0 (pd.nrows d) in
  let keys := pd.row_keys d in
  forallb (λ i, forallb (λ j,
    bool_decide (keys !! i = keys !! j)
    || existsb (λ cs : string * Series, differ_present (conversion cs.1 cs.2) i j) d)
    rows) rows.

End DistinctSpec.
End DistinctSpec.

(** ** Notions used to state the properties *)

Module FrameSpec.

(** Started from a store that extends [h0], the computation ends in a
    store that extends [h0], and what it returns satisfies [P]. *)
Definition keeps {A : Type} (h0 : heap) (m : M A) (P : A → Prop) : Prop :=
  ∀ h, h0 `prefix_of` h →
    h0 `prefix_of` (m h).2 ∧ ∀ a, (m h).1 = Return a → P a.

(** A reference to an object allocated after [h0]. *)
Definition fresh (h0 : heap) (r : ref) : Prop := (Datatypes.length h0 ≤ r)%nat.

End FrameSpec.

Module ExactSum.

(** The sum of a list of integers, without wrap-around. *)
Definition zsum (l : list Z) : Z := foldr Z.add 0%Z l.

End ExactSum.

Module PeriodSpec.

(** The calendar months of the dates, each once, in chronological order. *)
Definition months_of (v : list (option Timestamp)) : list Period :=
  isort period_leb (unique (omap (λ o : option Timestamp, to_period_M <$> o) v)).

(** The rows whose date falls in the month [p]. *)
Definition rows_of_month {A : Type} (v : list (option Timestamp)) (p : Period)
    (xs : list A) : list A :=
  take_mask ((λ o : option Timestamp, bool_decide (to_period_M <$> o = Some p)) <$> v) xs.

(** The revenue of each month: the sum over the rows of the month. *)
Definition monthly_sums `{Conversions} (v : list (option Timestamp)) (vals : Series) :
    option Series :=
  match vals with
  | Int64 r => Some (Int64 ((λ p, I64.sum (rows_of_month v p r)) <$> months_of v))
  | Float64 r =>
      Some (Float64 ((λ p, group_sum_floats (rows_of_month v p r)) <$> months_of v))
  | _ => None
  end.

End PeriodSpec.

Module ProfitSpec.

(** What [calculate_profit_margin] computes in each row when it has to
    estimate the cost. *)
Definition cost_of (revenue : float) : float := (revenue * 0.6)%float.
Definition profit_of (revenue : float) : float := (revenue - cost_of revenue)%float.
Definition margin_of (revenue : float) : float :=
  (profit_of revenue / revenue * 100)%float.

End ProfitSpec.

Module OrderSpec.

(** A numeric column whose values never increase from one row to the
    next, missing values last. *)
Definition non_increasing (s : Series) : Prop :=
  match s with
  | Int64 v => Sorted (λ a b, agg.int_desc a b = true) v
  | Float64 v => Sorted (λ a b, agg.float_desc a b = true) v
  | _ => False
  end.

(** A value that is not missing, of the type of the column. *)
Definition typed (keys : Series) (c : cell) : Prop :=
  match keys, c with
  | Int64 _, CInt _ | Object _, CStr _ | Datetime _, CTime _ | PeriodM _, CPeriod _ => True
  | Float64 _, CFloat x => F64.is_nan x = false
  | _, _ => False
  end.

End OrderSpec.

Module StrategySpec.

(** The type of the values of a column. *)
Inductive dtype := int64 | float64 | object | datetime64 | period_M.

Definition dtype_of (s : Series) : dtype :=
  match s with
  | Int64 _ => int64
  | Float64 _ => float64
  | Object _ => object
  | Datetime _ => datetime64
  | PeriodM _ => period_M
  end.

(** What the two loops of the strategy [fill] and the loop of the
    strategy [interpolate] do to a column they visit. *)
Definition fill_number (s : Series) : Series :=
  match s with
  | Float64 v => if pd.isnull_any s then Float64 (pd.fillna_float (pd.median v) v) else s
  | _ => s
  end.

Definition fill_text (s : Series) : Series :=
  match s with
  | Object v =>
      if pd.isnull_any s
      then Object (pd.fillna_object (default "Unknown" (head (pd.mode v))) v)
      else s
  | _ => s
  end.

Definition interpolate (s : Series) : Series :=
  match s with
  | Float64 v => if pd.isnull_any s then Float64 (pd.interpolate_linear v) else s
  | _ => s
  end.

(** A loop over column names that replaces each column by [f] of it. *)
Definition each_column (f : Series → Series) (names : list string) (d : DataFrame) : DataFrame :=
  foldl (λ d col, CleanerSpec.convert_column col f d) d names.

Definition filled (d : DataFrame) : DataFrame :=
  let d := each_column fill_number (pd.select_dtypes_number d) d in
  each_column fill_text (pd.select_dtypes_object d) d.

Definition interpolated (d : DataFrame) : DataFrame :=
  each_column interpolate (pd.select_dtypes_number d) d.

(** What the strategies make of a column, gaps or not. *)
Definition fill_series (s : Series) : Series :=
  match s with
  | Float64 v => Float64 (pd.fillna_float (pd.median v) v)
  | Object v => Object (pd.fillna_object (default "Unknown" (head (pd.mode v))) v)
  | _ => s
  end.

Definition interpolate_series (s : Series) : Series :=
  match s with
  | Float64 v => Float64 (pd.interpolate_linear v)
  | _ => s
  end.

(** A row without a missing value. *)
Definition complete (row : list cell) : bool := negb (existsb pd.is_null row).

(** A column as a step of the cleaner may return it: of the same type,
    and without gaps if it had none. *)
Definition keeps_kind (s s' : Series) : Prop :=
  dtype_of s' = dtype_of s ∧ (pd.isnull_any s = false → pd.isnull_any s' = false).

(** The types the cleaner gives the five fields: a column of dates,
    numeric columns, columns of texts without gaps. *)
Definition canonical_types (d : DataFrame) : Prop :=
  (∀ s, pd.get_column d "date" = Some s → dtype_of s = datetime64)
  ∧ (∀ col s, col ∈ ["revenue"; "quantity"] → pd.get_column d col = Some s →
       pd.is_number s = true)
  ∧ (∀ col s, col ∈ ["product"; "region"] → pd.get_column d col = Some s →
       dtype_of s = object ∧ pd.isnull_any s = false).

End StrategySpec.

Module ValidationSpec.
Section ValidationSpec.
Context `{Conversions}.

(** The required columns that the table lacks. *)
Definition missing_columns (d : DataFrame) : list string :=
  List.filter (λ col, negb (pd.has_column d col))
    ["date"; "product"; "region"; "revenue"; "quantity"].

(** The [date] column is there and cannot be read as dates. *)
Definition date_unreadable (d : DataFrame) : bool :=
  match pd.get_column d "date" with
  | Some s => negb (bool_decide (is_Some (agg.datetimes s)))
  | None => false
  end.

(** The column is there and is not numeric. *)
Definition not_numeric (d : DataFrame) (col : string) : bool :=
  match pd.get_column d col with
  | Some s => negb (pd.is_number s)
  | None => false
  end.

(** The issues, each under its condition, in the order of the checks. *)
Definition issues_of (d : DataFrame) : list string :=
  ((if bool_decide (missing_columns d = []) then []
    else [("Missing required columns: " ++ DataLoader.repr_list (missing_columns d))%string])
   ++ (if DataLoader.empty d then ["DataFrame is empty"] else [])
   ++ (if date_unreadable d then ["Date column cannot be converted to datetime"] else [])
   ++ (if not_numeric d "revenue" then ["Column 'revenue' should be numeric"] else [])
   ++ (if not_numeric d "quantity" then ["Column 'quantity' should be numeric"] else []))%list.

(** A table that has the five columns and at least one row, whose dates
    can be read and whose [revenue] and [quantity] are numeric. *)
Definition valid (d : DataFrame) : Prop :=
  (∀ col, col ∈ ["date"; "product"; "region"; "revenue"; "quantity"] →
     pd.has_column d col = true)
  ∧ pd.nrows d ≠ 0%nat
  ∧ (∃ s v, pd.get_column d "date" = Some s ∧ agg.datetimes s = Some v)
  ∧ (∀ col, col ∈ ["revenue"; "quantity"] →
       ∃ s, pd.get_column d col = Some s ∧ pd.is_number s = true).

End ValidationSpec.
End ValidationSpec.

Module ConverterSpec.

(** The column the converter takes for a field. *)
Definition column_for (d : DataFrame) (field : string) : option Series :=
  Converter.find_original d field ≫= pd.get_column d.

(** The table the converter builds when every field has a column. *)
Definition converted (d : DataFrame) : option DataFrame :=
  date ← column_for d "date";
  product ← column_for d "product";
  region ← column_for d "region";
  revenue ← column_for d "revenue";
  quantity ← column_for d "quantity";
  Some [("date", date); ("product", product); ("region", region);
        ("revenue", revenue); ("quantity", quantity)].

End ConverterSpec.

(** ** The rows [remove_outliers] keeps *)

Module OutlierSpec.
Section OutlierSpec.
Context `{Conversions}.

(** The test of the method [iqr], given the two quartiles. *)
Definition within_iqr (Q1 Q3 : float) (x : float) : bool :=
  let IQR := (Q3 - Q1)%float in
  let lower_bound := (Q1 - 1.5 * IQR)%float in
  let upper_bound := (Q3 + 1.5 * IQR)%float in
  (lower_bound <=? x)%float && (x <=? upper_bound)%float.

(** The test of the method [zscore] on a value of the column [xs]. *)
Definition within_zscore (xs : list float) (x : float) : bool :=
  (PrimFloat.abs ((x - mean_floats xs) / std_floats xs) <? 3)%float.

(** Whether the method removes rows at all. *)
Definition filtering (method : string) (xs : list float) : bool :=
  String.eqb method "iqr" || String.eqb method "zscore" && (0 <? std_floats xs)%float.

(** The values whose rows the method keeps, in a numeric column [s] with
    the values [xs]. *)
Definition keeps (method : string) (s : Series) (xs : list float) (x : float) : bool :=
  if String.eqb method "iqr" then
    match pd.series_quantile 1 4 s, pd.series_quantile 3 4 s with
    | Some Q1, Some Q3 => within_iqr Q1 Q3 x
    | _, _ => true
    end
  else if String.eqb method "zscore" && (0 <? std_floats xs)%float then within_zscore xs x
  else true.

End OutlierSpec.
End OutlierSpec.

(** ** Tables used in examples *)

Module Tables.

(** A table with a repeated row and dates still to be read. *)
Definition repeated_rows : DataFrame :=
  [("date", Object [Some "2024-01-05"; Some "2024-02-05"; Some "2024-01-05"]);
   ("product", Object [Some "Widget"; Some "Widget"; Some "Widget"]);
   ("region", Object [Some "East"; Some "East"; Some "East"]);
   ("revenue", Int64 [100; 50; 100]%Z);
   ("quantity", Int64 [2; 1; 2]%Z)].

(** A repeated row, dates still to be read, a product and a revenue
    missing. *)
Definition sales_with_gaps : DataFrame :=
  [("date", Object [Some "2024-01-05"; Some "2024-02-05"; Some "2024-01-05";
                    Some "2024-03-01"]);
   ("product", Object [Some "Widget"; Some "Gadget"; Some "Widget"; None]);
   ("revenue", Float64 [100; F64.nan; 100; 30]%float)].

(** An upload with the column names of a shop export. *)
Definition upload : DataFrame :=
  [("Order Date", Object [Some "2024-01-05"; Some "2024-02-05"]);
   ("Product Name", Object [Some "Widget"; None]);
   ("Region", Object [Some "East"; Some "West"]);
   ("Sales", Int64 [100; 50]%Z);
   ("Quantity", Int64 [2; 1]%Z)].

(** Five sales in three regions. *)
Definition five_sales : DataFrame :=
  [("region", Object [Some "East"; Some "West"; Some "East"; Some "North"; Some "West"]);
   ("revenue", Int64 [100; 50; 20; 7; 30]%Z)].

(** A row without region, in a table of integers. *)
Definition region_missing : DataFrame :=
  [("region", Object [Some "East"; None]); ("revenue", Int64 [100; 50]%Z)].

(** Revenue of 0 in January and of 50 in February. *)
Definition zero_then_fifty : DataFrame :=
  [("date", Datetime [Some (mkTimestamp 2024 1 5 0); Some (mkTimestamp 2024 2 5 0)]);
   ("revenue", Float64 [0; 50]%float)].

(** Three sales of two products. *)
Definition three_sales : DataFrame :=
  [("product", Object [Some "Widget"; Some "Gadget"; Some "Widget"]);
   ("revenue", Float64 [100; 50; 20]%float)].

End Tables.

(** * Theorems *)

Module ColumnMapperFacts.
Import ColumnMapper MapperSpec.

(** A loop whose body either leaves the dictionary alone or stores
    [column_mapping[col] = v] and breaks changes at most one entry. *)
Lemma for_break_simple (body : string → mapping → mapping * bool)
    (v : string) (C : string → bool) (cols : list string) (m : mapping) :
  (∀ col m, body col m = (m, false)
            ∨ (body col m = (<[col := v]> m, true) ∧ C col = true)) →
  for_break body cols m = m
  ∨ ∃ col, col ∈ cols ∧ C col = true ∧ for_break body cols m = <[col := v]> m.
Proof.
  intros Hbody. induction cols as [|c cols IH]; [by left|].
  cbn [for_break]. destruct (Hbody c m) as [-> | [-> HC]].
  - destruct IH as [-> | (col & Hin & HC & ->)]; [by left|].
    right. exists col. split; [by apply list_elem_of_further | done].
  - right. exists c. split; [apply list_elem_of_here | done].
Qed.

Lemma date_body_simple col m :
  date_body col m = (m, false)
  ∨ (date_body col m = (<[col := "date"]> m, true) ∧ date_cond col = true).
Proof.
  unfold date_body, date_cond.
  repeat (case_match; simpl; auto).
Qed.

Lemma product_body_simple col m :
  product_body col m = (m, false)
  ∨ (product_body col m = (<[col := "product"]> m, true) ∧ (λ _, true) col = true).
Proof. unfold product_body. repeat (case_match; simpl; auto). Qed.

Lemma revenue_body_simple col m :
  revenue_body col m = (m, false)
  ∨ (revenue_body col m = (<[col := "revenue"]> m, true) ∧ revenue_cond col = true).
Proof.
  unfold revenue_body, revenue_cond.
  destruct (String.eqb _ "sales"); [by right|].
  destruct (Str.contains "sales" _); simpl.
  - destruct (negb _); [by right|].
    destruct (one_of _ _); simpl; auto.
  - destruct (one_of _ _); simpl; [|by left].
    destruct (negb _); auto.
Qed.

Lemma quantity_body_simple col m :
  quantity_body col m = (m, false)
  ∨ (quantity_body col m = (<[col := "quantity"]> m, true) ∧ quantity_cond col = true).
Proof.
  unfold quantity_body, quantity_cond.
  destruct (String.eqb _ "quantity"); [by right|].
  destruct (Str.contains "quantity" _); simpl; [by right|].
  destruct (one_of _ _); auto.
Qed.

(** The first loop over the columns stops at the first exact match. *)
Lemma region_exact_loop cols m :
  for_break region_exact_body cols (m, false)
  = match list_find (λ c, col_lower c = "region") cols with
    | Some (_, c) => (<[c := "region"]> m, true)
    | None => (m, false)
    end.
Proof.
  induction cols as [|c cols IH]; [done|].
  cbn [for_break region_exact_body list_find].
  destruct (String.eqb_spec (col_lower c) "region") as [E|E].
  - by rewrite decide_True.
  - rewrite decide_False by done. rewrite IH.
    by destruct (list_find _ cols) as [[??]|].
Qed.

Lemma region_partial_loop cols m :
  for_break region_partial_body cols (m, false)
  = match list_find (λ c, Str.contains "region" (col_lower c) = true) cols with
    | Some (_, c) => (<[c := "region"]> m, true)
    | None => (m, false)
    end.
Proof.
  induction cols as [|c cols IH]; [done|].
  cbn [for_break region_partial_body list_find].
  destruct (Str.contains "region" (col_lower c)) eqn:E.
  - by rewrite decide_True.
  - rewrite decide_False by done. rewrite IH.
    by destruct (list_find _ cols) as [[??]|].
Qed.

Lemma region_last_body_simple col m :
  region_last_body col m = (m, false)
  ∨ (region_last_body col m = (<[col := "region"]> m, true) ∧ state_cond col = true).
Proof. unfold region_last_body, state_cond. destruct (one_of _ _); auto. Qed.

Lemma unmapped_insert v w k (m : mapping) :
  v ≠ w → unmapped v m → unmapped v (<[k := w]> m).
Proof.
  intros Hne Hm k'. destruct (decide (k = k')) as [->|].
  - rewrite lookup_insert_eq. congruence.
  - rewrite lookup_insert_ne by done. apply Hm.
Qed.

Lemma for_break_unmapped body v w C cols m :
  (∀ col m, body col m = (m, false)
            ∨ (body col m = (<[col := w]> m, true) ∧ C col = true)) →
  v ≠ w → unmapped v m → unmapped v (for_break body cols m).
Proof.
  intros Hb Hne Hm.
  destruct (for_break_simple body w C cols m Hb) as [-> | (col & _ & _ & ->)]; [done|].
  by apply unmapped_insert.
Qed.

(** The dictionary before the region loops holds no [region] entry. *)
Lemma before_region_unmapped cols :
  unmapped "region" (for_break product_body cols (for_break date_body cols ∅)).
Proof.
  eapply for_break_unmapped; [apply product_body_simple | done |].
  eapply for_break_unmapped; [apply date_body_simple | done |].
  intros k. by rewrite lookup_empty.
Qed.

(** The revenue and quantity loops add no [region] entry, and keep one
    whose column matches neither loop. *)
Lemma after_region_lookup cols (m : mapping) k :
  let mf := for_break quantity_body cols (for_break revenue_body cols m) in
  (mf !! k = Some "region" → m !! k = Some "region")
  ∧ (m !! k = Some "region" → revenue_cond k = false → quantity_cond k = false →
     mf !! k = Some "region").
Proof.
  intros mf. subst mf.
  destruct (for_break_simple _ _ _ cols m revenue_body_simple)
    as [-> | (c1 & _ & H1 & ->)];
  destruct (for_break_simple _ _ _ cols m quantity_body_simple)
    as [E | (c2 & _ & H2 & E)].
  all: try (destruct (for_break_simple _ _ _ cols (<[c1 := "revenue"]> m)
              quantity_body_simple) as [E' | (c3 & _ & H3 & E')]; rewrite E').
  all: try rewrite E.
  all: split; [| intros Hk Hr Hq].
  all: repeat (rewrite lookup_insert; case_decide; subst); try congruence; try done.
Qed.

Lemma one_of_pair s a b : one_of s [a; b] = true → s = a ∨ s = b.
Proof.
unfold one_of. intros H%bool_decide_eq_true_1.
rewrite !elem_of_cons in H. destruct H as [?|[?|H]]; auto. by apply elem_of_nil in H.
Qed.

(** C2. When some column is exactly "region" once lowered and stripped,
    the first such column is the one and only column mapped to [region],
    whatever columns merely contain "region"; and a column named "state"
    or "country" is mapped to [region] only when no column contains
    "region". *)
Theorem region_exact_match_wins (df_columns : list string) :
  let m := column_mapping_of df_columns in
  (∀ i col, list_find (λ c, col_lower c = "region") df_columns = Some (i, col) →
     m !! col = Some "region" ∧ ∀ c, m !! c = Some "region" → c = col)
  ∧ (∀ c, m !! c = Some "region" →
       one_of (col_lower c) ["state"; "country"] = true →
       ∀ c', c' ∈ df_columns → Str.contains "region" (col_lower c') = false).
Proof.
intros m. subst m. unfold column_mapping_of.
set (m2 := for_break product_body df_columns (for_break date_body df_columns ∅)).
assert (Hm2 : unmapped "region" m2) by apply before_region_unmapped.
unfold region_loops. rewrite region_exact_loop.
destruct (list_find (λ c, col_lower c = "region") df_columns) as [[i0 c0]|] eqn:Hex.
- (* an exact match exists *)
  cbn [negb].
  apply list_find_Some in Hex as (_ & Hc0 & _).
  assert (Hr : revenue_cond c0 = false) by (unfold revenue_cond; by rewrite Hc0).
  assert (Hq : quantity_cond c0 = false) by (unfold quantity_cond; by rewrite Hc0).
  assert (Huniq : ∀ c,
    for_break quantity_body df_columns
      (for_break revenue_body df_columns (<[c0 := "region"]> m2)) !! c = Some "region" →
    c = c0).
  { intros c Hc. apply after_region_lookup in Hc.
    destruct (decide (c0 = c)) as [->|Hne]; [done|].
    rewrite lookup_insert_ne in Hc by done. by apply Hm2 in Hc. }
  split.
  + intros i col [= <- <-]. split; [|done].
    apply after_region_lookup; [by rewrite lookup_insert_eq | done..].
  + intros c Hc Hst c' _. apply Huniq in Hc as ->.
    rewrite Hc0 in Hst. done.
- (* no exact match: the partial loop runs *)
  cbn [negb]. rewrite region_partial_loop.
  destruct (list_find (λ c, Str.contains "region" (col_lower c) = true) df_columns)
    as [[i1 c1]|] eqn:Hpa.
  + cbn [negb]. split; [done|].
    intros c Hc Hst c' _.
    apply list_find_Some in Hpa as (_ & Hc1 & _).
    apply after_region_lookup in Hc.
    destruct (decide (c1 = c)) as [->|Hne].
    * apply one_of_pair in Hst as [E|E]; rewrite E in Hc1; done.
    * rewrite lookup_insert_ne in Hc by done. by apply Hm2 in Hc.
  + cbn [negb]. split; [done|].
    intros c _ _ c' Hin.
    apply list_find_None in Hpa. rewrite Forall_forall in Hpa.
    specialize (Hpa c' Hin). by destruct (Str.contains "region" (col_lower c')).
Qed.

(** The exact match [" REGION "] is mapped although ["Sales Region"] comes
    first, and ["State"] is left alone. *)
Lemma region_exact_match_wins_witness :
  let m := column_mapping_of ["Sales Region"; "State"; " REGION "] in
  m !! " REGION " = Some "region" ∧ m !! "Sales Region" ≠ Some "region"
  ∧ m !! "State" ≠ Some "region".
Proof.
pose proof (region_exact_match_wins ["Sales Region"; "State"; " REGION "]) as [H _].
destruct (H 2%nat " REGION " eq_refl) as [H1 H2].
split; [exact H1|]. split; intros E; apply H2 in E; discriminate E.
Defined.

Lemma unmapped_in_values (v : string) (m : mapping) :
  unmapped v m → in_values v m = false.
Proof.
intros Hm. apply bool_decide_eq_false. intros Hin.
apply list_elem_of_fmap in Hin as ([k w] & -> & Hin).
apply elem_of_map_to_list in Hin. by apply Hm in Hin.
Qed.

Lemma unmapped_empty (v : string) : unmapped v (∅ : mapping).
Proof. intros k. by rewrite lookup_empty. Qed.

Lemma product_body_unmapped (c : string) (m : mapping) :
  in_values "product" m = false →
  product_body c m
  = if product_cond c then (<[c := "product"]> m, true) else (m, false).
Proof.
unfold product_body, product_cond. intros ->.
by destruct (Str.contains "product" _), (Str.contains "item" _), (Str.contains "name" _).
Qed.

Lemma date_body_unmapped (c : string) (m : mapping) :
  in_values "date" m = false →
  date_body c m = if date_cond c then (<[c := "date"]> m, true) else (m, false).
Proof.
unfold date_body, date_cond. intros ->.
destruct (Str.contains "date" _); [|done].
by destruct (Str.contains "order" _ || Str.contains "transaction" _ || Str.contains "sale" _).
Qed.

(** A loop that stops at the first column passing its test. *)
Lemma for_break_first (body : string → mapping → mapping * bool) (C : string → bool)
    (v : string) (cols : list string) (m : mapping) :
  (∀ c, body c m = if C c then (<[c := v]> m, true) else (m, false)) →
  for_break body cols m
  = match list_find (λ c, C c = true) cols with
    | Some (_, c) => <[c := v]> m
    | None => m
    end.
Proof.
intros Hbody. induction cols as [|c cols IH]; [done|].
cbn [for_break list_find]. rewrite Hbody. destruct (C c) eqn:E.
- by rewrite decide_True.
- rewrite decide_False by done. rewrite IH.
  by destruct (list_find _ cols) as [[??]|].
Qed.

(** As long as no column is mapped to [product], the product loop stops
    at the first column that passes any of its three tests. *)
Lemma product_loop (cols : list string) (m : mapping) :
  unmapped "product" m →
  for_break product_body cols m
  = match list_find (λ c, product_cond c = true) cols with
    | Some (_, c) => <[c := "product"]> m
    | None => m
    end.
Proof.
intros Hm%unmapped_in_values. apply for_break_first.
intros c. by apply product_body_unmapped.
Qed.

(** The date loop, likewise, stops at the first column containing "date". *)
Lemma date_loop (cols : list string) (m : mapping) :
  unmapped "date" m →
  for_break date_body cols m
  = match list_find (λ c, date_cond c = true) cols with
    | Some (_, c) => <[c := "date"]> m
    | None => m
    end.
Proof.
intros Hm%unmapped_in_values. apply for_break_first.
intros c. by apply date_body_unmapped.
Qed.

(** A loop that stores [w] keeps every entry with another value. *)
Lemma for_break_lookup body v w C cols (m : mapping) k :
  (∀ col m, body col m = (m, false)
            ∨ (body col m = (<[col := w]> m, true) ∧ C col = true)) →
  v ≠ w → for_break body cols m !! k = Some v → m !! k = Some v.
Proof.
intros Hb Hne.
destruct (for_break_simple body w C cols m Hb) as [-> | (col & _ & _ & ->)]; [done|].
rewrite lookup_insert. case_decide; [congruence | done].
Qed.

Lemma region_loops_lookup cols (m : mapping) k v :
  v ≠ "region" → region_loops cols m !! k = Some v → m !! k = Some v.
Proof.
intros Hne. unfold region_loops. rewrite region_exact_loop.
destruct (list_find _ cols) as [[i0 c0]|]; cbn [negb].
{ rewrite lookup_insert. case_decide; [congruence | done]. }
rewrite region_partial_loop.
destruct (list_find _ cols) as [[i1 c1]|]; cbn [negb].
{ rewrite lookup_insert. case_decide; [congruence | done]. }
by apply (for_break_lookup _ _ _ _ _ _ _ region_last_body_simple).
Qed.

(** C1. The product loop has one pass, not three: it stops at the first
    column that contains "product", "item" or "name", whichever of its
    three branches that column takes, and no other column is ever mapped
    to [product]. So with ["Product ID"] listed before ["Product Name"]
    the former is mapped and the latter is not, and ["Customer Name"] is
    mapped although ["Product Name"] comes later. *)
Theorem product_first_match_any_tier (df_columns : list string) :
  let before := for_break date_body df_columns ∅ in
  let m := column_mapping_of df_columns in
  for_break product_body df_columns before
  = match list_find (λ c, product_cond c = true) df_columns with
    | Some (_, c) => <[c := "product"]> before
    | None => before
    end
  ∧ (∀ col, m !! col = Some "product" →
       ∃ i, list_find (λ c, product_cond c = true) df_columns = Some (i, col))
  ∧ column_mapping_of ["Product ID"; "Product Name"] !! "Product ID" = Some "product"
  ∧ column_mapping_of ["Product ID"; "Product Name"] !! "Product Name" = None
  ∧ column_mapping_of ["Customer Name"; "Region"; "Product Name"; "Sales"] !! "Customer Name"
    = Some "product".
Proof.
intros before m.
assert (Hbefore : unmapped "product" before).
{ eapply for_break_unmapped; [apply date_body_simple | done | apply unmapped_empty]. }
split; [by apply product_loop|]. split; [|by vm_compute].
intros col Hcol. subst m. unfold column_mapping_of in Hcol. fold before in Hcol.
apply (for_break_lookup _ _ _ _ _ _ _ quantity_body_simple) in Hcol; [|done].
apply (for_break_lookup _ _ _ _ _ _ _ revenue_body_simple) in Hcol; [|done].
apply region_loops_lookup in Hcol; [|done].
rewrite (product_loop _ _ Hbefore) in Hcol.
destruct (list_find _ df_columns) as [[i c]|].
- exists i. destruct (decide (c = col)) as [->|Hne]; [done|].
  rewrite lookup_insert_ne in Hcol by done. by apply Hbefore in Hcol.
- by apply Hbefore in Hcol.
Qed.

(** The columns [Order Date], [Product Name], [Region], [Sales] and
    [Quantity] are mapped to the five fields, one to one. *)
Example mapping_scenario :
  column_mapping_of ["Order Date"; "Product Name"; "Region"; "Sales"; "Quantity"]
  = <["Order Date" := "date"]> (<["Product Name" := "product"]> (<["Region" := "region"]>
      (<["Sales" := "revenue"]> (<["Quantity" := "quantity"]> ∅)))).
Proof. vm_compute. reflexivity. Qed.

End ColumnMapperFacts.

(** ** Running a computation *)

Module run.

Lemma bind {A B : Type} (m : M A) (f : A → M B) (h : heap) :
  (m ≫= f) h = match m h with
               | (Return a, h') => f a h'
               | (Raise e, h') => (Raise e, h')
               end.
Proof. reflexivity. Qed.

Lemma ret {A : Type} (a : A) (h : heap) : (mret a : M A) h = (Return a, h).
Proof. reflexivity. Qed.

Lemma load_at (r : ref) (d : DataFrame) (h : heap) :
  h !! r = Some d → load r h = (Return d, h).
Proof. intros E. unfold load. by rewrite E. Qed.

Lemma copy_at (r : ref) (d : DataFrame) (h : heap) :
  h !! r = Some d → copy r h = (Return (length h), (h ++ [d])%list).
Proof. intros E. unfold copy. by rewrite bind, (load_at _ _ _ E). Qed.

Lemma getitem_at (r : ref) (col : string) (d : DataFrame) (s : Series) (h : heap) :
  h !! r = Some d → pd.get_column d col = Some s → getitem r col h = (Return s, h).
Proof. intros E G. unfold getitem. by rewrite bind, (load_at _ _ _ E), G. Qed.

Lemma getitem_missing (r : ref) (col : string) (d : DataFrame) (h : heap) :
  h !! r = Some d → pd.get_column d col = None → getitem r col h = (Raise (KeyError col), h).
Proof. intros E G. unfold getitem. by rewrite bind, (load_at _ _ _ E), G. Qed.

Lemma setitem_at (r : ref) (col : string) (s : Series) (d : DataFrame) (h : heap) :
  h !! r = Some d → setitem r col s h = (Return (), <[r := pd.set_column col s d]> h).
Proof. intros E. unfold setitem. by rewrite bind, (load_at _ _ _ E). Qed.

Lemma or_raise_Some {A : Type} (e : exn) (a : A) (h : heap) :
  or_raise e (Some a) h = (Return a, h).
Proof. reflexivity. Qed.

Lemma or_raise_None {A : Type} (e : exn) (h : heap) :
  or_raise (A := A) e None h = (Raise e, h).
Proof. reflexivity. Qed.

Lemma store_at (r : ref) (d : DataFrame) (h : heap) :
  store r d h = (Return (), <[r := d]> h).
Proof. reflexivity. Qed.

Lemma new_at (d : DataFrame) (h : heap) :
  new d h = (Return (length h), (h ++ [d])%list).
Proof. reflexivity. Qed.

(** The object allocated last. *)
Lemma lookup_new (h : heap) (d : DataFrame) : (h ++ [d])%list !! length h = Some d.
Proof. by rewrite lookup_app_r, Nat.sub_diag. Qed.

Lemma lookup_old (h : heap) (d d' : DataFrame) (r : ref) :
  h !! r = Some d → (h ++ [d'])%list !! r = Some d.
Proof. intros E. by apply lookup_app_l_Some. Qed.

Lemma insert_new (h : heap) (d d' : DataFrame) :
  <[length h := d']> (h ++ [d])%list = (h ++ [d'])%list.
Proof.
  rewrite insert_app_r_alt by done. by rewrite Nat.sub_diag.
Qed.

End run.

(** ** Masks, first occurrences and sorting *)

Module Basics.

Lemma take_mask_nil {A : Type} (mask : list bool) : take_mask mask (@nil A) = [].
Proof. by destruct mask as [|[]]. Qed.

Lemma take_mask_fmap {A B : Type} (f : A → B) (mask : list bool) (l : list A) :
  take_mask mask (f <$> l) = f <$> take_mask mask l.
Proof.
revert l. induction mask as [|b mask IH]; intros [|x l]; try done.
cbn. destruct b; cbn; by rewrite IH.
Qed.

Lemma take_mask_all {A : Type} (l : list A) :
  take_mask (replicate (length l) true) l = l.
Proof. induction l as [|x l IH]; [done|]. cbn. by rewrite IH. Qed.

Lemma take_mask_sublist {A : Type} (mask : list bool) (l : list A) :
  take_mask mask l `sublist_of` l.
Proof.
revert l. induction mask as [|b mask IH]; intros [|x l]; cbn.
- constructor.
- apply sublist_nil_l.
- constructor.
- destruct b; [apply sublist_skip | apply sublist_cons]; apply IH.
Qed.

Lemma take_mask_NoDup {A : Type} (mask : list bool) (l : list A) :
  NoDup l → NoDup (take_mask mask l).
Proof. intros Hl. eapply sublist_NoDup; [done | apply take_mask_sublist]. Qed.

Lemma take_mask_elem_of {A : Type} (mask : list bool) (l : list A) (x : A) :
  x ∈ take_mask mask l → x ∈ l.
Proof. intros Hx. eapply elem_of_sublist; [done | apply take_mask_sublist]. Qed.

(** The length of a selection depends on the length of the list only. *)
Lemma take_mask_length {A B : Type} (mask : list bool) (l : list A) (k : list B) :
  length l = length k → length (take_mask mask l) = length (take_mask mask k).
Proof.
revert l k. induction mask as [|b mask IH]; intros [|x l] [|y k] E; try done.
cbn. injection E as E. destruct b; cbn; auto.
Qed.

Lemma take_mask_zip_with {A B C : Type} (f : A → B → C) (mask : list bool)
    (l : list A) (k : list B) :
  length l = length k →
  take_mask mask (zip_with f l k) = zip_with f (take_mask mask l) (take_mask mask k).
Proof.
revert l k. induction mask as [|b mask IH]; intros [|x l] [|y k] E; try done.
cbn. injection E as E. destruct b; cbn; by rewrite IH.
Qed.

Lemma take_mask_replicate {A : Type} (mask : list bool) (n : nat) (x : A) :
  take_mask mask (replicate n x)
  = replicate (length (take_mask mask (replicate n x))) x.
Proof.
revert n. induction mask as [|b mask IH]; intros [|n]; try done.
cbn. destruct b; cbn; by rewrite <- IH.
Qed.

Section first_occurrence.
Context {A : Type} `{EqDecision A}.

Lemma first_occurrence_length (seen l : list A) :
  length (first_occurrence seen l) = length l.
Proof.
revert seen. induction l as [|x l IH]; intros seen; [done|].
cbn. case_decide; cbn; by rewrite IH.
Qed.

(** Among elements that are pairwise distinct and not seen before, each
    is a first occurrence. *)
Lemma first_occurrence_NoDup (seen l : list A) :
  NoDup l → (∀ x, x ∈ l → x ∉ seen) →
  first_occurrence seen l = replicate (length l) true.
Proof.
revert seen. induction l as [|x l IH]; intros seen Hl Hseen; [done|].
apply NoDup_cons in Hl as [Hx Hl]. cbn.
rewrite decide_False by (apply Hseen; left).
f_equal. apply IH; [done|].
intros y Hy [->|Hin]%elem_of_cons; [done|].
by apply (Hseen y); [right|].
Qed.

Lemma first_occurrence_elem_of (seen l : list A) (x : A) :
  x ∈ take_mask (first_occurrence seen l) l → x ∉ seen.
Proof.
revert seen. induction l as [|y l IH]; intros seen; cbn.
- by intros ?%elem_of_nil.
- case_decide as Hy.
  + apply IH.
  + intros [->|Hx]%elem_of_cons; [done|].
    apply IH in Hx. intros Hs. apply Hx. by right.
Qed.

(** The first occurrences are pairwise distinct. *)
Lemma first_occurrence_keeps_NoDup (seen l : list A) :
  NoDup (take_mask (first_occurrence seen l) l).
Proof.
revert seen. induction l as [|y l IH]; intros seen; cbn; [constructor|].
case_decide as Hy; [apply IH|].
apply NoDup_cons. split; [|apply IH].
intros Hin%first_occurrence_elem_of. apply Hin. left.
Qed.

(** Every element was seen before or occurs among the first occurrences. *)
Lemma first_occurrence_covers (seen l : list A) (x : A) :
  x ∈ l → x ∈ seen ∨ x ∈ take_mask (first_occurrence seen l) l.
Proof.
revert seen. induction l as [|y l IH]; intros seen; [by intros ?%elem_of_nil|].
intros [->|Hx]%elem_of_cons; cbn.
- case_decide; [by left | right; left].
- case_decide.
  + by apply IH.
  + destruct (IH (y :: seen) Hx) as [[->|?]%elem_of_cons|?]; auto.
    * right; left.
    * right. by right.
Qed.

Lemma unique_NoDup (l : list A) : NoDup (unique l).
Proof. apply first_occurrence_keeps_NoDup. Qed.

Lemma unique_elem_of (l : list A) (x : A) : x ∈ unique l ↔ x ∈ l.
Proof.
split.
- apply take_mask_elem_of.
- intros Hx. destruct (first_occurrence_covers [] l x Hx) as [?%elem_of_nil|?]; done.
Qed.

End first_occurrence.

Section isort.
Context {A : Type} (before : A → A → bool).

Lemma insert_sorted_Permutation (x : A) (l : list A) :
  insert_sorted before x l ≡ₚ x :: l.
Proof.
induction l as [|y l IH]; cbn; [done|].
destruct (before x y); [done|]. rewrite IH. apply Permutation_swap.
Qed.

Lemma isort_Permutation (l : list A) : isort before l ≡ₚ l.
Proof.
induction l as [|x l IH]; cbn; [done|].
unfold isort in *. rewrite insert_sorted_Permutation. by rewrite IH.
Qed.

Lemma isort_length (l : list A) : length (isort before l) = length l.
Proof. apply Permutation_length, isort_Permutation. Qed.

(** When one of two elements may always stand before the other, sorting
    puts every element before its successor. *)
Lemma insert_sorted_Sorted (x : A) (l : list A) :
  (∀ a b, before a b = false → before b a = true) →
  Sorted (λ a b, before a b = true) l →
  Sorted (λ a b, before a b = true) (insert_sorted before x l).
Proof.
intros Htotal. induction l as [|y l IH]; intros Hl; cbn.
- repeat constructor.
- destruct (before x y) eqn:E.
  + constructor; [done | by constructor].
  + apply Sorted_inv in Hl as [Hl Hy].
    constructor; [by apply IH|].
    destruct l as [|z l]; cbn.
    * constructor. by apply Htotal.
    * destruct (before x z); constructor; [by apply Htotal|].
      by apply HdRel_inv in Hy.
Qed.

Lemma isort_Sorted (l : list A) :
  (∀ a b, before a b = false → before b a = true) →
  Sorted (λ a b, before a b = true) (isort before l).
Proof.
intros Htotal. induction l as [|x l IH]; cbn; [constructor|].
by apply insert_sorted_Sorted.
Qed.

End isort.

End Basics.

(** ** Frames: rows, selections and well-formedness *)

Module FrameFacts.

Lemma series_length_cells (s : Series) : pd.series_length s = length (pd.series_cells s).
Proof. destruct s; cbn; by rewrite length_fmap. Qed.

Lemma series_cells_take (mask : list bool) (s : Series) :
  pd.series_cells (pd.series_take mask s) = take_mask mask (pd.series_cells s).
Proof. destruct s; cbn; by rewrite Basics.take_mask_fmap. Qed.

Lemma series_take_length (mask : list bool) (s s' : Series) :
  pd.series_length s = pd.series_length s' →
  pd.series_length (pd.series_take mask s) = pd.series_length (pd.series_take mask s').
Proof.
rewrite !series_length_cells, !series_cells_take. apply Basics.take_mask_length.
Qed.

Lemma wf_filter_rows (mask : list bool) (d : DataFrame) :
  pd.wf d → pd.wf (pd.filter_rows mask d).
Proof.
unfold pd.wf, pd.filter_rows. intros Hd.
destruct d as [|[c s] d]; [constructor|].
rewrite Forall_fmap. eapply Forall_impl; [exact Hd|].
intros [c' s'] E. cbn in *. by apply series_take_length.
Qed.

Lemma rows_from_cons (base : list (list cell)) (c : string) (s : Series) (d : DataFrame) :
  pd.rows_from base ((c, s) :: d)
  = zip_with cons (pd.series_cells s) (pd.rows_from base d).
Proof. reflexivity. Qed.

Lemma rows_from_length (base : list (list cell)) (d : DataFrame) :
  Forall (λ cs, pd.series_length cs.2 = length base) d →
  length (pd.rows_from base d) = length base.
Proof.
induction 1 as [|[c s] d E _ IH]; [done|].
rewrite rows_from_cons, length_zip_with, IH, <- series_length_cells.
cbn in E. lia.
Qed.

Lemma rows_of_length (d : DataFrame) : pd.wf d → length (pd.rows_of d) = pd.nrows d.
Proof.
intros Hd. unfold pd.rows_of. rewrite rows_from_length; rewrite length_replicate; done.
Qed.

Lemma rows_from_filter_rows (mask : list bool) (base : list (list cell)) (d : DataFrame) :
  Forall (λ cs, pd.series_length cs.2 = length base) d →
  pd.rows_from (take_mask mask base) (pd.filter_rows mask d)
  = take_mask mask (pd.rows_from base d).
Proof.
induction 1 as [|[c s] d E Hd IH]; [done|].
change (pd.filter_rows mask ((c, s) :: d))
  with ((c, pd.series_take mask s) :: pd.filter_rows mask d).
rewrite !rows_from_cons, IH, series_cells_take.
symmetry. apply Basics.take_mask_zip_with.
rewrite rows_from_length by done. by rewrite <- series_length_cells.
Qed.

(** Selecting rows of a frame selects the same rows of its transpose. *)
Lemma rows_of_filter_rows (mask : list bool) (d : DataFrame) :
  pd.wf d → pd.rows_of (pd.filter_rows mask d) = take_mask mask (pd.rows_of d).
Proof.
intros Hd. unfold pd.rows_of.
rewrite <- rows_from_filter_rows by (by rewrite length_replicate).
f_equal. rewrite Basics.take_mask_replicate. f_equal.
destruct d as [|[c s] d]; [cbn; by rewrite Basics.take_mask_nil|].
cbn. rewrite series_length_cells, series_cells_take.
apply Basics.take_mask_length. by rewrite length_replicate, <- series_length_cells.
Qed.

Lemma row_keys_filter_rows (mask : list bool) (d : DataFrame) :
  pd.wf d → pd.row_keys (pd.filter_rows mask d) = take_mask mask (pd.row_keys d).
Proof.
intros Hd. unfold pd.row_keys. by rewrite rows_of_filter_rows, Basics.take_mask_fmap.
Qed.

Lemma nrows_filter_all (d : DataFrame) :
  pd.nrows (pd.filter_rows (replicate (pd.nrows d) true) d) = pd.nrows d.
Proof.
destruct d as [|[c s] d]; [done|]. cbn.
rewrite !series_length_cells, series_cells_take, Basics.take_mask_all. done.
Qed.

(** A frame whose rows are pairwise distinct loses no row to
    [drop_duplicates]. *)
Lemma removed_count_NoDup (d : DataFrame) :
  pd.wf d → NoDup (pd.row_keys d) → DataCleaner.removed_count d = 0%nat.
Proof.
intros Hd Hrows. unfold DataCleaner.removed_count, pd.drop_duplicates.
rewrite Basics.first_occurrence_NoDup; [|done|by intros ?? ?%elem_of_nil].
unfold pd.row_keys. rewrite length_fmap, rows_of_length by done.
rewrite nrows_filter_all. lia.
Qed.

Lemma has_column_get (d : DataFrame) (col : string) :
  pd.has_column d col = true ↔ is_Some (pd.get_column d col).
Proof.
unfold pd.has_column, pd.columns. rewrite bool_decide_eq_true.
induction d as [|[c s] d IH]; cbn.
- split; [by intros ?%elem_of_nil | by intros [??]].
- rewrite elem_of_cons. destruct (String.eqb_spec c col) as [->|Hne].
  + split; [by eexists | by left].
  + rewrite <- IH. split; [intros [?|?]; [congruence|done] | by right].
Qed.

Lemma has_column_missing (d : DataFrame) (col : string) :
  pd.has_column d col = false ↔ pd.get_column d col = None.
Proof.
rewrite <- not_true_iff_false, has_column_get, <- eq_None_not_Some. done.
Qed.

Lemma get_set_column_eq (d : DataFrame) (col : string) (s : Series) :
  pd.get_column (pd.set_column col s d) col = Some s.
Proof.
induction d as [|[c s'] d IH]; cbn.
- by rewrite String.eqb_refl.
- destruct (String.eqb_spec c col) as [->|Hne]; cbn.
  + by rewrite String.eqb_refl.
  + by destruct (String.eqb_spec c col).
Qed.

Lemma get_set_column_ne (d : DataFrame) (col col' : string) (s : Series) :
  col ≠ col' → pd.get_column (pd.set_column col s d) col' = pd.get_column d col'.
Proof.
intros Hne. induction d as [|[c s'] d IH]; cbn.
- by destruct (String.eqb_spec col col').
- destruct (String.eqb_spec c col) as [->|Hc]; cbn.
  + by destruct (String.eqb_spec col col').
  + by rewrite IH.
Qed.

Lemma get_column_length (d : DataFrame) (col : string) (s : Series) :
  pd.wf d → pd.get_column d col = Some s → pd.series_length s = pd.nrows d.
Proof.
unfold pd.wf. generalize (pd.nrows d) as n. intros n Hd.
induction Hd as [|[c s'] d E _ IH]; cbn; [done|].
destruct (String.eqb c col); [by intros [= <-] | done].
Qed.

Lemma nrows_set_column (d : DataFrame) (col : string) (s : Series) :
  is_Some (pd.get_column d col) → pd.series_length s = pd.nrows d →
  pd.nrows (pd.set_column col s d) = pd.nrows d.
Proof.
destruct d as [|[c s'] d]; cbn; [by intros [??]|].
intros _ E. by destruct (String.eqb c col).
Qed.

(** Replacing a column by one of the same length keeps the frame
    well-formed. *)
Lemma wf_set_column (d : DataFrame) (col : string) (s : Series) :
  pd.wf d → is_Some (pd.get_column d col) → pd.series_length s = pd.nrows d →
  pd.wf (pd.set_column col s d).
Proof.
intros Hd Hcol E. unfold pd.wf. rewrite nrows_set_column by done.
unfold pd.wf in Hd. remember (pd.nrows d) as n eqn:Hn. clear Hn Hcol.
induction Hd as [|[c s'] d E' Hd IH]; cbn.
- by repeat constructor.
- destruct (String.eqb c col); constructor; done.
Qed.

End FrameFacts.

Module DataCleanerRuns.
Section DataCleanerRuns.
Context `{Conversions}.
Import DataCleaner CleanerSpec FrameFacts.

Lemma remove_duplicates_run (h : heap) (df : ref) (d : DataFrame) :
  h !! df = Some d →
  remove_duplicates df h = (Return (length h), (h ++ [pd.drop_duplicates d])%list).
Proof.
intros Hdf. unfold remove_duplicates. by rewrite run.bind, (run.load_at _ _ _ Hdf).
Qed.

Lemma convert_inplace_run (h : heap) (r : ref) (d : DataFrame) (col : string)
    (f : Series → Series) :
  h !! r = Some d →
  convert_inplace r col f h = (Return (), <[r := convert_column col f d]> h).
Proof.
intros Hr. unfold convert_inplace, convert_column.
rewrite run.bind, (run.load_at _ _ _ Hr).
destruct (pd.has_column d col) eqn:Hcol.
- apply has_column_get in Hcol as [s Hs]. rewrite Hs.
  by rewrite run.bind, (run.getitem_at _ _ _ _ _ Hr Hs), (run.setitem_at _ _ _ _ _ Hr).
- by rewrite list_insert_id.
Qed.

Lemma fix_data_types_run (h : heap) (df : ref) (d : DataFrame) :
  h !! df = Some d →
  fix_data_types df h = (Return (length h), (h ++ [type_fixed d])%list).
Proof.
intros Hdf. unfold fix_data_types, type_fixed.
rewrite run.bind, (run.copy_at _ _ _ Hdf).
rewrite run.bind, (convert_inplace_run _ _ _ _ _ (run.lookup_new _ _)), run.insert_new.
cbn [for_each].
repeat first
  [ rewrite (convert_inplace_run _ _ _ _ _ (run.lookup_new _ _)), run.insert_new
  | rewrite run.ret
  | rewrite run.bind ].
reflexivity.
Qed.

Lemma handle_missing_values_drop_run (h : heap) (df : ref) (d : DataFrame) :
  h !! df = Some d →
  pd.isnull_sum_sum d ≠ 0%nat →
  handle_missing_values df "drop" h
  = (Return (S (length h)), (h ++ [d; pd.dropna d])%list).
Proof.
intros Hdf Hmiss. unfold handle_missing_values.
rewrite run.bind, (run.load_at _ _ _ Hdf).
apply Nat.eqb_neq in Hmiss. rewrite Hmiss.
rewrite run.bind, (run.copy_at _ _ _ Hdf), run.bind. cbn [String.eqb Ascii.eqb Bool.eqb].
rewrite run.bind, (run.load_at _ _ _ (run.lookup_new _ _)).
unfold new. rewrite length_app, Nat.add_1_r, <- app_assoc. reflexivity.
Qed.

Lemma handle_missing_values_same_run (h : heap) (df : ref) (d : DataFrame)
    (strategy : string) :
  h !! df = Some d →
  pd.isnull_sum_sum d = 0%nat →
  handle_missing_values df strategy h = (Return df, h).
Proof.
intros Hdf Hnone. unfold handle_missing_values.
rewrite run.bind, (run.load_at _ _ _ Hdf), Hnone. reflexivity.
Qed.

Lemma unknown_strategy_eqb (strategy : string) :
  strategy ∉ ["fill"; "drop"; "interpolate"] →
  String.eqb strategy "drop" = false ∧ String.eqb strategy "fill" = false
  ∧ String.eqb strategy "interpolate" = false.
Proof.
intros Hs. repeat split.
all: match goal with |- String.eqb _ ?x = false =>
       destruct (String.eqb_spec strategy x) as [->|]; [|done] end.
all: exfalso; apply Hs; repeat constructor.
Qed.

Lemma handle_missing_values_other_run (h : heap) (df : ref) (d : DataFrame)
    (strategy : string) :
  h !! df = Some d →
  strategy ∉ ["fill"; "drop"; "interpolate"] →
  handle_missing_values df strategy h
  = if (pd.isnull_sum_sum d =? 0)%nat then (Return df, h)
    else (Return (length h), (h ++ [d])%list).
Proof.
intros Hdf Hs. unfold handle_missing_values.
rewrite run.bind, (run.load_at _ _ _ Hdf).
destruct (pd.isnull_sum_sum d =? 0)%nat; [reflexivity|].
rewrite run.bind, (run.copy_at _ _ _ Hdf), run.bind.
destruct (unknown_strategy_eqb strategy Hs) as (Ed & Ef & Ei).
rewrite Ed, Ef, Ei. reflexivity.
Qed.

Lemma to_datetime_coerce_length (s : Series) :
  pd.series_length (conv.to_datetime_coerce s) = pd.series_length s.
Proof. destruct s; cbn; by rewrite ?length_fmap. Qed.

Lemma to_numeric_coerce_length (s : Series) :
  pd.series_length (conv.to_numeric_coerce s) = pd.series_length s.
Proof.
destruct s as [v|v|v|v|v]; cbn; rewrite ?length_fmap; try done.
destruct (mapM _ _) as [ints|] eqn:E; cbn.
- apply length_mapM in E. by rewrite <- E, length_fmap.
- by rewrite !length_fmap.
Qed.

Lemma astype_str_length (s : Series) :
  pd.series_length (conv.astype_str s) = pd.series_length s.
Proof. destruct s; cbn; by rewrite ?length_fmap. Qed.

Lemma wf_convert_column (col : string) (f : Series → Series) (d : DataFrame) :
  (∀ s, pd.series_length (f s) = pd.series_length s) →
  pd.wf d → pd.wf (convert_column col f d).
Proof.
intros Hf Hd. unfold convert_column.
destruct (pd.has_column d col); [|done].
destruct (pd.get_column d col) as [s|] eqn:Hs; [|done].
apply wf_set_column; [done | by rewrite Hs |].
rewrite Hf. by eapply get_column_length.
Qed.

Lemma wf_type_fixed (d : DataFrame) : pd.wf d → pd.wf (type_fixed d).
Proof.
intros Hd. unfold type_fixed.
repeat apply wf_convert_column;
  auto using to_datetime_coerce_length, to_numeric_coerce_length, astype_str_length.
Qed.

Lemma filter_rows_all (d : DataFrame) :
  pd.wf d → pd.filter_rows (replicate (pd.nrows d) true) d = d.
Proof.
unfold pd.wf, pd.filter_rows. generalize (pd.nrows d) as n. intros n Hd.
induction Hd as [|[c s] d E _ IH]; [done|].
cbn in *. rewrite IH. do 2 f_equal.
destruct s; cbn in *; rewrite <- E; by rewrite Basics.take_mask_all.
Qed.

(** A frame whose rows are pairwise distinct is its own deduplication. *)
Lemma drop_duplicates_NoDup (d : DataFrame) :
  pd.wf d → NoDup (pd.row_keys d) → pd.drop_duplicates d = d.
Proof.
intros Hd Hrows. unfold pd.drop_duplicates.
rewrite Basics.first_occurrence_NoDup; [|done|by intros ?? ?%elem_of_nil].
unfold pd.row_keys. rewrite length_fmap, rows_of_length by done.
by apply filter_rows_all.
Qed.

Lemma wf_dropna (d : DataFrame) : pd.wf d → pd.wf (pd.dropna d).
Proof. apply wf_filter_rows. Qed.

Lemma row_keys_dropna_NoDup (d : DataFrame) :
  pd.wf d → NoDup (pd.row_keys d) → NoDup (pd.row_keys (pd.dropna d)).
Proof.
intros Hd Hrows. unfold pd.dropna.
rewrite row_keys_filter_rows by done. by apply Basics.take_mask_NoDup.
Qed.

(** Deduplicating a duplicate-free table allocates an equal table. *)
Lemma remove_duplicates_NoDup_run (h : heap) (r : ref) (d : DataFrame) :
  h !! r = Some d → pd.wf d → NoDup (pd.row_keys d) →
  removed_count d = 0%nat
  ∧ remove_duplicates r h = (Return (length h), (h ++ [d])%list).
Proof.
intros Hr Hd Hrows. split; [by apply removed_count_NoDup|].
by rewrite (remove_duplicates_run _ _ _ Hr), drop_duplicates_NoDup.
Qed.

(** Whenever [handle_missing_values] neither fills nor interpolates,
    [clean_all] returns a table without duplicate rows, provided type
    fixing made no two rows equal. *)
Lemma clean_all_NoDup_run (h : heap) (df : ref) (d : DataFrame) (strategy : string) :
  h !! df = Some d →
  pd.wf d →
  NoDup (pd.row_keys (type_fixed (pd.drop_duplicates d))) →
  pd.isnull_sum_sum (type_fixed (pd.drop_duplicates d)) = 0%nat
  ∨ strategy ∉ ["fill"; "interpolate"] →
  ∃ r h' d',
    clean_all df strategy h = (Return r, h')
    ∧ h' !! r = Some d'
    ∧ pd.wf d' ∧ NoDup (pd.row_keys d').
Proof.
intros Hdf Hd Hrows Hcase. unfold clean_all.
rewrite run.bind, (run.copy_at _ _ _ Hdf).
rewrite run.bind, (remove_duplicates_run _ _ _ (run.lookup_new _ _)).
rewrite run.bind, (fix_data_types_run _ _ _ (run.lookup_new _ _)).
set (d2 := type_fixed (pd.drop_duplicates d)) in *.
set (h2 := ((h ++ [d]) ++ [pd.drop_duplicates d])%list).
assert (Hd2 : pd.wf d2) by (apply wf_type_fixed; by apply wf_filter_rows).
rewrite run.bind.
destruct (decide (pd.isnull_sum_sum d2 = 0%nat)) as [Hnone|Hsome].
{ rewrite (handle_missing_values_same_run _ _ _ _ (run.lookup_new _ _) Hnone).
  exists (length h2), (h2 ++ [d2])%list, d2.
  split; [done|]. split; [apply run.lookup_new|done]. }
destruct Hcase as [?|Hs]; [done|].
destruct (String.eqb_spec strategy "drop") as [->|Hdrop].
- rewrite (handle_missing_values_drop_run _ _ _ (run.lookup_new _ _) Hsome).
  exists (S (length (h2 ++ [d2]))), ((h2 ++ [d2]) ++ [d2; pd.dropna d2])%list, (pd.dropna d2).
  split; [done|]. split.
  + rewrite lookup_app_r by lia. by replace (_ - _)%nat with 1%nat by lia.
  + split; [by apply wf_dropna | by apply row_keys_dropna_NoDup].
- rewrite (handle_missing_values_other_run _ _ _ _ (run.lookup_new _ _)).
  2:{ intros Hin. apply elem_of_cons in Hin as [->|Hin].
      - apply Hs. repeat constructor.
      - apply elem_of_cons in Hin as [->|Hin]; [done|].
        apply Hs. by constructor. }
  apply Nat.eqb_neq in Hsome. rewrite Hsome.
  exists (length (h2 ++ [d2])), ((h2 ++ [d2]) ++ [d2])%list, d2.
  split; [done|]. split; [apply run.lookup_new|done].
Qed.

End DataCleanerRuns.
End DataCleanerRuns.

(** ** Computations that write to their own objects only *)

Module Frame.
Import FrameSpec.

Lemma keeps_weaken {A : Type} (h0 : heap) (m : M A) (P Q : A → Prop) :
  keeps h0 m P → (∀ a, P a → Q a) → keeps h0 m Q.
Proof. intros Hm HPQ h Hh. destruct (Hm h Hh) as [? HP]. split; [done|]. eauto. Qed.

Lemma keeps_ret {A : Type} (h0 : heap) (a : A) (P : A → Prop) :
  P a → keeps h0 (mret a) P.
Proof. intros Ha h Hh. split; [done|]. by intros ? [= <-]. Qed.

Lemma keeps_raise {A : Type} (h0 : heap) (e : exn) (P : A → Prop) :
  keeps h0 (raise e) P.
Proof. intros h Hh. split; [done|]. by intros ? [=]. Qed.

Lemma keeps_bind {A B : Type} (h0 : heap) (m : M A) (f : A → M B)
    (P : A → Prop) (Q : B → Prop) :
  keeps h0 m P → (∀ a, P a → keeps h0 (f a) Q) → keeps h0 (m ≫= f) Q.
Proof.
intros Hm Hf h Hh. rewrite run.bind.
destruct (Hm h Hh) as [Hh' HP]. destruct (m h) as [[a|e] h']; cbn in *.
- apply Hf; auto.
- split; [done|]. by intros ? [=].
Qed.

Lemma keeps_load (h0 : heap) (r : ref) : keeps h0 (load r) (λ _, True).
Proof. intros h Hh. unfold load. by destruct (h !! r). Qed.

Lemma keeps_new (h0 : heap) (d : DataFrame) : keeps h0 (new d) (fresh h0).
Proof.
intros h Hh. cbn. split.
- by apply prefix_app_r.
- intros a [= <-]. by apply prefix_length.
Qed.

Lemma keeps_store (h0 : heap) (r : ref) (d : DataFrame) :
  fresh h0 r → keeps h0 (store r d) (λ _, True).
Proof.
intros Hr h [k ->]. cbn. split; [|done].
rewrite insert_app_r_alt by done. by apply prefix_app_r.
Qed.

Lemma keeps_copy (h0 : heap) (r : ref) : keeps h0 (copy r) (fresh h0).
Proof.
unfold copy. eapply keeps_bind; [apply keeps_load|]. intros d _. apply keeps_new.
Qed.

Lemma keeps_getitem (h0 : heap) (r : ref) (col : string) :
  keeps h0 (getitem r col) (λ _, True).
Proof.
unfold getitem. eapply keeps_bind; [apply keeps_load|]. intros d _.
destruct (pd.get_column d col); [by apply keeps_ret | apply keeps_raise].
Qed.

Lemma keeps_setitem (h0 : heap) (r : ref) (col : string) (s : Series) :
  fresh h0 r → keeps h0 (setitem r col s) (λ _, True).
Proof.
intros Hr. unfold setitem. eapply keeps_bind; [apply keeps_load|].
intros d _. by apply keeps_store.
Qed.

Lemma keeps_for_each {A : Type} (h0 : heap) (l : list A) (body : A → M unit) :
  (∀ x, keeps h0 (body x) (λ _, True)) → keeps h0 (for_each l body) (λ _, True).
Proof.
intros Hbody. induction l as [|x l IH]; cbn; [by apply keeps_ret|].
eapply keeps_bind; [apply Hbody | by intros].
Qed.

Lemma keeps_or_raise {A : Type} (h0 : heap) (e : exn) (o : option A) :
  keeps h0 (or_raise e o) (λ _, True).
Proof. destruct o; [by apply keeps_ret | apply keeps_raise]. Qed.

Lemma keeps_numeric_values (h0 : heap) (s : Series) :
  keeps h0 (numeric_values s) (λ _, True).
Proof.
apply keeps_or_raise.
Qed.

(** Whatever a computation returns, it keeps the objects of [h]. *)
Lemma keeps_untouched {A : Type} (m : M A) :
  (∀ h0, keeps h0 m (λ _, True)) → untouched m.
Proof.
intros Hm h r d Hr. destruct (Hm h h) as [[k ->] _]; [done|].
by apply lookup_app_l_Some.
Qed.

Lemma keeps_any {A : Type} (h0 : heap) (m : M A) (P : A → Prop) :
  keeps h0 m P → keeps h0 m (λ _, True).
Proof. intros Hm. by eapply keeps_weaken. Qed.

(** One step through a computation built from the operations above. *)
Ltac keeps_step :=
  lazymatch goal with
  | |- keeps _ (mret _) _ => by apply keeps_ret
  | |- keeps _ (raise _) _ => apply keeps_raise
  | |- keeps _ (new _) _ => first [apply keeps_new | apply (keeps_any _ _ _ (keeps_new _ _))]
  | |- keeps _ (copy _) _ => first [apply keeps_copy | apply (keeps_any _ _ _ (keeps_copy _ _))]
  | |- keeps _ (load _) _ => apply keeps_load
  | |- keeps _ (getitem _ _) _ => apply keeps_getitem
  | |- keeps _ (setitem _ _ _) _ => apply keeps_setitem; assumption
  | |- keeps _ (store _ _) _ => apply keeps_store; assumption
  | |- keeps _ (numeric_values _) _ => apply keeps_numeric_values
  | |- keeps _ (for_each _ _) _ => apply keeps_for_each; intros
  | |- keeps _ (if ?b then _ else _) _ => destruct b
  | |- keeps _ (match ?x with _ => _ end) _ => destruct x
  | |- keeps _ ((if _ then _ else _) ≫= _) _ =>
      eapply (keeps_bind _ _ _ (λ _, True)); [|intros ? ?]
  | |- keeps _ (_ ≫= _) _ => eapply keeps_bind; [|intros ? ?]
  end.

Ltac keeps_auto := repeat keeps_step.

Section ops.
Context `{Conversions}.
Import DataCleaner.

Lemma keeps_remove_duplicates (h0 : heap) (df : ref) :
  keeps h0 (remove_duplicates df) (λ _, True).
Proof. unfold remove_duplicates. keeps_auto. Qed.

Lemma keeps_handle_missing_values (h0 : heap) (df : ref) (strategy : string) :
  keeps h0 (handle_missing_values df strategy) (λ _, True).
Proof.
unfold handle_missing_values, fillna_number_inplace, fillna_object_inplace,
  interpolate_inplace.
keeps_auto.
Qed.

Lemma keeps_convert_inplace (h0 : heap) (r : ref) (col : string) (f : Series → Series) :
  fresh h0 r → keeps h0 (convert_inplace r col f) (λ _, True).
Proof. intros Hr. unfold convert_inplace. keeps_auto. Qed.

Lemma keeps_fix_data_types (h0 : heap) (df : ref) :
  keeps h0 (fix_data_types df) (λ _, True).
Proof.
unfold fix_data_types. keeps_auto; by apply keeps_convert_inplace.
Qed.

Lemma keeps_quantile (h0 : heap) (s : Series) (a b : nat) :
  keeps h0 (quantile s a b) (λ _, True).
Proof. apply keeps_or_raise. Qed.

Lemma keeps_remove_outliers (h0 : heap) (df : ref) (column method : string) :
  keeps h0 (remove_outliers df column method) (λ _, True).
Proof.
unfold remove_outliers.
repeat first [ apply keeps_quantile | keeps_step ].
Qed.

Lemma keeps_clean_all (h0 : heap) (df : ref) (strategy : string) :
  keeps h0 (clean_all df strategy) (λ _, True).
Proof.
unfold clean_all.
eapply keeps_bind; [apply keeps_copy|]. intros r0 _.
eapply keeps_bind; [apply keeps_remove_duplicates|]. intros r1 _.
eapply keeps_bind; [apply keeps_fix_data_types|]. intros r2 _.
eapply keeps_bind; [apply keeps_handle_missing_values|]. intros r3 _.
by apply keeps_ret.
Qed.

Lemma keeps_group_sum (h0 : heap) (keys vals : Series) :
  keeps h0 (agg.group_sum keys vals) (λ _, True).
Proof. apply keeps_or_raise. Qed.

Lemma keeps_group_mean (h0 : heap) (keys vals : Series) :
  keeps h0 (agg.group_mean keys vals) (λ _, True).
Proof. apply keeps_or_raise. Qed.

Lemma keeps_argsort_desc (h0 : heap) (s : Series) :
  keeps h0 (agg.argsort_desc s) (λ _, True).
Proof. apply keeps_or_raise. Qed.

Lemma keeps_series_mul (h0 : heap) (s : Series) (c : float) :
  keeps h0 (agg.series_mul s c) (λ _, True).
Proof. apply keeps_or_raise. Qed.

Lemma keeps_series_sub (h0 : heap) (a b : Series) :
  keeps h0 (agg.series_sub a b) (λ _, True).
Proof. apply keeps_or_raise. Qed.

Lemma keeps_series_div (h0 : heap) (a b : Series) :
  keeps h0 (agg.series_div a b) (λ _, True).
Proof. apply keeps_or_raise. Qed.

Lemma keeps_series_sum (h0 : heap) (s : Series) :
  keeps h0 (agg.series_sum s) (λ _, True).
Proof. apply keeps_or_raise. Qed.

Lemma keeps_dt_to_period_M (h0 : heap) (s : Series) :
  keeps h0 (agg.dt_to_period_M s) (λ _, True).
Proof. apply keeps_or_raise. Qed.

Lemma keeps_to_datetime (h0 : heap) (s : Series) :
  keeps h0 (agg.to_datetime s) (λ _, True).
Proof. apply keeps_or_raise. Qed.

Lemma keeps_min_str (h0 : heap) (s : Series) :
  keeps h0 (agg.min_str s) (λ _, True).
Proof. unfold agg.min_str. destruct (agg.ordered s); [by apply keeps_ret | apply keeps_raise]. Qed.

Lemma keeps_max_str (h0 : heap) (s : Series) :
  keeps h0 (agg.max_str s) (λ _, True).
Proof. unfold agg.max_str. destruct (agg.ordered s); [by apply keeps_ret | apply keeps_raise]. Qed.

(** The aggregation helpers never touch the store. *)
Ltac keeps_agg :=
  lazymatch goal with
  | |- keeps _ (agg.group_sum _ _) _ => apply keeps_group_sum
  | |- keeps _ (agg.group_mean _ _) _ => apply keeps_group_mean
  | |- keeps _ (agg.argsort_desc _) _ => apply keeps_argsort_desc
  | |- keeps _ (agg.series_mul _ _) _ => apply keeps_series_mul
  | |- keeps _ (agg.series_sub _ _) _ => apply keeps_series_sub
  | |- keeps _ (agg.series_div _ _) _ => apply keeps_series_div
  | |- keeps _ (agg.series_sum _) _ => apply keeps_series_sum
  | |- keeps _ (agg.dt_to_period_M _) _ => apply keeps_dt_to_period_M
  | |- keeps _ (agg.to_datetime _) _ => apply keeps_to_datetime
  | |- keeps _ (agg.min_str _) _ => apply keeps_min_str
  | |- keeps _ (agg.max_str _) _ => apply keeps_max_str
  end.

Import DataAnalyzer.

Lemma keeps___init__ (h0 : heap) (df0 : ref) : keeps h0 (__init__ df0) (λ _, True).
Proof. unfold __init__. keeps_auto. Qed.

Lemma keeps_calculate_total_revenue (h0 : heap) (self : t) :
  keeps h0 (calculate_total_revenue self) (λ _, True).
Proof. unfold calculate_total_revenue. repeat first [keeps_agg | keeps_step]. Qed.

Lemma keeps_get_top_products (h0 : heap) (self : t) (n : Z) :
  keeps h0 (get_top_products self n) (λ _, True).
Proof. unfold get_top_products. repeat first [keeps_agg | keeps_step]. Qed.

Lemma keeps_get_region_wise_revenue (h0 : heap) (self : t) :
  keeps h0 (get_region_wise_revenue self) (λ _, True).
Proof. unfold get_region_wise_revenue. repeat first [keeps_agg | keeps_step]. Qed.

Lemma keeps_calculate_monthly_growth_rate (h0 : heap) (self : t) :
  keeps h0 (calculate_monthly_growth_rate self) (λ _, True).
Proof. unfold calculate_monthly_growth_rate. repeat first [keeps_agg | keeps_step]. Qed.

Lemma keeps_calculate_profit_margin (h0 : heap) (self : t) (cost_column : option string) :
  keeps h0 (calculate_profit_margin self cost_column) (λ _, True).
Proof. unfold calculate_profit_margin. repeat first [keeps_agg | keeps_step]. Qed.

Lemma keeps_get_summary_statistics (h0 : heap) (self : t) :
  keeps h0 (get_summary_statistics self) (λ _, True).
Proof.
unfold get_summary_statistics.
eapply keeps_bind; [apply keeps_load|]. intros d _.
eapply keeps_bind; [apply keeps_calculate_total_revenue|]. intros total _.
repeat first [keeps_agg | keeps_step].
Qed.

End ops.
End Frame.

(** ** Sums, groups and orders *)

Module AggFacts.
Import FrameFacts ExactSum.

Local Open Scope Z_scope.

Lemma wrap_mod (z : Z) : I64.wrap z mod 2 ^ 64 = z mod 2 ^ 64.
Proof.
unfold I64.wrap.
rewrite <- Zminus_mod_idemp_l, Z.mod_mod by lia.
rewrite Zminus_mod_idemp_l. f_equal. lia.
Qed.

Lemma wrap_congr (a b : Z) : a mod 2 ^ 64 = b mod 2 ^ 64 → I64.wrap a = I64.wrap b.
Proof.
intros E. unfold I64.wrap.
rewrite <- (Zplus_mod_idemp_l a), <- (Zplus_mod_idemp_l b), E. done.
Qed.

Lemma wrap_add_l (a b : Z) : I64.wrap (I64.wrap a + b) = I64.wrap (a + b).
Proof.
apply wrap_congr. rewrite <- Zplus_mod_idemp_l, wrap_mod, Zplus_mod_idemp_l. done.
Qed.

Lemma wrap_add_r (a b : Z) : I64.wrap (a + I64.wrap b) = I64.wrap (a + b).
Proof. rewrite (Z.add_comm a), wrap_add_l. f_equal. lia. Qed.

Lemma wrap_wrap (a : Z) : I64.wrap (I64.wrap a) = I64.wrap a.
Proof. apply wrap_congr, wrap_mod. Qed.

Lemma sum_from (l : list Z) (a : Z) :
  fold_left I64.add l (I64.wrap a) = I64.wrap (a + zsum l).
Proof.
revert a. induction l as [|x l IH]; intros a; cbn [fold_left].
- f_equal. unfold zsum. cbn. lia.
- change (zsum (x :: l)) with (x + zsum l).
  unfold I64.add at 2. rewrite wrap_add_l, IH. f_equal. lia.
Qed.

(** An [int64] sum is the wrapped sum of the integers. *)
Lemma sum_wrap (l : list Z) : I64.sum l = I64.wrap (zsum l).
Proof. unfold I64.sum. change 0 with (I64.wrap 0) at 1. by rewrite sum_from. Qed.

Lemma zsum_Permutation (l k : list Z) : l ≡ₚ k → zsum l = zsum k.
Proof. unfold zsum. induction 1; cbn in *; lia. Qed.

Lemma sum_Permutation (l k : list Z) : l ≡ₚ k → I64.sum l = I64.sum k.
Proof. intros E. by rewrite !sum_wrap, (zsum_Permutation _ _ E). Qed.

(** Wrapping the summands does not change the wrapped sum. *)
Lemma wrap_zsum_wrap {A : Type} (f : A → Z) (l : list A) :
  I64.wrap (zsum ((λ x, I64.wrap (f x)) <$> l)) = I64.wrap (zsum (f <$> l)).
Proof.
induction l as [|x l IH]; [done|].
change (I64.wrap (I64.wrap (f x) + zsum ((λ x, I64.wrap (f x)) <$> l))
        = I64.wrap (f x + zsum (f <$> l))).
rewrite wrap_add_l. rewrite <- wrap_add_r, IH, wrap_add_r. done.
Qed.

Lemma zsum_fmap_add {A : Type} (f g : A → Z) (l : list A) :
  zsum ((λ k, f k + g k) <$> l) = zsum (f <$> l) + zsum (g <$> l).
Proof. unfold zsum. induction l as [|x l IH]; cbn in *; lia. Qed.

Lemma zsum_indicator_absent (c : cell) (z : Z) (l : list cell) :
  c ∉ l → zsum ((λ k, if bool_decide (c = k) then z else 0) <$> l) = 0.
Proof.
unfold zsum. induction l as [|k l IH]; intros Hc; cbn; [done|].
apply not_elem_of_cons in Hc as [Hk Hc].
rewrite bool_decide_eq_false_2 by done. rewrite IH by done. lia.
Qed.

Lemma zsum_indicator (c : cell) (z : Z) (l : list cell) :
  NoDup l → c ∈ l → zsum ((λ k, if bool_decide (c = k) then z else 0) <$> l) = z.
Proof.
induction l as [|k l IH]; intros Hl Hc; [by apply elem_of_nil in Hc|].
apply NoDup_cons in Hl as [Hk Hl].
change (zsum ((λ k, if bool_decide (c = k) then z else 0) <$> k :: l))
  with ((if bool_decide (c = k) then z else 0)
        + zsum ((λ k, if bool_decide (c = k) then z else 0) <$> l)).
apply elem_of_cons in Hc as [->|Hc].
- rewrite bool_decide_eq_true_2 by done. rewrite zsum_indicator_absent by done. lia.
- rewrite bool_decide_eq_false_2 by (intros ->; done). rewrite IH by done. lia.
Qed.

(** Groups that cover every row split the sum of the rows. *)
Lemma zsum_groups (labels keys : list cell) (v : list Z) :
  NoDup labels → (∀ c, c ∈ keys → c ∈ labels) → length keys = length v →
  zsum ((λ k, zsum (take_mask ((λ c, bool_decide (c = k)) <$> keys) v)) <$> labels)
  = zsum v.
Proof.
intros Hl. revert v. induction keys as [|c keys IH]; intros [|z v] Hin E; try done.
- clear. unfold zsum. induction labels as [|k l IHl]; [done|]. exact IHl.
- injection E as E.
  transitivity (zsum ((λ k, (if bool_decide (c = k) then z else 0)
                        + zsum (take_mask ((λ c, bool_decide (c = k)) <$> keys) v))
                      <$> labels)).
  { f_equal. apply list_fmap_ext. intros _ k _. cbn.
    destruct (bool_decide (c = k)); unfold zsum; cbn; lia. }
  rewrite zsum_fmap_add, zsum_indicator, IH; try done.
  + intros c' Hc'. apply Hin. by right.
  + apply Hin. by left.
Qed.

Local Close Scope Z_scope.

Lemma is_null_cell_key (c : cell) : pd.is_null (pd.cell_key c) = pd.is_null c.
Proof. destruct c as [| x | | | |]; cbn; try done. by destruct (x =? 0)%float. Qed.

Lemma isnull_any_false (s : Series) (c : cell) :
  pd.isnull_any s = false → c ∈ pd.series_cells s → pd.is_null c = false.
Proof.
unfold pd.isnull_any, pd.isnull. intros Hs Hc.
destruct (pd.is_null c) eqn:E; [|done].
rewrite <- Hs. symmetry. apply existsb_exists. exists true. split; [|done].
apply list_elem_of_In, list_elem_of_fmap. by exists c.
Qed.

Lemma group_labels_NoDup (keys : Series) : NoDup (agg.group_labels keys).
Proof.
unfold agg.group_labels. rewrite Basics.isort_Permutation. apply Basics.unique_NoDup.
Qed.

Lemma group_labels_elem_of (keys : Series) (c : cell) :
  c ∈ agg.group_labels keys
  ↔ pd.is_null c = false ∧ c ∈ pd.cell_key <$> pd.series_cells keys.
Proof.
unfold agg.group_labels.
rewrite Basics.isort_Permutation, Basics.unique_elem_of, list_elem_of_In, filter_In.
rewrite <- list_elem_of_In, negb_true_iff. tauto.
Qed.

Lemma group_mask_fmap (keys : Series) (k : cell) :
  agg.group_mask keys k
  = (λ c, bool_decide (c = k)) <$> (pd.cell_key <$> pd.series_cells keys).
Proof. unfold agg.group_mask. by rewrite <- list_fmap_compose. Qed.

(** The group sums of an [int64] column add up to the sum of the column
    when no row lacks its key. *)
Lemma per_group_sum_total (keys : Series) (v : list Z) :
  pd.isnull_any keys = false →
  pd.series_length keys = length v →
  I64.sum (agg.per_group keys I64.sum v) = I64.sum v.
Proof.
intros Hnull Hlen. unfold agg.per_group.
rewrite sum_wrap.
rewrite (list_fmap_ext _ (λ k, I64.wrap (zsum (take_mask (agg.group_mask keys k) v))))
  by (intros; apply sum_wrap).
rewrite wrap_zsum_wrap, sum_wrap. f_equal.
rewrite (list_fmap_ext _ (λ k, zsum (take_mask
           ((λ c, bool_decide (c = k)) <$> (pd.cell_key <$> pd.series_cells keys)) v)))
  by (intros; by rewrite group_mask_fmap).
apply zsum_groups.
- apply group_labels_NoDup.
- intros c Hc. apply group_labels_elem_of. split; [|done].
  apply list_elem_of_fmap in Hc as (c' & -> & Hc').
  rewrite is_null_cell_key. by eapply isnull_any_false.
- by rewrite !length_fmap, <- series_length_cells.
Qed.

Lemma select_all {A : Type} (k l : list A) :
  agg.select (seq (length k) (length l)) (k ++ l)%list = l.
Proof.
revert k. induction l as [|x l IH]; intros k; [done|].
cbn [length seq]. unfold agg.select in *.
change (omap ?f (?i :: ?r)) with (match f i with Some y => y :: omap f r | None => omap f r end).
cbv beta. rewrite lookup_app_r, Nat.sub_diag by done. cbn [lookup list_lookup]. f_equal.
specialize (IH (k ++ [x])%list). rewrite length_app, Nat.add_1_r, <- app_assoc in IH.
exact IH.
Qed.

Lemma argsort_Permutation {A : Type} (before : A → A → bool) (l : list A) :
  agg.argsort before l ≡ₚ seq 0 (length l).
Proof.
unfold agg.argsort. rewrite Basics.isort_Permutation.
by rewrite snd_zip by (by rewrite length_seq).
Qed.

(** Reordering the rows by [argsort] permutes them. *)
Lemma select_argsort {A : Type} (before : A → A → bool) (l : list A) :
  agg.select (agg.argsort before l) l ≡ₚ l.
Proof.
unfold agg.select. rewrite argsort_Permutation.
change (agg.select (seq (length (@nil A)) (length l)) ([] ++ l)%list ≡ₚ l).
by rewrite select_all.
Qed.

End AggFacts.

Module DataCleanerFacts.
Import DataCleaner CleanerSpec DataCleanerRuns Tables.

(** C10. A table without missing values comes back as it is, whatever the
    strategy: the same object is returned and the store is left alone. *)
Theorem handle_missing_values_nothing_missing
    (h : heap) (df : ref) (d : DataFrame) (strategy : string) :
  h !! df = Some d →
  pd.isnull_sum_sum d = 0%nat →
  handle_missing_values df strategy h = (Return df, h).
Proof.
intros Hdf Hnone. unfold handle_missing_values.
rewrite run.bind, (run.load_at _ _ _ Hdf).
(* [initial_missing == 0]: the strategy is not looked at *)
rewrite Hnone. reflexivity.
Qed.

Lemma handle_missing_values_nothing_missing_witness :
  handle_missing_values 0 "no such strategy"
    [[("revenue", Int64 [100; 50]%Z); ("region", Object [Some "East"; Some "West"])]]
  = (Return 0%nat,
     [[("revenue", Int64 [100; 50]%Z); ("region", Object [Some "East"; Some "West"])]]).
Proof.
apply (handle_missing_values_nothing_missing
         [[("revenue", Int64 [100; 50]%Z); ("region", Object [Some "East"; Some "West"])]]
         0 _ "no such strategy" eq_refl).
reflexivity.
Defined.

(** C3 (as amended). A strategy that is none of [fill], [drop] and
    [interpolate] raises nothing: the table itself is returned when nothing
    is missing, and an unchanged copy of it otherwise. *)
Theorem handle_missing_values_unknown_strategy
    (h : heap) (df : ref) (d : DataFrame) (strategy : string) :
  h !! df = Some d →
  strategy ∉ ["fill"; "drop"; "interpolate"] →
  handle_missing_values df strategy h
  = if (pd.isnull_sum_sum d =? 0)%nat then (Return df, h)
    else (Return (length h), (h ++ [d])%list).
Proof.
intros Hdf Hs. unfold handle_missing_values.
rewrite run.bind, (run.load_at _ _ _ Hdf).
destruct (pd.isnull_sum_sum d =? 0)%nat; [reflexivity|].
rewrite run.bind, (run.copy_at _ _ _ Hdf), run.bind.
(* none of the three branches is taken *)
destruct (unknown_strategy_eqb strategy Hs) as (-> & -> & ->).
reflexivity.
Qed.

Lemma handle_missing_values_unknown_strategy_witness :
  handle_missing_values 0 "median" [[("revenue", Float64 [1; F64.nan; 3]%float)]]
  = (Return 1%nat, [[("revenue", Float64 [1; F64.nan; 3]%float)];
                    [("revenue", Float64 [1; F64.nan; 3]%float)]]).
Proof.
apply (handle_missing_values_unknown_strategy
         [[("revenue", Float64 [1; F64.nan; 3]%float)]] 0 _ "median" eq_refl).
intros Hin. repeat (apply elem_of_cons in Hin as [Hin|Hin]; [discriminate Hin|]).
by apply elem_of_nil in Hin.
Defined.

(** C3 (as stated) fails: with a value missing, the strategy ["median"]
    is accepted without any error. *)
Lemma unknown_strategy_raises_nothing :
  ¬ (∀ (h : heap) (df : ref) (d : DataFrame) (strategy : string),
       h !! df = Some d →
       strategy ∉ ["fill"; "drop"; "interpolate"] →
       ∃ e, (handle_missing_values df strategy h).1 = Raise e).
Proof.
intros claim.
destruct (claim [[("revenue", Float64 [1; F64.nan; 3]%float)]] 0%nat _ "median" eq_refl)
  as [e He].
- intros Hin. repeat (apply elem_of_cons in Hin as [Hin|Hin]; [discriminate Hin|]).
  by apply elem_of_nil in Hin.
- vm_compute in He. discriminate He.
Qed.

(** C5 (as stated) fails: the revenues ["1"] and ["01"] are two texts, so
    both rows stay when [clean_all] removes duplicates; type fixing then
    reads both as the number 1, and [remove_duplicates] removes one row of
    the cleaned table. *)
Lemma clean_all_can_leave_duplicates :
  ¬ (∀ (C : Conversions) (h : heap) (df : ref) (d : DataFrame) (strategy : string),
       h !! df = Some d → pd.wf d →
       ∀ r h' d', clean_all df strategy h = (Return r, h') → h' !! r = Some d' →
       removed_count d' = 0%nat).
Proof.
intros claim.
pose proof (claim simple.conversions [[("revenue", Object [Some "1"; Some "01"])]] 0%nat
              [("revenue", Object [Some "1"; Some "01"])] "fill" eq_refl
              ltac:(repeat constructor)
              3%nat _ [("revenue", Int64 [1; 1]%Z)] eq_refl eq_refl) as E.
vm_compute in E. discriminate E.
Qed.

(** Filling does the same: the missing revenue of the second row is
    replaced by the median, which is the revenue of the first row. *)
Example fill_can_make_duplicates :
  let d := [("revenue", Float64 [1; F64.nan]%float)] in
  ∃ h', clean_all (H := simple.conversions) 0 "fill" [d] = (Return 4%nat, h')
        ∧ h' !! 4%nat = Some [("revenue", Float64 [1; 1]%float)]
        ∧ removed_count [("revenue", Float64 [1; 1]%float)] = 1%nat.
Proof. eexists. vm_compute. done. Qed.

End DataCleanerFacts.

(** ** What the analyzer returns *)

Module AnalyzerRuns.
Section AnalyzerRuns.
Context `{Conversions}.
Import DataAnalyzer FrameFacts.

Lemma has_column_true (d : DataFrame) (col : string) (s : Series) :
  pd.get_column d col = Some s → pd.has_column d col = true.
Proof. intros E. apply has_column_get. by rewrite E. Qed.

Lemma calculate_total_revenue_run (h : heap) (self : t) (d : DataFrame)
    (vals : Series) (total : number) :
  h !! df self = Some d →
  pd.get_column d "revenue" = Some vals →
  agg.total vals = Some total →
  calculate_total_revenue self h = (Return total, h).
Proof.
intros Hdf Hrev Htotal. unfold calculate_total_revenue.
rewrite run.bind, (run.load_at _ _ _ Hdf), (has_column_true _ _ _ Hrev). cbn [negb].
rewrite run.bind, (run.getitem_at _ _ _ _ _ Hdf Hrev).
unfold agg.series_sum. by rewrite run.bind, Htotal, run.or_raise_Some.
Qed.

Lemma get_region_wise_revenue_run (h : heap) (self : t) (d : DataFrame)
    (keys vals sums : Series) (order : list nat) :
  h !! df self = Some d →
  pd.get_column d "region" = Some keys →
  pd.get_column d "revenue" = Some vals →
  agg.sums keys vals = Some sums →
  agg.order_desc sums = Some order →
  get_region_wise_revenue self h
  = (Return (length h),
     (h ++ [[("region", agg.series_select order (agg.group_index keys));
             ("total_revenue", agg.series_select order sums)]])%list).
Proof.
intros Hdf Hreg Hrev Hsums Horder. unfold get_region_wise_revenue.
rewrite run.bind, (run.load_at _ _ _ Hdf).
rewrite (has_column_true _ _ _ Hrev), (has_column_true _ _ _ Hreg). cbn [negb orb].
rewrite run.bind, (run.getitem_at _ _ _ _ _ Hdf Hreg).
rewrite run.bind, (run.getitem_at _ _ _ _ _ Hdf Hrev).
unfold agg.group_sum, agg.argsort_desc.
rewrite run.bind, Hsums, run.or_raise_Some.
rewrite run.bind, Horder, run.or_raise_Some.
rewrite run.bind, run.new_at, run.bind, run.store_at, run.insert_new.
reflexivity.
Qed.

End AnalyzerRuns.
End AnalyzerRuns.

Module AnalyzerFacts.
Import DataAnalyzer FrameFacts AggFacts AnalyzerRuns Tables.

(** C6 (as amended). For a table whose [revenue] column is of integers
    and whose [region] column has no missing value, the region totals of
    [get_region_wise_revenue] add up to [calculate_total_revenue]. *)
Theorem region_totals_add_up `{Conversions}
    (h : heap) (self : t) (d : DataFrame) (keys : Series) (v : list Z) :
  h !! df self = Some d →
  pd.wf d →
  pd.get_column d "region" = Some keys →
  pd.get_column d "revenue" = Some (Int64 v) →
  pd.isnull_any keys = false →
  ∃ total region_revenue index totals,
    calculate_total_revenue self h = (Return total, h)
    ∧ get_region_wise_revenue self h
      = (Return region_revenue,
         (h ++ [[("region", index); ("total_revenue", totals)]])%list)
    ∧ agg.total totals = Some total.
Proof.
intros Hdf Hd Hreg Hrev Hnull.
eexists _, _, _, _. split; [|split].
- by eapply calculate_total_revenue_run.
- by eapply get_region_wise_revenue_run.
- cbn. do 2 f_equal.
  rewrite (sum_Permutation _ _ (select_argsort _ _)).
  apply per_group_sum_total; [done|].
  rewrite (get_column_length _ _ _ Hd Hreg).
  by rewrite <- (get_column_length _ _ _ Hd Hrev).
Qed.

Lemma region_totals_add_up_witness :
  ∃ total region_revenue index totals,
    calculate_total_revenue (H := simple.conversions) {| df := 0 |} [five_sales]
    = (Return total, [five_sales])
    ∧ get_region_wise_revenue (H := simple.conversions) {| df := 0 |} [five_sales]
      = (Return region_revenue,
         ([five_sales] ++ [[("region", index); ("total_revenue", totals)]])%list)
    ∧ agg.total (H := simple.conversions) totals = Some total.
Proof.
apply (region_totals_add_up (H := simple.conversions) [five_sales] {| df := 0 |} five_sales
         (Object [Some "East"; Some "West"; Some "East"; Some "North"; Some "West"])
         [100; 50; 20; 7; 30]%Z eq_refl).
- vm_compute. repeat constructor.
- reflexivity.
- reflexivity.
- reflexivity.
Defined.

(** The five sales: the regions East, West and North take 120, 80 and 7
    of the total of 207. *)
Example region_totals_of_five_sales :
  calculate_total_revenue (H := simple.conversions) {| df := 0 |} [five_sales]
  = (Return (NInt 207), [five_sales])
  ∧ get_region_wise_revenue (H := simple.conversions) {| df := 0 |} [five_sales]
    = (Return 1%nat,
       [five_sales;
        [("region", Object [Some "East"; Some "West"; Some "North"]);
         ("total_revenue", Int64 [120; 80; 7]%Z)]]).
Proof. vm_compute. done. Qed.

(** C6 (as stated) fails: grouping leaves out the row whose region is
    missing, so the only region total is 100 while the total revenue
    is 150. *)
Lemma region_totals_can_fall_short :
  ¬ (∀ (C : Conversions) (h : heap) (self : t) (d : DataFrame),
       h !! df self = Some d → pd.wf d → pd.has_column d "revenue" = true →
       ∀ total region_revenue h' table totals,
         calculate_total_revenue self h = (Return total, h) →
         get_region_wise_revenue self h = (Return region_revenue, h') →
         h' !! region_revenue = Some table →
         pd.get_column table "total_revenue" = Some totals →
         agg.total totals = Some total).
Proof.
intros claim.
pose proof (claim simple.conversions [region_missing] {| df := 0 |} region_missing eq_refl
              ltac:(repeat constructor) eq_refl
              (NInt 150) 1%nat _ _ (Int64 [100%Z]) eq_refl eq_refl eq_refl eq_refl) as E.
vm_compute in E. discriminate E.
Qed.

(** With floats the two sums round differently: the total of
    [1e16, 1, -1e16] is [0], the region totals are [1] and [0]. *)
Example region_totals_round_differently :
  let d := [("region", Object [Some "A"; Some "B"; Some "A"]);
            ("revenue", Float64 [1e16; 1; -1e16]%float)] in
  calculate_total_revenue (H := simple.conversions) {| df := 0 |} [d]
  = (Return (NFloat 0), [d])
  ∧ get_region_wise_revenue (H := simple.conversions) {| df := 0 |} [d]
    = (Return 1%nat, [d; [("region", Object [Some "B"; Some "A"]);
                          ("total_revenue", Float64 [1; 0]%float)]])
  ∧ agg.total (H := simple.conversions) (Float64 [1; 0]%float) = Some (NFloat 1).
Proof. vm_compute. done. Qed.

End AnalyzerFacts.

(** ** Sorting and first occurrences under an injection *)

Module InjectionFacts.

Lemma first_occurrence_fmap {A B : Type} `{EqDecision A} `{EqDecision B}
    (f : A → B) `{!Inj (=) (=) f} (seen l : list A) :
  first_occurrence (f <$> seen) (f <$> l) = first_occurrence seen l.
Proof.
revert seen. induction l as [|x l IH]; intros seen; [done|].
cbn. destruct (decide (x ∈ seen)) as [Hx|Hx].
- rewrite decide_True by (by apply list_elem_of_fmap_2). by rewrite IH.
- rewrite decide_False by (by rewrite (list_elem_of_fmap_inj f)).
  f_equal. apply (IH (x :: seen)).
Qed.

Lemma unique_fmap {A B : Type} `{EqDecision A} `{EqDecision B}
    (f : A → B) `{!Inj (=) (=) f} (l : list A) :
  unique (f <$> l) = f <$> unique l.
Proof.
unfold unique. rewrite Basics.take_mask_fmap. do 2 f_equal.
apply (first_occurrence_fmap f [] l).
Qed.

Lemma insert_sorted_fmap {A B : Type} (f : A → B) (before : A → A → bool)
    (before' : B → B → bool) (x : A) (l : list A) :
  (∀ a b, before' (f a) (f b) = before a b) →
  insert_sorted before' (f x) (f <$> l) = f <$> insert_sorted before x l.
Proof.
intros Hf. induction l as [|y l IH]; [done|].
cbn. rewrite Hf. destruct (before x y); [done|]. cbn. by rewrite <- IH.
Qed.

Lemma isort_fmap {A B : Type} (f : A → B) (before : A → A → bool)
    (before' : B → B → bool) (l : list A) :
  (∀ a b, before' (f a) (f b) = before a b) →
  isort before' (f <$> l) = f <$> isort before l.
Proof.
intros Hf. induction l as [|x l IH]; [done|].
cbn. unfold isort in IH. rewrite IH. by apply insert_sorted_fmap.
Qed.

End InjectionFacts.

Module PeriodFacts.
Import FrameFacts PeriodSpec.

#[local] Instance CPeriod_inj : Inj (=) (=) CPeriod.
Proof. by intros p q [= ->]. Qed.

Lemma present_periods (pv : list (option Period)) :
  List.filter (λ c, negb (pd.is_null c))
    (pd.cell_key <$> (pd.cell_of_option CPeriod <$> pv))
  = CPeriod <$> omap id pv.
Proof.
induction pv as [|[p|] pv IH]; cbn; [done| |done].
by rewrite <- IH.
Qed.

Lemma group_labels_periods (v : list (option Timestamp)) :
  agg.group_labels (PeriodM ((λ o : option Timestamp, to_period_M <$> o) <$> v))
  = CPeriod <$> months_of v.
Proof.
unfold agg.group_labels, months_of. cbn [pd.series_cells].
rewrite present_periods, InjectionFacts.unique_fmap.
rewrite (InjectionFacts.isort_fmap CPeriod period_leb) by done.
2: apply CPeriod_inj.
do 3 f_equal. induction v as [|[t|] v IH]; cbn; [done| |done].
by rewrite <- IH.
Qed.

Lemma group_mask_periods (v : list (option Timestamp)) (p : Period) :
  agg.group_mask (PeriodM ((λ o : option Timestamp, to_period_M <$> o) <$> v)) (CPeriod p)
  = (λ o : option Timestamp, bool_decide (to_period_M <$> o = Some p)) <$> v.
Proof.
unfold agg.group_mask. cbn [pd.series_cells]. rewrite <- !list_fmap_compose.
apply list_fmap_ext. intros _ [t|] _; cbn; apply bool_decide_ext; [|done].
split; [by intros [= ->] | by intros [= ->]].
Qed.

(** Grouping by month sums the rows of each month. *)
Lemma sums_periods `{Conversions} (v : list (option Timestamp)) (vals : Series) :
  agg.sums (PeriodM ((λ o : option Timestamp, to_period_M <$> o) <$> v)) vals
  = monthly_sums v vals.
Proof.
destruct vals as [r|r| | |]; try done; unfold agg.sums, monthly_sums, agg.per_group.
all: do 2 f_equal; rewrite group_labels_periods, <- list_fmap_compose.
all: apply list_fmap_ext; intros _ p _; unfold compose, rows_of_month.
all: by rewrite group_mask_periods.
Qed.

Lemma period_leb_total (p q : Period) : period_leb p q = false → period_leb q p = true.
Proof.
unfold period_leb. destruct p as [y m], q as [y' m']; cbn.
rewrite !orb_false_iff, !orb_true_iff, !andb_false_iff, !andb_true_iff.
rewrite !Z.ltb_lt, !Z.ltb_ge, !Z.eqb_eq, !Z.eqb_neq, !Z.leb_le, !Z.leb_gt. lia.
Qed.

Lemma months_of_Sorted (v : list (option Timestamp)) :
  Sorted (λ p q, period_leb p q = true) (months_of v).
Proof. apply Basics.isort_Sorted, period_leb_total. Qed.

Lemma months_of_NoDup (v : list (option Timestamp)) : NoDup (months_of v).
Proof. unfold months_of. rewrite Basics.isort_Permutation. apply Basics.unique_NoDup. Qed.

Lemma months_of_elem_of (v : list (option Timestamp)) (p : Period) :
  p ∈ months_of v ↔ ∃ t, Some t ∈ v ∧ to_period_M t = p.
Proof.
unfold months_of. rewrite Basics.isort_Permutation, Basics.unique_elem_of, list_elem_of_omap.
split.
- intros ([t|] & Ht & E); [|done]. injection E as <-. by exists t.
- intros (t & Ht & <-). by exists (Some t).
Qed.

(** When every date falls in the month [p], [p] is the only month. *)
Lemma months_of_single (v : list (option Timestamp)) (p : Period) :
  v ≠ [] → (∀ o, o ∈ v → ∃ t, o = Some t ∧ to_period_M t = p) → months_of v = [p].
Proof.
intros Hv Hall.
assert (Hin : ∀ q, q ∈ months_of v ↔ q = p).
{ intros q. rewrite months_of_elem_of. split.
  - intros (t & Ht & <-). destruct (Hall _ Ht) as (t' & [= <-] & E). done.
  - intros ->. destruct v as [|o v]; [done|].
    destruct (Hall o) as (t & -> & E); [left|]. exists t. split; [left|done]. }
pose proof (months_of_NoDup v) as Hnd.
destruct (months_of v) as [|q [|q' l]].
- exfalso. eapply not_elem_of_nil, Hin. done.
- f_equal. apply Hin. left.
- exfalso. apply NoDup_cons in Hnd as [Hq _]. apply Hq.
  assert (q = p) as -> by (apply Hin; left).
  assert (q' = p) as -> by (apply Hin; right; left). left.
Qed.

End PeriodFacts.
Module MonthlyRuns.
Section MonthlyRuns.
Context `{Conversions}.
Import DataAnalyzer FrameFacts AnalyzerRuns.

Lemma lookup_new_old (h : heap) (d d' : DataFrame) :
  ((h ++ [d]) ++ [d'])%list !! length h = Some d.
Proof. apply run.lookup_old, run.lookup_new. Qed.

(** The table [calculate_monthly_growth_rate] builds. *)
Lemma calculate_monthly_growth_rate_run (h : heap) (self : t) (d : DataFrame)
    (s vals sums : Series) (v : list (option Timestamp)) (xs : list float) :
  h !! df self = Some d →
  pd.get_column d "date" = Some s →
  agg.datetimes s = Some (Datetime v) →
  pd.get_column d "revenue" = Some vals →
  let year_month := PeriodM ((λ o : option Timestamp, to_period_M <$> o) <$> v) in
  agg.sums year_month vals = Some sums →
  pd.to_floats sums = Some xs →
  calculate_monthly_growth_rate self h
  = (Return (S (length h)),
     (h ++ [pd.set_column "year_month" year_month (pd.set_column "date" (Datetime v) d);
            [("month", conv.astype_str (agg.group_index year_month));
             ("revenue", sums);
             ("growth_rate",
              Float64 (pd.fillna_float 0 ((λ x, (x * 100)%float) <$> agg.pct_change xs)))]])%list).
Proof.
intros Hdf Hdate Hread Hrev ym Hsums Hxs. unfold calculate_monthly_growth_rate.
rewrite run.bind, (run.load_at _ _ _ Hdf).
rewrite (has_column_true _ _ _ Hrev), (has_column_true _ _ _ Hdate). cbn [negb orb].
rewrite run.bind, (run.copy_at _ _ _ Hdf).
rewrite run.bind, (run.getitem_at _ _ _ _ _ (run.lookup_new _ _) Hdate).
unfold agg.to_datetime. rewrite run.bind, Hread, run.or_raise_Some.
rewrite run.bind, (run.setitem_at _ _ _ _ _ (run.lookup_new _ _)), run.insert_new.
rewrite run.bind, (run.getitem_at _ _ _ _ _ (run.lookup_new _ _) (get_set_column_eq _ _ _)).
unfold agg.dt_to_period_M. rewrite run.bind. cbn [agg.periods]. rewrite run.or_raise_Some.
rewrite run.bind, (run.setitem_at _ _ _ _ _ (run.lookup_new _ _)), run.insert_new.
rewrite run.bind, (run.getitem_at _ _ _ _ _ (run.lookup_new _ _) (get_set_column_eq _ _ _)).
rewrite run.bind.
erewrite run.getitem_at; [|apply run.lookup_new|].
2:{ rewrite !get_set_column_ne by done. exact Hrev. }
unfold agg.group_sum. fold ym. rewrite run.bind, Hsums, run.or_raise_Some.
rewrite run.bind, run.new_at, run.bind, run.store_at, run.insert_new.
set (h1 := (h ++ [pd.set_column "year_month" ym (pd.set_column "date" (Datetime v) d)])%list).
rewrite run.bind.
erewrite run.getitem_at; [|apply run.lookup_new|reflexivity].
rewrite run.bind, (run.setitem_at _ _ _ _ _ (run.lookup_new _ _)), run.insert_new.
rewrite run.bind.
erewrite run.getitem_at; [|apply run.lookup_new|reflexivity].
unfold numeric_values. rewrite run.bind, Hxs, run.or_raise_Some.
rewrite run.bind, (run.setitem_at _ _ _ _ _ (run.lookup_new _ _)), run.insert_new.
rewrite run.bind.
erewrite run.getitem_at; [|apply run.lookup_new|reflexivity].
rewrite run.bind. cbn [pd.to_floats]. rewrite run.or_raise_Some.
rewrite run.bind, (run.setitem_at _ _ _ _ _ (run.lookup_new _ _)), run.insert_new.
rewrite run.ret. unfold h1. rewrite length_app, Nat.add_1_r, <- app_assoc.
reflexivity.
Qed.

End MonthlyRuns.
End MonthlyRuns.

Module MonthlyFacts.
Import DataAnalyzer FrameFacts AnalyzerRuns MonthlyRuns PeriodSpec PeriodFacts Tables.

Lemma per_group_length {A B : Type} (keys : Series) (f : list A → B) (xs : list A) :
  length (agg.per_group keys f xs) = length (agg.group_labels keys).
Proof. unfold agg.per_group. by rewrite length_fmap. Qed.

(** A numeric column has one sum per group, and the sums are numbers. *)
Lemma sums_number `{Conversions} (keys vals : Series) :
  pd.is_number vals = true →
  ∃ sums xs, agg.sums keys vals = Some sums ∧ pd.to_floats sums = Some xs
             ∧ length xs = length (agg.group_labels keys).
Proof.
destruct vals as [v|v| | |]; try done; intros _; cbn.
- eexists _, _. split; [done|]. split; [done|].
  by rewrite length_fmap, per_group_length.
- eexists _, _. split; [done|]. split; [done|]. by rewrite per_group_length.
Qed.

Lemma fillna_float_not_nan (value g : float) (l : list float) :
  F64.is_nan value = false → g ∈ pd.fillna_float value l → F64.is_nan g = false.
Proof.
intros Hvalue (x & -> & _)%list_elem_of_fmap.
by destruct (F64.is_nan x) eqn:E.
Qed.

(** The first month has no month before it: its growth is NaN, which is
    replaced by 0. *)
Lemma growth_head (xs : list float) (g : float) :
  head (pd.fillna_float 0 ((λ x, (x * 100)%float) <$> agg.pct_change xs)) = Some g →
  g = 0%float.
Proof.
destruct xs as [|x xs]; [done|].
unfold agg.pct_change, agg.ffill. cbn [agg.ffill_from].
destruct (F64.is_nan x); by intros [= <-].
Qed.

Lemma growth_single (x : float) :
  pd.fillna_float 0 ((λ x, (x * 100)%float) <$> agg.pct_change [x]) = [0%float].
Proof.
unfold agg.pct_change, agg.ffill. cbn [agg.ffill_from].
by destruct (F64.is_nan x).
Qed.

Lemma lookup_second (h : heap) (a b : DataFrame) :
  (h ++ [a; b])%list !! S (length h) = Some b.
Proof. rewrite lookup_app_r by lia. by replace (_ - _)%nat with 1%nat by lia. Qed.

Section claims.
Context `{Conversions}.

Lemma month_labels (v : list (option Timestamp)) :
  conv.astype_str
    (agg.group_index (PeriodM ((λ o : option Timestamp, to_period_M <$> o) <$> v)))
  = Object ((λ p, Some (str_of_period p)) <$> months_of v).
Proof.
unfold agg.group_index. rewrite group_labels_periods.
cbn [agg.series_of_cells conv.astype_str]. by rewrite <- !list_fmap_compose.
Qed.

(** C4 (as amended). When the dates can be read and the revenue is
    numeric, the monthly table has one row per calendar month in which a
    date falls, in chronological order, with the sum of the revenues of
    that month; its growth rate is the change of these sums relative to
    the month before, in percent, with every NaN replaced by 0: it is 0
    in the first row and never NaN. A table whose dates all fall in one
    month yields a single row with growth rate 0. *)
Theorem monthly_growth_rate_fills_nan
    (h : heap) (self : t) (d : DataFrame) (s vals : Series)
    (v : list (option Timestamp)) :
  h !! df self = Some d →
  pd.get_column d "date" = Some s →
  agg.datetimes s = Some (Datetime v) →
  pd.get_column d "revenue" = Some vals →
  pd.is_number vals = true →
  ∃ monthly_revenue h' sums xs growth,
    calculate_monthly_growth_rate self h = (Return monthly_revenue, h')
    ∧ h' !! monthly_revenue
      = Some [("month", Object ((λ p, Some (str_of_period p)) <$> months_of v));
              ("revenue", sums); ("growth_rate", Float64 growth)]
    ∧ monthly_sums v vals = Some sums
    ∧ Sorted (λ p q, period_leb p q = true) (months_of v)
    ∧ NoDup (months_of v)
    ∧ (∀ p, p ∈ months_of v ↔ ∃ t, Some t ∈ v ∧ to_period_M t = p)
    ∧ pd.to_floats sums = Some xs
    ∧ length xs = length (months_of v)
    ∧ growth = pd.fillna_float 0 ((λ x, (x * 100)%float) <$> agg.pct_change xs)
    ∧ (∀ g, head growth = Some g → g = 0%float)
    ∧ (∀ g, g ∈ growth → F64.is_nan g = false)
    ∧ (∀ p, v ≠ [] → (∀ o, o ∈ v → ∃ t, o = Some t ∧ to_period_M t = p) →
         months_of v = [p] ∧ growth = [0%float]).
Proof.
intros Hdf Hdate Hread Hrev Hnum.
set (ym := PeriodM ((λ o : option Timestamp, to_period_M <$> o) <$> v)).
destruct (sums_number ym vals Hnum) as (sums & xs & Hsums & Hxs & Hlen).
unfold ym in Hlen. rewrite group_labels_periods, length_fmap in Hlen.
eexists _, _, sums, xs, _. split.
{ by eapply calculate_monthly_growth_rate_run. }
split.
{ subst ym. by rewrite lookup_second, month_labels. }
split; [by rewrite <- sums_periods|].
split; [apply months_of_Sorted|]. split; [apply months_of_NoDup|].
split; [apply months_of_elem_of|]. split; [done|]. split; [done|]. split; [done|].
split; [apply growth_head|].
split; [intros g Hg; by eapply (fillna_float_not_nan 0)|].
intros p Hv Hall. rewrite (months_of_single v p Hv Hall) in Hlen |- *.
split; [done|]. destruct xs as [|x [|??]]; [done | apply growth_single | done].
Qed.

End claims.

Lemma monthly_growth_rate_fills_nan_witness :
  let v := [Some (mkTimestamp 2024 1 5 0); Some (mkTimestamp 2024 2 5 0)] in
  ∃ monthly_revenue h' sums xs growth,
    calculate_monthly_growth_rate (H := simple.conversions) {| df := 0 |} [zero_then_fifty]
    = (Return monthly_revenue, h')
    ∧ h' !! monthly_revenue
      = Some [("month", Object ((λ p, Some (str_of_period p)) <$> months_of v));
              ("revenue", sums); ("growth_rate", Float64 growth)]
    ∧ monthly_sums (H := simple.conversions) v (Float64 [0; 50]%float) = Some sums
    ∧ Sorted (λ p q, period_leb p q = true) (months_of v)
    ∧ NoDup (months_of v)
    ∧ (∀ p, p ∈ months_of v ↔ ∃ t, Some t ∈ v ∧ to_period_M t = p)
    ∧ pd.to_floats sums = Some xs
    ∧ length xs = length (months_of v)
    ∧ growth = pd.fillna_float 0 ((λ x, (x * 100)%float) <$> agg.pct_change xs)
    ∧ (∀ g, head growth = Some g → g = 0%float)
    ∧ (∀ g, g ∈ growth → F64.is_nan g = false)
    ∧ (∀ p, v ≠ [] → (∀ o, o ∈ v → ∃ t, o = Some t ∧ to_period_M t = p) →
         months_of v = [p] ∧ growth = [0%float]).
Proof.
apply (monthly_growth_rate_fills_nan (H := simple.conversions)
         [zero_then_fifty] {| df := 0 |} zero_then_fifty
         (Datetime [Some (mkTimestamp 2024 1 5 0); Some (mkTimestamp 2024 2 5 0)])
         (Float64 [0; 50]%float)
         [Some (mkTimestamp 2024 1 5 0); Some (mkTimestamp 2024 2 5 0)]
         eq_refl eq_refl eq_refl eq_refl eq_refl).
Defined.

(** C4 (as stated) fails: with a revenue of 0 in January and of 50 in
    February, the growth rate of February is the division of 50 by 0,
    which is infinite, and it stays in the table. *)
Lemma growth_after_zero_revenue_is_infinite :
  ¬ (∀ (C : Conversions) (h : heap) (self : t) (d : DataFrame),
       h !! df self = Some d →
       ∀ monthly_revenue h' table growth sums xs,
         calculate_monthly_growth_rate self h = (Return monthly_revenue, h') →
         h' !! monthly_revenue = Some table →
         pd.get_column table "growth_rate" = Some (Float64 growth) →
         pd.get_column table "revenue" = Some sums →
         pd.to_floats sums = Some xs →
         ∀ i g, xs !! i = Some 0%float → growth !! S i = Some g → g = 0%float).
Proof.
intros claim.
pose proof (claim simple.conversions [zero_then_fifty] {| df := 0 |} zero_then_fifty eq_refl
              2%nat _ _ [0; infinity]%float (Float64 [0; 50]%float) [0; 50]%float
              eq_refl eq_refl eq_refl eq_refl eq_refl 0%nat infinity eq_refl eq_refl) as E.
apply FloatAxioms.Leibniz.eqb_spec in E. vm_compute in E. discriminate E.
Qed.

End MonthlyFacts.

(** ** The order of floats *)

Module FloatOrder.

Lemma SFcompare_antisym (a b : SpecFloat.spec_float) :
  SpecFloat.SFcompare b a = CompOpp <$> SpecFloat.SFcompare a b.
Proof.
destruct a as [[]|[]| |[] m e], b as [[]|[]| |[] m' e']; cbn; try reflexivity.
all: rewrite (Z.compare_antisym e e'); destruct (e ?= e')%Z; cbn; try reflexivity.
all: change (Pos.compare_cont Eq m' m) with (Pos.compare m' m);
     change (Pos.compare_cont Eq m m') with (Pos.compare m m').
all: rewrite (Pos.compare_antisym m m'), ?CompOpp_involutive; reflexivity.
Qed.

Lemma not_nan_spec (x : float) :
  F64.is_nan x = false → Prim2SF x ≠ SpecFloat.S754_nan.
Proof.
unfold F64.is_nan, PrimFloat.is_nan. rewrite FloatAxioms.eqb_spec.
intros E Hx. rewrite Hx in E. discriminate E.
Qed.

Lemma SFcompare_None (a b : SpecFloat.spec_float) :
  SpecFloat.SFcompare a b = None → a = SpecFloat.S754_nan ∨ b = SpecFloat.S754_nan.
Proof. destruct a as [| | |], b as [| | |]; cbn; auto; discriminate. Qed.

(** Of two floats that are not NaN one is at most the other. *)
Lemma leb_total (x y : float) :
  F64.is_nan x = false → F64.is_nan y = false →
  (y <=? x)%float = false → (x <=? y)%float = true.
Proof.
intros Hx%not_nan_spec Hy%not_nan_spec. rewrite !FloatAxioms.leb_spec.
unfold SpecFloat.SFleb. rewrite (SFcompare_antisym (Prim2SF x) (Prim2SF y)).
destruct (SpecFloat.SFcompare (Prim2SF x) (Prim2SF y)) as [[]|] eqn:E; cbn; try done.
apply SFcompare_None in E as [?|?]; done.
Qed.

Lemma float_desc_total (x y : float) :
  agg.float_desc x y = false → agg.float_desc y x = true.
Proof.
unfold agg.float_desc. intros [Hy Hle]%orb_false_iff.
destruct (F64.is_nan x) eqn:Hx; [done|]. cbn. by apply leb_total.
Qed.

End FloatOrder.

Module ProfitRuns.
Import DataAnalyzer FrameFacts AnalyzerRuns AggFacts ProfitSpec.

Lemma elem_of_zip_seq {A : Type} (k l : list A) (x : A) (i : nat) :
  (x, i) ∈ zip l (seq (length k) (length l)) → (k ++ l)%list !! i = Some x.
Proof.
revert k. induction l as [|y l IH]; intros k; [by intros ?%elem_of_nil|].
cbn [length seq zip zip_with]. intros [[= -> ->]|Hin]%elem_of_cons.
- by rewrite lookup_app_r, Nat.sub_diag.
- specialize (IH (k ++ [y])%list). rewrite length_app, Nat.add_1_r, <- app_assoc in IH.
  by apply IH.
Qed.

Lemma select_pairs {A : Type} (l : list A) (ps : list (A * nat)) :
  (∀ x i, (x, i) ∈ ps → l !! i = Some x) → agg.select ps.*2 l = ps.*1.
Proof.
unfold agg.select. induction ps as [|[x i] ps IH]; intros Hps; [done|].
cbn. rewrite (Hps x i) by left. f_equal. apply IH. intros ???. apply Hps. by right.
Qed.

(** The rows in the order of [argsort] are the sorted values. *)
Lemma select_argsort_fst {A : Type} (before : A → A → bool) (l : list A) :
  agg.select (agg.argsort before l) l
  = (isort (λ a b : A * nat, before a.1 b.1) (zip l (seq 0 (length l)))).*1.
Proof.
unfold agg.argsort. apply select_pairs. intros x i Hin.
rewrite Basics.isort_Permutation in Hin.
by apply (elem_of_zip_seq [] l) in Hin.
Qed.

Lemma select_argsort_Sorted {A : Type} (before : A → A → bool) (l : list A) :
  (∀ a b, before a b = false → before b a = true) →
  Sorted (λ a b, before a b = true) (agg.select (agg.argsort before l) l).
Proof.
intros Htotal. rewrite select_argsort_fst.
eapply Sorted_fmap; [|apply Basics.isort_Sorted].
- intros [a i] [b j] E. exact E.
- intros [a i] [b j]. cbn. apply Htotal.
Qed.

Lemma sub_floats (vals : Series) (xs ys : list float) :
  pd.to_floats vals = Some xs →
  agg.sub vals (Float64 ys) = Some (Float64 (zip_with PrimFloat.sub xs ys)).
Proof. destruct vals; cbn; intros [= <-]; done. Qed.

Lemma zip_with_fmap_same {A B C : Type} (f : B → A → C) (g : A → B) (l : list A) :
  zip_with f (g <$> l) l = (λ x, f (g x) x) <$> l.
Proof. by rewrite zip_with_fmap_l, zip_with_diag. Qed.

Lemma zip_with_same_fmap {A B C : Type} (f : A → B → C) (g : A → B) (l : list A) :
  zip_with f l (g <$> l) = (λ x, f x (g x)) <$> l.
Proof. by rewrite zip_with_fmap_r, zip_with_diag. Qed.

Lemma sums_floats `{Conversions} (keys : Series) (xs : list float) :
  agg.sums keys (Float64 xs) = Some (Float64 (agg.per_group keys group_sum_floats xs)).
Proof. reflexivity. Qed.

Lemma sums_numeric `{Conversions} (keys vals : Series) (xs : list float) :
  pd.to_floats vals = Some xs → is_Some (agg.sums keys vals).
Proof. destruct vals; cbn; intros [=]; by eexists. Qed.

(** The table [calculate_profit_margin] builds when it estimates the cost. *)
Lemma calculate_profit_margin_run `{Conversions} (h : heap) (self : t) (d : DataFrame)
    (vals keys revenue_sum : Series) (xs : list float) (cost_column : option string) :
  h !! df self = Some d →
  pd.get_column d "revenue" = Some vals →
  pd.to_floats vals = Some xs →
  pd.get_column d "product" = Some keys →
  truthy cost_column && pd.has_column d (default "" cost_column) = false →
  agg.sums keys vals = Some revenue_sum →
  let profits := agg.per_group keys group_sum_floats (profit_of <$> xs) in
  let analysis :=
    [("product", agg.group_index keys);
     ("revenue", revenue_sum);
     ("cost", Float64 (agg.per_group keys group_sum_floats (cost_of <$> xs)));
     ("profit", Float64 profits);
     ("profit_margin", Float64 (agg.per_group keys group_mean_floats (margin_of <$> xs)))] in
  ∃ df_temp,
    calculate_profit_margin self cost_column h
    = (Return (S (S (length h))),
       (h ++ [df_temp; analysis;
              agg.frame_select (agg.argsort agg.float_desc profits) analysis])%list).
Proof.
intros Hdf Hrev Hxs Hprod Hcost Hsum profits analysis.
eexists. unfold calculate_profit_margin.
rewrite run.bind, (run.load_at _ _ _ Hdf), (has_column_true _ _ _ Hrev). cbn [negb].
rewrite run.bind, (run.copy_at _ _ _ Hdf).
rewrite run.bind, (run.load_at _ _ _ (run.lookup_new _ _)), Hcost.
(* the cost is estimated *)
rewrite run.bind, run.bind, (run.getitem_at _ _ _ _ _ (run.lookup_new _ _) Hrev).
unfold agg.series_mul at 1. unfold agg.mul. rewrite run.bind, Hxs. cbn [mbind option_bind].
rewrite run.or_raise_Some.
rewrite (run.setitem_at _ _ _ _ _ (run.lookup_new _ _)), run.insert_new.
change ((λ x, (x * 0.6)%float) <$> xs) with (cost_of <$> xs).
set (costs := cost_of <$> xs).
set (d1 := pd.set_column "cost" (Float64 costs) d).
assert (Hrev1 : pd.get_column d1 "revenue" = Some vals)
  by (unfold d1; by rewrite get_set_column_ne).
assert (Hcost1 : pd.get_column d1 "cost" = Some (Float64 costs))
  by apply get_set_column_eq.
(* the profit *)
rewrite run.bind, (run.getitem_at _ _ _ _ _ (run.lookup_new _ _) Hrev1).
rewrite run.bind, (run.getitem_at _ _ _ _ _ (run.lookup_new _ _) Hcost1).
unfold agg.series_sub. rewrite run.bind, (sub_floats _ _ _ Hxs), run.or_raise_Some.
rewrite run.bind, (run.setitem_at _ _ _ _ _ (run.lookup_new _ _)), run.insert_new.
replace (zip_with PrimFloat.sub xs costs) with (profit_of <$> xs)
  by (unfold costs; by rewrite zip_with_same_fmap).
set (profits_ := profit_of <$> xs).
set (d2 := pd.set_column "profit" (Float64 profits_) d1).
assert (Hrev2 : pd.get_column d2 "revenue" = Some vals)
  by (unfold d2; by rewrite get_set_column_ne).
assert (Hprofit2 : pd.get_column d2 "profit" = Some (Float64 profits_))
  by apply get_set_column_eq.
(* the margin *)
rewrite run.bind, (run.getitem_at _ _ _ _ _ (run.lookup_new _ _) Hprofit2).
rewrite run.bind, (run.getitem_at _ _ _ _ _ (run.lookup_new _ _) Hrev2).
unfold agg.series_div, agg.div. rewrite run.bind, Hxs. cbn [mbind option_bind pd.to_floats].
rewrite run.or_raise_Some.
unfold agg.series_mul, agg.mul. rewrite run.bind. cbn [mbind option_bind pd.to_floats].
rewrite run.or_raise_Some.
rewrite run.bind, (run.setitem_at _ _ _ _ _ (run.lookup_new _ _)), run.insert_new.
replace ((λ x, (x * 100)%float) <$> zip_with PrimFloat.div profits_ xs)
  with (margin_of <$> xs)
  by (unfold profits_; by rewrite zip_with_fmap_same, <- list_fmap_compose).
set (margins := margin_of <$> xs).
set (d3 := pd.set_column "profit_margin" (Float64 margins) d2).
assert (Hget : pd.get_column d3 "product" = Some keys
               ∧ pd.get_column d3 "revenue" = Some vals
               ∧ pd.get_column d3 "cost" = Some (Float64 costs)
               ∧ pd.get_column d3 "profit" = Some (Float64 profits_)
               ∧ pd.get_column d3 "profit_margin" = Some (Float64 margins)).
{ unfold d3, d2, d1. repeat split.
  all: repeat first [ apply get_set_column_eq | rewrite get_set_column_ne by done ]; done. }
destruct Hget as (G1 & G2 & G3 & G4 & G5).
(* the aggregation *)
rewrite run.bind, (run.getitem_at _ _ _ _ _ (run.lookup_new _ _) G1).
rewrite run.bind, (run.getitem_at _ _ _ _ _ (run.lookup_new _ _) G2).
unfold agg.group_sum. rewrite run.bind, Hsum, run.or_raise_Some.
rewrite run.bind, (run.getitem_at _ _ _ _ _ (run.lookup_new _ _) G3).
rewrite run.bind, sums_floats, run.or_raise_Some.
rewrite run.bind, (run.getitem_at _ _ _ _ _ (run.lookup_new _ _) G4).
rewrite run.bind, sums_floats, run.or_raise_Some.
rewrite run.bind, (run.getitem_at _ _ _ _ _ (run.lookup_new _ _) G5).
unfold agg.group_mean, agg.means. rewrite run.bind. cbn [mbind option_bind pd.to_floats].
rewrite run.or_raise_Some.
rewrite run.bind, run.new_at.
rewrite run.bind, (run.load_at _ _ _ (run.lookup_new _ _)).
rewrite run.bind.
erewrite run.getitem_at; [|apply run.lookup_new|reflexivity].
unfold agg.argsort_desc. rewrite run.bind. cbn [agg.order_desc]. rewrite run.or_raise_Some.
rewrite run.bind, run.new_at, run.ret.
rewrite !length_app, !Nat.add_1_r, <- !app_assoc. reflexivity.
Qed.

End ProfitRuns.

Module ProfitFacts.
Import DataAnalyzer FrameFacts AnalyzerRuns AggFacts ProfitSpec ProfitRuns Tables.

Lemma lookup_third (h : heap) (a b c : DataFrame) :
  (h ++ [a; b; c])%list !! S (S (length h)) = Some c.
Proof. rewrite lookup_app_r by lia. by replace (_ - _)%nat with 2%nat by lia. Qed.

(** C7 (as amended). For a table with a numeric [revenue] column and a
    [product] column, and no usable cost column, the cost of a row is
    60% of its revenue, its profit the revenue less the cost and its
    margin the profit over the revenue in percent; the result has one row
    per product, with the sums of revenue, cost and profit and the mean
    of the margins over the rows of that product, ordered by decreasing
    profit. A revenue of 100 gives cost 60, profit 40 and margin 40. *)
Theorem profit_margin_with_estimated_cost `{Conversions}
    (h : heap) (self : t) (d : DataFrame) (vals keys : Series) (xs : list float)
    (cost_column : option string) :
  h !! df self = Some d →
  pd.get_column d "revenue" = Some vals →
  pd.to_floats vals = Some xs →
  pd.get_column d "product" = Some keys →
  truthy cost_column && pd.has_column d (default "" cost_column) = false →
  ∃ profit_analysis h' revenue_sum order,
    calculate_profit_margin self cost_column h = (Return profit_analysis, h')
    ∧ h' !! profit_analysis
      = Some [("product", agg.series_select order (agg.group_index keys));
              ("revenue", agg.series_select order revenue_sum);
              ("cost", Float64 (agg.select order
                 (agg.per_group keys group_sum_floats (cost_of <$> xs))));
              ("profit", Float64 (agg.select order
                 (agg.per_group keys group_sum_floats (profit_of <$> xs))));
              ("profit_margin", Float64 (agg.select order
                 (agg.per_group keys group_mean_floats (margin_of <$> xs))))]
    ∧ agg.sums keys vals = Some revenue_sum
    ∧ order ≡ₚ seq 0 (length (agg.group_labels keys))
    ∧ Sorted (λ a b, agg.float_desc a b = true)
        (agg.select order (agg.per_group keys group_sum_floats (profit_of <$> xs)))
    ∧ cost_of 100 = 60%float ∧ profit_of 100 = 40%float ∧ margin_of 100 = 40%float.
Proof.
intros Hdf Hrev Hxs Hprod Hcost.
destruct (sums_numeric keys vals xs Hxs) as [revenue_sum Hsum].
destruct (calculate_profit_margin_run h self d vals keys revenue_sum xs cost_column
            Hdf Hrev Hxs Hprod Hcost Hsum) as [df_temp Hrun].
eexists _, _, revenue_sum, _. split; [exact Hrun|].
split.
{ rewrite lookup_third. reflexivity. }
split; [done|]. split.
{ rewrite argsort_Permutation. by rewrite MonthlyFacts.per_group_length. }
split; [apply select_argsort_Sorted, FloatOrder.float_desc_total|].
by vm_compute.
Qed.

Lemma profit_margin_with_estimated_cost_witness :
  let keys := Object [Some "Widget"; Some "Gadget"; Some "Widget"] in
  let xs := [100; 50; 20]%float in
  ∃ profit_analysis h' revenue_sum order,
    calculate_profit_margin (H := simple.conversions) {| df := 0 |} None [three_sales]
    = (Return profit_analysis, h')
    ∧ h' !! profit_analysis
      = Some [("product", agg.series_select order (agg.group_index keys));
              ("revenue", agg.series_select order revenue_sum);
              ("cost", Float64 (agg.select order
                 (agg.per_group keys np.group_sum (cost_of <$> xs))));
              ("profit", Float64 (agg.select order
                 (agg.per_group keys np.group_sum (profit_of <$> xs))));
              ("profit_margin", Float64 (agg.select order
                 (agg.per_group keys np.group_mean (margin_of <$> xs))))]
    ∧ agg.sums (H := simple.conversions) keys (Float64 xs) = Some revenue_sum
    ∧ order ≡ₚ seq 0 (length (agg.group_labels keys))
    ∧ Sorted (λ a b, agg.float_desc a b = true)
        (agg.select order (agg.per_group keys np.group_sum (profit_of <$> xs)))
    ∧ cost_of 100 = 60%float ∧ profit_of 100 = 40%float ∧ margin_of 100 = 40%float.
Proof.
intros keys xs.
exact (profit_margin_with_estimated_cost (H := simple.conversions) [three_sales]
         {| df := 0 |} three_sales (Float64 xs) keys xs None
         eq_refl eq_refl eq_refl eq_refl eq_refl).
Defined.

(** What the call returns on the three sales. *)
Example profit_margin_of_three_sales :
  calculate_profit_margin (H := simple.conversions) {| df := 0 |} None [three_sales]
  = (Return 3%nat,
     [three_sales;
      [("product", Object [Some "Widget"; Some "Gadget"; Some "Widget"]);
       ("revenue", Float64 [100; 50; 20]%float);
       ("cost", Float64 [60; 30; 12]%float);
       ("profit", Float64 [40; 20; 8]%float);
       ("profit_margin", Float64 [40; 40; 40]%float)];
      [("product", Object [Some "Gadget"; Some "Widget"]);
       ("revenue", Float64 [50; 120]%float);
       ("cost", Float64 [30; 72]%float);
       ("profit", Float64 [20; 48]%float);
       ("profit_margin", Float64 [40; 40]%float)];
      [("product", Object [Some "Widget"; Some "Gadget"]);
       ("revenue", Float64 [120; 50]%float);
       ("cost", Float64 [72; 30]%float);
       ("profit", Float64 [48; 20]%float);
       ("profit_margin", Float64 [40; 40]%float)]]).
Proof. vm_compute. reflexivity. Qed.

(** C7 (as stated) fails: a table with a [revenue] column and no
    [product] column yields no result, the grouping raises. *)
Lemma profit_margin_needs_product :
  ¬ (∀ (C : Conversions) (h : heap) (self : t) (d : DataFrame) (vals : Series),
       h !! df self = Some d →
       pd.get_column d "revenue" = Some vals →
       pd.is_number vals = true →
       ∃ profit_analysis h',
         calculate_profit_margin self None h = (Return profit_analysis, h')).
Proof.
intros claim.
destruct (claim simple.conversions [[("revenue", Float64 [100]%float)]] {| df := 0 |}
            [("revenue", Float64 [100]%float)] (Float64 [100]%float)
            eq_refl eq_refl eq_refl) as (r & h' & E).
vm_compute in E. discriminate E.
Qed.

(** C8. On a table with a [revenue] column and no [product] column,
    [calculate_profit_margin] passes its only check, computes the costs,
    profits and margins, and fails in the grouping with the key error of
    the lookup, whereas [get_top_products] refuses the same table with its
    own error before it computes anything. When the revenues are texts
    the call fails earlier still, in the product with 0.6, with an error
    that names no column. *)
Theorem profit_margin_misses_the_product_check `{Conversions} :
  (calculate_profit_margin {| df := 0 |} None [[("revenue", Float64 [100]%float)]]).1
  = Raise (KeyError "product")
  ∧ (get_top_products {| df := 0 |} 10 [[("revenue", Float64 [100]%float)]]).1
    = Raise (ValueError "Required columns 'product' and 'revenue' not found")
  ∧ (calculate_profit_margin {| df := 0 |} None [[("revenue", Object [Some "n/a"])]]).1
    = Raise (TypeError "product of a column that is not numeric").
Proof. vm_compute. done. Qed.

End ProfitFacts.

(** ** Rankings *)

Module RankingFacts.
Import DataAnalyzer FrameFacts AnalyzerRuns AggFacts ProfitRuns OrderSpec.

Lemma Sorted_take {A : Type} (R : A → A → Prop) (l : list A) (n : nat) :
  Sorted R l → Sorted R (take n l).
Proof.
intros Hl. revert n. induction Hl as [|x l _ IH Hx]; intros [|n]; cbn; try constructor.
- apply IH.
- destruct Hx as [|y l Hxy]; destruct n; cbn; by constructor.
Qed.

Lemma int_desc_total (x y : Z) : agg.int_desc x y = false → agg.int_desc y x = true.
Proof. unfold agg.int_desc. lia. Qed.

(** A column put in the order of its own [argsort_desc] never increases. *)
Lemma select_order_desc (sums : Series) (order : list nat) :
  agg.order_desc sums = Some order → non_increasing (agg.series_select order sums).
Proof.
destruct sums as [v|v| | |]; try done; intros [= <-]; cbn.
- apply select_argsort_Sorted, int_desc_total.
- apply select_argsort_Sorted, FloatOrder.float_desc_total.
Qed.

Lemma non_increasing_head (n : Z) (s : Series) :
  non_increasing s → non_increasing (agg.series_head n s).
Proof.
destruct s as [v|v| | |]; try done; cbn; unfold agg.head_n;
  destruct (0 <=? n)%Z; apply Sorted_take.
Qed.

Lemma series_head_length (n : Z) (s : Series) :
  (0 ≤ n)%Z → (Z.of_nat (pd.series_length (agg.series_head n s)) ≤ n)%Z.
Proof.
intros Hn. destruct s; cbn; unfold agg.head_n.
all: rewrite (proj2 (Z.leb_le 0 n) Hn), length_take; lia.
Qed.

Lemma select_length {A : Type} (order : list nat) (l : list A) :
  Forall (λ i, i < length l)%nat order → length (agg.select order l) = length order.
Proof.
unfold agg.select. induction order as [|i order IH]; [done|].
intros [Hi Horder]%Forall_cons. cbn.
destruct (lookup_lt_is_Some_2 l i Hi) as [x ->]. cbn. by rewrite IH.
Qed.

Lemma series_select_length (order : list nat) (s : Series) :
  Forall (λ i, i < pd.series_length s)%nat order →
  pd.series_length (agg.series_select order s) = length order.
Proof. destruct s; apply select_length. Qed.

Lemma order_desc_number (sums : Series) :
  pd.is_number sums = true →
  ∃ order, agg.order_desc sums = Some order
           ∧ order ≡ₚ seq 0 (pd.series_length sums).
Proof.
destruct sums as [v|v| | |]; try done; intros _; cbn; eexists; (split; [done|]);
  apply argsort_Permutation.
Qed.

Lemma sums_is_number `{Conversions} (keys vals : Series) :
  pd.is_number vals = true →
  ∃ sums, agg.sums keys vals = Some sums ∧ pd.is_number sums = true
          ∧ pd.series_length sums = length (agg.group_labels keys).
Proof.
destruct vals as [v|v| | |]; try done; intros _; cbn; eexists; (split; [done|]);
  (split; [done|]); cbn; apply MonthlyFacts.per_group_length.
Qed.

Lemma get_top_products_run `{Conversions} (h : heap) (self : t) (d : DataFrame)
    (keys vals sums : Series) (order : list nat) (n : Z) :
  h !! df self = Some d →
  pd.get_column d "product" = Some keys →
  pd.get_column d "revenue" = Some vals →
  agg.sums keys vals = Some sums →
  agg.order_desc sums = Some order →
  get_top_products self n h
  = (Return (length h),
     (h ++ [[("product", agg.series_head n (agg.series_select order (agg.group_index keys)));
             ("total_revenue", agg.series_head n (agg.series_select order sums))]])%list).
Proof.
intros Hdf Hprod Hrev Hsums Horder. unfold get_top_products.
rewrite run.bind, (run.load_at _ _ _ Hdf).
rewrite (has_column_true _ _ _ Hrev), (has_column_true _ _ _ Hprod). cbn [negb orb].
rewrite run.bind, (run.getitem_at _ _ _ _ _ Hdf Hprod).
rewrite run.bind, (run.getitem_at _ _ _ _ _ Hdf Hrev).
unfold agg.group_sum, agg.argsort_desc.
rewrite run.bind, Hsums, run.or_raise_Some.
rewrite run.bind, Horder, run.or_raise_Some.
rewrite run.bind, run.new_at, run.bind, run.store_at, run.insert_new.
reflexivity.
Qed.

(** X1. On a table with a [product] column and a numeric [revenue]
    column, [get_top_products(n)] with [n] not negative returns a table of
    at most [n] rows whose [total_revenue] never increases from one row to
    the next. *)
Theorem top_products_short_and_sorted `{Conversions}
    (h : heap) (self : t) (d : DataFrame) (keys vals : Series) (n : Z) :
  h !! df self = Some d →
  pd.get_column d "product" = Some keys →
  pd.get_column d "revenue" = Some vals →
  pd.is_number vals = true →
  (0 ≤ n)%Z →
  ∃ top_products index totals,
    get_top_products self n h
    = (Return top_products, (h ++ [[("product", index); ("total_revenue", totals)]])%list)
    ∧ (Z.of_nat (pd.nrows [("product", index); ("total_revenue", totals)]) ≤ n)%Z
    ∧ (Z.of_nat (pd.series_length totals) ≤ n)%Z
    ∧ non_increasing totals.
Proof.
intros Hdf Hprod Hrev Hnum Hn.
destruct (sums_is_number keys vals Hnum) as (sums & Hsums & Hsnum & _).
destruct (order_desc_number sums Hsnum) as (order & Horder & _).
eexists _, _, _. split; [by eapply get_top_products_run|].
split; [by apply series_head_length|]. split; [by apply series_head_length|].
by apply non_increasing_head, select_order_desc.
Qed.

Lemma top_products_short_and_sorted_witness :
  ∃ top_products index totals,
    get_top_products (H := simple.conversions) {| df := 0 |} 1 [Tables.three_sales]
    = (Return top_products,
       ([Tables.three_sales] ++ [[("product", index); ("total_revenue", totals)]])%list)
    ∧ (Z.of_nat (pd.nrows [("product", index); ("total_revenue", totals)]) ≤ 1)%Z
    ∧ (Z.of_nat (pd.series_length totals) ≤ 1)%Z
    ∧ non_increasing totals.
Proof.
apply (top_products_short_and_sorted [Tables.three_sales] {| df := 0 |} Tables.three_sales
         (Object [Some "Widget"; Some "Gadget"; Some "Widget"])
         (Float64 [100; 50; 20]%float) 1 eq_refl eq_refl eq_refl eq_refl).
lia.
Defined.

(** What the call returns on the three sales: the one best product. *)
Example top_product_of_three_sales :
  get_top_products (H := simple.conversions) {| df := 0 |} 1 [Tables.three_sales]
  = (Return 1%nat,
     [Tables.three_sales;
      [("product", Object [Some "Widget"]); ("total_revenue", Float64 [120]%float)]]).
Proof. vm_compute. reflexivity. Qed.

Lemma select_Permutation {A : Type} (order : list nat) (l : list A) :
  order ≡ₚ seq 0 (length l) → agg.select order l ≡ₚ l.
Proof.
intros Hperm. unfold agg.select. rewrite Hperm.
change (agg.select (seq (length (@nil A)) (length l)) ([] ++ l)%list ≡ₚ l).
by rewrite select_all.
Qed.

Lemma select_fmap {A B : Type} (f : A → B) (order : list nat) (l : list A) :
  agg.select order (f <$> l) = f <$> agg.select order l.
Proof.
unfold agg.select. induction order as [|i order IH]; [done|].
cbn. rewrite list_lookup_fmap. destruct (l !! i); cbn; by rewrite IH.
Qed.

Lemma series_cells_select (order : list nat) (s : Series) :
  pd.series_cells (agg.series_select order s) = agg.select order (pd.series_cells s).
Proof. destruct s; cbn; by rewrite select_fmap. Qed.

Lemma series_cells_typed (keys : Series) (c : cell) :
  c ∈ pd.series_cells keys → pd.is_null c = false → typed keys (pd.cell_key c).
Proof.
destruct keys as [v|v|v|v|v]; cbn; intros (x & -> & _)%list_elem_of_fmap; try done.
- unfold pd.cell_of_float. destruct (F64.is_nan x) eqn:E; [done|]. intros _. cbn.
  destruct (x =? 0)%float; [reflexivity | exact E].
- by destruct x.
- by destruct x.
- by destruct x.
Qed.

Lemma series_of_cells_typed (keys : Series) (cs : list cell) :
  Forall (typed keys) cs → pd.series_cells (agg.series_of_cells keys cs) = cs.
Proof.
induction 1 as [|c cs Hc _ IH]; [by destruct keys|].
destruct keys as [v|v|v|v|v], c; try done; cbn in *; try (by f_equal).
unfold pd.cell_of_float at 1. rewrite Hc. by f_equal.
Qed.

(** The index of a grouping holds the group labels. *)
Lemma series_cells_group_index (keys : Series) :
  pd.series_cells (agg.group_index keys) = agg.group_labels keys.
Proof.
apply series_of_cells_typed, Forall_forall. intros c Hc.
apply group_labels_elem_of in Hc as [Hnull (c' & -> & Hc')%list_elem_of_fmap].
apply series_cells_typed; [done|]. by rewrite is_null_cell_key in Hnull.
Qed.

(** X2. On a table with a [region] column and a numeric [revenue]
    column, [get_region_wise_revenue] returns one row per region that
    occurs in the table, and the [total_revenue] never increases from one
    row to the next. *)
Theorem region_revenue_sorted `{Conversions}
    (h : heap) (self : t) (d : DataFrame) (keys vals : Series) :
  h !! df self = Some d →
  pd.get_column d "region" = Some keys →
  pd.get_column d "revenue" = Some vals →
  pd.is_number vals = true →
  ∃ region_revenue index totals,
    get_region_wise_revenue self h
    = (Return region_revenue, (h ++ [[("region", index); ("total_revenue", totals)]])%list)
    ∧ pd.series_length totals = length (agg.group_labels keys)
    ∧ pd.series_cells index ≡ₚ agg.group_labels keys
    ∧ non_increasing totals.
Proof.
intros Hdf Hreg Hrev Hnum.
destruct (sums_is_number keys vals Hnum) as (sums & Hsums & Hsnum & Hlen).
destruct (order_desc_number sums Hsnum) as (order & Horder & Hperm).
eexists _, _, _. split; [by eapply get_region_wise_revenue_run|].
split; [|split].
- rewrite series_select_length.
  + by rewrite Hperm, length_seq.
  + rewrite Hperm. apply Forall_seq. lia.
- rewrite series_cells_select, series_cells_group_index.
  apply select_Permutation. by rewrite Hperm, Hlen.
- by apply select_order_desc.
Qed.

Lemma region_revenue_sorted_witness :
  let keys := Object [Some "East"; Some "West"; Some "East"; Some "North"; Some "West"] in
  ∃ region_revenue index totals,
    get_region_wise_revenue (H := simple.conversions) {| df := 0 |} [Tables.five_sales]
    = (Return region_revenue,
       ([Tables.five_sales] ++ [[("region", index); ("total_revenue", totals)]])%list)
    ∧ pd.series_length totals = length (agg.group_labels keys)
    ∧ pd.series_cells index ≡ₚ agg.group_labels keys
    ∧ non_increasing totals.
Proof.
exact (region_revenue_sorted (H := simple.conversions) [Tables.five_sales] {| df := 0 |}
         Tables.five_sales
         (Object [Some "East"; Some "West"; Some "East"; Some "North"; Some "West"])
         (Int64 [100; 50; 20; 7; 30]%Z) eq_refl eq_refl eq_refl eq_refl).
Defined.

(** The regions of the five sales, by decreasing revenue. *)
Example region_revenue_of_five_sales :
  get_region_wise_revenue (H := simple.conversions) {| df := 0 |} [Tables.five_sales]
  = (Return 1%nat,
     [Tables.five_sales;
      [("region", Object [Some "East"; Some "West"; Some "North"]);
       ("total_revenue", Int64 [120; 80; 7]%Z)]]).
Proof. vm_compute. reflexivity. Qed.

End RankingFacts.

(** ** Tables that lack a column *)

Module GuardFacts.
Import DataAnalyzer FrameFacts.

(** X3. The checks the aggregates start with: on a table without
    [revenue], [calculate_total_revenue], [calculate_profit_margin] and
    [get_summary_statistics] raise a [ValueError] and leave the store
    alone; so do [get_top_products] without [product] or [revenue],
    [get_region_wise_revenue] without [region] or [revenue] and
    [calculate_monthly_growth_rate] without [date] or [revenue]. *)
Theorem missing_columns_are_refused `{Conversions}
    (h : heap) (self : t) (d : DataFrame) (n : Z) (cost_column : option string) :
  h !! df self = Some d →
  (pd.has_column d "revenue" = false →
     calculate_total_revenue self h
     = (Raise (ValueError "'revenue' column not found in dataframe"), h)
     ∧ calculate_profit_margin self cost_column h
       = (Raise (ValueError "'revenue' column not found"), h)
     ∧ get_summary_statistics self h
       = (Raise (ValueError "'revenue' column not found in dataframe"), h))
  ∧ (pd.has_column d "product" = false ∨ pd.has_column d "revenue" = false →
     get_top_products self n h
     = (Raise (ValueError "Required columns 'product' and 'revenue' not found"), h))
  ∧ (pd.has_column d "region" = false ∨ pd.has_column d "revenue" = false →
     get_region_wise_revenue self h
     = (Raise (ValueError "Required columns 'region' and 'revenue' not found"), h))
  ∧ (pd.has_column d "date" = false ∨ pd.has_column d "revenue" = false →
     calculate_monthly_growth_rate self h
     = (Raise (ValueError "Required columns 'date' and 'revenue' not found"), h)).
Proof.
intros Hdf.
assert (Htotal : pd.has_column d "revenue" = false →
  calculate_total_revenue self h
  = (Raise (ValueError "'revenue' column not found in dataframe"), h)).
{ intros Hrev. unfold calculate_total_revenue.
  by rewrite run.bind, (run.load_at _ _ _ Hdf), Hrev. }
split; [|split; [|split]].
- intros Hrev. split; [by apply Htotal|]. split.
  + unfold calculate_profit_margin.
    by rewrite run.bind, (run.load_at _ _ _ Hdf), Hrev.
  + unfold get_summary_statistics.
    by rewrite run.bind, (run.load_at _ _ _ Hdf), run.bind, (Htotal Hrev).
- intros Hcol. unfold get_top_products. rewrite run.bind, (run.load_at _ _ _ Hdf).
  by destruct Hcol as [-> | ->]; rewrite ?orb_true_r.
- intros Hcol. unfold get_region_wise_revenue. rewrite run.bind, (run.load_at _ _ _ Hdf).
  by destruct Hcol as [-> | ->]; rewrite ?orb_true_r.
- intros Hcol. unfold calculate_monthly_growth_rate.
  rewrite run.bind, (run.load_at _ _ _ Hdf).
  by destruct Hcol as [-> | ->]; rewrite ?orb_true_r.
Qed.

Lemma missing_columns_are_refused_witness :
  let h := [[("units", Int64 [3]%Z)]] in
  let self := {| df := 0 |} in
  calculate_total_revenue (H := simple.conversions) self h
  = (Raise (ValueError "'revenue' column not found in dataframe"), h)
  ∧ get_top_products (H := simple.conversions) self 10 h
    = (Raise (ValueError "Required columns 'product' and 'revenue' not found"), h)
  ∧ get_region_wise_revenue (H := simple.conversions) self h
    = (Raise (ValueError "Required columns 'region' and 'revenue' not found"), h)
  ∧ calculate_monthly_growth_rate (H := simple.conversions) self h
    = (Raise (ValueError "Required columns 'date' and 'revenue' not found"), h).
Proof.
intros h self.
destruct (missing_columns_are_refused (H := simple.conversions) h self
            [("units", Int64 [3]%Z)] 10 None eq_refl) as (H1 & H2 & H3 & H4).
split; [apply H1; reflexivity|].
split; [apply H2; left; reflexivity|].
split; [apply H3; left; reflexivity | apply H4; left; reflexivity].
Defined.

End GuardFacts.

(** ** More on the cleaner's steps *)

Module CleanerStepFacts.
Import DataCleaner CleanerSpec FrameFacts DataCleanerRuns.

(** X4. [remove_duplicates] allocates a table in which no two rows are
    equal, whose rows are rows of the given table in their order, and in
    which every row of the given table occurs; on its own output it
    removes nothing. *)
Theorem remove_duplicates_keeps_first_occurrences
    (h : heap) (df : ref) (d : DataFrame) :
  h !! df = Some d →
  pd.wf d →
  ∃ d',
    remove_duplicates df h = (Return (length h), (h ++ [d'])%list)
    ∧ NoDup (pd.row_keys d')
    ∧ pd.row_keys d' `sublist_of` pd.row_keys d
    ∧ (∀ row, row ∈ pd.row_keys d → row ∈ pd.row_keys d')
    ∧ pd.drop_duplicates d' = d'
    ∧ removed_count d' = 0%nat.
Proof.
intros Hdf Hd. exists (pd.drop_duplicates d).
assert (Hkeys : pd.row_keys (pd.drop_duplicates d)
                = take_mask (first_occurrence [] (pd.row_keys d)) (pd.row_keys d)).
{ unfold pd.drop_duplicates. by rewrite row_keys_filter_rows. }
assert (Hnodup : NoDup (pd.row_keys (pd.drop_duplicates d))).
{ rewrite Hkeys. apply Basics.first_occurrence_keeps_NoDup. }
assert (Hwf : pd.wf (pd.drop_duplicates d)) by by apply wf_filter_rows.
split; [by apply remove_duplicates_run|]. split; [done|]. split; [|split; [|split]].
- rewrite Hkeys. apply Basics.take_mask_sublist.
- intros row Hrow. rewrite Hkeys.
  by destruct (Basics.first_occurrence_covers [] _ _ Hrow) as [?%elem_of_nil|?].
- by apply drop_duplicates_NoDup.
- by apply removed_count_NoDup.
Qed.

Lemma remove_duplicates_keeps_first_occurrences_witness :
  ∃ d',
    remove_duplicates 0 [Tables.repeated_rows]
    = (Return 1%nat, ([Tables.repeated_rows] ++ [d'])%list)
    ∧ NoDup (pd.row_keys d')
    ∧ pd.row_keys d' `sublist_of` pd.row_keys Tables.repeated_rows
    ∧ (∀ row, row ∈ pd.row_keys Tables.repeated_rows → row ∈ pd.row_keys d')
    ∧ pd.drop_duplicates d' = d'
    ∧ removed_count d' = 0%nat.
Proof.
apply (remove_duplicates_keeps_first_occurrences [Tables.repeated_rows] 0
         Tables.repeated_rows eq_refl).
repeat constructor.
Defined.

(** The third row of the table repeats the first and is removed. *)
Example remove_duplicates_of_repeated_rows :
  remove_duplicates 0 [Tables.repeated_rows]
  = (Return 1%nat,
     [Tables.repeated_rows;
      [("date", Object [Some "2024-01-05"; Some "2024-02-05"]);
       ("product", Object [Some "Widget"; Some "Widget"]);
       ("region", Object [Some "East"; Some "East"]);
       ("revenue", Int64 [100; 50]%Z);
       ("quantity", Int64 [2; 1]%Z)]])
  ∧ removed_count Tables.repeated_rows = 1%nat.
Proof. vm_compute. done. Qed.

Section types.
Context `{Conversions}.

Lemma get_convert_column (col col' : string) (f : Series → Series) (d : DataFrame) :
  pd.get_column (convert_column col f d) col'
  = if String.eqb col col' then f <$> pd.get_column d col' else pd.get_column d col'.
Proof.
unfold convert_column. destruct (pd.has_column d col) eqn:Hcol.
- apply has_column_get in Hcol as [s Hs]. rewrite Hs.
  destruct (String.eqb_spec col col') as [<-|Hne].
  + by rewrite get_set_column_eq, Hs.
  + by rewrite get_set_column_ne.
- apply has_column_missing in Hcol.
  destruct (String.eqb_spec col col') as [<-|Hne]; [by rewrite Hcol | done].
Qed.

Lemma columns_set_column (col : string) (s : Series) (d : DataFrame) :
  is_Some (pd.get_column d col) → pd.columns (pd.set_column col s d) = pd.columns d.
Proof.
unfold pd.columns. induction d as [|[c s'] d IH]; cbn; [by intros [??]|].
destruct (String.eqb c col); cbn; [done|]. intros Hcol. by rewrite IH.
Qed.

Lemma columns_convert_column (col : string) (f : Series → Series) (d : DataFrame) :
  pd.columns (convert_column col f d) = pd.columns d.
Proof.
unfold convert_column. destruct (pd.has_column d col); [|done].
destruct (pd.get_column d col) eqn:E; [|done].
apply columns_set_column. by rewrite E.
Qed.

Lemma get_type_fixed (col : string) (d : DataFrame) :
  pd.get_column (type_fixed d) col
  = (if String.eqb "date" col then conv.to_datetime_coerce
     else if String.eqb "revenue" col then conv.to_numeric_coerce
     else if String.eqb "quantity" col then conv.to_numeric_coerce
     else if String.eqb "product" col then conv.astype_str
     else if String.eqb "region" col then conv.astype_str
     else id) <$> pd.get_column d col.
Proof.
unfold type_fixed. rewrite !get_convert_column.
destruct (String.eqb_spec "region" col) as [<-|_]; [by destruct (pd.get_column d _)|].
destruct (String.eqb_spec "product" col) as [<-|_]; [by destruct (pd.get_column d _)|].
destruct (String.eqb_spec "quantity" col) as [<-|_]; [by destruct (pd.get_column d _)|].
destruct (String.eqb_spec "revenue" col) as [<-|_]; [by destruct (pd.get_column d _)|].
destruct (String.eqb_spec "date" col) as [<-|_]; by destruct (pd.get_column d _).
Qed.

Lemma astype_str_Object (s : Series) :
  ∃ v, conv.astype_str s = Object v ∧ Forall is_Some v.
Proof.
destruct s as [v|v|v|v|v]; cbn; eexists; (split; [done|]).
all: apply Forall_fmap, Forall_true; intros x; by eexists.
Qed.

Lemma to_numeric_coerce_number (s : Series) : pd.is_number (conv.to_numeric_coerce s) = true.
Proof. destruct s as [v|v|v|v|v]; cbn; try done. by destruct (mapM _ _). Qed.

Lemma to_datetime_coerce_Datetime (s : Series) : ∃ v, conv.to_datetime_coerce s = Datetime v.
Proof. destruct s; cbn; by eexists. Qed.

(** X5. [fix_data_types] works on a copy, which keeps the columns of the
    table and their order; in the copy [date] is the column read as
    dates, [revenue] and [quantity] are the columns read as numbers, and
    [product] and [region] are the columns as texts: a column of dates,
    numeric columns and columns of texts without missing value. In a
    column of texts every text stays as it is and a missing value becomes
    its text ([str_of_missing]: ["nan"] for NaN). Every other column is
    as it was. *)
Theorem fix_data_types_fixes_types (h : heap) (df : ref) (d : DataFrame) :
  h !! df = Some d →
  ∃ d',
    fix_data_types df h = (Return (length h), (h ++ [d'])%list)
    ∧ pd.columns d' = pd.columns d
    ∧ pd.get_column d' "date" = conv.to_datetime_coerce <$> pd.get_column d "date"
    ∧ (∀ col, col ∈ ["revenue"; "quantity"] →
         pd.get_column d' col = conv.to_numeric_coerce <$> pd.get_column d col)
    ∧ (∀ col, col ∈ ["product"; "region"] →
         pd.get_column d' col = conv.astype_str <$> pd.get_column d col)
    ∧ (∀ s, pd.get_column d' "date" = Some s → ∃ v, s = Datetime v)
    ∧ (∀ col s, col ∈ ["revenue"; "quantity"] → pd.get_column d' col = Some s →
         pd.is_number s = true)
    ∧ (∀ col s, col ∈ ["product"; "region"] → pd.get_column d' col = Some s →
         ∃ v, s = Object v ∧ Forall is_Some v)
    ∧ (∀ col v, col ∈ ["product"; "region"] → pd.get_column d col = Some (Object v) →
         ∃ v', pd.get_column d' col = Some (Object v')
           ∧ length v' = length v
           ∧ (∀ i t, v !! i = Some (Some t) → v' !! i = Some (Some t))
           ∧ (∀ i, v !! i = Some None → v' !! i = Some (Some str_of_missing)))
    ∧ (∀ col, col ∉ ["date"; "revenue"; "quantity"; "product"; "region"] →
         pd.get_column d' col = pd.get_column d col).
Proof.
intros Hdf. exists (type_fixed d). split; [by apply fix_data_types_run|].
split; [unfold type_fixed; by rewrite !columns_convert_column|].
assert (Hnum : ∀ col, col ∈ ["revenue"; "quantity"] →
          pd.get_column (type_fixed d) col
          = conv.to_numeric_coerce <$> pd.get_column d col).
{ intros col Hcol. rewrite get_type_fixed.
  repeat (apply elem_of_cons in Hcol as [->|Hcol]); [done..|by apply elem_of_nil in Hcol]. }
assert (Htext : ∀ col, col ∈ ["product"; "region"] →
          pd.get_column (type_fixed d) col = conv.astype_str <$> pd.get_column d col).
{ intros col Hcol. rewrite get_type_fixed.
  repeat (apply elem_of_cons in Hcol as [->|Hcol]); [done..|by apply elem_of_nil in Hcol]. }
split; [by rewrite get_type_fixed|]. split; [done|]. split; [done|].
split; [|split; [|split; [|split]]].
- intros s. rewrite get_type_fixed. cbn.
  destruct (pd.get_column d "date") as [s0|]; [|done]. intros [= <-].
  apply to_datetime_coerce_Datetime.
- intros col s Hcol. rewrite (Hnum col Hcol).
  destruct (pd.get_column d _) as [s0|]; [|done]. intros [= <-].
  apply to_numeric_coerce_number.
- intros col s Hcol. rewrite (Htext col Hcol).
  destruct (pd.get_column d _) as [s0|]; [|done]. intros [= <-].
  apply astype_str_Object.
- intros col v Hcol Hv. rewrite (Htext col Hcol), Hv. cbn.
  eexists. split; [done|]. split; [by rewrite length_fmap|].
  split; [intros i t Hi | intros i Hi]; by rewrite list_lookup_fmap, Hi.
- intros col Hcol. rewrite get_type_fixed.
  repeat match goal with
  | |- context [String.eqb ?x col] =>
      destruct (String.eqb_spec x col) as [<-|_];
      [exfalso; apply Hcol; rewrite !elem_of_cons; tauto|]
  end.
  by destruct (pd.get_column d col).
Qed.

End types.

Lemma fix_data_types_fixes_types_witness :
  let d := Tables.sales_with_gaps in
  ∃ d',
    fix_data_types (H := simple.conversions) 0 [d] = (Return 1%nat, ([d] ++ [d'])%list)
    ∧ pd.columns d' = pd.columns d
    ∧ pd.get_column d' "date"
      = conv.to_datetime_coerce (H := simple.conversions) <$> pd.get_column d "date"
    ∧ (∀ col, col ∈ ["revenue"; "quantity"] →
         pd.get_column d' col
         = conv.to_numeric_coerce (H := simple.conversions) <$> pd.get_column d col)
    ∧ (∀ col, col ∈ ["product"; "region"] →
         pd.get_column d' col
         = conv.astype_str (H := simple.conversions) <$> pd.get_column d col)
    ∧ (∀ s, pd.get_column d' "date" = Some s → ∃ v, s = Datetime v)
    ∧ (∀ col s, col ∈ ["revenue"; "quantity"] → pd.get_column d' col = Some s →
         pd.is_number s = true)
    ∧ (∀ col s, col ∈ ["product"; "region"] → pd.get_column d' col = Some s →
         ∃ v, s = Object v ∧ Forall is_Some v)
    ∧ (∀ col v, col ∈ ["product"; "region"] → pd.get_column d col = Some (Object v) →
         ∃ v', pd.get_column d' col = Some (Object v')
           ∧ length v' = length v
           ∧ (∀ i t, v !! i = Some (Some t) → v' !! i = Some (Some t))
           ∧ (∀ i, v !! i = Some None → v' !! i = Some (Some "nan")))
    ∧ (∀ col, col ∉ ["date"; "revenue"; "quantity"; "product"; "region"] →
         pd.get_column d' col = pd.get_column d col).
Proof.
exact (fix_data_types_fixes_types (H := simple.conversions) [Tables.sales_with_gaps] 0
         Tables.sales_with_gaps eq_refl).
Defined.

(** Texts that are no dates or no numbers become missing values, and a
    missing product becomes the text ["nan"]. *)
Example fix_data_types_coerces :
  fix_data_types (H := simple.conversions) 0
    [[("date", Object [Some "2024-01-05"; Some "soon"]);
      ("revenue", Object [Some "100"; Some "12"]);
      ("product", Object [Some "Widget"; None])]]
  = (Return 1%nat,
     [[("date", Object [Some "2024-01-05"; Some "soon"]);
       ("revenue", Object [Some "100"; Some "12"]);
       ("product", Object [Some "Widget"; None])];
      [("date", Datetime [Some (mkTimestamp 2024 1 5 0); None]);
       ("revenue", Int64 [100; 12]%Z);
       ("product", Object [Some "Widget"; Some "nan"])]]).
Proof. vm_compute. reflexivity. Qed.

End CleanerStepFacts.

(** ** Outliers *)

Module OutlierFacts.
Import DataCleaner FrameFacts AnalyzerRuns.

(** X6. When [remove_outliers] removes nothing: without the column it
    returns the table it was given; with the method [zscore] and a
    standard deviation that is not above 0, and with a method that is
    neither [iqr] nor [zscore], it returns an unchanged copy. Nothing is
    raised in any of these cases. *)
Theorem remove_outliers_skips `{Conversions}
    (h : heap) (df : ref) (d : DataFrame) (column method : string) :
  h !! df = Some d →
  (pd.has_column d column = false →
     remove_outliers df column method h = (Return df, h))
  ∧ (∀ s xs, pd.get_column d column = Some s → pd.to_floats s = Some xs →
       (0 <? std_floats xs)%float = false →
       remove_outliers df column "zscore" h = (Return (length h), (h ++ [d])%list))
  ∧ (pd.has_column d column = true → method ∉ ["iqr"; "zscore"] →
       remove_outliers df column method h = (Return (length h), (h ++ [d])%list)).
Proof.
intros Hdf. split; [|split].
- intros Hcol. unfold remove_outliers.
  by rewrite run.bind, (run.load_at _ _ _ Hdf), Hcol.
- intros s xs Hs Hxs Hstd. unfold remove_outliers.
  rewrite run.bind, (run.load_at _ _ _ Hdf), (has_column_true _ _ _ Hs). cbn [negb].
  rewrite run.bind, (run.copy_at _ _ _ Hdf), run.bind.
  cbn [String.eqb Ascii.eqb Bool.eqb].
  rewrite run.bind, (run.getitem_at _ _ _ _ _ (run.lookup_new _ _) Hs).
  unfold numeric_values. rewrite run.bind, Hxs, run.or_raise_Some, Hstd.
  reflexivity.
- intros Hcol Hmethod. unfold remove_outliers.
  rewrite run.bind, (run.load_at _ _ _ Hdf), Hcol. cbn [negb].
  rewrite run.bind, (run.copy_at _ _ _ Hdf), run.bind.
  destruct (String.eqb_spec method "iqr") as [->|_].
  { exfalso. apply Hmethod. by left. }
  destruct (String.eqb_spec method "zscore") as [->|_].
  { exfalso. apply Hmethod. right. by left. }
  reflexivity.
Qed.

Lemma remove_outliers_skips_witness :
  let d := [("revenue", Float64 [5; 5; 5]%float)] in
  remove_outliers (H := simple.conversions) 0 "revenue" "zscore" [d] = (Return 1%nat, [d; d])
  ∧ remove_outliers (H := simple.conversions) 0 "quantity" "iqr" [d] = (Return 0%nat, [d]).
Proof.
intros d.
destruct (remove_outliers_skips (H := simple.conversions) [d] 0 d "revenue" "zscore" eq_refl) as (_ & H2 & _).
destruct (remove_outliers_skips (H := simple.conversions) [d] 0 d "quantity" "iqr" eq_refl) as (H1 & _ & _).
split.
- apply (H2 (Float64 [5; 5; 5]%float) [5; 5; 5]%float eq_refl eq_refl). reflexivity.
- apply H1. reflexivity.
Defined.

(** With the bounds of [iqr] the revenue of 1000 is an outlier among
    revenues around 10. *)
Example remove_outliers_iqr :
  remove_outliers (H := simple.conversions) 0 "revenue" "iqr"
    [[("revenue", Int64 [10; 12; 11; 1000; 9]%Z);
      ("region", Object [Some "East"; Some "West"; Some "East"; Some "West"; Some "East"])]]
  = (Return 2%nat,
     [[("revenue", Int64 [10; 12; 11; 1000; 9]%Z);
       ("region", Object [Some "East"; Some "West"; Some "East"; Some "West"; Some "East"])];
      [("revenue", Int64 [10; 12; 11; 1000; 9]%Z);
       ("region", Object [Some "East"; Some "West"; Some "East"; Some "West"; Some "East"])];
      [("revenue", Int64 [10; 12; 11; 9]%Z);
       ("region", Object [Some "East"; Some "West"; Some "East"; Some "East"])]]).
Proof. vm_compute. reflexivity. Qed.

End OutlierFacts.

(** ** Scenarios *)

Module Scenarios.
Import DataCleaner DataAnalyzer.

(** The strategy [fill] puts the median 2 in the gap of the numeric
    column [1, None, 3], the most frequent text in the gap of a column of
    texts, and ["Unknown"] in a column of texts that holds nothing. *)
Theorem fill_median_and_mode :
  handle_missing_values 0 "fill"
    [[("revenue", Float64 [1; F64.nan; 3]%float);
      ("region", Object [Some "West"; Some "East"; None]);
      ("note", Object [None; None; None])]]
  = (Return 1%nat,
     [[("revenue", Float64 [1; F64.nan; 3]%float);
       ("region", Object [Some "West"; Some "East"; None]);
       ("note", Object [None; None; None])];
      [("revenue", Float64 [1; 2; 3]%float);
       ("region", Object [Some "West"; Some "East"; Some "East"]);
       ("note", Object [Some "Unknown"; Some "Unknown"; Some "Unknown"])]]).
Proof. vm_compute. reflexivity. Qed.

(** Sales of 100 in January 2024 and of 50 in February 2024 give the
    monthly rows [("2024-01", 100, 0.0)] and [("2024-02", 50, -50.0)]. *)
Theorem monthly_growth_of_two_months :
  let d := [("date", Object [Some "2024-01-05"; Some "2024-02-05"]);
            ("product", Object [Some "Widget"; Some "Widget"]);
            ("region", Object [Some "East"; Some "East"]);
            ("revenue", Int64 [100; 50]%Z);
            ("quantity", Int64 [2; 1]%Z)] in
  ∃ df_temp,
    calculate_monthly_growth_rate (H := simple.conversions) {| df := 0 |} [d]
    = (Return 2%nat,
       [d; df_temp;
        [("month", Object [Some "2024-01"; Some "2024-02"]);
         ("revenue", Int64 [100; 50]%Z);
         ("growth_rate", Float64 [0; -50]%float)]]).
Proof. eexists. vm_compute. reflexivity. Qed.

(** The three strategies on one table: [drop] removes the rows with
    a gap, [interpolate] fills the gaps of numeric columns on the straight
    line between their neighbours and repeats the last value at the end,
    and leaves texts alone. *)
Theorem drop_and_interpolate :
  let d := [("revenue", Float64 [1; F64.nan; F64.nan; 4; F64.nan]%float);
            ("region", Object [Some "West"; None; Some "East"; Some "East"; Some "East"])] in
  handle_missing_values 0 "drop" [d]
  = (Return 2%nat,
     [d; d; [("revenue", Float64 [1; 4]%float); ("region", Object [Some "West"; Some "East"])]])
  ∧ handle_missing_values 0 "interpolate" [d]
    = (Return 1%nat,
       [d; [("revenue", Float64 [1; 2; 3; 4; 4]%float);
            ("region", Object [Some "West"; None; Some "East"; Some "East"; Some "East"])]]).
Proof. vm_compute. done. Qed.

End Scenarios.

(** ** The dictionary as a whole *)

Module MappingFacts.
Import ColumnMapper MapperSpec ColumnMapperFacts.

Lemma maps_into_insert (cols fields : list string) (c w : string) (m : mapping) :
  one_column_per_field m → maps_into cols fields m → c ∈ cols → w ∉ fields →
  one_column_per_field (<[c := w]> m) ∧ maps_into cols (w :: fields) (<[c := w]> m).
Proof.
intros Hone Hinto Hc Hw. split.
- intros c1 c2 v. rewrite !lookup_insert.
  repeat case_decide; subst; try congruence.
  + intros [= <-] H2. apply Hinto in H2 as [_ ?]. done.
  + intros H1 [= <-]. apply Hinto in H1 as [_ ?]. done.
  + apply Hone.
- intros c' v. rewrite lookup_insert. case_decide; subst.
  + intros [= <-]. split; [done | by left].
  + intros [??]%Hinto. split; [done | by right].
Qed.

Lemma maps_into_more (cols fields : list string) (w : string) (m : mapping) :
  maps_into cols fields m → maps_into cols (w :: fields) m.
Proof. intros Hinto c v [??]%Hinto. split; [done | by right]. Qed.

(** A loop that stores the field [w], not stored before, in at most one
    entry. *)
Lemma for_break_maps_into body w C (cols fields : list string) (m : mapping) :
  (∀ col m, body col m = (m, false)
            ∨ (body col m = (<[col := w]> m, true) ∧ C col = true)) →
  one_column_per_field m → maps_into cols fields m → w ∉ fields →
  one_column_per_field (for_break body cols m)
  ∧ maps_into cols (w :: fields) (for_break body cols m).
Proof.
intros Hb Hone Hinto Hw.
destruct (for_break_simple body w C cols m Hb) as [-> | (col & Hcol & _ & ->)].
- split; [done | by apply maps_into_more].
- by apply maps_into_insert.
Qed.

Lemma list_find_elem_of {A : Type} (P : A → Prop) `{∀ x, Decision (P x)}
    (l : list A) (i : nat) (x : A) :
  list_find P l = Some (i, x) → x ∈ l.
Proof. intros (Hi & _)%list_find_Some. by eapply list_elem_of_lookup_2. Qed.

Lemma region_loops_maps_into (cols fields : list string) (m : mapping) :
  one_column_per_field m → maps_into cols fields m → "region" ∉ fields →
  one_column_per_field (region_loops cols m)
  ∧ maps_into cols ("region" :: fields) (region_loops cols m).
Proof.
intros Hone Hinto Hw. unfold region_loops. rewrite region_exact_loop.
destruct (list_find _ cols) as [[i0 c0]|] eqn:E0; cbn [negb].
{ apply maps_into_insert; try done. by eapply list_find_elem_of. }
rewrite region_partial_loop.
destruct (list_find (λ c, Str.contains "region" (col_lower c) = true) cols)
  as [[i1 c1]|] eqn:E1; cbn [negb].
{ apply maps_into_insert; try done. by eapply list_find_elem_of. }
by apply (for_break_maps_into _ _ _ _ _ _ region_last_body_simple).
Qed.

Ltac not_a_field :=
  let Hin := fresh "Hin" in
  intros Hin;
  repeat (apply elem_of_cons in Hin as [Hin|Hin]; [discriminate Hin|]);
  by apply elem_of_nil in Hin.

(** The dictionary maps columns of the table to the five fields, and at
    most one column to each field. *)
Lemma column_mapping_invariant (df_columns : list string) :
  let m := column_mapping_of df_columns in
  maps_into df_columns ["quantity"; "revenue"; "region"; "product"; "date"] m
  ∧ one_column_per_field m.
Proof.
intros m. subst m. unfold column_mapping_of.
assert (H0 : one_column_per_field (∅ : mapping) ∧ maps_into df_columns [] (∅ : mapping)).
{ split; [intros c1 c2 v | intros c v]; by rewrite lookup_empty. }
destruct H0 as [Hone Hinto].
destruct (for_break_maps_into _ _ _ df_columns _ _ date_body_simple Hone Hinto)
  as [Hone1 Hinto1]; [not_a_field|].
destruct (for_break_maps_into _ _ _ df_columns _ _ product_body_simple Hone1 Hinto1)
  as [Hone2 Hinto2]; [not_a_field|].
destruct (region_loops_maps_into df_columns _ _ Hone2 Hinto2)
  as [Hone3 Hinto3]; [not_a_field|].
destruct (for_break_maps_into _ _ _ df_columns _ _ revenue_body_simple Hone3 Hinto3)
  as [Hone4 Hinto4]; [not_a_field|].
destruct (for_break_maps_into _ _ _ df_columns _ _ quantity_body_simple Hone4 Hinto4)
  as [Hone5 Hinto5]; [not_a_field|].
done.
Qed.

(** X7. The date loop has one pass as well: it stops at the first
    column that contains "date", whether or not the name also contains
    "order", "transaction" or "sale", and no other column is ever mapped
    to [date]. With ["Ship Date"] listed before ["Order Date"] the former
    is mapped. *)
Theorem date_first_match (df_columns : list string) :
  let m := column_mapping_of df_columns in
  for_break date_body df_columns ∅
  = match list_find (λ c, date_cond c = true) df_columns with
    | Some (_, c) => {[c := "date"]}
    | None => ∅
    end
  ∧ (∀ col, m !! col = Some "date" →
       ∃ i, list_find (λ c, date_cond c = true) df_columns = Some (i, col))
  ∧ column_mapping_of ["Ship Date"; "Order Date"] !! "Ship Date" = Some "date"
  ∧ column_mapping_of ["Ship Date"; "Order Date"] !! "Order Date" = None.
Proof.
intros m.
assert (Hloop : for_break date_body df_columns ∅
  = match list_find (λ c, date_cond c = true) df_columns with
    | Some (_, c) => {[c := "date"]}
    | None => ∅
    end).
{ rewrite (date_loop _ _ (unmapped_empty "date")).
  destruct (list_find _ df_columns) as [[i c]|]; [|done]. by rewrite insert_empty. }
split; [exact Hloop|]. split; [|by vm_compute].
intros col Hcol. subst m. unfold column_mapping_of in Hcol.
apply (for_break_lookup _ _ _ _ _ _ _ quantity_body_simple) in Hcol; [|done].
apply (for_break_lookup _ _ _ _ _ _ _ revenue_body_simple) in Hcol; [|done].
apply region_loops_lookup in Hcol; [|done].
apply (for_break_lookup _ _ _ _ _ _ _ product_body_simple) in Hcol; [|done].
rewrite Hloop in Hcol.
destruct (list_find _ df_columns) as [[i c]|]; [|by rewrite lookup_empty in Hcol].
exists i. apply lookup_singleton_Some in Hcol as [-> _]. done.
Qed.

(** A column consumed for one field can be taken again for a later
    one: ["Sales Date"] is mapped to [date] and then to [revenue], so that
    no column is mapped to [date] in the end. *)
Theorem later_field_overwrites :
  for_break date_body ["Sales Date"; "Product"] ∅ !! "Sales Date" = Some "date"
  ∧ column_mapping_of ["Sales Date"; "Product"] !! "Sales Date" = Some "revenue"
  ∧ in_values "date" (column_mapping_of ["Sales Date"; "Product"]) = false.
Proof. by vm_compute. Qed.

End MappingFacts.

(** ** The summary *)

Module SummaryFacts.
Import DataCleaner DataAnalyzer FrameFacts AnalyzerRuns.

Section summary.
Context `{Conversions}.

Lemma optional_column_run {A : Type} (h : heap) (r : ref) (d : DataFrame) (col : string)
    (f : Series → A) (a : A) :
  h !! r = Some d →
  (if pd.has_column d col then s ← getitem r col; mret (f s) else mret a) h
  = (Return (from_option f a (pd.get_column d col)), h).
Proof.
intros Hr. destruct (pd.get_column d col) as [s|] eqn:Hs.
- rewrite (has_column_true _ _ _ Hs).
  by rewrite run.bind, (run.getitem_at _ _ _ _ _ Hr Hs).
- apply has_column_missing in Hs. by rewrite Hs.
Qed.

Lemma optional_date_run (h : heap) (r : ref) (d : DataFrame)
    (f : Series → M string) (g : Series → string) :
  h !! r = Some d →
  (∀ s, pd.get_column d "date" = Some s → f s = mret (g s)) →
  (if pd.has_column d "date" then s ← getitem r "date"; x ← f s; mret (Some x)
   else mret None) h
  = (Return (g <$> pd.get_column d "date"), h).
Proof.
intros Hr Hf. destruct (pd.get_column d "date") as [s|] eqn:Hs.
- rewrite (has_column_true _ _ _ Hs).
  by rewrite run.bind, (run.getitem_at _ _ _ _ _ Hr Hs), (Hf s eq_refl).
- apply has_column_missing in Hs. by rewrite Hs.
Qed.

(** What [get_summary_statistics] returns. *)
Lemma get_summary_statistics_run
    (h : heap) (self : t) (d : DataFrame) (vals : Series) (total : number)
    (xs : list float) :
  h !! df self = Some d →
  pd.get_column d "revenue" = Some vals →
  agg.total vals = Some total →
  pd.to_floats vals = Some xs →
  (∀ s, pd.get_column d "date" = Some s → agg.ordered s = true) →
  get_summary_statistics self h
  = (Return {| total_transactions := pd.nrows d;
               total_revenue := total;
               average_revenue_per_transaction := NFloat (mean_floats xs);
               unique_products := from_option agg.nunique 0%nat (pd.get_column d "product");
               unique_regions := from_option agg.nunique 0%nat (pd.get_column d "region");
               date_range_start := agg.str_min <$> pd.get_column d "date";
               date_range_end := agg.str_max <$> pd.get_column d "date" |}, h).
Proof.
intros Hdf Hrev Htotal Hxs Hdate. unfold get_summary_statistics.
rewrite run.bind, (run.load_at _ _ _ Hdf).
rewrite run.bind, (calculate_total_revenue_run _ _ _ _ _ Hdf Hrev Htotal).
rewrite run.bind, (has_column_true _ _ _ Hrev).
rewrite run.bind, (run.getitem_at _ _ _ _ _ Hdf Hrev).
unfold numeric_values. rewrite run.bind, Hxs, run.or_raise_Some, run.ret.
rewrite run.bind, (optional_column_run _ _ _ "product" agg.nunique 0%nat Hdf).
rewrite run.bind, (optional_column_run _ _ _ "region" agg.nunique 0%nat Hdf).
rewrite run.bind, (optional_date_run _ _ _ agg.min_str agg.str_min Hdf).
2:{ intros s Hs. unfold agg.min_str. by rewrite (Hdate s Hs). }
rewrite run.bind, (optional_date_run _ _ _ agg.max_str agg.str_max Hdf).
2:{ intros s Hs. unfold agg.max_str. by rewrite (Hdate s Hs). }
reflexivity.
Qed.

(** The least date of a column of texts with a gap is not computed. *)
Lemma get_summary_statistics_unordered
    (h : heap) (self : t) (d : DataFrame) (vals s : Series) (total : number)
    (xs : list float) :
  h !! df self = Some d →
  pd.get_column d "revenue" = Some vals →
  agg.total vals = Some total →
  pd.to_floats vals = Some xs →
  pd.get_column d "date" = Some s →
  agg.ordered s = false →
  ∃ msg, get_summary_statistics self h = (Raise (TypeError msg), h).
Proof.
intros Hdf Hrev Htotal Hxs Hs Hord. eexists. unfold get_summary_statistics.
rewrite run.bind, (run.load_at _ _ _ Hdf).
rewrite run.bind, (calculate_total_revenue_run _ _ _ _ _ Hdf Hrev Htotal).
rewrite run.bind, (has_column_true _ _ _ Hrev).
rewrite run.bind, (run.getitem_at _ _ _ _ _ Hdf Hrev).
unfold numeric_values. rewrite run.bind, Hxs, run.or_raise_Some, run.ret.
rewrite run.bind, (optional_column_run _ _ _ "product" agg.nunique 0%nat Hdf).
rewrite run.bind, (optional_column_run _ _ _ "region" agg.nunique 0%nat Hdf).
rewrite run.bind, (has_column_true _ _ _ Hs).
rewrite run.bind, (run.getitem_at _ _ _ _ _ Hdf Hs).
unfold agg.min_str. rewrite Hord. reflexivity.
Qed.

Lemma total_number (vals : Series) :
  pd.is_number vals = true →
  ∃ total xs, agg.total vals = Some total ∧ pd.to_floats vals = Some xs.
Proof. destruct vals; try done; intros _; cbn; by eexists _, _. Qed.

(** X8. On a table with a numeric [revenue] column the summary holds
    the number of rows, the sum and the mean of the revenue, the numbers
    of distinct products and regions, 0 for a column that is absent, and
    the least and the greatest date as texts, [None] without a [date]
    column; the store is left alone. The dates must be comparable: when
    [date] is a column of texts that has both a text and a gap, the call
    raises a [TypeError] instead. *)
Theorem summary_statistics_of_table
    (h : heap) (self : t) (d : DataFrame) (vals : Series) :
  h !! df self = Some d →
  pd.get_column d "revenue" = Some vals →
  pd.is_number vals = true →
  ∃ total xs,
    agg.total vals = Some total
    ∧ pd.to_floats vals = Some xs
    ∧ ((∀ s, pd.get_column d "date" = Some s → agg.ordered s = true) →
       get_summary_statistics self h
       = (Return {| total_transactions := pd.nrows d;
                    total_revenue := total;
                    average_revenue_per_transaction := NFloat (mean_floats xs);
                    unique_products :=
                      from_option agg.nunique 0%nat (pd.get_column d "product");
                    unique_regions :=
                      from_option agg.nunique 0%nat (pd.get_column d "region");
                    date_range_start := agg.str_min <$> pd.get_column d "date";
                    date_range_end := agg.str_max <$> pd.get_column d "date" |}, h))
    ∧ (∀ s, pd.get_column d "date" = Some s → agg.ordered s = false →
         ∃ msg, get_summary_statistics self h = (Raise (TypeError msg), h)).
Proof.
intros Hdf Hrev Hnum.
destruct (total_number vals Hnum) as (total & xs & Htotal & Hxs).
exists total, xs. split; [done|]. split; [done|]. split.
- intros Hdate. by apply (get_summary_statistics_run _ _ _ vals).
- intros s Hs Hord. by eapply (get_summary_statistics_unordered _ _ _ vals).
Qed.

End summary.

Lemma summary_statistics_of_table_witness :
  let d := [("date", Object [Some "2024-02-05"; Some "2024-01-05"; Some "2024-03-01"]);
            ("region", Object [Some "East"; None; Some "East"]);
            ("revenue", Float64 [100; 50.5; 20]%float)] in
  get_summary_statistics (H := simple.conversions) {| df := 0 |} [d]
  = (Return {| total_transactions := 3;
               total_revenue := NFloat (np.nansum [100; 50.5; 20]%float);
               average_revenue_per_transaction := NFloat (np.nanmean [100; 50.5; 20]%float);
               unique_products := 0;
               unique_regions := 1;
               date_range_start := Some "2024-01-05";
               date_range_end := Some "2024-03-01" |}, [d]).
Proof.
intros d.
destruct (summary_statistics_of_table (H := simple.conversions) [d] {| df := 0 |} d
            (Float64 [100; 50.5; 20]%float) eq_refl eq_refl eq_refl)
  as (total & xs & Htotal & Hxs & Hreturns & _).
apply (inj Some) in Htotal, Hxs. subst total xs.
rewrite Hreturns; [vm_compute; reflexivity|].
intros s Hs. apply (inj Some) in Hs. subst s. reflexivity.
Defined.

(** The summary of that table, and the error when a date is missing. *)
Example summary_of_three_sales :
  let d := [("date", Object [Some "2024-02-05"; Some "2024-01-05"; Some "2024-03-01"]);
            ("region", Object [Some "East"; None; Some "East"]);
            ("revenue", Float64 [100; 50.5; 20]%float)] in
  let gap := [("date", Object [Some "2024-02-05"; None]);
              ("revenue", Float64 [100; 50.5]%float)] in
  (get_summary_statistics (H := simple.conversions) {| df := 0 |} [d]).1
  = Return {| total_transactions := 3;
              total_revenue := NFloat 170.5;
              average_revenue_per_transaction := NFloat (170.5 / 3);
              unique_products := 0;
              unique_regions := 1;
              date_range_start := Some "2024-01-05";
              date_range_end := Some "2024-03-01" |}
  ∧ (get_summary_statistics (H := simple.conversions) {| df := 0 |} [gap]).1
    = Raise (TypeError "'<=' not supported between instances of 'str' and 'float'").
Proof. vm_compute. done. Qed.

(** From the raw table to the figures: [clean_all] removes the
    repeated row and reads the dates and the numbers, leaving the raw
    table as it was; the analyzer built on its result finds a total
    revenue of 150, the product Widget with 150, and the months 2024-01
    and 2024-02 with a growth of -50 percent. *)
Theorem pipeline_of_repeated_rows :
  let cleaned := clean_all (H := simple.conversions) 0 "fill" [Tables.repeated_rows] in
  let built := __init__ 3 cleaned.2 in
  let self := {| df := 4 |} in
  cleaned.1 = Return 3%nat
  ∧ cleaned.2 !! 3%nat
    = Some [("date", Datetime [Some (mkTimestamp 2024 1 5 0); Some (mkTimestamp 2024 2 5 0)]);
            ("product", Object [Some "Widget"; Some "Widget"]);
            ("region", Object [Some "East"; Some "East"]);
            ("revenue", Int64 [100; 50]%Z);
            ("quantity", Int64 [2; 1]%Z)]
  ∧ cleaned.2 !! 0%nat = Some Tables.repeated_rows
  ∧ built.1 = Return self
  ∧ (calculate_total_revenue (H := simple.conversions) self built.2).1 = Return (NInt 150)
  ∧ (get_top_products (H := simple.conversions) self 10 built.2).1 = Return 5%nat
  ∧ (get_top_products (H := simple.conversions) self 10 built.2).2 !! 5%nat
    = Some [("product", Object [Some "Widget"]); ("total_revenue", Int64 [150]%Z)]
  ∧ (calculate_monthly_growth_rate (H := simple.conversions) self built.2).1 = Return 6%nat
  ∧ (calculate_monthly_growth_rate (H := simple.conversions) self built.2).2 !! 6%nat
    = Some [("month", Object [Some "2024-01"; Some "2024-02"]);
            ("revenue", Int64 [100; 50]%Z);
            ("growth_rate", Float64 [0; -50]%float)].
Proof. vm_compute. repeat split; reflexivity. Qed.

End SummaryFacts.

(** ** The strategies for missing values *)

Module StrategyFacts.
Import DataCleaner CleanerSpec StrategySpec FrameFacts DataCleanerRuns CleanerStepFacts.

Lemma set_column_same (d : DataFrame) (col : string) (s : Series) :
  pd.get_column d col = Some s → pd.set_column col s d = d.
Proof.
induction d as [|[c s'] d IH]; cbn; [done|].
destruct (String.eqb_spec c col) as [->|Hne].
- by intros [= ->].
- intros Hs. by rewrite IH.
Qed.

(** With distinct names, the column of a name is the column found
    under it. *)
Lemma get_column_elem_of (d : DataFrame) (col : string) (s : Series) :
  NoDup (pd.columns d) → (col, s) ∈ d → pd.get_column d col = Some s.
Proof.
unfold pd.columns. induction d as [|[c s'] d IH]; cbn; [by intros _ ?%elem_of_nil|].
intros [Hc Hd]%NoDup_cons [[= -> ->]|Hin]%elem_of_cons.
- by rewrite String.eqb_refl.
- destruct (String.eqb_spec c col) as [->|Hne]; [|by apply IH].
  exfalso. apply Hc. apply list_elem_of_fmap. by exists (col, s).
Qed.

Lemma get_column_Some_elem_of (d : DataFrame) (col : string) (s : Series) :
  pd.get_column d col = Some s → (col, s) ∈ d.
Proof.
induction d as [|[c s'] d IH]; cbn; [done|].
destruct (String.eqb_spec c col) as [->|Hne].
- intros [= ->]. by left.
- intros Hs. right. by apply IH.
Qed.

Lemma select_dtypes_number_elem_of (d : DataFrame) (col : string) :
  col ∈ pd.select_dtypes_number d ↔ ∃ s, (col, s) ∈ d ∧ pd.is_number s = true.
Proof.
unfold pd.select_dtypes_number. rewrite list_elem_of_fmap. split.
- intros ([c s] & -> & Hin). apply list_elem_of_In, filter_In in Hin as [Hin Hs].
  exists s. split; [by apply list_elem_of_In | done].
- intros (s & Hin & Hs). exists (col, s). split; [done|].
  apply list_elem_of_In, filter_In. split; [by apply list_elem_of_In | done].
Qed.

Lemma select_dtypes_object_elem_of (d : DataFrame) (col : string) :
  col ∈ pd.select_dtypes_object d ↔ ∃ s, (col, s) ∈ d ∧ pd.is_object s = true.
Proof.
unfold pd.select_dtypes_object. rewrite list_elem_of_fmap. split.
- intros ([c s] & -> & Hin). apply list_elem_of_In, filter_In in Hin as [Hin Hs].
  exists s. split; [by apply list_elem_of_In | done].
- intros (s & Hin & Hs). exists (col, s). split; [done|].
  apply list_elem_of_In, filter_In. split; [by apply list_elem_of_In | done].
Qed.

Lemma filter_fst_NoDup (P : string * Series → bool) (d : DataFrame) :
  NoDup d.*1 → NoDup (List.filter P d).*1.
Proof.
induction d as [|[c s] d IH]; cbn; [done|].
intros [Hc Hd]%NoDup_cons. destruct (P (c, s)); cbn; [|by apply IH].
apply NoDup_cons. split; [|by apply IH].
intros ([c' s'] & Hcc & Hin)%list_elem_of_fmap. cbn in Hcc. subst c'.
apply list_elem_of_In, filter_In in Hin as [Hin _].
apply Hc, list_elem_of_fmap. exists (c, s'). split; [done | by apply list_elem_of_In].
Qed.

Lemma columns_each_column (f : Series → Series) (names : list string) (d : DataFrame) :
  pd.columns (each_column f names d) = pd.columns d.
Proof.
unfold each_column. revert d. induction names as [|c names IH]; intros d; [done|].
cbn. by rewrite IH, columns_convert_column.
Qed.

(** Over distinct names, the loop replaces the named columns and leaves
    the others alone. *)
Lemma get_each_column (f : Series → Series) (names : list string) (d : DataFrame)
    (col : string) :
  NoDup names →
  pd.get_column (each_column f names d) col
  = if bool_decide (col ∈ names) then f <$> pd.get_column d col else pd.get_column d col.
Proof.
unfold each_column. intros Hnames. revert d.
induction Hnames as [|c names Hc _ IH]; intros d; [done|].
cbn [foldl]. rewrite IH, get_convert_column.
destruct (String.eqb_spec c col) as [->|Hne].
- rewrite (bool_decide_eq_false_2 _ Hc), bool_decide_eq_true_2 by left. done.
- destruct (bool_decide_reflect (col ∈ names)) as [Hin|Hin].
  + by rewrite bool_decide_eq_true_2 by by right.
  + rewrite bool_decide_eq_false_2; [done|].
    intros [->|?]%elem_of_cons; done.
Qed.

(** A loop whose body replaces the column it visits by [f] of it. *)
Lemma for_each_convert (P : Series → Prop) (f : Series → Series)
    (body : string → M unit) (r : ref) (names : list string) :
  (∀ col d s h, h !! r = Some d → pd.get_column d col = Some s → P s →
     body col h = (Return (), <[r := convert_column col f d]> h)) →
  (∀ s, P s → P (f s)) →
  ∀ d h, h !! r = Some d →
    (∀ col, col ∈ names → ∃ s, pd.get_column d col = Some s ∧ P s) →
    for_each names body h = (Return (), <[r := each_column f names d]> h).
Proof.
intros Hbody HP. unfold each_column.
induction names as [|c names IH]; intros d h Hr Hnames.
- cbn. by rewrite list_insert_id.
- destruct (Hnames c) as (s & Hs & Ps); [by left|].
  cbn [for_each foldl]. rewrite run.bind, (Hbody c d s h Hr Hs Ps).
  set (d1 := convert_column c f d).
  assert (Hr1 : <[r := d1]> h !! r = Some d1).
  { apply list_lookup_insert_eq. by eapply lookup_lt_Some. }
  rewrite (IH d1 _ Hr1).
  + by rewrite list_insert_insert_eq.
  + intros col Hcol. destruct (Hnames col) as (s' & Hs' & Ps'); [by right|].
    subst d1. rewrite get_convert_column.
    destruct (String.eqb c col); rewrite Hs'; cbn; eauto.
Qed.

Lemma isnull_any_Int64 (v : list Z) : pd.isnull_any (Int64 v) = false.
Proof.
unfold pd.isnull_any, pd.isnull. cbn. induction v as [|z v IH]; [done|]. exact IH.
Qed.

Lemma convert_column_id (col : string) (f : Series → Series) (d : DataFrame) (s : Series) :
  pd.get_column d col = Some s → f s = s → convert_column col f d = d.
Proof.
intros Hs Hf. unfold convert_column. rewrite Hs, Hf.
destruct (pd.has_column d col); [by apply set_column_same | done].
Qed.

Lemma convert_column_set (col : string) (f : Series → Series) (d : DataFrame) (s : Series) :
  pd.get_column d col = Some s → convert_column col f d = pd.set_column col (f s) d.
Proof.
intros Hs. unfold convert_column. rewrite Hs.
by rewrite (proj2 (has_column_get d col)) by by eexists.
Qed.

(** The body of the first loop of [fill]. *)
Lemma fill_number_body (r : ref) (col : string) (d : DataFrame) (s : Series) (h : heap) :
  h !! r = Some d → pd.get_column d col = Some s → pd.is_number s = true →
  (s ← getitem r col;
   if pd.isnull_any s then
     xs ← numeric_values s;
     let median_value := pd.median xs in
     fillna_number_inplace r col median_value
   else mret ()) h
  = (Return (), <[r := convert_column col fill_number d]> h).
Proof.
intros Hr Hs Hnum. rewrite run.bind, (run.getitem_at _ _ _ _ _ Hr Hs).
destruct s as [v|v| | |]; try done.
- rewrite isnull_any_Int64, run.ret.
  by rewrite (convert_column_id _ _ _ _ Hs), list_insert_id.
- rewrite (convert_column_set _ _ _ _ Hs). cbn [fill_number].
  destruct (pd.isnull_any (Float64 v)) eqn:Hnull.
  + unfold numeric_values. cbn [pd.to_floats]. rewrite run.bind, run.or_raise_Some.
    unfold fillna_number_inplace.
    rewrite run.bind, (run.getitem_at _ _ _ _ _ Hr Hs).
    by rewrite (run.setitem_at _ _ _ _ _ Hr).
  + by rewrite run.ret, (set_column_same _ _ _ Hs), list_insert_id.
Qed.

(** The body of the second loop of [fill]. *)
Lemma fill_text_body (r : ref) (col : string) (d : DataFrame) (s : Series) (h : heap) :
  h !! r = Some d → pd.get_column d col = Some s →
  (s ← getitem r col;
   if pd.isnull_any s then
     let mode_value :=
       match s with
       | Object v => default "Unknown" (head (pd.mode v))
       | _ => "Unknown"
       end in
     fillna_object_inplace r col mode_value
   else mret ()) h
  = (Return (), <[r := convert_column col fill_text d]> h).
Proof.
intros Hr Hs. rewrite run.bind, (run.getitem_at _ _ _ _ _ Hr Hs).
rewrite (convert_column_set _ _ _ _ Hs).
destruct (pd.isnull_any s) eqn:Hnull.
- unfold fillna_object_inplace. rewrite run.bind, (run.getitem_at _ _ _ _ _ Hr Hs).
  destruct s as [v|v|v|v|v]; cbn [fill_text]; rewrite ?Hnull.
  all: try by rewrite run.ret, (set_column_same _ _ _ Hs), list_insert_id.
  by rewrite (run.setitem_at _ _ _ _ _ Hr).
- rewrite run.ret.
  assert (fill_text s = s) as -> by (destruct s; cbn [fill_text]; by rewrite ?Hnull).
  by rewrite (set_column_same _ _ _ Hs), list_insert_id.
Qed.

(** The body of the loop of [interpolate]. *)
Lemma interpolate_body (r : ref) (col : string) (d : DataFrame) (s : Series) (h : heap) :
  h !! r = Some d → pd.get_column d col = Some s →
  (s ← getitem r col;
   if pd.isnull_any s then interpolate_inplace r col else mret ()) h
  = (Return (), <[r := convert_column col interpolate d]> h).
Proof.
intros Hr Hs. rewrite run.bind, (run.getitem_at _ _ _ _ _ Hr Hs).
rewrite (convert_column_set _ _ _ _ Hs).
destruct (pd.isnull_any s) eqn:Hnull.
- unfold interpolate_inplace. rewrite run.bind, (run.getitem_at _ _ _ _ _ Hr Hs).
  destruct s as [v|v|v|v|v]; cbn [interpolate]; rewrite ?Hnull.
  all: try by rewrite run.ret, (set_column_same _ _ _ Hs), list_insert_id.
  by rewrite (run.setitem_at _ _ _ _ _ Hr).
- rewrite run.ret.
  assert (interpolate s = s) as -> by (destruct s; cbn [interpolate]; by rewrite ?Hnull).
  by rewrite (set_column_same _ _ _ Hs), list_insert_id.
Qed.

Lemma number_columns_found (d : DataFrame) (col : string) :
  NoDup (pd.columns d) → col ∈ pd.select_dtypes_number d →
  ∃ s, pd.get_column d col = Some s ∧ pd.is_number s = true.
Proof.
intros Hd (s & Hin & Hs)%select_dtypes_number_elem_of.
exists s. split; [by apply get_column_elem_of | done].
Qed.

Lemma object_columns_found (d : DataFrame) (col : string) :
  col ∈ pd.select_dtypes_object d → ∃ s, pd.get_column d col = Some s ∧ True.
Proof.
intros (s & Hin & Hs)%select_dtypes_object_elem_of.
destruct (proj1 (has_column_get d col)) as [s' Hs']; [|by exists s'].
apply bool_decide_eq_true. apply list_elem_of_fmap. by exists (col, s).
Qed.

Lemma fill_number_is_number (s : Series) :
  pd.is_number s = true → pd.is_number (fill_number s) = true.
Proof. destruct s as [v|v| | |]; try done. cbn [fill_number]. by destruct (pd.isnull_any (Float64 v)). Qed.

(** What [handle_missing_values] allocates with the strategy [fill]. *)
Lemma handle_missing_values_fill_run (h : heap) (df : ref) (d : DataFrame) :
  h !! df = Some d →
  NoDup (pd.columns d) →
  pd.isnull_sum_sum d ≠ 0%nat →
  handle_missing_values df "fill" h = (Return (length h), (h ++ [filled d])%list).
Proof.
intros Hdf Hd Hmiss. unfold handle_missing_values.
rewrite run.bind, (run.load_at _ _ _ Hdf).
apply Nat.eqb_neq in Hmiss. rewrite Hmiss.
rewrite run.bind, (run.copy_at _ _ _ Hdf), run.bind. cbn [String.eqb Ascii.eqb Bool.eqb].
rewrite run.bind, (run.load_at _ _ _ (run.lookup_new _ _)).
rewrite run.bind.
match goal with |- context [for_each ?names ?body ?h1] =>
  rewrite (for_each_convert (λ s, pd.is_number s = true) fill_number body (length h)
             names (fill_number_body (length h))
             fill_number_is_number d h1 (run.lookup_new _ _)
             (λ col, number_columns_found d col Hd))
end.
rewrite run.insert_new.
rewrite run.bind, (run.load_at _ _ _ (run.lookup_new _ _)).
set (d1 := each_column fill_number (pd.select_dtypes_number d) d).
rewrite run.bind.
match goal with |- context [for_each ?names ?body ?h1] =>
  rewrite (for_each_convert (λ _, True) fill_text body (length h)
             names (λ col d s h Hr Hs _, fill_text_body _ col d s h Hr Hs)
             (λ _ _, I) d1 h1 (run.lookup_new _ _) (object_columns_found d1))
end.
by rewrite run.insert_new.
Qed.

(** What [handle_missing_values] allocates with the strategy
    [interpolate]. *)
Lemma handle_missing_values_interpolate_run (h : heap) (df : ref) (d : DataFrame) :
  h !! df = Some d →
  NoDup (pd.columns d) →
  pd.isnull_sum_sum d ≠ 0%nat →
  handle_missing_values df "interpolate" h
  = (Return (length h), (h ++ [interpolated d])%list).
Proof.
intros Hdf Hd Hmiss. unfold handle_missing_values.
rewrite run.bind, (run.load_at _ _ _ Hdf).
apply Nat.eqb_neq in Hmiss. rewrite Hmiss.
rewrite run.bind, (run.copy_at _ _ _ Hdf), run.bind. cbn [String.eqb Ascii.eqb Bool.eqb].
rewrite run.bind, (run.load_at _ _ _ (run.lookup_new _ _)).
rewrite run.bind.
assert (Hfound : ∀ col, col ∈ pd.select_dtypes_number d →
          ∃ s, pd.get_column d col = Some s ∧ True).
{ intros col Hcol. destruct (number_columns_found d col Hd Hcol) as (s & Hs & _). eauto. }
match goal with |- context [for_each ?names ?body ?h1] =>
  rewrite (for_each_convert (λ _, True) interpolate body (length h)
             names (λ col d s h Hr Hs _, interpolate_body _ col d s h Hr Hs)
             (λ _ _, I) d h1 (run.lookup_new _ _) Hfound)
end.
by rewrite run.insert_new.
Qed.


(** *** What the strategies make of each column *)

Lemma is_null_cell_of_float (x : float) : pd.is_null (pd.cell_of_float x) = F64.is_nan x.
Proof. unfold pd.cell_of_float. by destruct (F64.is_nan x). Qed.

Lemma isnull_any_Float64 (v : list float) :
  pd.isnull_any (Float64 v) = existsb F64.is_nan v.
Proof.
unfold pd.isnull_any, pd.isnull. cbn. induction v as [|x v IH]; [done|].
cbn. by rewrite IH, is_null_cell_of_float.
Qed.

Lemma isnull_any_Object (v : list (option string)) :
  pd.isnull_any (Object v) = existsb (λ o, bool_decide (o = None)) v.
Proof.
unfold pd.isnull_any, pd.isnull. cbn. induction v as [|o v IH]; [done|].
cbn. rewrite IH. by destruct o.
Qed.

Lemma fillna_float_id (value : float) (v : list float) :
  existsb F64.is_nan v = false → pd.fillna_float value v = v.
Proof.
unfold pd.fillna_float. induction v as [|x v IH]; [done|].
cbn. intros [-> Hv]%orb_false_iff. by rewrite IH.
Qed.

Lemma fillna_object_id (value : string) (v : list (option string)) :
  existsb (λ o, bool_decide (o = None)) v = false → pd.fillna_object value v = v.
Proof.
unfold pd.fillna_object. induction v as [|o v IH]; [done|].
cbn. intros [Ho Hv]%orb_false_iff. rewrite IH by done. by destruct o.
Qed.

Lemma interpolate_from_id (prev : option (nat * float)) (v : list float) :
  existsb F64.is_nan v = false → pd.interpolate_from prev v = v.
Proof.
revert prev. induction v as [|x v IH]; intros prev; [done|].
cbn. intros [-> Hv]%orb_false_iff. by rewrite IH.
Qed.

Lemma fill_series_eq (s : Series) : fill_text (fill_number s) = fill_series s.
Proof.
destruct s as [v|v|v|v|v]; try done.
- cbn [fill_number fill_text fill_series]. rewrite isnull_any_Float64.
  destruct (existsb F64.is_nan v) eqn:E; [done|]. by rewrite fillna_float_id.
- cbn [fill_number fill_text fill_series]. rewrite isnull_any_Object.
  destruct (existsb _ v) eqn:E; [done|]. by rewrite fillna_object_id.
Qed.

Lemma interpolate_series_eq (s : Series) : interpolate s = interpolate_series s.
Proof.
destruct s as [v|v|v|v|v]; try done.
cbn [interpolate interpolate_series]. rewrite isnull_any_Float64.
destruct (existsb F64.is_nan v) eqn:E; [done|].
unfold pd.interpolate_linear. by rewrite interpolate_from_id.
Qed.

Lemma dtype_of_fill_number (s : Series) : dtype_of (fill_number s) = dtype_of s.
Proof.
destruct s as [v|v|v|v|v]; try done. cbn [fill_number].
by destruct (pd.isnull_any (Float64 v)).
Qed.

Lemma dtype_of_fill_series (s : Series) : dtype_of (fill_series s) = dtype_of s.
Proof. by destruct s. Qed.

Lemma dtype_of_interpolate_series (s : Series) : dtype_of (interpolate_series s) = dtype_of s.
Proof. by destruct s. Qed.

(** With distinct names, the names [select_dtypes] lists are those of
    the columns of that type. *)
Lemma select_dtypes_number_decide (d : DataFrame) (col : string) (s : Series) :
  NoDup (pd.columns d) → pd.get_column d col = Some s →
  bool_decide (col ∈ pd.select_dtypes_number d) = pd.is_number s.
Proof.
intros Hd Hs. destruct (pd.is_number s) eqn:Hnum.
- apply bool_decide_eq_true, select_dtypes_number_elem_of.
  exists s. split; [by apply get_column_Some_elem_of | done].
- apply bool_decide_eq_false. intros (s' & Hin & Hs')%select_dtypes_number_elem_of.
  apply (get_column_elem_of _ _ _ Hd) in Hin. congruence.
Qed.

Lemma select_dtypes_object_decide (d : DataFrame) (col : string) (s : Series) :
  NoDup (pd.columns d) → pd.get_column d col = Some s →
  bool_decide (col ∈ pd.select_dtypes_object d) = pd.is_object s.
Proof.
intros Hd Hs. destruct (pd.is_object s) eqn:Hobj.
- apply bool_decide_eq_true, select_dtypes_object_elem_of.
  exists s. split; [by apply get_column_Some_elem_of | done].
- apply bool_decide_eq_false. intros (s' & Hin & Hs')%select_dtypes_object_elem_of.
  apply (get_column_elem_of _ _ _ Hd) in Hin. congruence.
Qed.

Lemma columns_filled (d : DataFrame) : pd.columns (filled d) = pd.columns d.
Proof. unfold filled. by rewrite !columns_each_column. Qed.

Lemma columns_interpolated (d : DataFrame) : pd.columns (interpolated d) = pd.columns d.
Proof. unfold interpolated. by rewrite columns_each_column. Qed.

Lemma get_filled (d : DataFrame) (col : string) :
  NoDup (pd.columns d) →
  pd.get_column (filled d) col = fill_series <$> pd.get_column d col.
Proof.
intros Hd. unfold filled.
set (d1 := each_column fill_number (pd.select_dtypes_number d) d).
assert (Hd1 : NoDup (pd.columns d1)) by (unfold d1; by rewrite columns_each_column).
assert (Hget1 : pd.get_column d1 col
                = if bool_decide (col ∈ pd.select_dtypes_number d)
                  then fill_number <$> pd.get_column d col else pd.get_column d col).
{ apply get_each_column. by apply filter_fst_NoDup. }
rewrite get_each_column by by apply filter_fst_NoDup.
destruct (pd.get_column d col) as [s|] eqn:Hs.
- rewrite (select_dtypes_number_decide _ _ _ Hd Hs) in Hget1.
  assert (Hs1 : pd.get_column d1 col = Some (fill_number s)).
  { rewrite Hget1. destruct s as [v|v|v|v|v]; done. }
  rewrite (select_dtypes_object_decide _ _ _ Hd1 Hs1), Hs1. cbn.
  rewrite <- fill_series_eq.
  destruct (pd.is_object (fill_number s)) eqn:Hobj; [done|].
  f_equal. destruct (fill_number s); done.
- cbn in Hget1. rewrite Hget1. by destruct (bool_decide _), (bool_decide _).
Qed.

Lemma get_interpolated (d : DataFrame) (col : string) :
  NoDup (pd.columns d) →
  pd.get_column (interpolated d) col = interpolate_series <$> pd.get_column d col.
Proof.
intros Hd. unfold interpolated.
rewrite get_each_column by by apply filter_fst_NoDup.
destruct (pd.get_column d col) as [s|] eqn:Hs; [|by destruct (bool_decide _)].
rewrite (select_dtypes_number_decide _ _ _ Hd Hs). cbn.
rewrite <- interpolate_series_eq. by destruct s.
Qed.

Lemma count_true_zero (l : list bool) : pd.count_true l = 0%nat → existsb id l = false.
Proof.
unfold pd.count_true. induction l as [|[] l IH]; cbn; [done|lia|done].
Qed.

(** A table without missing value has none in any of its columns. *)
Lemma isnull_sum_sum_zero (d : DataFrame) (col : string) (s : Series) :
  pd.isnull_sum_sum d = 0%nat → (col, s) ∈ d → pd.isnull_any s = false.
Proof.
induction d as [|[c s'] d IH]; [by intros _ ?%elem_of_nil|].
unfold pd.isnull_sum_sum. cbn [foldr]. fold (pd.isnull_sum_sum d). cbn [snd].
intros Hsum [[= -> ->]|Hin]%elem_of_cons.
- apply count_true_zero. lia.
- apply IH; [lia | done].
Qed.

Lemma fill_series_complete (s : Series) : pd.isnull_any s = false → fill_series s = s.
Proof.
intros Hs. rewrite <- fill_series_eq.
destruct s as [v|v|v|v|v]; cbn [fill_number fill_text]; by rewrite ?Hs.
Qed.

Lemma interpolate_series_complete (s : Series) :
  pd.isnull_any s = false → interpolate_series s = s.
Proof.
intros Hs. rewrite <- interpolate_series_eq.
destruct s as [v|v|v|v|v]; cbn [interpolate]; by rewrite ?Hs.
Qed.

Lemma fillna_object_is_Some (value : string) (v : list (option string)) :
  Forall is_Some (pd.fillna_object value v).
Proof.
unfold pd.fillna_object. apply Forall_fmap, Forall_true. intros [x|]; by eexists.
Qed.

Lemma fillna_float_not_nan_all (value : float) (v : list float) :
  F64.is_nan value = false → Forall (λ x, F64.is_nan x = false) (pd.fillna_float value v).
Proof.
intros Hvalue. unfold pd.fillna_float. apply Forall_fmap, Forall_true. intros x. cbn.
by destruct (F64.is_nan x) eqn:E.
Qed.

(** What a call with the strategy [fill] returns, gaps or not. *)
Lemma handle_missing_values_fill_table (h : heap) (df : ref) (d : DataFrame) :
  h !! df = Some d →
  NoDup (pd.columns d) →
  ∃ r h' d',
    handle_missing_values df "fill" h = (Return r, h')
    ∧ h' !! r = Some d'
    ∧ h `prefix_of` h'
    ∧ pd.columns d' = pd.columns d
    ∧ ∀ col, pd.get_column d' col = fill_series <$> pd.get_column d col.
Proof.
intros Hdf Hd. destruct (decide (pd.isnull_sum_sum d = 0%nat)) as [Hnone|Hsome].
- exists df, h, d. rewrite (handle_missing_values_same_run _ _ _ _ Hdf Hnone).
  split; [done|]. split; [done|]. split; [done|]. split; [done|].
  intros col. destruct (pd.get_column d col) as [s|] eqn:Hs; [|done]. cbn.
  rewrite fill_series_complete; [done|].
  eapply isnull_sum_sum_zero; [done|]. by apply get_column_Some_elem_of.
- exists (length h), (h ++ [filled d])%list, (filled d).
  rewrite (handle_missing_values_fill_run _ _ _ Hdf Hd Hsome).
  split; [done|]. split; [apply run.lookup_new|]. split; [by apply prefix_app_r|].
  split; [apply columns_filled | intros col; by apply get_filled].
Qed.

Lemma handle_missing_values_interpolate_table (h : heap) (df : ref) (d : DataFrame) :
  h !! df = Some d →
  NoDup (pd.columns d) →
  ∃ r h' d',
    handle_missing_values df "interpolate" h = (Return r, h')
    ∧ h' !! r = Some d'
    ∧ h `prefix_of` h'
    ∧ pd.columns d' = pd.columns d
    ∧ ∀ col, pd.get_column d' col = interpolate_series <$> pd.get_column d col.
Proof.
intros Hdf Hd. destruct (decide (pd.isnull_sum_sum d = 0%nat)) as [Hnone|Hsome].
- exists df, h, d. rewrite (handle_missing_values_same_run _ _ _ _ Hdf Hnone).
  split; [done|]. split; [done|]. split; [done|]. split; [done|].
  intros col. destruct (pd.get_column d col) as [s|] eqn:Hs; [|done]. cbn.
  rewrite interpolate_series_complete; [done|].
  eapply isnull_sum_sum_zero; [done|]. by apply get_column_Some_elem_of.
- exists (length h), (h ++ [interpolated d])%list, (interpolated d).
  rewrite (handle_missing_values_interpolate_run _ _ _ Hdf Hd Hsome).
  split; [done|]. split; [apply run.lookup_new|]. split; [by apply prefix_app_r|].
  split; [apply columns_interpolated | intros col; by apply get_interpolated].
Qed.


(** *** Rows and columns *)

Lemma take_mask_filter {A : Type} (f : A → bool) (l : list A) :
  take_mask (f <$> l) l = List.filter f l.
Proof. induction l as [|x l IH]; [done|]. cbn. destruct (f x); by rewrite IH. Qed.

Lemma columns_filter_rows (mask : list bool) (d : DataFrame) :
  pd.columns (pd.filter_rows mask d) = pd.columns d.
Proof. unfold pd.columns, pd.filter_rows. by rewrite <- list_fmap_compose. Qed.

(** The cell of a column in a row is a cell of that row. *)
Lemma column_cell_in_row (base : list (list cell)) (d : DataFrame) (c : string)
    (s : Series) (i : nat) (x : cell) :
  Forall (λ cs, pd.series_length cs.2 = length base) d →
  (c, s) ∈ d → pd.series_cells s !! i = Some x →
  ∃ row, pd.rows_from base d !! i = Some row ∧ x ∈ row.
Proof.
intros Hd. induction Hd as [|[c' s'] d E Hd IH]; [by intros ?%elem_of_nil|].
cbn in E. rewrite rows_from_cons. intros [[= -> ->]|Hin]%elem_of_cons Hx.
- assert (is_Some (pd.rows_from base d !! i)) as [row Hrow].
  { apply lookup_lt_is_Some. rewrite rows_from_length by done.
    rewrite <- E, series_length_cells. by eapply lookup_lt_Some. }
  exists (x :: row). split; [|by left].
  rewrite lookup_zip_with, Hx. cbn. by rewrite Hrow.
- destruct (IH Hin Hx) as (row & Hrow & Hxr).
  assert (is_Some (pd.series_cells s' !! i)) as [y Hy].
  { apply lookup_lt_is_Some. rewrite <- series_length_cells, E.
    rewrite <- (rows_from_length base d) by done. by eapply lookup_lt_Some. }
  exists (y :: row). split; [|by right].
  rewrite lookup_zip_with, Hy. cbn. by rewrite Hrow.
Qed.

(** A cell of a row is a cell of some column. *)
Lemma row_cell_in_column (n : nat) (d : DataFrame) (row : list cell) (x : cell) :
  row ∈ pd.rows_from (replicate n []) d → x ∈ row →
  ∃ c s, (c, s) ∈ d ∧ x ∈ pd.series_cells s.
Proof.
revert row. induction d as [|[c s] d IH]; intros row.
- cbn. intros [-> _]%elem_of_replicate. by intros ?%elem_of_nil.
- rewrite rows_from_cons. intros (y & row' & -> & Hy & Hrow')%elem_of_zip_with.
  intros [->|Hx]%elem_of_cons.
  + exists c, s. split; [by left | done].
  + destruct (IH _ Hrow' Hx) as (c' & s' & Hin & Hxs).
    exists c', s'. split; [by right | done].
Qed.

Lemma isnull_any_false_iff (s : Series) :
  pd.isnull_any s = false ↔ ∀ x, x ∈ pd.series_cells s → pd.is_null x = false.
Proof.
split; [intros Hs x; by apply AggFacts.isnull_any_false|].
intros Hs. unfold pd.isnull_any, pd.isnull.
induction (pd.series_cells s) as [|x l IH]; [done|].
cbn. rewrite (Hs x) by left. apply IH. intros y Hy. apply Hs. by right.
Qed.

Lemma count_true_existsb (l : list bool) : existsb id l = false → pd.count_true l = 0%nat.
Proof. unfold pd.count_true. induction l as [|[] l IH]; cbn; [done|done|exact IH]. Qed.

Lemma isnull_sum_sum_all (d : DataFrame) :
  (∀ c s, (c, s) ∈ d → pd.isnull_any s = false) → pd.isnull_sum_sum d = 0%nat.
Proof.
induction d as [|[c s] d IH]; [done|]. intros Hd.
unfold pd.isnull_sum_sum. cbn [foldr]. fold (pd.isnull_sum_sum d). cbn [snd].
rewrite IH by (intros c' s' Hin; apply (Hd c' s'); by right).
rewrite count_true_existsb; [done|]. apply (Hd c s). by left.
Qed.

(** A table whose rows are complete has no missing value, and
    conversely. *)
Lemma complete_rows_no_missing (d : DataFrame) :
  pd.wf d → Forall (λ row, complete row = true) (pd.rows_of d) →
  pd.isnull_sum_sum d = 0%nat.
Proof.
intros Hd Hrows. apply isnull_sum_sum_all. intros c s Hin.
apply isnull_any_false_iff. intros x [i Hx]%list_elem_of_lookup_1.
destruct (column_cell_in_row (replicate (pd.nrows d) []) d c s i x) as (row & Hrow & Hxr);
  [by rewrite length_replicate | done | done |].
rewrite Forall_forall in Hrows.
specialize (Hrows row (list_elem_of_lookup_2 _ _ _ Hrow)).
unfold complete in Hrows. apply negb_true_iff in Hrows.
destruct (pd.is_null x) eqn:E; [|done].
rewrite <- Hrows. symmetry. apply existsb_exists. exists x.
split; [by apply list_elem_of_In | done].
Qed.

Lemma no_missing_complete_rows (d : DataFrame) :
  pd.isnull_sum_sum d = 0%nat → Forall (λ row, complete row = true) (pd.rows_of d).
Proof.
intros Hd. apply Forall_forall. intros row Hrow.
unfold complete. apply negb_true_iff.
destruct (existsb pd.is_null row) eqn:E; [|done].
apply existsb_exists in E as (x & Hx%list_elem_of_In & Hnull).
destruct (row_cell_in_column _ _ _ _ Hrow Hx) as (c & s & Hin & Hxs).
pose proof (isnull_sum_sum_zero _ _ _ Hd Hin) as Hs.
by rewrite (AggFacts.isnull_any_false _ _ Hs Hxs) in Hnull.
Qed.

Lemma filter_all {A : Type} (f : A → bool) (l : list A) :
  Forall (λ x, f x = true) l → List.filter f l = l.
Proof. induction 1 as [|x l Hx _ IH]; [done|]. cbn. by rewrite Hx, IH. Qed.

Lemma filter_Forall {A : Type} (f : A → bool) (l : list A) :
  Forall (λ x, f x = true) (List.filter f l).
Proof.
apply Forall_forall. intros x Hx%list_elem_of_In%filter_In. tauto.
Qed.

Lemma rows_of_dropna (d : DataFrame) :
  pd.wf d → pd.rows_of (pd.dropna d) = List.filter complete (pd.rows_of d).
Proof.
intros Hd. unfold pd.dropna. rewrite rows_of_filter_rows by done.
apply (take_mask_filter complete).
Qed.


(** *** The three strategies *)

Lemma interpolate_from_length (prev : option (nat * float)) (v : list float) :
  length (pd.interpolate_from prev v) = length v.
Proof.
revert prev. induction v as [|x v IH]; intros prev; [done|].
cbn. destruct (F64.is_nan x); cbn; by rewrite IH.
Qed.

Lemma interpolate_from_keeps (prev : option (nat * float)) (v : list float)
    (i : nat) (x : float) :
  v !! i = Some x → F64.is_nan x = false → pd.interpolate_from prev v !! i = Some x.
Proof.
revert prev i. induction v as [|y v IH]; intros prev [|i]; try done; cbn.
- intros [= ->] Hx. by rewrite Hx.
- intros Hi Hx. destruct (F64.is_nan y); cbn; by apply IH.
Qed.

(** A gap before the first value stays. *)
Lemma interpolate_leading_gap (v : list float) (i : nat) :
  (∀ j x, (j ≤ i)%nat → v !! j = Some x → F64.is_nan x = true) →
  (i < length v)%nat →
  pd.interpolate_linear v !! i = Some F64.nan.
Proof.
unfold pd.interpolate_linear. revert i. induction v as [|y v IH]; intros i Hgap Hi.
- cbn in Hi. lia.
- cbn. rewrite (Hgap 0%nat y) by (done || lia). destruct i as [|i]; [done|].
  cbn. apply IH; [|cbn in Hi; lia].
  intros j x Hj Hx. apply (Hgap (S j)); [lia | done].
Qed.

(** X9. With the strategy [drop], the table returned holds the rows of
    the given table that have no missing value, in their order, and so
    has no missing value; its columns are those of the given table, and
    the given table is left as it was. *)
Theorem drop_keeps_the_complete_rows (h : heap) (df : ref) (d : DataFrame) :
  h !! df = Some d →
  pd.wf d →
  ∃ r h' d',
    handle_missing_values df "drop" h = (Return r, h')
    ∧ h' !! r = Some d'
    ∧ h `prefix_of` h'
    ∧ pd.columns d' = pd.columns d
    ∧ pd.rows_of d' = List.filter complete (pd.rows_of d)
    ∧ pd.isnull_sum_sum d' = 0%nat.
Proof.
intros Hdf Hd. destruct (decide (pd.isnull_sum_sum d = 0%nat)) as [Hnone|Hsome].
- exists df, h, d. rewrite (handle_missing_values_same_run _ _ _ _ Hdf Hnone).
  split; [done|]. split; [done|]. split; [done|]. split; [done|]. split; [|done].
  symmetry. by apply filter_all, no_missing_complete_rows.
- exists (S (length h)), (h ++ [d; pd.dropna d])%list, (pd.dropna d).
  rewrite (handle_missing_values_drop_run _ _ _ Hdf Hsome).
  split; [done|]. split; [apply MonthlyFacts.lookup_second|].
  split; [by apply prefix_app_r|]. split; [apply columns_filter_rows|].
  split; [by apply rows_of_dropna|].
  apply complete_rows_no_missing; [by apply wf_dropna|].
  rewrite rows_of_dropna by done. apply filter_Forall.
Qed.

Lemma drop_keeps_the_complete_rows_witness :
  let d := [("revenue", Float64 [1; F64.nan; 4]%float);
            ("region", Object [Some "West"; Some "East"; None])] in
  ∃ r h' d',
    handle_missing_values 0 "drop" [d] = (Return r, h')
    ∧ h' !! r = Some d'
    ∧ [d] `prefix_of` h'
    ∧ pd.columns d' = pd.columns d
    ∧ pd.rows_of d' = List.filter complete (pd.rows_of d)
    ∧ pd.isnull_sum_sum d' = 0%nat.
Proof.
intros d. apply (drop_keeps_the_complete_rows [d] 0 d eq_refl).
repeat constructor.
Defined.

(** X10. With the strategy [fill], in a table whose column names are
    distinct: every gap of a column of floats is replaced by the median of
    the column and every gap of a column of texts by its most frequent
    text, or by ["Unknown"] when the column holds no text; columns of
    other types, dates among them, keep their gaps. No text is missing
    afterwards, and no number when the median is a number. The columns are
    those of the given table, which is left as it was. *)
Theorem fill_replaces_the_gaps (h : heap) (df : ref) (d : DataFrame) :
  h !! df = Some d →
  NoDup (pd.columns d) →
  ∃ r h' d',
    handle_missing_values df "fill" h = (Return r, h')
    ∧ h' !! r = Some d'
    ∧ h `prefix_of` h'
    ∧ pd.columns d' = pd.columns d
    ∧ (∀ col v, pd.get_column d col = Some (Float64 v) →
         pd.get_column d' col = Some (Float64 (pd.fillna_float (pd.median v) v))
         ∧ (F64.is_nan (pd.median v) = false →
            Forall (λ x, F64.is_nan x = false) (pd.fillna_float (pd.median v) v)))
    ∧ (∀ col v, pd.get_column d col = Some (Object v) →
         pd.get_column d' col
         = Some (Object (pd.fillna_object (default "Unknown" (head (pd.mode v))) v)))
    ∧ (∀ col s, pd.get_column d col = Some s → dtype_of s ∉ [float64; object] →
         pd.get_column d' col = Some s)
    ∧ (∀ col v, pd.get_column d' col = Some (Object v) → Forall is_Some v).
Proof.
intros Hdf Hd.
destruct (handle_missing_values_fill_table h df d Hdf Hd)
  as (r & h' & d' & Hrun & Hr & Hpre & Hcols & Hget).
exists r, h', d'. do 4 (split; [done|]). split; [|split; [|split]].
- intros col v Hv. rewrite Hget, Hv. split; [done|]. apply fillna_float_not_nan_all.
- intros col v Hv. by rewrite Hget, Hv.
- intros col s Hs Hty. rewrite Hget, Hs. cbn. f_equal.
  destruct s; try done; exfalso; apply Hty; cbn; rewrite !elem_of_cons; tauto.
- intros col v. rewrite Hget. destruct (pd.get_column d col) as [[]|]; try done.
  cbn. intros [= <-]. apply fillna_object_is_Some.
Qed.

Lemma fill_replaces_the_gaps_witness :
  let d := [("revenue", Float64 [1; F64.nan; 4]%float);
            ("date", Datetime [None; Some (mkTimestamp 2024 1 5 0); None]);
            ("region", Object [Some "West"; Some "East"; None])] in
  ∃ r h' d',
    handle_missing_values 0 "fill" [d] = (Return r, h')
    ∧ h' !! r = Some d'
    ∧ [d] `prefix_of` h'
    ∧ pd.columns d' = pd.columns d
    ∧ (∀ col v, pd.get_column d col = Some (Float64 v) →
         pd.get_column d' col = Some (Float64 (pd.fillna_float (pd.median v) v))
         ∧ (F64.is_nan (pd.median v) = false →
            Forall (λ x, F64.is_nan x = false) (pd.fillna_float (pd.median v) v)))
    ∧ (∀ col v, pd.get_column d col = Some (Object v) →
         pd.get_column d' col
         = Some (Object (pd.fillna_object (default "Unknown" (head (pd.mode v))) v)))
    ∧ (∀ col s, pd.get_column d col = Some s → dtype_of s ∉ [float64; object] →
         pd.get_column d' col = Some s)
    ∧ (∀ col v, pd.get_column d' col = Some (Object v) → Forall is_Some v).
Proof.
intros d. apply (fill_replaces_the_gaps [d] 0 d eq_refl).
apply (bool_decide_unpack _). vm_compute. exact I.
Defined.

(** X11. With the strategy [interpolate], in a table whose column names
    are distinct: every column of floats is interpolated, which keeps its
    length and every value that is there and leaves a gap before the first
    value as it is; the other columns, texts among them, keep their gaps.
    The given table is left as it was. *)
Theorem interpolate_fills_numeric_gaps (h : heap) (df : ref) (d : DataFrame) :
  h !! df = Some d →
  NoDup (pd.columns d) →
  ∃ r h' d',
    handle_missing_values df "interpolate" h = (Return r, h')
    ∧ h' !! r = Some d'
    ∧ h `prefix_of` h'
    ∧ pd.columns d' = pd.columns d
    ∧ (∀ col v, pd.get_column d col = Some (Float64 v) →
         pd.get_column d' col = Some (Float64 (pd.interpolate_linear v))
         ∧ length (pd.interpolate_linear v) = length v
         ∧ (∀ i x, v !! i = Some x → F64.is_nan x = false →
              pd.interpolate_linear v !! i = Some x)
         ∧ (∀ i, (i < length v)%nat →
              (∀ j x, (j ≤ i)%nat → v !! j = Some x → F64.is_nan x = true) →
              pd.interpolate_linear v !! i = Some F64.nan))
    ∧ (∀ col s, pd.get_column d col = Some s → dtype_of s ≠ float64 →
         pd.get_column d' col = Some s).
Proof.
intros Hdf Hd.
destruct (handle_missing_values_interpolate_table h df d Hdf Hd)
  as (r & h' & d' & Hrun & Hr & Hpre & Hcols & Hget).
exists r, h', d'. do 4 (split; [done|]). split.
- intros col v Hv. rewrite Hget, Hv. split; [done|].
  split; [apply interpolate_from_length|].
  split; [intros i x; apply interpolate_from_keeps|].
  intros i Hi Hgap. by apply interpolate_leading_gap.
- intros col s Hs Hty. rewrite Hget, Hs. cbn. f_equal. by destruct s.
Qed.

Lemma interpolate_fills_numeric_gaps_witness :
  let d := [("revenue", Float64 [F64.nan; 1; F64.nan; F64.nan; 4; F64.nan]%float);
            ("region", Object [Some "West"; None; None; None; None; None])] in
  ∃ r h' d',
    handle_missing_values 0 "interpolate" [d] = (Return r, h')
    ∧ h' !! r = Some d'
    ∧ [d] `prefix_of` h'
    ∧ pd.columns d' = pd.columns d
    ∧ (∀ col v, pd.get_column d col = Some (Float64 v) →
         pd.get_column d' col = Some (Float64 (pd.interpolate_linear v))
         ∧ length (pd.interpolate_linear v) = length v
         ∧ (∀ i x, v !! i = Some x → F64.is_nan x = false →
              pd.interpolate_linear v !! i = Some x)
         ∧ (∀ i, (i < length v)%nat →
              (∀ j x, (j ≤ i)%nat → v !! j = Some x → F64.is_nan x = true) →
              pd.interpolate_linear v !! i = Some F64.nan))
    ∧ (∀ col s, pd.get_column d col = Some s → dtype_of s ≠ float64 →
         pd.get_column d' col = Some s).
Proof.
intros d. apply (interpolate_fills_numeric_gaps [d] 0 d eq_refl).
apply (bool_decide_unpack _). vm_compute. exact I.
Defined.

End StrategyFacts.

(** ** The table [clean_all] returns *)

Module CleanedFacts.
Import DataCleaner CleanerSpec StrategySpec FrameFacts DataCleanerRuns CleanerStepFacts
  StrategyFacts.

Lemma get_filter_rows (mask : list bool) (d : DataFrame) (col : string) :
  pd.get_column (pd.filter_rows mask d) col = pd.series_take mask <$> pd.get_column d col.
Proof.
unfold pd.filter_rows. induction d as [|[c s] d IH]; [done|].
cbn. by destruct (String.eqb c col).
Qed.

Lemma keeps_kind_refl (s : Series) : keeps_kind s s.
Proof. done. Qed.

Lemma keeps_kind_trans (s1 s2 s3 : Series) :
  keeps_kind s1 s2 → keeps_kind s2 s3 → keeps_kind s1 s3.
Proof. intros [E1 N1] [E2 N2]. split; [congruence | auto]. Qed.

Lemma keeps_kind_fill_series (s : Series) : keeps_kind s (fill_series s).
Proof.
split; [apply dtype_of_fill_series|]. intros Hs. by rewrite fill_series_complete.
Qed.

Lemma keeps_kind_interpolate_series (s : Series) : keeps_kind s (interpolate_series s).
Proof.
split; [apply dtype_of_interpolate_series|]. intros Hs.
by rewrite interpolate_series_complete.
Qed.

Lemma keeps_kind_series_take (mask : list bool) (s : Series) :
  keeps_kind s (pd.series_take mask s).
Proof.
split; [by destruct s|]. rewrite !isnull_any_false_iff. intros Hs x Hx.
apply Hs. rewrite series_cells_take in Hx. by eapply Basics.take_mask_elem_of.
Qed.

(** Whatever the strategy, [handle_missing_values] returns a table with
    the columns of the given one, each of the type it had and without
    gaps if it had none. *)
Lemma handle_missing_values_keeps_kind (h : heap) (df : ref) (d : DataFrame)
    (strategy : string) :
  h !! df = Some d →
  NoDup (pd.columns d) →
  ∃ r h' d',
    handle_missing_values df strategy h = (Return r, h')
    ∧ h' !! r = Some d'
    ∧ h `prefix_of` h'
    ∧ pd.columns d' = pd.columns d
    ∧ ∀ col s', pd.get_column d' col = Some s' →
        ∃ s, pd.get_column d col = Some s ∧ keeps_kind s s'.
Proof.
intros Hdf Hd.
destruct (decide (pd.isnull_sum_sum d = 0%nat)) as [Hnone|Hsome].
{ exists df, h, d. rewrite (handle_missing_values_same_run _ _ _ _ Hdf Hnone).
  do 4 (split; [done|]). intros col s' Hs'. by exists s'. }
destruct (String.eqb_spec strategy "drop") as [->|Hdrop].
{ exists (S (length h)), (h ++ [d; pd.dropna d])%list, (pd.dropna d).
  rewrite (handle_missing_values_drop_run _ _ _ Hdf Hsome).
  split; [done|]. split; [apply MonthlyFacts.lookup_second|].
  split; [by apply prefix_app_r|]. split; [apply columns_filter_rows|].
  intros col s'. unfold pd.dropna. rewrite get_filter_rows.
  destruct (pd.get_column d col) as [s|]; [|done]. intros [= <-].
  exists s. split; [done | apply keeps_kind_series_take]. }
destruct (String.eqb_spec strategy "fill") as [->|Hfill].
{ destruct (handle_missing_values_fill_table h df d Hdf Hd)
    as (r & h' & d' & Hrun & Hr & Hpre & Hcols & Hget).
  exists r, h', d'. do 4 (split; [done|]). intros col s'. rewrite Hget.
  destruct (pd.get_column d col) as [s|]; [|done]. intros [= <-].
  exists s. split; [done | apply keeps_kind_fill_series]. }
destruct (String.eqb_spec strategy "interpolate") as [->|Hinter].
{ destruct (handle_missing_values_interpolate_table h df d Hdf Hd)
    as (r & h' & d' & Hrun & Hr & Hpre & Hcols & Hget).
  exists r, h', d'. do 4 (split; [done|]). intros col s'. rewrite Hget.
  destruct (pd.get_column d col) as [s|]; [|done]. intros [= <-].
  exists s. split; [done | apply keeps_kind_interpolate_series]. }
exists (length h), (h ++ [d])%list, d.
rewrite (handle_missing_values_other_run _ _ _ _ Hdf).
2:{ intros Hin. repeat (apply elem_of_cons in Hin as [Hin|Hin]; [done|]).
    by apply elem_of_nil in Hin. }
apply Nat.eqb_neq in Hsome. rewrite Hsome.
split; [done|]. split; [apply run.lookup_new|]. split; [by apply prefix_app_r|].
split; [done|]. intros col s' Hs'. by exists s'.
Qed.

Section cleaned.
Context `{Conversions}.

Lemma isnull_any_astype_str (s : Series) : pd.isnull_any (conv.astype_str s) = false.
Proof.
destruct (astype_str_Object s) as (v & -> & Hv). rewrite isnull_any_Object.
induction Hv as [|o v [x ->] _ IH]; [done|]. exact IH.
Qed.

Lemma dtype_of_astype_str (s : Series) : dtype_of (conv.astype_str s) = object.
Proof. by destruct (astype_str_Object s) as (v & -> & _). Qed.

Lemma dtype_of_to_datetime_coerce (s : Series) :
  dtype_of (conv.to_datetime_coerce s) = datetime64.
Proof. by destruct (to_datetime_coerce_Datetime s) as [v ->]. Qed.

Lemma is_number_dtype (s : Series) :
  pd.is_number s = true ↔ dtype_of s = int64 ∨ dtype_of s = float64.
Proof. destruct s; cbn; split; try tauto; try done; intros [?|?]; done. Qed.

(** Type fixing gives the five fields their types. *)
Lemma canonical_types_type_fixed (d : DataFrame) : canonical_types (type_fixed d).
Proof.
split; [|split].
- intros s. rewrite get_type_fixed. cbn.
  destruct (pd.get_column d "date"); [|done]. intros [= <-].
  apply dtype_of_to_datetime_coerce.
- intros col s Hcol. rewrite get_type_fixed.
  repeat (apply elem_of_cons in Hcol as [->|Hcol]); [| |by apply elem_of_nil in Hcol].
  all: cbn; destruct (pd.get_column d _); [|done]; intros [= <-].
  all: apply to_numeric_coerce_number.
- intros col s Hcol. rewrite get_type_fixed.
  repeat (apply elem_of_cons in Hcol as [->|Hcol]); [| |by apply elem_of_nil in Hcol].
  all: cbn; destruct (pd.get_column d _); [|done]; intros [= <-].
  all: split; [apply dtype_of_astype_str | apply isnull_any_astype_str].
Qed.

Lemma canonical_types_keeps_kind (d d' : DataFrame) :
  canonical_types d →
  (∀ col s', pd.get_column d' col = Some s' →
     ∃ s, pd.get_column d col = Some s ∧ keeps_kind s s') →
  canonical_types d'.
Proof.
intros (Hdate & Hnum & Htext) Hkeeps. split; [|split].
- intros s' (s & Hs & [E _])%Hkeeps. rewrite E. by apply Hdate.
- intros col s' Hcol (s & Hs & [E _])%Hkeeps.
  apply is_number_dtype. rewrite E. apply is_number_dtype. by eapply Hnum.
- intros col s' Hcol (s & Hs & [E N])%Hkeeps.
  destruct (Htext col s Hcol Hs) as [Hty Hnull]. split; [congruence | auto].
Qed.

(** What [clean_all] returns, whatever the strategy. *)
Lemma clean_all_table (h : heap) (df : ref) (d : DataFrame) (strategy : string) :
  h !! df = Some d →
  NoDup (pd.columns d) →
  ∃ r h' d',
    clean_all df strategy h = (Return r, h')
    ∧ h' !! r = Some d'
    ∧ h `prefix_of` h'
    ∧ pd.columns d' = pd.columns d
    ∧ canonical_types d'.
Proof.
intros Hdf Hd. unfold clean_all.
rewrite run.bind, (run.copy_at _ _ _ Hdf).
rewrite run.bind, (remove_duplicates_run _ _ _ (run.lookup_new _ _)).
rewrite run.bind, (fix_data_types_run _ _ _ (run.lookup_new _ _)).
set (d2 := type_fixed (pd.drop_duplicates d)).
set (h2 := (((h ++ [d]) ++ [pd.drop_duplicates d]) ++ [d2])%list).
assert (Hcols2 : pd.columns d2 = pd.columns d).
{ unfold d2, type_fixed. rewrite !columns_convert_column. apply columns_filter_rows. }
assert (Hd2 : NoDup (pd.columns d2)) by by rewrite Hcols2.
destruct (handle_missing_values_keeps_kind h2 (length ((h ++ [d]) ++ [pd.drop_duplicates d]))
            d2 strategy (run.lookup_new _ _) Hd2)
  as (r & h' & d' & Hrun & Hr & Hpre & Hcols & Hkeeps).
rewrite run.bind. fold h2. rewrite Hrun. exists r, h', d'.
split; [done|]. split; [done|]. split.
{ etrans; [|exact Hpre]. unfold h2. rewrite <- !app_assoc. by apply prefix_app_r. }
split; [congruence|].
eapply canonical_types_keeps_kind; [apply canonical_types_type_fixed | done].
Qed.

End cleaned.

End CleanedFacts.

(** ** Rows that stay apart through the cleaner *)

Module DistinctFacts.
Import DataCleaner CleanerSpec StrategySpec DistinctSpec FrameFacts DataCleanerRuns
  CleanerStepFacts StrategyFacts CleanedFacts.

Lemma take_mask_lookup {A : Type} (mask : list bool) (l : list A) (p : nat) :
  take_mask mask l !! p = nth_kept mask p ≫= (l !!.).
Proof.
revert l p. induction mask as [|b mask IH]; intros [|x l] p; cbn; try done.
- by destruct b, p; cbn; try destruct (nth_kept mask _).
- destruct b.
  + destruct p as [|p]; [done|]. cbn. rewrite IH. by destruct (nth_kept mask p).
  + rewrite IH. by destruct (nth_kept mask p).
Qed.

Lemma take_mask_elem_at {A : Type} (mask : list bool) (l : list A) (i : nat) (x : A) :
  mask !! i = Some true → l !! i = Some x → x ∈ take_mask mask l.
Proof.
revert l i. induction mask as [|b mask IH]; intros [|y l] [|i]; try done; cbn.
- intros [= ->] [= ->]. left.
- intros Hm Hl. destruct b; [right|]; by eapply IH.
Qed.

Lemma first_occurrence_covers_at {A : Type} `{EqDecision A} (seen l : list A)
    (i : nat) (x : A) :
  l !! i = Some x →
  x ∈ seen ∨ ∃ i0, first_occurrence seen l !! i0 = Some true ∧ l !! i0 = Some x.
Proof.
revert seen i. induction l as [|y l IH]; intros seen [|i]; try done; cbn.
- intros [= ->]. case_decide; [by left|]. right. by exists 0%nat.
- intros Hx. case_decide.
  + destruct (IH seen i Hx) as [?|(i0 & ? & ?)]; [by left|]. right. by exists (S i0).
  + destruct (IH (y :: seen) i Hx) as [[->|?]%elem_of_cons|(i0 & ? & ?)].
    * right. by exists 0%nat.
    * by left.
    * right. by exists (S i0).
Qed.

Lemma fmap_neq_elem {A B : Type} `{EqDecision B} (f g : A → B) (l : list A) :
  f <$> l ≠ g <$> l → ∃ x, x ∈ l ∧ f x ≠ g x.
Proof.
induction l as [|x l IH]; [done|]. cbn. intros Hne.
destruct (decide (f x = g x)) as [E|E].
- destruct IH as (y & Hy & Hfg); [intros El; apply Hne; by rewrite E, El|].
  exists y. split; [by right | done].
- exists x. split; [by left | done].
Qed.

Lemma fmap_eq_elem {A B : Type} (f g : A → B) (l : list A) (x : A) :
  f <$> l = g <$> l → x ∈ l → f x = g x.
Proof.
induction l as [|y l IH]; [by intros _ ?%elem_of_nil|]. cbn.
intros [= E El] [->|Hx]%elem_of_cons; auto.
Qed.

(** A row, column by column. *)
Lemma rows_from_lookup (n : nat) (d : DataFrame) (p : nat) (r : list cell) :
  pd.rows_from (replicate n []) d !! p = Some r →
  Some <$> r = (λ cs : string * Series, pd.series_cells cs.2 !! p) <$> d.
Proof.
revert r. induction d as [|[c s] d IH]; intros r.
- cbn. by intros [-> _]%lookup_replicate.
- rewrite rows_from_cons. intros (x & r' & -> & Hx & Hr')%lookup_zip_with_Some.
  cbn. by rewrite Hx, (IH _ Hr').
Qed.

Lemma row_keys_lookup (d : DataFrame) (p : nat) (r : list cell) :
  pd.row_keys d !! p = Some r →
  Some <$> r = (λ cs : string * Series, key_at cs.2 p) <$> d.
Proof.
unfold pd.row_keys, pd.rows_of. rewrite list_lookup_fmap.
destruct (pd.rows_from _ d !! p) as [r0|] eqn:Hr0; [|done]. intros [= <-].
apply rows_from_lookup in Hr0.
rewrite <- list_fmap_compose.
transitivity (fmap pd.cell_key <$> (Some <$> r0)); [by rewrite <- list_fmap_compose|].
rewrite Hr0, <- list_fmap_compose. done.
Qed.

Lemma get_column_not_in (d : DataFrame) (col : string) :
  col ∉ pd.columns d → pd.get_column d col = None.
Proof.
induction d as [|[c s] d IH]; [done|]. cbn. intros Hcol.
destruct (String.eqb_spec c col) as [->|_]; [exfalso; apply Hcol; left|].
apply IH. intros ?. apply Hcol. by right.
Qed.

(** A table is known by its columns when their names differ. *)
Lemma table_ext (F : string → Series → Series) (d d' : DataFrame) :
  NoDup (pd.columns d) →
  pd.columns d' = pd.columns d →
  (∀ col, pd.get_column d' col = F col <$> pd.get_column d col) →
  d' = (λ cs : string * Series, (cs.1, F cs.1 cs.2)) <$> d.
Proof.
revert d'. induction d as [|[c s] d IH]; intros [|[c' s'] d']; try done.
cbn. intros [Hc Hd]%NoDup_cons [= -> Hcols] Hget.
pose proof (Hget c) as Hc'. cbn in Hc'. rewrite String.eqb_refl in Hc'.
injection Hc' as ->. f_equal. apply IH; [done..|].
intros col. destruct (String.eqb_spec c col) as [<-|Hne].
- rewrite (get_column_not_in d c) by done.
  rewrite (get_column_not_in d' c); [done|]. unfold pd.columns. by rewrite Hcols.
- specialize (Hget col). cbn in Hget.
  by destruct (String.eqb_spec c col).
Qed.

Section distinct.
Context `{Conversions}.

Lemma conversion_length (col : string) (s : Series) :
  pd.series_length (conversion col s) = pd.series_length s.
Proof.
unfold conversion.
repeat match goal with |- context [String.eqb ?x col] => destruct (String.eqb x col) end;
  auto using to_datetime_coerce_length, to_numeric_coerce_length, astype_str_length.
Qed.

Lemma type_fixed_columns (d : DataFrame) :
  NoDup (pd.columns d) →
  type_fixed d = (λ cs : string * Series, (cs.1, conversion cs.1 cs.2)) <$> d.
Proof.
intros Hd. apply table_ext; [done| |].
- unfold type_fixed. by rewrite !columns_convert_column.
- intros col. apply get_type_fixed.
Qed.

Lemma key_at_take (mask : list bool) (s : Series) (p : nat) :
  key_at (pd.series_take mask s) p = nth_kept mask p ≫= key_at s.
Proof.
unfold key_at. rewrite series_cells_take, take_mask_lookup.
by destruct (nth_kept mask p).
Qed.

Lemma cells_take (mask : list bool) (s : Series) (p i : nat) :
  nth_kept mask p = Some i →
  pd.series_cells (pd.series_take mask s) !! p = pd.series_cells s !! i.
Proof. intros Hp. by rewrite series_cells_take, take_mask_lookup, Hp. Qed.

(** A selection that keeps every value of a column of texts at least
    once reads as numbers of the same type as the column does. *)
Lemma to_numeric_coerce_take (mask : list bool) (v : list (option string)) :
  (∀ o, o ∈ v → o ∈ take_mask mask v) →
  conv.to_numeric_coerce (Object (take_mask mask v))
  = pd.series_take mask (conv.to_numeric_coerce (Object v)).
Proof.
intros Hcover. cbn.
rewrite <- (Basics.take_mask_fmap (λ o, o ≫= parse_number)).
set (parsed := (λ o, o ≫= parse_number) <$> v) in *.
destruct (mapM conv.as_int parsed) as [ints|] eqn:E.
- assert (Hints : mapM conv.as_int (take_mask mask parsed) = Some (take_mask mask ints)).
  { clear Hcover. revert mask parsed E. generalize ints. clear.
    intros ints mask parsed. revert mask ints.
    induction parsed as [|x parsed IH]; intros mask ints.
    - intros [= <-]. by rewrite !Basics.take_mask_nil.
    - cbn. destruct (conv.as_int x) as [z|] eqn:Ez; [|done]. cbn.
      destruct (mapM conv.as_int parsed) as [zs|] eqn:Ezs; [|done]. cbn.
      intros [= <-]. destruct mask as [|[] mask]; cbn; [done| |].
      + by rewrite Ez, (IH mask zs eq_refl).
      + by apply IH. }
  by rewrite Hints.
- assert (Hnone : mapM conv.as_int (take_mask mask parsed) = None).
  { destruct (mapM conv.as_int (take_mask mask parsed)) as [ints|] eqn:E'; [|done].
    exfalso. assert (is_Some (mapM conv.as_int parsed)) as [? ?]; [|congruence].
    apply mapM_is_Some. apply Forall_forall. intros x Hx.
    unfold parsed in Hx. apply list_elem_of_fmap in Hx as (o & -> & Ho).
    apply Hcover in Ho.
    assert (Hall : Forall (is_Some ∘ conv.as_int) (take_mask mask parsed)).
    { apply mapM_is_Some. by eexists. }
    rewrite Forall_forall in Hall. apply Hall.
    unfold parsed. rewrite Basics.take_mask_fmap. apply list_elem_of_fmap. by exists o. }
  rewrite Hnone. cbn. by rewrite Basics.take_mask_fmap.
Qed.

Lemma key_at_Object (v : list (option string)) (i j : nat) :
  key_at (Object v) i = key_at (Object v) j → v !! i = v !! j.
Proof.
unfold key_at. cbn. rewrite !list_lookup_fmap.
destruct (v !! i) as [[a|]|], (v !! j) as [[b|]|]; cbn; congruence.
Qed.

(** Converting a column and selecting rows commute when the selection
    keeps every value of the column at least once. *)
Lemma conversion_take (col : string) (mask : list bool) (s : Series) :
  (∀ i, (i < pd.series_length s)%nat →
     ∃ i0, mask !! i0 = Some true ∧ key_at s i0 = key_at s i) →
  conversion col (pd.series_take mask s) = pd.series_take mask (conversion col s).
Proof.
intros Hcover. unfold conversion.
repeat match goal with |- context [String.eqb ?x col] => destruct (String.eqb x col) end.
1,4,5,6: by destruct s; cbn; rewrite ?Basics.take_mask_fmap.
all: destruct s as [v|v|v|v|v]; try (cbn; by rewrite ?Basics.take_mask_fmap).
all: apply to_numeric_coerce_take; intros o Ho.
all: apply list_elem_of_lookup in Ho as [i Hi].
all: destruct (Hcover i) as (i0 & Hm & Hk); [by eapply lookup_lt_Some|].
all: apply key_at_Object in Hk; rewrite Hi in Hk.
all: by eapply take_mask_elem_at.
Qed.

(** The first occurrences of the rows keep every value of every column. *)
Lemma first_rows_cover (d : DataFrame) (c : string) (s : Series) (i : nat) :
  pd.wf d → (c, s) ∈ d → (i < pd.series_length s)%nat →
  ∃ i0, first_occurrence [] (pd.row_keys d) !! i0 = Some true
        ∧ key_at s i0 = key_at s i.
Proof.
intros Hd Hin Hi.
assert (Hlen : pd.series_length s = pd.nrows d).
{ unfold pd.wf in Hd. rewrite Forall_forall in Hd. exact (Hd _ Hin). }
assert (is_Some (pd.row_keys d !! i)) as [r Hr].
{ apply lookup_lt_is_Some. unfold pd.row_keys.
  rewrite length_fmap, rows_of_length by done. lia. }
destruct (first_occurrence_covers_at [] _ _ _ Hr) as [?%elem_of_nil|(i0 & Hm & Hr0)]; [done|].
exists i0. split; [done|].
apply row_keys_lookup in Hr, Hr0. rewrite Hr in Hr0.
symmetry. exact (fmap_eq_elem _ _ _ (c, s) Hr0 Hin).
Qed.

Lemma cell_of_float_present (x : float) (a : cell) :
  pd.cell_of_float x = a → pd.is_null a = false → F64.is_nan x = false.
Proof. unfold pd.cell_of_float. by destruct (F64.is_nan x); intros <-. Qed.

(** Filling leaves alone what is not missing. *)
Lemma fill_series_keeps (s : Series) (i : nat) (a : cell) :
  pd.series_cells s !! i = Some a → pd.is_null a = false →
  pd.series_cells (fill_series s) !! i = Some a.
Proof.
destruct s as [v|v|v|v|v]; cbn; try done.
- rewrite !list_lookup_fmap. unfold pd.fillna_float. rewrite list_lookup_fmap.
  destruct (v !! i) as [x|]; [|done]. cbn. intros [= Ha] Hnull.
  by rewrite (cell_of_float_present _ _ Ha Hnull), Ha.
- rewrite !list_lookup_fmap. unfold pd.fillna_object. rewrite list_lookup_fmap.
  destruct (v !! i) as [[x|]|]; cbn; try done. by intros [= <-].
Qed.

Lemma interpolate_series_keeps (s : Series) (i : nat) (a : cell) :
  pd.series_cells s !! i = Some a → pd.is_null a = false →
  pd.series_cells (interpolate_series s) !! i = Some a.
Proof.
destruct s as [v|v|v|v|v]; cbn; try done.
rewrite !list_lookup_fmap.
destruct (v !! i) as [x|] eqn:Hx; [|done]. cbn. intros [= Ha] Hnull.
pose proof (cell_of_float_present _ _ Ha Hnull) as Hnan.
unfold pd.interpolate_linear. by rewrite (interpolate_from_keeps _ _ _ _ Hx Hnan), <- Ha.
Qed.

Lemma fill_series_length (s : Series) :
  pd.series_length (fill_series s) = pd.series_length s.
Proof.
destruct s; cbn; try done; unfold pd.fillna_float, pd.fillna_object; by rewrite length_fmap.
Qed.

Lemma interpolate_series_length (s : Series) :
  pd.series_length (interpolate_series s) = pd.series_length s.
Proof.
rewrite !series_length_cells.
destruct s as [v|v|v|v|v]; cbn; try done. rewrite !length_fmap.
unfold pd.interpolate_linear. generalize (@None (nat * float)).
induction v as [|x v IH]; intros prev; [done|]. cbn.
destruct (F64.is_nan x); cbn; by rewrite IH.
Qed.

Lemma wf_columns (F : string → Series → Series) (d : DataFrame) :
  (∀ c s, pd.series_length (F c s) = pd.series_length s) →
  pd.wf d → pd.wf ((λ cs : string * Series, (cs.1, F cs.1 cs.2)) <$> d).
Proof.
intros HF. destruct d as [|[c0 s0] d]; [done|]. unfold pd.wf. cbn.
rewrite !Forall_cons, Forall_fmap. cbn. intros [_ Hd]. split; [done|].
eapply Forall_impl; [exact Hd|]. intros [c s]. cbn. by rewrite !HF.
Qed.

(** The rows of the deduplicated table stay pairwise different under a
    change of its columns that keeps a difference of any two rows of the
    table in some column. *)
Lemma row_keys_columns_NoDup (F : string → Series → Series) (d : DataFrame) :
  pd.wf d →
  (∀ c s, pd.series_length (F c s) = pd.series_length s) →
  (∀ p q i j ri rj,
     nth_kept (first_occurrence [] (pd.row_keys d)) p = Some i →
     nth_kept (first_occurrence [] (pd.row_keys d)) q = Some j →
     pd.row_keys d !! i = Some ri → pd.row_keys d !! j = Some rj → ri ≠ rj →
     ∃ c s, (c, s) ∈ d
       ∧ key_at (F c (pd.series_take (first_occurrence [] (pd.row_keys d)) s)) p
         ≠ key_at (F c (pd.series_take (first_occurrence [] (pd.row_keys d)) s)) q) →
  NoDup (pd.row_keys ((λ cs : string * Series, (cs.1, F cs.1 cs.2))
                        <$> pd.drop_duplicates d)).
Proof.
intros Hd HF Hdiff. set (mask := first_occurrence [] (pd.row_keys d)) in *.
apply NoDup_alt. intros p q x Hp Hq.
destruct (decide (p = q)) as [|Hpq]; [done|exfalso].
apply row_keys_lookup in Hp as Ep. apply row_keys_lookup in Hq as Eq.
rewrite Ep in Eq. unfold pd.drop_duplicates, pd.filter_rows in Eq. fold mask in Eq.
rewrite <- !list_fmap_compose in Eq.
(* the rows [p] and [q] of the deduplicated table *)
assert (Hlen : ∀ p', is_Some (pd.row_keys ((λ cs : string * Series, (cs.1, F cs.1 cs.2))
                                  <$> pd.drop_duplicates d) !! p') →
               is_Some (take_mask mask (pd.row_keys d) !! p')).
{ intros p' Hp'. rewrite <- row_keys_filter_rows by done.
  apply lookup_lt_is_Some. apply lookup_lt_is_Some in Hp'.
  assert (Hwf1 : pd.wf (pd.filter_rows mask d)) by by apply wf_filter_rows.
  unfold pd.drop_duplicates in Hp'. fold mask in Hp'.
  unfold pd.row_keys in Hp' |- *. rewrite length_fmap in Hp' |- *.
  rewrite rows_of_length in Hp' by by apply wf_columns.
  rewrite rows_of_length by done.
  destruct (pd.filter_rows mask d) as [|[c0 s0] d1]; [done|].
  cbn in *. by rewrite HF in Hp'. }
destruct (Hlen p) as [rp Hrp]; [by eexists|].
destruct (Hlen q) as [rq Hrq]; [by eexists|].
assert (Hne : rp ≠ rq).
{ intros <-. apply Hpq.
  eapply NoDup_alt; [apply (Basics.first_occurrence_keeps_NoDup [] (pd.row_keys d))|..];
    done. }
rewrite take_mask_lookup in Hrp, Hrq.
destruct (nth_kept mask p) as [i|] eqn:Hi; [|done].
destruct (nth_kept mask q) as [j|] eqn:Hj; [|done]. cbn in Hrp, Hrq.
destruct (Hdiff p q i j rp rq Hi Hj Hrp Hrq Hne) as (c & s & Hin & Hk).
apply Hk. exact (fmap_eq_elem _ _ _ (c, s) Eq Hin).
Qed.

Lemma row_keys_differ (d : DataFrame) (i j : nat) (ri rj : list cell) :
  pd.row_keys d !! i = Some ri → pd.row_keys d !! j = Some rj → ri ≠ rj →
  ∃ c s, (c, s) ∈ d ∧ key_at s i ≠ key_at s j.
Proof.
intros Hi%row_keys_lookup Hj%row_keys_lookup Hne.
destruct (fmap_neq_elem (λ cs : string * Series, key_at cs.2 i)
            (λ cs : string * Series, key_at cs.2 j) d) as ([c s] & Hin & Hk).
- rewrite <- Hi, <- Hj. intros E. apply Hne. by apply (inj (fmap Some)).
- by exists c, s.
Qed.

Lemma row_lt_series_length (d : DataFrame) (c : string) (s : Series) (i : nat)
    (r : list cell) :
  pd.wf d → (c, s) ∈ d → pd.row_keys d !! i = Some r →
  (i < pd.series_length s)%nat ∧ (i < pd.nrows d)%nat.
Proof.
intros Hd Hin Hr. apply lookup_lt_Some in Hr.
unfold pd.row_keys in Hr. rewrite length_fmap, rows_of_length in Hr by done.
unfold pd.wf in Hd. rewrite Forall_forall in Hd. specialize (Hd _ Hin). cbn in Hd.
by rewrite Hd.
Qed.

Lemma elem_of_seq_0 (n i : nat) : (i < n)%nat → In i (seq 0 n).
Proof. intros Hi. apply in_seq. lia. Qed.

(** Type fixing that is one to one in every column leaves the rows of
    the deduplicated table pairwise different. *)
Lemma type_fixed_NoDup (d : DataFrame) :
  pd.wf d → NoDup (pd.columns d) → types_one_to_one d = true →
  NoDup (pd.row_keys (type_fixed (pd.drop_duplicates d))).
Proof.
intros Hd Hcols Hone.
rewrite type_fixed_columns by (unfold pd.drop_duplicates; by rewrite columns_filter_rows).
apply row_keys_columns_NoDup; [done | apply conversion_length |].
intros p q i j ri rj Hp Hq Hi Hj Hne.
destruct (row_keys_differ d i j ri rj Hi Hj Hne) as (c & s & Hin & Hk).
exists c, s. split; [done|].
rewrite conversion_take by (intros; by eapply first_rows_cover).
rewrite !key_at_take, Hp, Hq. cbn.
destruct (row_lt_series_length d c s i ri Hd Hin Hi) as [Hli _].
destruct (row_lt_series_length d c s j rj Hd Hin Hj) as [Hlj _].
unfold types_one_to_one in Hone. rewrite forallb_forall in Hone.
specialize (Hone (c, s) (proj1 (list_elem_of_In _ _) Hin)).
unfold one_to_one in Hone. cbn in Hone. rewrite forallb_forall in Hone.
specialize (Hone i (elem_of_seq_0 _ _ Hli)). rewrite forallb_forall in Hone.
specialize (Hone j (elem_of_seq_0 _ _ Hlj)).
intros E. apply Hk. rewrite (bool_decide_eq_true_2 _ E) in Hone.
by apply bool_decide_eq_true in Hone.
Qed.

(** Filling the gaps of the type-fixed table leaves its rows pairwise
    different when any two rows of the table differ in a column in which,
    once the types are fixed, neither has a gap. *)
Lemma filled_NoDup (fill : Series → Series) (d : DataFrame) :
  (∀ s, pd.series_length (fill s) = pd.series_length s) →
  (∀ s i a, pd.series_cells s !! i = Some a → pd.is_null a = false →
     pd.series_cells (fill s) !! i = Some a) →
  pd.wf d → NoDup (pd.columns d) → told_apart d = true →
  NoDup (pd.row_keys ((λ cs : string * Series, (cs.1, fill cs.2))
                        <$> type_fixed (pd.drop_duplicates d))).
Proof.
intros Hlen Hkeeps Hd Hcols Hapart.
rewrite type_fixed_columns by (unfold pd.drop_duplicates; by rewrite columns_filter_rows).
rewrite <- list_fmap_compose.
apply (row_keys_columns_NoDup (λ c s, fill (conversion c s)));
  [done | intros; by rewrite Hlen, conversion_length |].
intros p q i j ri rj Hp Hq Hi Hj Hne.
unfold told_apart in Hapart. cbn in Hapart. rewrite forallb_forall in Hapart.
assert (Hli : (i < pd.nrows d)%nat).
{ apply lookup_lt_Some in Hi. unfold pd.row_keys in Hi.
  by rewrite length_fmap, rows_of_length in Hi. }
assert (Hlj : (j < pd.nrows d)%nat).
{ apply lookup_lt_Some in Hj. unfold pd.row_keys in Hj.
  by rewrite length_fmap, rows_of_length in Hj. }
specialize (Hapart i (elem_of_seq_0 _ _ Hli)). rewrite forallb_forall in Hapart.
specialize (Hapart j (elem_of_seq_0 _ _ Hlj)).
rewrite Hi, Hj in Hapart. rewrite bool_decide_eq_false_2 in Hapart by congruence.
cbn in Hapart. apply existsb_exists in Hapart as ([c s] & Hin & Hdiff).
apply list_elem_of_In in Hin. exists c, s. split; [done|].
rewrite conversion_take by (intros; by eapply first_rows_cover).
unfold differ_present in Hdiff. cbn in Hdiff.
destruct (pd.series_cells (conversion c s) !! i) as [a|] eqn:Ha; [|done].
destruct (pd.series_cells (conversion c s) !! j) as [b|] eqn:Hb; [|done].
apply andb_prop in Hdiff as [[Hna Hnb]%andb_prop Hab].
apply negb_true_iff in Hna, Hnb, Hab. apply bool_decide_eq_false in Hab.
unfold key_at.
rewrite (Hkeeps _ p a), (Hkeeps _ q b); [| |done| |done]; cbn.
- congruence.
- by rewrite (cells_take _ _ _ _ Hq).
- by rewrite (cells_take _ _ _ _ Hp).
Qed.

(** [clean_all] with a strategy that fills column by column. *)
Lemma clean_all_filled_run (strategy : string) (fill : Series → Series)
    (h : heap) (df : ref) (d : DataFrame) :
  (∀ h df d, h !! df = Some d → NoDup (pd.columns d) →
     ∃ r h' d',
       handle_missing_values df strategy h = (Return r, h')
       ∧ h' !! r = Some d'
       ∧ h `prefix_of` h'
       ∧ pd.columns d' = pd.columns d
       ∧ ∀ col, pd.get_column d' col = fill <$> pd.get_column d col) →
  h !! df = Some d →
  NoDup (pd.columns d) →
  ∃ r h',
    clean_all df strategy h = (Return r, h')
    ∧ h' !! r = Some ((λ cs : string * Series, (cs.1, fill cs.2))
                        <$> type_fixed (pd.drop_duplicates d)).
Proof.
intros Hfill Hdf Hd. unfold clean_all.
rewrite run.bind, (run.copy_at _ _ _ Hdf).
rewrite run.bind, (remove_duplicates_run _ _ _ (run.lookup_new _ _)).
rewrite run.bind, (fix_data_types_run _ _ _ (run.lookup_new _ _)).
set (d2 := type_fixed (pd.drop_duplicates d)).
set (h2 := (((h ++ [d]) ++ [pd.drop_duplicates d]) ++ [d2])%list).
assert (Hcols2 : pd.columns d2 = pd.columns d).
{ unfold d2, type_fixed. rewrite !columns_convert_column. apply columns_filter_rows. }
assert (Hd2 : NoDup (pd.columns d2)) by by rewrite Hcols2.
destruct (Hfill h2 (length ((h ++ [d]) ++ [pd.drop_duplicates d])) d2
            (run.lookup_new _ _) Hd2)
  as (r & h' & d' & Hrun & Hr & Hpre & Hcols & Hget).
rewrite run.bind. fold h2. rewrite Hrun. exists r, h'. split; [done|].
rewrite Hr. f_equal. by apply (table_ext (λ _, fill)).
Qed.

Lemma told_apart_NoDup (d : DataFrame) :
  pd.wf d → NoDup (pd.columns d) → told_apart d = true →
  NoDup (pd.row_keys (type_fixed (pd.drop_duplicates d))).
Proof.
intros Hd Hcols Hapart.
pose proof (filled_NoDup id d (λ _, eq_refl) (λ _ _ _ E _, E) Hd Hcols Hapart) as Hrows.
erewrite list_fmap_ext, list_fmap_id in Hrows; [exact Hrows|].
by intros i [c s] _.
Qed.

(** C5 (as amended). [remove_duplicates] on the output of [clean_all]
    removes no row and returns an equal table, for a table with distinct
    column names, when any two different rows of the table differ in a
    column in which, once the types are fixed, neither has a missing
    value; and also, with a strategy that neither fills nor interpolates,
    when fixing the types gives, in every column, different values to
    different values. *)
Theorem clean_all_then_remove_duplicates
    (h : heap) (df : ref) (d : DataFrame) (strategy : string) :
  h !! df = Some d →
  pd.wf d →
  NoDup (pd.columns d) →
  told_apart d = true
  ∨ ((strategy ∉ ["fill"; "interpolate"]) ∧ types_one_to_one d = true) →
  ∃ r h' d',
    clean_all df strategy h = (Return r, h')
    ∧ h' !! r = Some d'
    ∧ removed_count d' = 0%nat
    ∧ remove_duplicates r h' = (Return (length h'), (h' ++ [d'])%list).
Proof.
intros Hdf Hd Hcols Hcase.
assert (Hwf2 : pd.wf (type_fixed (pd.drop_duplicates d))).
{ apply wf_type_fixed. by apply wf_filter_rows. }
destruct (decide (strategy ∈ ["fill"; "interpolate"])) as [Hs|Hs].
- destruct Hcase as [Hapart|[? _]]; [|done].
  assert (∃ fill : Series → Series,
            (∀ s, pd.series_length (fill s) = pd.series_length s)
            ∧ (∀ s i a, pd.series_cells s !! i = Some a → pd.is_null a = false →
                 pd.series_cells (fill s) !! i = Some a)
            ∧ ∃ r h', clean_all df strategy h = (Return r, h')
                ∧ h' !! r = Some ((λ cs : string * Series, (cs.1, fill cs.2))
                                    <$> type_fixed (pd.drop_duplicates d)))
    as (fill & Hlen & Hkeeps & r & h' & Hrun & Hr).
  { apply elem_of_cons in Hs as [->|Hs]; [|apply elem_of_cons in Hs as [->|Hs]].
    - exists fill_series.
      split; [apply fill_series_length|]. split; [apply fill_series_keeps|].
      apply clean_all_filled_run; [|done..]. apply handle_missing_values_fill_table.
    - exists interpolate_series.
      split; [apply interpolate_series_length|]. split; [apply interpolate_series_keeps|].
      apply clean_all_filled_run; [|done..].
      apply handle_missing_values_interpolate_table.
    - by apply elem_of_nil in Hs. }
  eexists r, h', _. split; [done|]. split; [exact Hr|].
  apply remove_duplicates_NoDup_run; [done| |].
  + apply (wf_columns (λ _, fill)); [done | done].
  + by apply filled_NoDup.
- destruct (clean_all_NoDup_run h df d strategy Hdf Hd)
    as (r & h' & d' & Hrun & Hr & Hd' & Hrows').
  + destruct Hcase as [Hapart|[_ Hone]];
      [by apply told_apart_NoDup | by apply type_fixed_NoDup].
  + by right.
  + exists r, h', d'. split; [done|]. split; [done|].
    by apply remove_duplicates_NoDup_run.
Qed.

End distinct.

Lemma clean_all_then_remove_duplicates_witness :
  ∃ r h' d',
    clean_all (H := simple.conversions) 0 "fill" [Tables.sales_with_gaps] = (Return r, h')
    ∧ h' !! r = Some d'
    ∧ removed_count d' = 0%nat
    ∧ remove_duplicates r h' = (Return (length h'), (h' ++ [d'])%list).
Proof.
apply (clean_all_then_remove_duplicates (H := simple.conversions)
         [Tables.sales_with_gaps] 0 Tables.sales_with_gaps "fill" eq_refl).
- repeat constructor.
- apply (bool_decide_unpack _). vm_compute. exact I.
- left. vm_compute. reflexivity.
Defined.

(** On the table with gaps the repeated row goes, the dates are read,
    the missing product becomes a text and the missing revenue the
    median 65; a second [remove_duplicates] finds nothing to remove. *)
Example clean_all_fills_sales_with_gaps :
  let cleaned :=
    [("date", Datetime [Some (mkTimestamp 2024 1 5 0); Some (mkTimestamp 2024 2 5 0);
                        Some (mkTimestamp 2024 3 1 0)]);
     ("product", Object [Some "Widget"; Some "Gadget"; Some "nan"]);
     ("revenue", Float64 [100; 65; 30]%float)] in
  ∃ h', clean_all (H := simple.conversions) 0 "fill" [Tables.sales_with_gaps]
        = (Return 4%nat, h')
        ∧ h' !! 4%nat = Some cleaned
        ∧ removed_count cleaned = 0%nat.
Proof. eexists. vm_compute. done. Qed.

(** The two tables on which the claim fails as stated are left out: type
    fixing reads the revenues ["1"] and ["01"] as one number, and the two
    rows of the other table differ only where one has a gap. The second
    table meets the condition of the strategies that do not fill, and
    with [drop] its cleaned table has a single row. *)
Example conditions_leave_out_the_counterexamples :
  let texts := [("revenue", Object [Some "1"; Some "01"])] in
  let gap := [("revenue", Float64 [1; F64.nan]%float)] in
  types_one_to_one (H := simple.conversions) texts = false
  ∧ told_apart (H := simple.conversions) texts = false
  ∧ told_apart (H := simple.conversions) gap = false
  ∧ types_one_to_one (H := simple.conversions) gap = true
  ∧ (∃ h', clean_all (H := simple.conversions) 0 "drop" [gap] = (Return 5%nat, h')
           ∧ h' !! 5%nat = Some [("revenue", Float64 [1]%float)])
  ∧ types_one_to_one (H := simple.conversions) Tables.repeated_rows = true
  ∧ told_apart (H := simple.conversions) Tables.repeated_rows = true.
Proof. repeat split; try (vm_compute; reflexivity). eexists. vm_compute. done. Qed.

End DistinctFacts.

(** ** Validation *)

Module ValidationFacts.
Import DataLoader ValidationSpec StrategySpec FrameFacts AnalyzerRuns CleanedFacts.

Section validation.
Context `{Conversions}.

Lemma validate_data_run (h : heap) (df : ref) (d : DataFrame) :
  h !! df = Some d →
  validate_data df h = (Return ((length (issues_of d) =? 0)%nat, issues_of d), h).
Proof.
intros Hdf. unfold validate_data. rewrite run.bind, (run.load_at _ _ _ Hdf).
unfold issues_of, date_unreadable, not_numeric. fold (missing_columns d).
cbn [foldl].
destruct (bool_decide (missing_columns d = [])); cbn [negb app];
destruct (empty d); cbn [app];
(destruct (pd.get_column d "date") as [sd|] eqn:Hdate;
  [rewrite (has_column_true _ _ _ Hdate); cbn [mbind option_bind];
   destruct (agg.datetimes sd); cbn [negb bool_decide is_Some app]
  | rewrite (proj2 (has_column_missing d "date") Hdate)]);
(destruct (pd.get_column d "revenue") as [sr|] eqn:Hrev;
  [rewrite (has_column_true _ _ _ Hrev); cbn [from_option];
   destruct (pd.is_number sr); cbn [negb app]
  | rewrite (proj2 (has_column_missing d "revenue") Hrev)]);
(destruct (pd.get_column d "quantity") as [sq|] eqn:Hqty;
  [rewrite (has_column_true _ _ _ Hqty); cbn [from_option];
   destruct (pd.is_number sq); cbn [negb app]
  | rewrite (proj2 (has_column_missing d "quantity") Hqty)]).
all: try rewrite bool_decide_eq_true_2 by by eexists.
all: try rewrite bool_decide_eq_false_2 by by intros [??].
all: cbn [negb app]; reflexivity.
Qed.

Lemma filter_negb_nil {A : Type} (f : A → bool) (l : list A) :
  List.filter (λ x, negb (f x)) l = [] ↔ ∀ x, x ∈ l → f x = true.
Proof.
induction l as [|x l IH]; cbn.
- split; [by intros _ ? ?%elem_of_nil | done].
- destruct (f x) eqn:E; cbn.
  + rewrite IH. split.
    * intros Hl y [->|Hy]%elem_of_cons; auto.
    * intros Hl y Hy. apply Hl. by right.
  + split; [done|]. intros Hl. specialize (Hl x (list_elem_of_here _ _)). congruence.
Qed.

Lemma issues_of_nil (d : DataFrame) : issues_of d = [] ↔ valid d.
Proof.
unfold issues_of, valid, date_unreadable, not_numeric, empty.
fold (missing_columns d).
assert (Hmiss : missing_columns d = []
  ↔ ∀ col, col ∈ ["date"; "product"; "region"; "revenue"; "quantity"] →
      pd.has_column d col = true) by apply filter_negb_nil.
split.
- intros Hall.
  destruct (bool_decide_reflect (missing_columns d = [])) as [Hm|Hm]; [|done].
  pose proof (proj1 Hmiss Hm) as Hm'. clear Hm. rename Hm' into Hm.
  destruct (Nat.eqb_spec (pd.nrows d) 0) as [He|He]; [done|].
  cbn [app] in Hall.
  destruct (proj1 (has_column_get d "date")) as [sd Hsd];
    [apply Hm; rewrite !elem_of_cons; tauto|].
  destruct (proj1 (has_column_get d "revenue")) as [sr Hsr];
    [apply Hm; rewrite !elem_of_cons; tauto|].
  destruct (proj1 (has_column_get d "quantity")) as [sq Hsq];
    [apply Hm; rewrite !elem_of_cons; tauto|].
  rewrite Hsd, Hsr, Hsq in Hall.
  destruct (agg.datetimes sd) as [v|] eqn:Hv.
  2:{ rewrite bool_decide_eq_false_2 in Hall by (by intros [??]). done. }
  rewrite bool_decide_eq_true_2 in Hall by by eexists.
  destruct (pd.is_number sr) eqn:Hnr; [|done].
  destruct (pd.is_number sq) eqn:Hnq; [|done].
  split; [done|]. split; [done|]. split; [by exists sd, v|].
  intros col Hcol.
  repeat (apply elem_of_cons in Hcol as [->|Hcol]); [eauto | eauto |].
  by apply elem_of_nil in Hcol.
- intros (Hm & He & (sd & v & Hsd & Hv) & Hnum).
  destruct (Hnum "revenue") as (sr & Hsr & Hnr); [rewrite !elem_of_cons; tauto|].
  destruct (Hnum "quantity") as (sq & Hsq & Hnq); [rewrite !elem_of_cons; tauto|].
  rewrite (bool_decide_eq_true_2 _ (proj2 Hmiss Hm)).
  rewrite (proj2 (Nat.eqb_neq _ _) He), Hsd, Hv, Hsr, Hnr, Hsq, Hnq.
  by rewrite bool_decide_eq_true_2 by by eexists.
Qed.

(** X12. [validate_data] lists, in this order, the required columns the
    table lacks, that the table is empty, that the dates cannot be
    read, and which of [revenue] and [quantity] is not numeric; it leaves
    the store alone. The table is valid exactly when it has the five
    columns and at least one row, its dates can be read and both
    quantities are numeric. *)
Theorem validate_data_issues (h : heap) (df : ref) (d : DataFrame) :
  h !! df = Some d →
  ∃ is_valid,
    validate_data df h = (Return (is_valid, issues_of d), h)
    ∧ (is_valid = true ↔ issues_of d = [])
    ∧ (is_valid = true ↔ valid d).
Proof.
intros Hdf. exists (length (issues_of d) =? 0)%nat.
split; [by apply validate_data_run|].
assert (Hnil : (length (issues_of d) =? 0)%nat = true ↔ issues_of d = []).
{ rewrite Nat.eqb_eq. by destruct (issues_of d). }
split; [done|]. by rewrite Hnil, issues_of_nil.
Qed.

End validation.

Lemma validate_data_issues_witness :
  let d := [("date", Object [Some "2024-01-05"; Some "soon"]);
            ("revenue", Object [Some "100"; Some "12"]);
            ("quantity", Int64 [1; 2]%Z)] in
  ∃ is_valid,
    validate_data (H := simple.conversions) 0 [d]
    = (Return (is_valid, issues_of (H := simple.conversions) d), [d])
    ∧ (is_valid = true ↔ issues_of (H := simple.conversions) d = [])
    ∧ (is_valid = true ↔ valid (H := simple.conversions) d).
Proof.
intros d. apply (validate_data_issues (H := simple.conversions) [d] 0 d eq_refl).
Defined.

(** The issues of that table. *)
Example validate_data_of_raw_table :
  validate_data (H := simple.conversions) 0
    [[("date", Object [Some "2024-01-05"; Some "soon"]);
      ("revenue", Object [Some "100"; Some "12"]);
      ("quantity", Int64 [1; 2]%Z)]]
  = (Return (false,
             ["Missing required columns: ['product', 'region']";
              "Date column cannot be converted to datetime";
              "Column 'revenue' should be numeric"]),
     [[("date", Object [Some "2024-01-05"; Some "soon"]);
       ("revenue", Object [Some "100"; Some "12"]);
       ("quantity", Int64 [1; 2]%Z)]]).
Proof. vm_compute. reflexivity. Qed.

Section validation2.
Context `{Conversions}.

Lemma has_column_columns (d d' : DataFrame) (col : string) :
  pd.columns d' = pd.columns d → pd.has_column d' col = pd.has_column d col.
Proof. unfold pd.has_column. by intros ->. Qed.

Lemma datetimes_datetime64 (s : Series) :
  dtype_of s = datetime64 → agg.datetimes s = Some s.
Proof. by destruct s. Qed.

(** The issues of a table that has the five columns with their types. *)
Lemma issues_of_canonical (d : DataFrame) :
  (∀ col, col ∈ ["date"; "product"; "region"; "revenue"; "quantity"] →
     pd.has_column d col = true) →
  canonical_types d →
  issues_of d = if empty d then ["DataFrame is empty"] else [].
Proof.
intros Hcols (Hdate & Hnum & _).
destruct (empty d) eqn:He.
- unfold issues_of, date_unreadable, not_numeric. fold (missing_columns d).
  rewrite He.
  rewrite (bool_decide_eq_true_2 _ (proj2 (filter_negb_nil _ _) Hcols)).
  destruct (proj1 (has_column_get d "date")) as [sd Hsd];
    [apply Hcols; rewrite !elem_of_cons; tauto|].
  destruct (proj1 (has_column_get d "revenue")) as [sr Hsr];
    [apply Hcols; rewrite !elem_of_cons; tauto|].
  destruct (proj1 (has_column_get d "quantity")) as [sq Hsq];
    [apply Hcols; rewrite !elem_of_cons; tauto|].
  rewrite Hsd, Hsr, Hsq, (datetimes_datetime64 _ (Hdate _ Hsd)).
  rewrite (Hnum "revenue" sr), (Hnum "quantity" sq);
    [| rewrite !elem_of_cons; tauto | done | rewrite !elem_of_cons; tauto | done].
  by rewrite bool_decide_eq_true_2 by by eexists.
- apply issues_of_nil. split; [done|]. split.
  { unfold empty in He. by apply Nat.eqb_neq. }
  destruct (proj1 (has_column_get d "date")) as [sd Hsd];
    [apply Hcols; rewrite !elem_of_cons; tauto|].
  split; [exists sd, sd; split; [done|]; by apply datetimes_datetime64, Hdate|].
  intros col Hcol.
  destruct (proj1 (has_column_get d col)) as [s Hs].
  { apply Hcols. repeat (apply elem_of_cons in Hcol as [->|Hcol]);
      [rewrite !elem_of_cons; tauto | rewrite !elem_of_cons; tauto |
       by apply elem_of_nil in Hcol]. }
  exists s. split; [done | by eapply Hnum].
Qed.

(** X13. Cleaning makes a table valid: for a table with distinct column
    names that has the five columns, whatever their types and the
    strategy, [clean_all] returns a table with the same columns in which
    [date] is a column of dates, [revenue] and [quantity] are numeric and
    [product] and [region] are texts without gaps; [validate_data] finds
    no issue in it, unless it has no row. The given table is left as it
    was. *)
Theorem clean_all_gives_a_valid_table
    (h : heap) (df : ref) (d : DataFrame) (strategy : string) :
  h !! df = Some d →
  NoDup (pd.columns d) →
  (∀ col, col ∈ ["date"; "product"; "region"; "revenue"; "quantity"] →
     pd.has_column d col = true) →
  ∃ r h' d',
    DataCleaner.clean_all df strategy h = (Return r, h')
    ∧ h' !! r = Some d'
    ∧ h `prefix_of` h'
    ∧ pd.columns d' = pd.columns d
    ∧ canonical_types d'
    ∧ validate_data r h'
      = (Return (negb (empty d'), if empty d' then ["DataFrame is empty"] else []), h').
Proof.
intros Hdf Hd Hcols.
destruct (clean_all_table h df d strategy Hdf Hd)
  as (r & h' & d' & Hrun & Hr & Hpre & Hcols' & Htypes).
exists r, h', d'. do 5 (split; [done|]).
rewrite (validate_data_run _ _ _ Hr), issues_of_canonical; [by destruct (empty d')| |done].
intros col Hcol. rewrite (has_column_columns _ _ _ Hcols'). by apply Hcols.
Qed.

End validation2.

Lemma clean_all_gives_a_valid_table_witness :
  ∃ r h' d',
    DataCleaner.clean_all (H := simple.conversions) 0 "drop" [Tables.repeated_rows]
    = (Return r, h')
    ∧ h' !! r = Some d'
    ∧ [Tables.repeated_rows] `prefix_of` h'
    ∧ pd.columns d' = pd.columns Tables.repeated_rows
    ∧ canonical_types d'
    ∧ validate_data (H := simple.conversions) r h'
      = (Return (negb (empty d'), if empty d' then ["DataFrame is empty"] else []), h').
Proof.
apply (clean_all_gives_a_valid_table (H := simple.conversions) [Tables.repeated_rows] 0
         Tables.repeated_rows "drop" eq_refl).
- apply (bool_decide_unpack _). vm_compute. exact I.
- intros col Hcol.
  repeat (apply elem_of_cons in Hcol as [->|Hcol]; [reflexivity|]).
  by apply elem_of_nil in Hcol.
Defined.

End ValidationFacts.

(** ** From cleaning to the figures *)

Module PipelineFacts.
Import DataAnalyzer StrategySpec FrameFacts AnalyzerRuns MonthlyRuns ProfitRuns RankingFacts
  SummaryFacts CleanedFacts ValidationFacts.

Section returns.
Context `{Conversions}.
Context (h : heap) (self : t) (d : DataFrame).
Context (Hdf : h !! df self = Some d).

Lemma calculate_total_revenue_returns (vals : Series) :
  pd.get_column d "revenue" = Some vals → pd.is_number vals = true →
  ∃ total, calculate_total_revenue self h = (Return total, h).
Proof.
intros Hrev Hnum. destruct (total_number vals Hnum) as (total & xs & Htotal & _).
exists total. by eapply calculate_total_revenue_run.
Qed.

Lemma get_top_products_returns (n : Z) (keys vals : Series) :
  pd.get_column d "product" = Some keys →
  pd.get_column d "revenue" = Some vals → pd.is_number vals = true →
  ∃ table, get_top_products self n h = (Return (length h), (h ++ [table])%list).
Proof.
intros Hprod Hrev Hnum.
destruct (sums_is_number keys vals Hnum) as (sums & Hsums & Hsnum & _).
destruct (order_desc_number sums Hsnum) as (order & Horder & _).
eexists. by eapply get_top_products_run.
Qed.

Lemma get_region_wise_revenue_returns (keys vals : Series) :
  pd.get_column d "region" = Some keys →
  pd.get_column d "revenue" = Some vals → pd.is_number vals = true →
  ∃ table, get_region_wise_revenue self h = (Return (length h), (h ++ [table])%list).
Proof.
intros Hreg Hrev Hnum.
destruct (sums_is_number keys vals Hnum) as (sums & Hsums & Hsnum & _).
destruct (order_desc_number sums Hsnum) as (order & Horder & _).
eexists. by eapply get_region_wise_revenue_run.
Qed.

Lemma calculate_monthly_growth_rate_returns (s vals : Series) :
  pd.get_column d "date" = Some s → dtype_of s = datetime64 →
  pd.get_column d "revenue" = Some vals → pd.is_number vals = true →
  ∃ df_temp table,
    calculate_monthly_growth_rate self h
    = (Return (S (length h)), (h ++ [df_temp; table])%list).
Proof.
intros Hdate Hty Hrev Hnum. destruct s as [|  | |v|]; try done.
destruct (MonthlyFacts.sums_number
            (PeriodM ((λ o : option Timestamp, to_period_M <$> o) <$> v)) vals Hnum)
  as (sums & xs & Hsums & Hxs & _).
eexists _, _.
by eapply (calculate_monthly_growth_rate_run h self d (Datetime v) vals sums v xs).
Qed.

Lemma calculate_profit_margin_returns (keys vals : Series) :
  pd.get_column d "product" = Some keys →
  pd.get_column d "revenue" = Some vals → pd.is_number vals = true →
  ∃ df_temp grouped table,
    calculate_profit_margin self None h
    = (Return (S (S (length h))), (h ++ [df_temp; grouped; table])%list).
Proof.
intros Hprod Hrev Hnum.
destruct (total_number vals Hnum) as (_ & xs & _ & Hxs).
destruct (sums_numeric keys vals xs Hxs) as [revenue_sum Hsum].
destruct (calculate_profit_margin_run h self d vals keys revenue_sum xs None
            Hdf Hrev Hxs Hprod eq_refl Hsum) as [df_temp Hrun].
by eexists _, _, _.
Qed.

Lemma get_summary_statistics_returns (s vals : Series) :
  pd.get_column d "date" = Some s → dtype_of s = datetime64 →
  pd.get_column d "revenue" = Some vals → pd.is_number vals = true →
  ∃ stats, get_summary_statistics self h = (Return stats, h)
           ∧ total_transactions stats = pd.nrows d.
Proof.
intros Hdate Hty Hrev Hnum.
destruct (total_number vals Hnum) as (total & xs & Htotal & Hxs).
assert (Hord : ∀ s', pd.get_column d "date" = Some s' → agg.ordered s' = true).
{ intros s' Hs'. rewrite Hdate in Hs'. injection Hs' as <-. by destruct s. }
eexists. split; [by eapply (get_summary_statistics_run h self d vals)|done].
Qed.

End returns.

Section pipeline.
Context `{Conversions}.

(** On a table that has the five columns with their types, every
    figure is computed. *)
Lemma analyze_data_returns (h : heap) (cleaned_data : ref) (d : DataFrame)
    (include_profit : bool) :
  h !! cleaned_data = Some d →
  (∀ col, col ∈ ["date"; "product"; "region"; "revenue"; "quantity"] →
     pd.has_column d col = true) →
  canonical_types d →
  ∃ results h',
    Dashboard.analyze_data include_profit cleaned_data h = (Return results, h')
    ∧ h `prefix_of` h'
    ∧ Dashboard.data_analyzer results = {| df := length h |}
    ∧ h' !! length h = Some d
    ∧ total_transactions (Dashboard.summary_stats results) = pd.nrows d
    ∧ (is_Some (Dashboard.profit_analysis results) ↔ include_profit = true).
Proof.
intros Hr Hcols (Hdate & Hnum & _).
destruct (proj1 (has_column_get d "date")) as [sd Hsd];
  [apply Hcols; rewrite !elem_of_cons; tauto|].
destruct (proj1 (has_column_get d "product")) as [sp Hsp];
  [apply Hcols; rewrite !elem_of_cons; tauto|].
destruct (proj1 (has_column_get d "region")) as [sg Hsg];
  [apply Hcols; rewrite !elem_of_cons; tauto|].
destruct (proj1 (has_column_get d "revenue")) as [sr Hsr];
  [apply Hcols; rewrite !elem_of_cons; tauto|].
assert (Hnr : pd.is_number sr = true)
  by (apply (Hnum "revenue"); [rewrite !elem_of_cons; tauto | done]).
pose proof (Hdate sd Hsd) as Hty.
set (self := {| df := length h |}).
set (h0 := (h ++ [d])%list).
assert (Hinit : __init__ cleaned_data h = (Return self, h0)).
{ unfold __init__. by rewrite run.bind, (run.copy_at _ _ _ Hr). }
assert (H0 : h0 !! df self = Some d) by apply run.lookup_new.
destruct (calculate_total_revenue_returns h0 self d H0 sr Hsr Hnr) as [total Ht].
destruct (get_top_products_returns h0 self d H0 10 sp sr Hsp Hsr Hnr) as [t1 Ht1].
set (h1 := (h0 ++ [t1])%list) in *.
assert (H1 : h1 !! df self = Some d) by by apply lookup_app_l_Some.
destruct (get_region_wise_revenue_returns h1 self d H1 sg sr Hsg Hsr Hnr) as [t2 Ht2].
set (h2 := (h1 ++ [t2])%list) in *.
assert (H2 : h2 !! df self = Some d) by by apply lookup_app_l_Some.
destruct (calculate_monthly_growth_rate_returns h2 self d H2 sd sr Hsd Hty Hsr Hnr)
  as (t3 & t4 & Ht3).
set (h3 := (h2 ++ [t3; t4])%list) in *.
assert (H3 : h3 !! df self = Some d) by by apply lookup_app_l_Some.
assert (Hpre3 : h `prefix_of` h3).
{ unfold h3, h2, h1, h0. rewrite <- !app_assoc. by apply prefix_app_r. }
unfold Dashboard.analyze_data.
rewrite run.bind, Hinit, run.bind, Ht, run.bind, Ht1, run.bind, Ht2, run.bind, Ht3.
destruct include_profit.
- destruct (calculate_profit_margin_returns h3 self d H3 sp sr Hsp Hsr Hnr)
    as (t5 & t6 & t7 & Ht5).
  set (h4 := (h3 ++ [t5; t6; t7])%list) in *.
  assert (H4 : h4 !! df self = Some d) by by apply lookup_app_l_Some.
  destruct (get_summary_statistics_returns h4 self d H4 sd sr Hsd Hty Hsr Hnr)
    as (stats & Hst & Hn).
  rewrite run.bind, run.bind, Ht5, run.ret, run.bind, Hst, run.ret.
  eexists _, _. split; [reflexivity|]. cbn.
  split; [etrans; [exact Hpre3 | by apply prefix_app_r]|].
  split; [done|]. split; [exact H4|]. split; [done|]. split; [done | by eexists].
- destruct (get_summary_statistics_returns h3 self d H3 sd sr Hsd Hty Hsr Hnr)
    as (stats & Hst & Hn).
  rewrite run.bind, run.ret, run.bind, Hst, run.ret.
  eexists _, _. split; [reflexivity|]. cbn.
  split; [done|]. split; [done|]. split; [exact H3|]. split; [done|].
  split; [by intros [??] | done].
Qed.

(** X14. The pipeline does not fail on a table that has the five columns:
    for a table with distinct column names that has [date], [product],
    [region], [revenue] and [quantity], whatever their types,
    [clean_data] returns a cleaned table and [analyze_data] computes
    every figure, with the profit analysis exactly when it is asked for.
    The analyzer works on its own copy of the cleaned table, and the raw
    table is left as it was. *)
Theorem pipeline_returns (h : heap) (raw_data : ref) (d : DataFrame) (include_profit : bool) :
  h !! raw_data = Some d →
  NoDup (pd.columns d) →
  (∀ col, col ∈ ["date"; "product"; "region"; "revenue"; "quantity"] →
     pd.has_column d col = true) →
  ∃ cleaned_data h1 d' results h2,
    Dashboard.clean_data raw_data h = (Return cleaned_data, h1)
    ∧ h1 !! cleaned_data = Some d'
    ∧ canonical_types d'
    ∧ Dashboard.analyze_data include_profit cleaned_data h1 = (Return results, h2)
    ∧ h `prefix_of` h2
    ∧ df (Dashboard.data_analyzer results) ≠ cleaned_data
    ∧ h2 !! df (Dashboard.data_analyzer results) = Some d'
    ∧ total_transactions (Dashboard.summary_stats results) = pd.nrows d'
    ∧ (is_Some (Dashboard.profit_analysis results) ↔ include_profit = true).
Proof.
intros Hdf Hd Hcols.
destruct (clean_all_table h raw_data d "fill" Hdf Hd)
  as (r & h1 & d' & Hrun & Hr & Hpre & Hcols' & Htypes).
assert (Hcols1 : ∀ col, col ∈ ["date"; "product"; "region"; "revenue"; "quantity"] →
                   pd.has_column d' col = true).
{ intros col Hcol. rewrite (has_column_columns _ _ _ Hcols'). by apply Hcols. }
destruct (analyze_data_returns h1 r d' include_profit Hr Hcols1 Htypes)
  as (results & h2 & Hrun2 & Hpre2 & Hself & Hlook & Hn & Hprofit).
exists r, h1, d', results, h2.
split. { unfold Dashboard.clean_data. by rewrite run.bind, Hrun. }
split; [done|]. split; [done|]. split; [done|].
split; [by etrans|]. rewrite Hself. cbn.
split. { apply lookup_lt_Some in Hr. lia. }
done.
Qed.

End pipeline.

Lemma pipeline_returns_witness :
  ∃ cleaned_data h1 d' results h2,
    Dashboard.clean_data (H := simple.conversions) 0 [Tables.repeated_rows]
    = (Return cleaned_data, h1)
    ∧ h1 !! cleaned_data = Some d'
    ∧ canonical_types d'
    ∧ Dashboard.analyze_data (H := simple.conversions) true cleaned_data h1
      = (Return results, h2)
    ∧ [Tables.repeated_rows] `prefix_of` h2
    ∧ df (Dashboard.data_analyzer results) ≠ cleaned_data
    ∧ h2 !! df (Dashboard.data_analyzer results) = Some d'
    ∧ total_transactions (Dashboard.summary_stats results) = pd.nrows d'
    ∧ (is_Some (Dashboard.profit_analysis results) ↔ true = true).
Proof.
apply (pipeline_returns (H := simple.conversions) [Tables.repeated_rows] 0
         Tables.repeated_rows true eq_refl).
- apply (bool_decide_unpack _). vm_compute. exact I.
- intros col Hcol.
  repeat (apply elem_of_cons in Hcol as [->|Hcol]; [reflexivity|]).
  by apply elem_of_nil in Hcol.
Defined.

End PipelineFacts.

(** ** Renaming the columns and processing an upload *)

Module AppFacts.
Import ColumnMapper MapperSpec App StrategySpec ValidationSpec FrameFacts MappingFacts
  CleanedFacts ValidationFacts.

Lemma rename_empty (d : DataFrame) : rename ∅ d = d.
Proof.
unfold rename. induction d as [|[c s] d IH]; [done|].
cbn. rewrite lookup_empty. cbn. by f_equal.
Qed.

Lemma columns_rename (m : mapping) (d : DataFrame) :
  pd.columns (rename m d) = (λ c, default c (m !! c)) <$> pd.columns d.
Proof. unfold pd.columns, rename. by rewrite <- !list_fmap_compose. Qed.

Lemma series_rename (m : mapping) (d : DataFrame) : (rename m d).*2 = d.*2.
Proof. unfold rename. by rewrite <- list_fmap_compose. Qed.

Lemma map_column_names_run (h : heap) (df : ref) (d : DataFrame) :
  h !! df = Some d →
  let m := column_mapping_of (pd.columns d) in
  map_column_names df h
  = if bool_decide (m = ∅) then (Return (df, ∅), h)
    else (Return (length h, m), (h ++ [rename m d])%list).
Proof.
intros Hdf m. unfold map_column_names. rewrite run.bind, (run.load_at _ _ _ Hdf).
fold m. by destruct (bool_decide (m = ∅)).
Qed.

(** Either way the table returned is the renamed one. *)
Lemma map_column_names_table (h : heap) (df : ref) (d : DataFrame) :
  h !! df = Some d →
  let m := column_mapping_of (pd.columns d) in
  ∃ r h1,
    map_column_names df h = (Return (r, m), h1)
    ∧ h1 !! r = Some (rename m d)
    ∧ h `prefix_of` h1.
Proof.
intros Hdf m. rewrite (map_column_names_run _ _ _ Hdf). fold m.
destruct (bool_decide_reflect (m = ∅)) as [E|E].
- exists df, h. rewrite E, rename_empty. done.
- exists (length h), (h ++ [rename m d])%list.
  split; [done|]. split; [apply run.lookup_new | by apply prefix_app_r].
Qed.

(** Renaming keeps the names distinct unless a column that is not
    renamed already bears the name of a field. *)
Lemma rename_NoDup (m : mapping) (d : DataFrame) (fields : list string) :
  maps_into (pd.columns d) fields m → one_column_per_field m →
  NoDup (pd.columns d) →
  (∀ c, c ∈ pd.columns d → m !! c = None → c ∉ fields) →
  NoDup (pd.columns (rename m d)).
Proof.
intros Hinto Hone Hd Hfree. rewrite columns_rename.
apply NoDup_fmap_2_strong; [|done].
intros c1 c2 Hc1 Hc2.
destruct (m !! c1) as [v1|] eqn:E1, (m !! c2) as [v2|] eqn:E2; cbn.
- intros ->. by eapply Hone.
- intros ->. destruct (Hinto _ _ E1) as [_ Hv]. by destruct (Hfree c2 Hc2 E2).
- intros <-. destruct (Hinto _ _ E2) as [_ Hv]. by destruct (Hfree c1 Hc1 E1).
- done.
Qed.

(** X15. [map_column_names] maps columns of the table to the five fields,
    at most one column to each field. When no column is mapped it returns
    the table it was given, otherwise a new table in which each mapped
    column bears the name of its field and the other columns keep theirs;
    the values are those of the given table. The new names are distinct
    if the old ones are and no unmapped column bears the name of a
    field. *)
Theorem map_column_names_renames (h : heap) (df : ref) (d : DataFrame) :
  h !! df = Some d →
  let fields := ["quantity"; "revenue"; "region"; "product"; "date"] in
  let m := column_mapping_of (pd.columns d) in
  maps_into (pd.columns d) fields m
  ∧ one_column_per_field m
  ∧ (m = ∅ → map_column_names df h = (Return (df, ∅), h))
  ∧ (m ≠ ∅ →
       map_column_names df h = (Return (length h, m), (h ++ [rename m d])%list))
  ∧ pd.columns (rename m d) = (λ c, default c (m !! c)) <$> pd.columns d
  ∧ (rename m d).*2 = d.*2
  ∧ (NoDup (pd.columns d) →
     (∀ c, c ∈ pd.columns d → m !! c = None → c ∉ fields) →
     NoDup (pd.columns (rename m d))).
Proof.
intros Hdf fields m.
destruct (column_mapping_invariant (pd.columns d)) as [Hinto Hone]. fold m in Hinto, Hone.
split; [done|]. split; [done|].
pose proof (map_column_names_run h df d Hdf) as Hrun. cbv zeta in Hrun. fold m in Hrun.
split; [intros E; by rewrite Hrun, bool_decide_eq_true_2|].
split; [intros E; by rewrite Hrun, bool_decide_eq_false_2|].
split; [apply columns_rename|]. split; [apply series_rename|].
by apply rename_NoDup.
Qed.

Lemma map_column_names_renames_witness :
  let d := [("Order Date", Object [Some "2024-01-05"]); ("Sales", Int64 [100]%Z);
            ("Comment", Object [None])] in
  let fields := ["quantity"; "revenue"; "region"; "product"; "date"] in
  let m := column_mapping_of (pd.columns d) in
  maps_into (pd.columns d) fields m
  ∧ one_column_per_field m
  ∧ (m = ∅ → map_column_names 0 [d] = (Return (0%nat, ∅), [d]))
  ∧ (m ≠ ∅ →
       map_column_names 0 [d] = (Return (length [d], m), ([d] ++ [rename m d])%list))
  ∧ pd.columns (rename m d) = (λ c, default c (m !! c)) <$> pd.columns d
  ∧ (rename m d).*2 = d.*2
  ∧ (NoDup (pd.columns d) →
     (∀ c, c ∈ pd.columns d → m !! c = None → c ∉ fields) →
     NoDup (pd.columns (rename m d))).
Proof.
intros d. exact (map_column_names_renames [d] 0 d eq_refl).
Defined.

(** An unmapped column named like a field gives two columns of one
    name. *)
Example rename_can_repeat_a_name :
  pd.columns (rename (column_mapping_of ["Order Date"; "date"])
                [("Order Date", Object [Some "2024-01-05"]); ("date", Object [Some "x"])])
  = ["date"; "date"].
Proof. vm_compute. reflexivity. Qed.

Section process_data.
Context `{Conversions}.

Lemma process_data_missing_run (h : heap) (df : ref) (d : DataFrame) :
  h !! df = Some d →
  let m := column_mapping_of (pd.columns d) in
  missing_columns (rename m d) ≠ [] →
  ∃ h',
    process_data df h
    = (Return (None, None,
               Some (MissingRequired (missing_columns (rename m d)) (pd.columns d)
                       (pd.columns (rename m d)) m), None), h')
    ∧ h `prefix_of` h'.
Proof.
intros Hdf m Hmiss.
destruct (map_column_names_table h df d Hdf) as (r & h1 & Hmap & Hr & Hpre). fold m in Hmap, Hr.
exists h1. split; [|done].
unfold process_data, try_except.
rewrite run.bind, Hmap, run.bind, (run.load_at _ _ _ Hr).
unfold required_columns. fold (missing_columns (rename m d)).
rewrite (bool_decide_eq_false_2 _ Hmiss). cbn [negb].
assert (Hdf1 : h1 !! df = Some d) by by eapply prefix_lookup_Some.
by rewrite run.bind, (run.load_at _ _ _ Hdf1).
Qed.

Lemma process_data_clean_run (h : heap) (df : ref) (d : DataFrame) :
  h !! df = Some d →
  let m := column_mapping_of (pd.columns d) in
  missing_columns (rename m d) = [] →
  NoDup (pd.columns (rename m d)) →
  ∃ cleaned_df analyzer h' d',
    process_data df h = (Return (Some cleaned_df, Some analyzer, None, Some m), h')
    ∧ h `prefix_of` h'
    ∧ h' !! cleaned_df = Some d'
    ∧ h' !! DataAnalyzer.df analyzer = Some d'
    ∧ DataAnalyzer.df analyzer ≠ cleaned_df
    ∧ pd.columns d' = pd.columns (rename m d)
    ∧ canonical_types d'.
Proof.
intros Hdf m Hmiss Hnodup.
destruct (map_column_names_table h df d Hdf) as (r & h1 & Hmap & Hr & Hpre). fold m in Hmap, Hr.
destruct (clean_all_table h1 r (rename m d) "fill" Hr Hnodup)
  as (cleaned & h2 & d' & Hclean & Hcleaned & Hpre2 & Hcols & Htypes).
exists cleaned, {| DataAnalyzer.df := length h2 |}, (h2 ++ [d'])%list, d'.
split.
{ unfold process_data, try_except.
  rewrite run.bind, Hmap, run.bind, (run.load_at _ _ _ Hr).
  unfold required_columns. fold (missing_columns (rename m d)).
  rewrite (bool_decide_eq_true_2 _ Hmiss). cbn [negb].
  rewrite run.bind, Hclean. unfold DataAnalyzer.__init__.
  by rewrite run.bind, run.bind, (run.copy_at _ _ _ Hcleaned). }
split. { etrans; [exact Hpre|]. etrans; [exact Hpre2|]. by apply prefix_app_r. }
split; [by apply lookup_app_l_Some|]. split; [apply run.lookup_new|].
split. { cbn. apply lookup_lt_Some in Hcleaned. lia. }
done.
Qed.

(** X16. [process_data] never raises. When the renamed table lacks a
    required column it reports the missing columns, in the order date,
    product, region, revenue, quantity, and cleans nothing. Otherwise,
    the names of the renamed table being distinct, it returns the
    dictionary, the cleaned table, in which the five fields have their
    types, and an analyzer that holds its own copy of the cleaned table.
    The uploaded table is left as it was. *)
Theorem process_data_outcome (h : heap) (df : ref) (d : DataFrame) :
  h !! df = Some d →
  let m := column_mapping_of (pd.columns d) in
  (∀ h0, ∃ result h', process_data df h0 = (Return result, h'))
  ∧ (missing_columns (rename m d) ≠ [] →
     ∃ h',
       process_data df h
       = (Return (None, None,
                  Some (MissingRequired (missing_columns (rename m d)) (pd.columns d)
                          (pd.columns (rename m d)) m), None), h')
       ∧ h `prefix_of` h')
  ∧ (missing_columns (rename m d) = [] →
     NoDup (pd.columns (rename m d)) →
     ∃ cleaned_df analyzer h' d',
       process_data df h = (Return (Some cleaned_df, Some analyzer, None, Some m), h')
       ∧ h `prefix_of` h'
       ∧ h' !! cleaned_df = Some d'
       ∧ h' !! DataAnalyzer.df analyzer = Some d'
       ∧ DataAnalyzer.df analyzer ≠ cleaned_df
       ∧ pd.columns d' = pd.columns (rename m d)
       ∧ canonical_types d').
Proof.
intros Hdf m. split; [|split].
- intros h0. unfold process_data, try_except.
  match goal with |- context [match ?x with _ => _ end] => destruct x as [[a|e] h'] end;
    by eexists _, _.
- by apply process_data_missing_run.
- by apply process_data_clean_run.
Qed.

End process_data.

Lemma process_data_outcome_witness :
  let d := Tables.upload in
  let m := column_mapping_of (pd.columns d) in
  (∀ h0, ∃ result h', process_data (H := simple.conversions) 0 h0 = (Return result, h'))
  ∧ (∃ cleaned_df analyzer h' d',
       process_data (H := simple.conversions) 0 [d]
       = (Return (Some cleaned_df, Some analyzer, None, Some m), h')
       ∧ [d] `prefix_of` h'
       ∧ h' !! cleaned_df = Some d'
       ∧ h' !! DataAnalyzer.df analyzer = Some d'
       ∧ DataAnalyzer.df analyzer ≠ cleaned_df
       ∧ pd.columns d' = pd.columns (rename m d)
       ∧ canonical_types d').
Proof.
intros d m.
destruct (process_data_outcome (H := simple.conversions) [d] 0 d eq_refl)
  as (Hreturns & _ & Hclean).
split; [exact Hreturns|]. apply Hclean.
- vm_compute. reflexivity.
- apply (bool_decide_unpack _). vm_compute. exact I.
Defined.

(** The upload is renamed and cleaned, and the analyzer holds a copy of
    the cleaned table. *)
Example process_data_cleans_the_upload :
  let out := process_data (H := simple.conversions) 0 [Tables.upload] in
  match out.1 with
  | Return (Some cleaned_df, Some analyzer, None, Some _) =>
      out.2 !! cleaned_df
      = Some [("date", Datetime [Some (mkTimestamp 2024 1 5 0);
                                 Some (mkTimestamp 2024 2 5 0)]);
              ("product", Object [Some "Widget"; Some "nan"]);
              ("region", Object [Some "East"; Some "West"]);
              ("revenue", Int64 [100; 50]%Z);
              ("quantity", Int64 [2; 1]%Z)]
      ∧ out.2 !! DataAnalyzer.df analyzer = out.2 !! cleaned_df
      ∧ DataAnalyzer.df analyzer ≠ cleaned_df
  | _ => False
  end.
Proof. vm_compute. done. Qed.

(** The columns [Order Date] and [Sales] are renamed, and three required
    columns are still missing. *)
Example process_data_reports_missing_columns :
  ∃ available_columns mapped_columns column_mapping,
    (process_data (H := simple.conversions) 0
       [[("Order Date", Object [Some "2024-01-05"]); ("Sales", Int64 [100]%Z);
         ("Comment", Object [None])]]).1
    = Return (None, None,
              Some (MissingRequired ["product"; "region"; "quantity"]
                      available_columns mapped_columns column_mapping), None)
    ∧ available_columns = ["Order Date"; "Sales"; "Comment"]
    ∧ mapped_columns = ["date"; "revenue"; "Comment"].
Proof. eexists _, _, _. split; [reflexivity|]. by vm_compute. Qed.


End AppFacts.

(** ** The converter *)

Module ConverterFacts.
Import Converter ConverterSpec FrameFacts AnalyzerRuns.

(** The column found for a field is the first entry of the dictionary
    for that field whose column is in the table. *)
Lemma find_original_Some (d : DataFrame) (field original : string) :
  find_original d field = Some original ↔
  ∃ i, mapping !! i = Some (original, field)
       ∧ pd.has_column d original = true
       ∧ ∀ j o, (j < i)%nat → mapping !! j = Some (o, field) → pd.has_column d o = false.
Proof.
unfold find_original. split.
- destruct (list_find _ mapping) as [[i [o t]]|] eqn:E; [|done].
  cbn. intros [= ->]. apply list_find_Some in E as (Hi & [Ho Ht] & Hbefore).
  cbn in Ho, Ht. subst t. exists i. split; [done|]. split; [done|].
  intros j o' Hj Ho'. specialize (Hbefore j (o', field) Ho' Hj). cbn in Hbefore.
  destruct (pd.has_column d o'); [|done]. by destruct Hbefore.
- intros (i & Hi & Ho & Hbefore).
  assert (list_find (λ entry : string * string,
            pd.has_column d entry.1 = true ∧ entry.2 = field) mapping
          = Some (i, (original, field))) as ->; [|done].
  apply list_find_Some. split; [done|]. split; [done|].
  intros j [o t] Hj Hlt [Ho' Ht]. cbn in Ho', Ht. subst t.
  by rewrite (Hbefore j o Hlt Hj) in Ho'.
Qed.

Lemma find_original_None (d : DataFrame) (field : string) :
  find_original d field = None ↔
  ∀ o, (o, field) ∈ mapping → pd.has_column d o = false.
Proof.
unfold find_original. split.
- destruct (list_find _ mapping) as [[i [o t]]|] eqn:E; [done|]. intros _ o Ho.
  apply list_find_None in E. rewrite Forall_forall in E. specialize (E _ Ho). cbn in E.
  destruct (pd.has_column d o); [|done]. by destruct E.
- intros Hnone. destruct (list_find _ mapping) as [[i [o t]]|] eqn:E; [|done].
  apply list_find_Some in E as (Hi & [Ho Ht] & _). cbn in Ho, Ht. subst t.
  by rewrite (Hnone o (list_elem_of_lookup_2 _ _ _ Hi)) in Ho.
Qed.

Lemma column_for_is_Some (d : DataFrame) (field : string) :
  is_Some (column_for d field) ↔ is_Some (find_original d field).
Proof.
unfold column_for. destruct (find_original d field) as [o|] eqn:E; cbn.
- apply find_original_Some in E as (_ & _ & Ho & _).
  apply has_column_get in Ho. split; [by eexists | done].
- split; by intros [??].
Qed.

(** One round of the outer loop. *)
Lemma convert_columns_step (h : heap) (df new_df : ref) (d acc : DataFrame)
    (required_col : string) (rest : list string) :
  h !! df = Some d → h !! new_df = Some acc →
  convert_columns df new_df (required_col :: rest) h
  = match column_for d required_col with
    | Some s => convert_columns df new_df rest (<[new_df := pd.set_column required_col s acc]> h)
    | None => (Return None, h)
    end.
Proof.
intros Hdf Hnew. cbn [convert_columns]. rewrite run.bind, (run.load_at _ _ _ Hdf).
unfold column_for.
destruct (find_original d required_col) as [o|] eqn:E; [|done]. cbn.
pose proof (proj1 (find_original_Some _ _ _) E) as (_ & _ & Ho & _).
apply has_column_get in Ho as [s Hs]. rewrite Hs.
rewrite run.bind, (run.getitem_at _ _ _ _ _ Hdf Hs).
by rewrite run.bind, (run.setitem_at _ _ _ _ _ Hnew).
Qed.

Lemma convert_superstore_dataset_run (h : heap) (df : ref) (d : DataFrame) :
  h !! df = Some d →
  ∃ partial,
    convert_superstore_dataset df h
    = (Return ((λ _, length h) <$> converted d), (h ++ [partial])%list)
    ∧ ∀ d', converted d = Some d' → partial = d'.
Proof.
intros Hdf. unfold convert_superstore_dataset, converted.
rewrite run.bind, run.new_at.
assert (Hdf' : ∀ acc, (h ++ [acc])%list !! df = Some d)
  by (intros acc; by apply lookup_app_l_Some).
repeat match goal with
| |- context [convert_columns df (length h) (?c :: ?rest) (h ++ [?acc])%list] =>
    rewrite (convert_columns_step (h ++ [acc])%list df (length h) d acc c rest
               (Hdf' acc) (run.lookup_new _ _));
    destruct (column_for d c) as [?s|]; cbn [mbind option_bind];
    [rewrite run.insert_new; cbn [pd.set_column String.eqb Ascii.eqb Bool.eqb]
    | eexists; split; [reflexivity | done]]
end.
cbn [convert_columns]. eexists. split; [reflexivity|]. by intros d' [= <-].
Qed.

(** X17. [convert_superstore_dataset] returns a table exactly when every
    one of the five fields has a column among the names the dictionary
    lists for it, spelled as listed; the table then has the columns date,
    product, region, revenue and quantity, in this order, each holding the
    values of the first listed name that the given table has. The given
    table is left as it was. *)
Theorem convert_superstore_dataset_outcome (h : heap) (df : ref) (d : DataFrame) :
  h !! df = Some d →
  ∃ result h',
    convert_superstore_dataset df h = (Return result, h')
    ∧ h `prefix_of` h'
    ∧ (is_Some result ↔
       ∀ field, field ∈ ["date"; "product"; "region"; "revenue"; "quantity"] →
         ∃ original, (original, field) ∈ mapping ∧ pd.has_column d original = true)
    ∧ (∀ new_df, result = Some new_df →
       ∃ d', h' !! new_df = Some d'
             ∧ pd.columns d' = ["date"; "product"; "region"; "revenue"; "quantity"]
             ∧ ∀ field, field ∈ ["date"; "product"; "region"; "revenue"; "quantity"] →
                 ∃ original s,
                   find_original d field = Some original
                   ∧ pd.get_column d original = Some s
                   ∧ pd.get_column d' field = Some s).
Proof.
intros Hdf. destruct (convert_superstore_dataset_run h df d Hdf) as (partial & Hrun & Hpartial).
eexists _, _. split; [exact Hrun|]. split; [by apply prefix_app_r|].
assert (Hfound : ∀ field, is_Some (column_for d field)
          ↔ ∃ original, (original, field) ∈ mapping ∧ pd.has_column d original = true).
{ intros field. rewrite column_for_is_Some. split.
  - intros [o (i & Hi & Ho & _)%find_original_Some].
    exists o. split; [by eapply list_elem_of_lookup_2 | done].
  - intros (o & Hin & Ho). destruct (find_original d field) eqn:E; [done|].
    rewrite find_original_None in E. by rewrite (E o Hin) in Ho. }
split.
- unfold converted. split.
  + intros Hsome field Hfield. apply Hfound.
    repeat (apply elem_of_cons in Hfield as [->|Hfield]);
      [| | | | |by apply elem_of_nil in Hfield].
    all: destruct (column_for d "date"), (column_for d "product"),
           (column_for d "region"), (column_for d "revenue"), (column_for d "quantity");
         try done; by destruct Hsome.
  + intros Hall.
    destruct (proj2 (Hfound "date")) as [? ->]; [apply Hall; rewrite !elem_of_cons; tauto|].
    destruct (proj2 (Hfound "product")) as [? ->]; [apply Hall; rewrite !elem_of_cons; tauto|].
    destruct (proj2 (Hfound "region")) as [? ->]; [apply Hall; rewrite !elem_of_cons; tauto|].
    destruct (proj2 (Hfound "revenue")) as [? ->]; [apply Hall; rewrite !elem_of_cons; tauto|].
    destruct (proj2 (Hfound "quantity")) as [? ->]; [apply Hall; rewrite !elem_of_cons; tauto|].
    done.
- intros new_df Hres. destruct (converted d) as [d'|] eqn:Hconv; [|done].
  injection Hres as <-. rewrite (Hpartial d' eq_refl).
  exists d'. split; [apply run.lookup_new|].
  unfold converted in Hconv.
  destruct (column_for d "date") as [s1|] eqn:E1; [|done].
  destruct (column_for d "product") as [s2|] eqn:E2; [|done].
  destruct (column_for d "region") as [s3|] eqn:E3; [|done].
  destruct (column_for d "revenue") as [s4|] eqn:E4; [|done].
  destruct (column_for d "quantity") as [s5|] eqn:E5; [|done].
  cbn in Hconv. injection Hconv as <-. split; [done|].
  intros field Hfield.
  repeat (apply elem_of_cons in Hfield as [->|Hfield]);
    [| | | | |by apply elem_of_nil in Hfield].
  all: match goal with
       | E : column_for ?t ?f = Some ?s |- context [find_original ?t ?f] =>
           unfold column_for in E;
           destruct (find_original t f) as [o|]; [|done];
           exists o, s; split; [done|]; split; [exact E | reflexivity]
       end.
Qed.

Lemma convert_superstore_dataset_outcome_witness :
  let d := [("Qty", Int64 [2]%Z); ("Date", Object [Some "2024-01-05"]);
            ("Order Date", Object [Some "2024-01-03"]); ("Item", Object [Some "Widget"]);
            ("State", Object [Some "Ohio"]); ("Total", Int64 [100]%Z)] in
  ∃ result h',
    convert_superstore_dataset 0 [d] = (Return result, h')
    ∧ [d] `prefix_of` h'
    ∧ (is_Some result ↔
       ∀ field, field ∈ ["date"; "product"; "region"; "revenue"; "quantity"] →
         ∃ original, (original, field) ∈ mapping ∧ pd.has_column d original = true)
    ∧ (∀ new_df, result = Some new_df →
       ∃ d', h' !! new_df = Some d'
             ∧ pd.columns d' = ["date"; "product"; "region"; "revenue"; "quantity"]
             ∧ ∀ field, field ∈ ["date"; "product"; "region"; "revenue"; "quantity"] →
                 ∃ original s,
                   find_original d field = Some original
                   ∧ pd.get_column d original = Some s
                   ∧ pd.get_column d' field = Some s).
Proof.
intros d. exact (convert_superstore_dataset_outcome [d] 0 d eq_refl).
Defined.

(** The order of the dictionary decides, not that of the table, and the
    spelling counts. *)
Example convert_superstore_dataset_of_table :
  convert_superstore_dataset 0
    [[("Qty", Int64 [2]%Z); ("Date", Object [Some "2024-01-05"]);
      ("Order Date", Object [Some "2024-01-03"]); ("Item", Object [Some "Widget"]);
      ("State", Object [Some "Ohio"]); ("Total", Int64 [100]%Z)]]
  = (Return (Some 1%nat),
     [[("Qty", Int64 [2]%Z); ("Date", Object [Some "2024-01-05"]);
       ("Order Date", Object [Some "2024-01-03"]); ("Item", Object [Some "Widget"]);
       ("State", Object [Some "Ohio"]); ("Total", Int64 [100]%Z)];
      [("date", Object [Some "2024-01-03"]); ("product", Object [Some "Widget"]);
       ("region", Object [Some "Ohio"]); ("revenue", Int64 [100]%Z);
       ("quantity", Int64 [2]%Z)]])
  ∧ (convert_superstore_dataset 0 [[("DATE", Object [Some "2024-01-05"])]]).1 = Return None.
Proof. vm_compute. done. Qed.

End ConverterFacts.

(** ** The loops for revenue and quantity *)

Module LoopFacts.
Import ColumnMapper MapperSpec ColumnMapperFacts MappingFacts.

Lemma revenue_body_unmapped (c : string) (m : mapping) :
  in_values "revenue" m = false →
  revenue_body c m = if revenue_cond c then (<[c := "revenue"]> m, true) else (m, false).
Proof.
unfold revenue_body, revenue_cond. intros ->.
by destruct (String.eqb _ "sales"), (Str.contains "sales" _), (one_of _ _).
Qed.

Lemma quantity_body_first (c : string) (m : mapping) :
  quantity_body c m = if quantity_cond c then (<[c := "quantity"]> m, true) else (m, false).
Proof.
unfold quantity_body, quantity_cond.
by destruct (String.eqb _ "quantity"), (Str.contains "quantity" _), (one_of _ _).
Qed.

Lemma region_loops_unmapped (v : string) (cols : list string) (m : mapping) :
  v ≠ "region" → unmapped v m → unmapped v (region_loops cols m).
Proof.
intros Hne Hm k Hk. apply region_loops_lookup in Hk; [|done]. by apply Hm in Hk.
Qed.

(** X18. The loops for revenue and quantity have one pass each, like
    those for date and product: each stops at the first column that
    passes any of its tests, so that an exact match listed later does not
    win, and no other column is ever mapped to the field. With
    ["Sales Tax"] listed before ["Sales"] the former is mapped to
    [revenue]. *)
Theorem revenue_and_quantity_first_match (df_columns : list string) :
  let m := column_mapping_of df_columns in
  (∀ col, m !! col = Some "revenue" →
     ∃ i, list_find (λ c, revenue_cond c = true) df_columns = Some (i, col))
  ∧ (∀ col, m !! col = Some "quantity" →
       ∃ i, list_find (λ c, quantity_cond c = true) df_columns = Some (i, col))
  ∧ (∀ i col, list_find (λ c, quantity_cond c = true) df_columns = Some (i, col) →
       m !! col = Some "quantity")
  ∧ column_mapping_of ["Sales Tax"; "Sales"] !! "Sales Tax" = Some "revenue"
  ∧ column_mapping_of ["Sales Tax"; "Sales"] !! "Sales" = None.
Proof.
intros m. subst m. unfold column_mapping_of.
set (m3 := region_loops df_columns
             (for_break product_body df_columns (for_break date_body df_columns ∅))).
assert (H3 : ∀ v, v ≠ "date" → v ≠ "product" → v ≠ "region" → unmapped v m3).
{ intros v H1 H2 H3. apply region_loops_unmapped; [done|].
  eapply for_break_unmapped; [apply product_body_simple | done |].
  eapply for_break_unmapped; [apply date_body_simple | done |].
  apply unmapped_empty. }
assert (Hrev : for_break revenue_body df_columns m3
  = match list_find (λ c, revenue_cond c = true) df_columns with
    | Some (_, c) => <[c := "revenue"]> m3
    | None => m3
    end).
{ apply for_break_first. intros c. apply revenue_body_unmapped, unmapped_in_values.
  by apply H3. }
set (m4 := for_break revenue_body df_columns m3) in *.
assert (Hqty : for_break quantity_body df_columns m4
  = match list_find (λ c, quantity_cond c = true) df_columns with
    | Some (_, c) => <[c := "quantity"]> m4
    | None => m4
    end).
{ apply for_break_first. intros c. apply quantity_body_first. }
assert (H4 : unmapped "quantity" m4).
{ eapply for_break_unmapped; [apply revenue_body_simple | done |]. by apply H3. }
split; [|split; [|split]].
- intros col Hcol.
  apply (for_break_lookup _ _ _ _ _ _ _ quantity_body_simple) in Hcol; [|done].
  rewrite Hrev in Hcol.
  destruct (list_find _ df_columns) as [[i c]|]; [|by apply H3 in Hcol].
  exists i. destruct (decide (c = col)) as [->|Hne]; [done|].
  rewrite lookup_insert_ne in Hcol by done. by apply H3 in Hcol.
- intros col Hcol. rewrite Hqty in Hcol.
  destruct (list_find (λ c, quantity_cond c = true) df_columns) as [[i c]|];
    [|by apply H4 in Hcol].
  exists i. destruct (decide (c = col)) as [->|Hne]; [done|].
  rewrite lookup_insert_ne in Hcol by done. by apply H4 in Hcol.
- intros i col Hfind. rewrite Hqty, Hfind. apply lookup_insert_eq.
- by vm_compute.
Qed.

End LoopFacts.

(** ** Totals per month and the number of rows of a ranking *)

Module TotalsFacts.
Import DataAnalyzer FrameFacts AnalyzerRuns AggFacts MonthlyRuns MonthlyFacts RankingFacts
  DataCleanerRuns.

Lemma periods_no_missing (v : list (option Timestamp)) :
  Forall is_Some v →
  pd.isnull_any (PeriodM ((λ o : option Timestamp, to_period_M <$> o) <$> v)) = false.
Proof.
intros Hv. unfold pd.isnull_any, pd.isnull. cbn [pd.series_cells].
induction Hv as [|o v [t ->] _ IH]; [done|]. exact IH.
Qed.

Lemma datetimes_length `{Conversions} (s : Series) (v : list (option Timestamp)) :
  agg.datetimes s = Some (Datetime v) → length v = pd.series_length s.
Proof.
unfold agg.datetimes. destruct (conv.datetime_readable s); [|done].
intros [= E]. by rewrite <- (to_datetime_coerce_length s), E.
Qed.

Section monthly.
Context `{Conversions}.

(** X19. For a table whose [revenue] column is of integers and whose
    dates can all be read and are none missing, the monthly revenues of
    [calculate_monthly_growth_rate] add up to [calculate_total_revenue]:
    every row is counted in exactly one month. *)
Theorem monthly_revenues_add_up
    (h : heap) (self : t) (d : DataFrame) (s : Series)
    (v : list (option Timestamp)) (vals : list Z) :
  h !! df self = Some d →
  pd.wf d →
  pd.get_column d "date" = Some s →
  agg.datetimes s = Some (Datetime v) →
  Forall is_Some v →
  pd.get_column d "revenue" = Some (Int64 vals) →
  ∃ total monthly_revenue h' months sums growth,
    calculate_total_revenue self h = (Return total, h)
    ∧ calculate_monthly_growth_rate self h = (Return monthly_revenue, h')
    ∧ h' !! monthly_revenue
      = Some [("month", months); ("revenue", sums); ("growth_rate", growth)]
    ∧ agg.total sums = Some total.
Proof.
intros Hdf Hd Hdate Hread Hv Hrev.
eexists _, _, _, _, _, _. split; [|split; [|split]].
- by eapply calculate_total_revenue_run.
- by eapply (calculate_monthly_growth_rate_run h self d s (Int64 vals)).
- apply lookup_second.
- cbn [agg.sums agg.total]. do 2 f_equal.
  apply per_group_sum_total; [by apply periods_no_missing|].
  cbn [pd.series_length]. rewrite length_fmap, (datetimes_length _ _ Hread).
  rewrite (get_column_length _ _ _ Hd Hdate).
  by rewrite <- (get_column_length _ _ _ Hd Hrev).
Qed.

End monthly.

Lemma monthly_revenues_add_up_witness :
  let d := [("date", Datetime [Some (mkTimestamp 2024 1 5 0); Some (mkTimestamp 2024 2 5 0);
                               Some (mkTimestamp 2024 1 9 0)]);
            ("revenue", Int64 [100; 50; 20]%Z)] in
  ∃ total monthly_revenue h' months sums growth,
    calculate_total_revenue (H := simple.conversions) {| df := 0 |} [d] = (Return total, [d])
    ∧ calculate_monthly_growth_rate (H := simple.conversions) {| df := 0 |} [d]
      = (Return monthly_revenue, h')
    ∧ h' !! monthly_revenue
      = Some [("month", months); ("revenue", sums); ("growth_rate", growth)]
    ∧ agg.total (H := simple.conversions) sums = Some total.
Proof.
intros d.
apply (monthly_revenues_add_up (H := simple.conversions) [d] {| df := 0 |} d
         (Datetime [Some (mkTimestamp 2024 1 5 0); Some (mkTimestamp 2024 2 5 0);
                    Some (mkTimestamp 2024 1 9 0)])
         [Some (mkTimestamp 2024 1 5 0); Some (mkTimestamp 2024 2 5 0);
          Some (mkTimestamp 2024 1 9 0)]
         [100; 50; 20]%Z eq_refl).
- vm_compute. repeat constructor.
- reflexivity.
- reflexivity.
- repeat constructor; by eexists.
- reflexivity.
Defined.

(** The months of that table: 120 in January, 50 in February. *)
Example monthly_revenue_of_three_sales :
  let d := [("date", Datetime [Some (mkTimestamp 2024 1 5 0); Some (mkTimestamp 2024 2 5 0);
                               Some (mkTimestamp 2024 1 9 0)]);
            ("revenue", Int64 [100; 50; 20]%Z)] in
  let r := calculate_monthly_growth_rate (H := simple.conversions) {| df := 0 |} [d] in
  r.1 = Return 2%nat
  ∧ (d' ← r.2 !! 2%nat; pd.get_column d' "revenue") = Some (Int64 [120; 50]%Z)
  ∧ (d' ← r.2 !! 2%nat; pd.get_column d' "month")
    = Some (Object [Some "2024-01"; Some "2024-02"]).
Proof. vm_compute. done. Qed.

Lemma series_cells_head (n : Z) (s : Series) :
  pd.series_cells (agg.series_head n s) = agg.head_n n (pd.series_cells s).
Proof.
destruct s; cbn; unfold agg.head_n; destruct (0 <=? n)%Z;
  by rewrite ?fmap_take, ?length_fmap.
Qed.

Lemma head_n_length {A : Type} (n : Z) (l : list A) :
  length (agg.head_n n l)
  = if (0 <=? n)%Z then Z.to_nat n `min` length l else length l - Z.to_nat (- n).
Proof.
unfold agg.head_n. destruct (0 <=? n)%Z; rewrite length_take; lia.
Qed.

Lemma head_n_sublist {A : Type} (n : Z) (l : list A) : agg.head_n n l `sublist_of` l.
Proof. unfold agg.head_n. destruct (0 <=? n)%Z; apply sublist_take. Qed.

(** X20. On a table with a [product] column and a numeric [revenue]
    column, [get_top_products(n)] returns [min n g] rows when there are
    [g] products and [n] is not negative: all the products when [n] is
    large, an empty table for [n = 0]. A negative [n] drops the last
    [-n] products of the ranking instead. No product is listed twice, and
    every product listed occurs in the table. *)
Theorem top_products_row_count `{Conversions}
    (h : heap) (self : t) (d : DataFrame) (keys vals : Series) (n : Z) :
  h !! df self = Some d →
  pd.get_column d "product" = Some keys →
  pd.get_column d "revenue" = Some vals →
  pd.is_number vals = true →
  ∃ top_products index totals,
    get_top_products self n h
    = (Return top_products, (h ++ [[("product", index); ("total_revenue", totals)]])%list)
    ∧ let g := length (agg.group_labels keys) in
      let rows := if (0 <=? n)%Z then Z.to_nat n `min` g else g - Z.to_nat (- n) in
      pd.series_length index = rows
      ∧ pd.series_length totals = rows
      ∧ NoDup (pd.series_cells index)
      ∧ (∀ c, c ∈ pd.series_cells index → c ∈ agg.group_labels keys).
Proof.
intros Hdf Hprod Hrev Hnum.
destruct (sums_is_number keys vals Hnum) as (sums & Hsums & Hsnum & Hlen).
destruct (order_desc_number sums Hsnum) as (order & Horder & Hperm).
eexists _, _, _. split; [by eapply get_top_products_run|].
assert (Hsel : agg.select order (agg.group_labels keys) ≡ₚ agg.group_labels keys).
{ apply select_Permutation. by rewrite Hperm, Hlen. }
cbv zeta. split; [|split; [|split]].
- rewrite series_length_cells, series_cells_head, head_n_length.
  rewrite series_cells_select, series_cells_group_index.
  by rewrite (Permutation_length Hsel).
- rewrite series_length_cells, series_cells_head, head_n_length.
  rewrite <- series_length_cells, series_select_length.
  + by rewrite (Permutation_length Hperm), length_seq, Hlen.
  + rewrite Hperm. apply Forall_seq. lia.
- rewrite series_cells_head, series_cells_select, series_cells_group_index.
  eapply sublist_NoDup; [|apply head_n_sublist].
  rewrite Hsel. apply group_labels_NoDup.
- intros c. rewrite series_cells_head, series_cells_select, series_cells_group_index.
  intros Hc. rewrite <- Hsel. eapply elem_of_sublist; [exact Hc | apply head_n_sublist].
Qed.

Lemma top_products_row_count_witness :
  ∃ top_products index totals,
    get_top_products (H := simple.conversions) {| df := 0 |} (-1) [Tables.three_sales]
    = (Return top_products,
       ([Tables.three_sales] ++ [[("product", index); ("total_revenue", totals)]])%list)
    ∧ let g := length (agg.group_labels (Object [Some "Widget"; Some "Gadget"; Some "Widget"])) in
      let rows := if (0 <=? -1)%Z then Z.to_nat (-1) `min` g else g - Z.to_nat (- -1) in
      pd.series_length index = rows
      ∧ pd.series_length totals = rows
      ∧ NoDup (pd.series_cells index)
      ∧ (∀ c, c ∈ pd.series_cells index
           → c ∈ agg.group_labels (Object [Some "Widget"; Some "Gadget"; Some "Widget"])).
Proof.
exact (top_products_row_count [Tables.three_sales] {| df := 0 |} Tables.three_sales
         (Object [Some "Widget"; Some "Gadget"; Some "Widget"])
         (Float64 [100; 50; 20]%float) (-1) eq_refl eq_refl eq_refl eq_refl).
Defined.

(** With [n = -1] the last product of the ranking is left out. *)
Example top_products_negative_n :
  get_top_products (H := simple.conversions) {| df := 0 |} (-1) [Tables.three_sales]
  = (Return 1%nat,
     [Tables.three_sales;
      [("product", Object [Some "Widget"]); ("total_revenue", Float64 [120]%float)]]).
Proof. vm_compute. reflexivity. Qed.

End TotalsFacts.

(** ** The profit margin with a cost column *)

Module CostFacts.
Import DataAnalyzer FrameFacts AnalyzerRuns AggFacts ProfitRuns ProfitFacts RankingFacts.

Local Open Scope Z_scope.

Lemma zsum_zip_with_sub (a b : list Z) :
  length a = length b →
  I64.wrap (ExactSum.zsum (zip_with I64.sub a b))
  = I64.wrap (ExactSum.zsum a - ExactSum.zsum b).
Proof.
revert b. induction a as [|x a IH]; intros [|y b]; try done.
intros [= E]. cbn [zip_with].
change (I64.wrap (I64.sub x y + ExactSum.zsum (zip_with I64.sub a b))
        = I64.wrap (x + ExactSum.zsum a - (y + ExactSum.zsum b))).
rewrite <- wrap_add_r, (IH b E), wrap_add_r.
unfold I64.sub. rewrite wrap_add_l. f_equal. lia.
Qed.

(** The sum of the differences is the difference of the sums, in the
    arithmetic of [int64]. *)
Lemma sum_zip_with_sub (a b : list Z) :
  length a = length b →
  I64.sum (zip_with I64.sub a b) = I64.sub (I64.sum a) (I64.sum b).
Proof.
intros E. rewrite !sum_wrap, (zsum_zip_with_sub a b E). unfold I64.sub.
apply wrap_congr. symmetry. rewrite Zminus_mod, !wrap_mod, <- Zminus_mod. done.
Qed.

Local Close Scope Z_scope.

Lemma per_group_sub (keys : Series) (a b : list Z) :
  length a = length b →
  agg.per_group keys I64.sum (zip_with I64.sub a b)
  = zip_with I64.sub (agg.per_group keys I64.sum a) (agg.per_group keys I64.sum b).
Proof.
intros E. unfold agg.per_group. rewrite zip_with_fmap_l, zip_with_fmap_r, zip_with_diag.
apply list_fmap_ext. intros _ k _. cbn.
rewrite (Basics.take_mask_zip_with _ _ _ _ E).
apply sum_zip_with_sub. by apply Basics.take_mask_length.
Qed.

Lemma select_zip_with {A B C : Type} (f : A → B → C) (order : list nat)
    (a : list A) (b : list B) :
  length a = length b →
  agg.select order (zip_with f a b) = zip_with f (agg.select order a) (agg.select order b).
Proof.
intros E. unfold agg.select. induction order as [|i order IH]; [done|]. cbn.
rewrite lookup_zip_with.
destruct (a !! i) as [x|] eqn:Ea; cbn.
- destruct (lookup_lt_is_Some_2 b i) as [y Eb].
  { rewrite <- E. by eapply lookup_lt_Some. }
  rewrite Eb. cbn. by rewrite IH.
- destruct (b !! i) as [y|] eqn:Eb; [|exact IH].
  apply lookup_lt_Some in Eb. apply lookup_ge_None in Ea. lia.
Qed.

(** The table [calculate_profit_margin] builds from a cost column of
    integers. *)
Lemma calculate_profit_margin_cost_run `{Conversions} (h : heap) (self : t) (d : DataFrame)
    (keys : Series) (revenues costs : list Z) (c : string) :
  h !! df self = Some d →
  pd.get_column d "revenue" = Some (Int64 revenues) →
  pd.get_column d "product" = Some keys →
  c ≠ "" →
  pd.get_column d c = Some (Int64 costs) →
  let profits := zip_with I64.sub revenues costs in
  let margins :=
    (λ x, (x * 100)%float)
      <$> zip_with PrimFloat.div (F64.of_int64 <$> profits) (F64.of_int64 <$> revenues) in
  let analysis :=
    [("product", agg.group_index keys);
     ("revenue", Int64 (agg.per_group keys I64.sum revenues));
     ("cost", Int64 (agg.per_group keys I64.sum costs));
     ("profit", Int64 (agg.per_group keys I64.sum profits));
     ("profit_margin", Float64 (agg.per_group keys group_mean_floats margins))] in
  ∃ df_temp,
    calculate_profit_margin self (Some c) h
    = (Return (S (S (length h))),
       (h ++ [df_temp; analysis;
              agg.frame_select
                (agg.argsort agg.int_desc (agg.per_group keys I64.sum profits)) analysis])%list).
Proof.
intros Hdf Hrev Hprod Hc Hcost profits margins analysis.
eexists. unfold calculate_profit_margin.
rewrite run.bind, (run.load_at _ _ _ Hdf), (has_column_true _ _ _ Hrev). cbn [negb].
rewrite run.bind, (run.copy_at _ _ _ Hdf).
rewrite run.bind, (run.load_at _ _ _ (run.lookup_new _ _)).
assert (Htruthy : truthy (Some c) = true).
{ cbn. apply negb_true_iff, String.eqb_neq, Hc. }
rewrite Htruthy. change (default "" (Some c)) with c. rewrite (has_column_true _ _ _ Hcost). cbn [andb].
(* the cost is the column *)
rewrite run.bind, run.bind, (run.getitem_at _ _ _ _ _ (run.lookup_new _ _) Hcost).
rewrite (run.setitem_at _ _ _ _ _ (run.lookup_new _ _)), run.insert_new.
set (d1 := pd.set_column "cost" (Int64 costs) d).
assert (Hrev1 : pd.get_column d1 "revenue" = Some (Int64 revenues))
  by (unfold d1; by rewrite get_set_column_ne).
assert (Hcost1 : pd.get_column d1 "cost" = Some (Int64 costs))
  by apply get_set_column_eq.
(* the profit *)
rewrite run.bind, (run.getitem_at _ _ _ _ _ (run.lookup_new _ _) Hrev1).
rewrite run.bind, (run.getitem_at _ _ _ _ _ (run.lookup_new _ _) Hcost1).
unfold agg.series_sub. rewrite run.bind. cbn [agg.sub]. rewrite run.or_raise_Some.
rewrite run.bind, (run.setitem_at _ _ _ _ _ (run.lookup_new _ _)), run.insert_new.
fold profits.
set (d2 := pd.set_column "profit" (Int64 profits) d1).
assert (Hrev2 : pd.get_column d2 "revenue" = Some (Int64 revenues))
  by (unfold d2; by rewrite get_set_column_ne).
assert (Hprofit2 : pd.get_column d2 "profit" = Some (Int64 profits))
  by apply get_set_column_eq.
(* the margin *)
rewrite run.bind, (run.getitem_at _ _ _ _ _ (run.lookup_new _ _) Hprofit2).
rewrite run.bind, (run.getitem_at _ _ _ _ _ (run.lookup_new _ _) Hrev2).
unfold agg.series_div, agg.div. rewrite run.bind. cbn [mbind option_bind pd.to_floats].
rewrite run.or_raise_Some.
unfold agg.series_mul, agg.mul. rewrite run.bind. cbn [mbind option_bind pd.to_floats].
rewrite run.or_raise_Some.
rewrite run.bind, (run.setitem_at _ _ _ _ _ (run.lookup_new _ _)), run.insert_new.
fold margins.
set (d3 := pd.set_column "profit_margin" (Float64 margins) d2).
assert (Hget : pd.get_column d3 "product" = Some keys
               ∧ pd.get_column d3 "revenue" = Some (Int64 revenues)
               ∧ pd.get_column d3 "cost" = Some (Int64 costs)
               ∧ pd.get_column d3 "profit" = Some (Int64 profits)
               ∧ pd.get_column d3 "profit_margin" = Some (Float64 margins)).
{ unfold d3, d2, d1. repeat split.
  all: repeat first [ apply get_set_column_eq | rewrite get_set_column_ne by done ]; done. }
destruct Hget as (G1 & G2 & G3 & G4 & G5).
(* the aggregation *)
rewrite run.bind, (run.getitem_at _ _ _ _ _ (run.lookup_new _ _) G1).
rewrite run.bind, (run.getitem_at _ _ _ _ _ (run.lookup_new _ _) G2).
unfold agg.group_sum. rewrite run.bind. cbn [agg.sums]. rewrite run.or_raise_Some.
rewrite run.bind, (run.getitem_at _ _ _ _ _ (run.lookup_new _ _) G3).
rewrite run.bind. cbn [agg.sums]. rewrite run.or_raise_Some.
rewrite run.bind, (run.getitem_at _ _ _ _ _ (run.lookup_new _ _) G4).
rewrite run.bind. cbn [agg.sums]. rewrite run.or_raise_Some.
rewrite run.bind, (run.getitem_at _ _ _ _ _ (run.lookup_new _ _) G5).
unfold agg.group_mean, agg.means. rewrite run.bind. cbn [mbind option_bind pd.to_floats].
rewrite run.or_raise_Some.
rewrite run.bind, run.new_at.
rewrite run.bind, (run.load_at _ _ _ (run.lookup_new _ _)).
rewrite run.bind.
erewrite run.getitem_at; [|apply run.lookup_new|reflexivity].
unfold agg.argsort_desc. rewrite run.bind. cbn [agg.order_desc]. rewrite run.or_raise_Some.
rewrite run.bind, run.new_at, run.ret.
rewrite !length_app, !Nat.add_1_r, <- !app_assoc. reflexivity.
Qed.

(** X21. With a cost column of integers and revenues of integers,
    [calculate_profit_margin(cost_column)] takes the costs from that
    column: the result has one row per product with the sums of revenue
    and cost, the profit of each row is its revenue less its cost, and
    the rows are in the order of decreasing profit. *)
Theorem profit_margin_with_cost_column `{Conversions}
    (h : heap) (self : t) (d : DataFrame) (keys : Series) (revenues costs : list Z)
    (c : string) :
  h !! df self = Some d →
  pd.wf d →
  pd.get_column d "revenue" = Some (Int64 revenues) →
  pd.get_column d "product" = Some keys →
  c ≠ "" →
  pd.get_column d c = Some (Int64 costs) →
  ∃ profit_analysis h' order margin,
    calculate_profit_margin self (Some c) h = (Return profit_analysis, h')
    ∧ order ≡ₚ seq 0 (length (agg.group_labels keys))
    ∧ let revenue := agg.select order (agg.per_group keys I64.sum revenues) in
      let cost := agg.select order (agg.per_group keys I64.sum costs) in
      let profit := zip_with I64.sub revenue cost in
      h' !! profit_analysis
      = Some [("product", agg.series_select order (agg.group_index keys));
              ("revenue", Int64 revenue); ("cost", Int64 cost); ("profit", Int64 profit);
              ("profit_margin", margin)]
      ∧ Sorted (λ a b, agg.int_desc a b = true) profit.
Proof.
intros Hdf Hd Hrev Hprod Hc Hcost.
destruct (calculate_profit_margin_cost_run h self d keys revenues costs c
            Hdf Hrev Hprod Hc Hcost) as [df_temp Hrun].
assert (Hlen : length revenues = length costs).
{ pose proof (get_column_length _ _ _ Hd Hrev) as E1.
  pose proof (get_column_length _ _ _ Hd Hcost) as E2. cbn in E1, E2. congruence. }
assert (Hsel : ∀ order,
  agg.select order (agg.per_group keys I64.sum (zip_with I64.sub revenues costs))
  = zip_with I64.sub (agg.select order (agg.per_group keys I64.sum revenues))
      (agg.select order (agg.per_group keys I64.sum costs))).
{ intros order. rewrite (per_group_sub keys _ _ Hlen).
  apply select_zip_with. by rewrite !MonthlyFacts.per_group_length. }
eexists _, _,
  (agg.argsort agg.int_desc (agg.per_group keys I64.sum (zip_with I64.sub revenues costs))), _.
split; [exact Hrun|].
split.
{ rewrite argsort_Permutation. by rewrite MonthlyFacts.per_group_length. }
cbv zeta. split.
- rewrite lookup_third. cbn [agg.frame_select fmap list_fmap fst snd agg.series_select].
  by rewrite Hsel.
- rewrite <- Hsel. apply select_argsort_Sorted, int_desc_total.
Qed.

Lemma profit_margin_with_cost_column_witness :
  let d := [("product", Object [Some "Widget"; Some "Gadget"; Some "Widget"]);
            ("revenue", Int64 [100; 50; 20]%Z);
            ("unit_cost", Int64 [70; 10; 5]%Z)] in
  let keys := Object [Some "Widget"; Some "Gadget"; Some "Widget"] in
  ∃ profit_analysis h' order margin,
    calculate_profit_margin (H := simple.conversions) {| df := 0 |} (Some "unit_cost") [d] = (Return profit_analysis, h')
    ∧ order ≡ₚ seq 0 (length (agg.group_labels keys))
    ∧ let revenue := agg.select order (agg.per_group keys I64.sum [100; 50; 20]%Z) in
      let cost := agg.select order (agg.per_group keys I64.sum [70; 10; 5]%Z) in
      let profit := zip_with I64.sub revenue cost in
      h' !! profit_analysis
      = Some [("product", agg.series_select order (agg.group_index keys));
              ("revenue", Int64 revenue); ("cost", Int64 cost); ("profit", Int64 profit);
              ("profit_margin", margin)]
      ∧ Sorted (λ a b, agg.int_desc a b = true) profit.
Proof.
intros d keys.
refine (profit_margin_with_cost_column [d] {| df := 0 |} d keys
          [100; 50; 20]%Z [70; 10; 5]%Z "unit_cost" eq_refl _ eq_refl eq_refl _ eq_refl).
- vm_compute. repeat constructor.
- discriminate.
Defined.

(** What the call returns on that table: the widgets earn 45 of 120, the
    gadgets 40 of 50. *)
Example profit_margin_of_unit_costs :
  let d := [("product", Object [Some "Widget"; Some "Gadget"; Some "Widget"]);
            ("revenue", Int64 [100; 50; 20]%Z);
            ("unit_cost", Int64 [70; 10; 5]%Z)] in
  let r := calculate_profit_margin (H := simple.conversions) {| df := 0 |} (Some "unit_cost") [d] in
  r.1 = Return 3%nat
  ∧ r.2 !! 3%nat
    = Some [("product", Object [Some "Widget"; Some "Gadget"]);
            ("revenue", Int64 [120; 50]%Z);
            ("cost", Int64 [75; 10]%Z);
            ("profit", Int64 [45; 40]%Z);
            ("profit_margin", Float64 [52.5; 80]%float)].
Proof. vm_compute. done. Qed.

End CostFacts.

(** ** Outliers *)

Module OutlierRows.
Import DataCleaner FrameFacts AnalyzerRuns OutlierSpec.

Lemma SFcompare_refl (a : SpecFloat.spec_float) :
  a ≠ SpecFloat.S754_nan → SpecFloat.SFcompare a a = Some Eq.
Proof.
destruct a as [[]|[]| |[] m e]; cbn; try done.
all: intros _; rewrite Z.compare_refl;
     change (Pos.compare_cont Eq m m) with (Pos.compare m m);
     by rewrite Pos.compare_refl.
Qed.

Lemma nan_spec (x : float) : F64.is_nan x = true → Prim2SF x = SpecFloat.S754_nan.
Proof.
unfold F64.is_nan, PrimFloat.is_nan. rewrite FloatAxioms.eqb_spec.
intros E. destruct (Prim2SF x) as [| | |b m e] eqn:Hx; [| |done|].
all: unfold SpecFloat.SFeqb in E; by rewrite SFcompare_refl in E.
Qed.

(** NaN passes no comparison. *)
Lemma within_iqr_not_nan (Q1 Q3 x : float) :
  within_iqr Q1 Q3 x = true → F64.is_nan x = false.
Proof.
unfold within_iqr. cbv zeta. intros [Hl _]%andb_true_iff.
destruct (F64.is_nan x) eqn:E; [|done]. apply nan_spec in E.
rewrite FloatAxioms.leb_spec, E in Hl. unfold SpecFloat.SFleb in Hl.
by destruct (Prim2SF _) in Hl.
Qed.

Lemma to_floats_take (mask : list bool) (s : Series) (xs : list float) :
  pd.to_floats s = Some xs → pd.to_floats (pd.series_take mask s) = Some (take_mask mask xs).
Proof.
destruct s; cbn; intros [= <-]; try done. by rewrite Basics.take_mask_fmap.
Qed.

Lemma series_quantile_number (a b : nat) (s : Series) (xs : list float) :
  pd.to_floats s = Some xs → is_Some (pd.series_quantile a b s).
Proof. destruct s; try done; intros _; by eexists. Qed.

Lemma all_true (xs : list float) :
  (λ _ : float, true) <$> xs = replicate (length xs) true.
Proof. induction xs as [|x xs IH]; [done|]. cbn. by rewrite IH. Qed.

Section rows.
Context `{Conversions}.

Lemma within_zscore_not_nan (xs : list float) (x : float) :
  within_zscore xs x = true → F64.is_nan x = false.
Proof.
unfold within_zscore. intros Hz.
destruct (F64.is_nan x) eqn:E; [|done]. apply nan_spec in E.
rewrite FloatAxioms.ltb_spec, FloatAxioms.abs_spec, FloatAxioms.div_spec,
  FloatAxioms.sub_spec, E in Hz.
discriminate Hz.
Qed.

Lemma keeps_not_nan (method : string) (s : Series) (xs : list float) (x : float) :
  pd.to_floats s = Some xs →
  filtering method xs = true → keeps method s xs x = true → F64.is_nan x = false.
Proof.
intros Hxs. unfold filtering, keeps. destruct (String.eqb method "iqr"); cbn [orb].
- intros _.
  destruct (series_quantile_number 1 4 s xs Hxs) as [Q1 ->].
  destruct (series_quantile_number 3 4 s xs Hxs) as [Q3 ->].
  apply within_iqr_not_nan.
- intros ->. apply within_zscore_not_nan.
Qed.

(** What [remove_outliers] returns for a numeric column. *)
Lemma remove_outliers_run (h : heap) (df : ref) (d : DataFrame) (column method : string)
    (s : Series) (xs : list float) :
  h !! df = Some d →
  pd.wf d →
  pd.get_column d column = Some s →
  pd.to_floats s = Some xs →
  ∃ df_cleaned h',
    remove_outliers df column method h = (Return df_cleaned, h')
    ∧ h `prefix_of` h'
    ∧ (Datatypes.length h ≤ df_cleaned)%nat
    ∧ h' !! df_cleaned = Some (pd.filter_rows (keeps method s xs <$> xs) d).
Proof.
intros Hdf Hd Hs Hxs. unfold remove_outliers.
rewrite run.bind, (run.load_at _ _ _ Hdf), (has_column_true _ _ _ Hs). cbn [negb].
rewrite run.bind, (run.copy_at _ _ _ Hdf), run.bind.
assert (Hlen : length xs = pd.nrows d).
{ rewrite <- (get_column_length _ _ _ Hd Hs). destruct s; cbn in *; try done.
  - injection Hxs as <-. by rewrite length_fmap.
  - by injection Hxs as <-. }
assert (Hall : pd.filter_rows ((λ _ : float, true) <$> xs) d = d).
{ rewrite all_true, Hlen. by apply DataCleanerRuns.filter_rows_all. }
unfold keeps.
destruct (String.eqb method "iqr").
{ destruct (series_quantile_number 1 4 s xs Hxs) as [Q1 HQ1].
  destruct (series_quantile_number 3 4 s xs Hxs) as [Q3 HQ3].
  rewrite HQ1, HQ3.
  rewrite run.bind, (run.getitem_at _ _ _ _ _ (run.lookup_new _ _) Hs).
  unfold quantile. rewrite run.bind, HQ1, run.or_raise_Some.
  rewrite run.bind, (run.getitem_at _ _ _ _ _ (run.lookup_new _ _) Hs).
  rewrite run.bind, HQ3, run.or_raise_Some.
  rewrite run.bind, (run.getitem_at _ _ _ _ _ (run.lookup_new _ _) Hs).
  unfold numeric_values. rewrite run.bind, Hxs, run.or_raise_Some.
  rewrite run.bind, (run.load_at _ _ _ (run.lookup_new _ _)), run.new_at, run.ret.
  eexists _, _. split; [reflexivity|].
  split; [rewrite <- app_assoc; by apply prefix_app_r|].
  split; [rewrite length_app; lia|]. apply run.lookup_new. }
destruct (String.eqb method "zscore"); cbn [andb].
- rewrite run.bind, (run.getitem_at _ _ _ _ _ (run.lookup_new _ _) Hs).
  unfold numeric_values. rewrite run.bind, Hxs, run.or_raise_Some.
  destruct (0 <? std_floats xs)%float.
  + rewrite run.bind, (run.load_at _ _ _ (run.lookup_new _ _)), run.new_at, run.ret.
    rewrite <- list_fmap_compose.
    eexists _, _. split; [reflexivity|].
    split; [rewrite <- app_assoc; by apply prefix_app_r|].
    split; [rewrite length_app; lia|]. apply run.lookup_new.
  + rewrite run.ret. eexists _, _. split; [reflexivity|].
    split; [by apply prefix_app_r|]. split; [done|].
    by rewrite run.lookup_new, Hall.
- rewrite run.ret. eexists _, _. split; [reflexivity|].
  split; [by apply prefix_app_r|]. split; [done|].
  by rewrite run.lookup_new, Hall.
Qed.

(** X22. On a numeric column [remove_outliers] returns a new table with
    the columns of the one it was given and the rows that pass the test
    of the method, in their order; rows are removed, never changed. The
    column holds the values that pass, so that with [iqr], and with
    [zscore] when the standard deviation is above 0, no row with a
    missing value in the column is left. The quartiles of [iqr] are those
    of the column as numpy computes them, for integers with the
    difference of two integers that wraps around. The table it was given
    is not touched. *)
Theorem remove_outliers_keeps_the_rows_within_bounds
    (h : heap) (df : ref) (d : DataFrame) (column method : string)
    (s : Series) (xs : list float) :
  h !! df = Some d →
  pd.wf d →
  pd.get_column d column = Some s →
  pd.to_floats s = Some xs →
  ∃ df_cleaned h' d' s',
    remove_outliers df column method h = (Return df_cleaned, h')
    ∧ h' !! df = Some d
    ∧ df_cleaned ≠ df
    ∧ h' !! df_cleaned = Some d'
    ∧ pd.columns d' = pd.columns d
    ∧ pd.rows_of d' = take_mask (keeps method s xs <$> xs) (pd.rows_of d)
    ∧ pd.rows_of d' `sublist_of` pd.rows_of d
    ∧ pd.get_column d' column = Some s'
    ∧ pd.to_floats s' = Some (List.filter (keeps method s xs) xs)
    ∧ (filtering method xs = true →
         ∀ x, x ∈ List.filter (keeps method s xs) xs → F64.is_nan x = false).
Proof.
intros Hdf Hd Hs Hxs.
destruct (remove_outliers_run h df d column method s xs Hdf Hd Hs Hxs)
  as (df_cleaned & h' & Hrun & Hpre & Hge & Hd').
exists df_cleaned, h', (pd.filter_rows (keeps method s xs <$> xs) d),
  (pd.series_take (keeps method s xs <$> xs) s).
split; [exact Hrun|].
split; [by eapply prefix_lookup_Some|].
split; [apply lookup_lt_Some in Hdf; lia|].
split; [exact Hd'|].
split; [apply StrategyFacts.columns_filter_rows|].
split; [by apply rows_of_filter_rows|].
split; [rewrite rows_of_filter_rows by done; apply Basics.take_mask_sublist|].
split; [by rewrite CleanedFacts.get_filter_rows, Hs|].
split; [by rewrite (to_floats_take _ _ _ Hxs), StrategyFacts.take_mask_filter|].
intros Hf x [_ Hx]%list_elem_of_In%filter_In. by eapply keeps_not_nan.
Qed.

End rows.

Lemma remove_outliers_keeps_the_rows_within_bounds_witness :
  let d := [("revenue", Float64 [10; 12; F64.nan; 1000; 9; 11]%float);
            ("region", Object [Some "East"; Some "West"; Some "East"; Some "West";
                               Some "East"; Some "West"])] in
  let xs := [10; 12; F64.nan; 1000; 9; 11]%float in
  let keep := keeps (H := simple.conversions) "iqr" (Float64 xs) xs in
  ∃ df_cleaned h' d' s',
    remove_outliers (H := simple.conversions) 0 "revenue" "iqr" [d] = (Return df_cleaned, h')
    ∧ h' !! 0%nat = Some d
    ∧ df_cleaned ≠ 0%nat
    ∧ h' !! df_cleaned = Some d'
    ∧ pd.columns d' = pd.columns d
    ∧ pd.rows_of d' = take_mask (keep <$> xs) (pd.rows_of d)
    ∧ pd.rows_of d' `sublist_of` pd.rows_of d
    ∧ pd.get_column d' "revenue" = Some s'
    ∧ pd.to_floats s' = Some (List.filter keep xs)
    ∧ (filtering (H := simple.conversions) "iqr" xs = true →
         ∀ x, x ∈ List.filter keep xs → F64.is_nan x = false).
Proof.
intros d xs keep.
refine (remove_outliers_keeps_the_rows_within_bounds (H := simple.conversions)
          [d] 0 d "revenue" "iqr" (Float64 xs) xs eq_refl _ eq_refl eq_refl).
vm_compute. repeat constructor.
Defined.

(** The outlier and the row without revenue are removed. *)
Example remove_outliers_iqr_with_a_gap :
  let d := [("revenue", Float64 [10; 12; F64.nan; 1000; 9; 11]%float);
            ("region", Object [Some "East"; Some "West"; Some "East"; Some "West";
                               Some "East"; Some "West"])] in
  let r := remove_outliers (H := simple.conversions) 0 "revenue" "iqr" [d] in
  r.1 = Return 2%nat
  ∧ (d' ← r.2 !! 2%nat; pd.get_column d' "region")
    = Some (Object [Some "East"; Some "West"; Some "East"; Some "West"]).
Proof. vm_compute. done. Qed.

(** Among the integers [-2^63], 100 and 1 the difference of the two
    lowest wraps around: the first quartile comes out above the third,
    and no row passes. *)
Example remove_outliers_iqr_wraps_around :
  let d := [("revenue", Int64 [-9223372036854775808; 100; 1]%Z)] in
  let r := remove_outliers (H := simple.conversions) 0 "revenue" "iqr" [d] in
  pd.series_quantile 1 4 (Int64 [-9223372036854775808; 100; 1]%Z)
  = Some 4611686018427387904%float
  ∧ pd.series_quantile 3 4 (Int64 [-9223372036854775808; 100; 1]%Z) = Some 50.5%float
  ∧ r.1 = Return 2%nat
  ∧ r.2 !! 2%nat = Some [("revenue", Int64 [])].
Proof. vm_compute. done. Qed.

End OutlierRows.

Module FrameClaims.

(** C9. No operation of the cleaner or of the analyzer changes a table
    that exists when it is called: the caller's table, like every other
    object of the store, is the same after the call, whether the call
    returns or raises; and the analyzer is built on a copy of the table it
    is given. *)
Theorem callers_tables_untouched `{Conversions}
    (df : ref) (strategy column method : string)
    (self : DataAnalyzer.t) (n : Z) (cost_column : option string) :
  untouched (DataCleaner.remove_duplicates df)
  ∧ untouched (DataCleaner.handle_missing_values df strategy)
  ∧ untouched (DataCleaner.fix_data_types df)
  ∧ untouched (DataCleaner.remove_outliers df column method)
  ∧ untouched (DataCleaner.clean_all df strategy)
  ∧ untouched (DataAnalyzer.__init__ df)
  ∧ untouched (DataAnalyzer.calculate_total_revenue self)
  ∧ untouched (DataAnalyzer.get_top_products self n)
  ∧ untouched (DataAnalyzer.get_region_wise_revenue self)
  ∧ untouched (DataAnalyzer.calculate_monthly_growth_rate self)
  ∧ untouched (DataAnalyzer.calculate_profit_margin self cost_column)
  ∧ untouched (DataAnalyzer.get_summary_statistics self)
  ∧ (∀ h d, h !! df = Some d →
       DataAnalyzer.__init__ df h
       = (Return {| DataAnalyzer.df := length h |}, (h ++ [d])%list)).
Proof.
repeat split; try (apply Frame.keeps_untouched; intros h0).
- apply Frame.keeps_remove_duplicates.
- apply Frame.keeps_handle_missing_values.
- apply Frame.keeps_fix_data_types.
- apply Frame.keeps_remove_outliers.
- apply Frame.keeps_clean_all.
- apply Frame.keeps___init__.
- apply Frame.keeps_calculate_total_revenue.
- apply Frame.keeps_get_top_products.
- apply Frame.keeps_get_region_wise_revenue.
- apply Frame.keeps_calculate_monthly_growth_rate.
- apply Frame.keeps_calculate_profit_margin.
- apply Frame.keeps_get_summary_statistics.
- intros h d Hdf. unfold DataAnalyzer.__init__.
  by rewrite run.bind, (run.copy_at _ _ _ Hdf).
Qed.

End FrameClaims.
